(* ===== verification/_CoqProject ===== *)
-Q . S2P
Prelude.v
Stream.v
Ostream.v
Double.v
Random.v
RandomSpec.v
Vector.v
Heap.v
Algo.v
Introsort.v
GenericAlgorithms.v
Functors.v
FileStream.v
Fridge.v
Rest.v
Coins.v
Iterators.v
StdString.v
VectorStringArray.v
Pointers.v
Orders.v
RbTree.v
SeqContainers.v
Containers.v
CopyMove.v
ObjectModel.v
Polymorphism.v
MultipleInheritance.v
RandomNumbers.v
