(* ===== verification/Prelude.v ===== *)
(** * A verification development for the cpp-sandbox repository

    The repository is a set of independent C++ programs, each a [main] that
    runs a fixed script: the coin-change calculator
    (src/minor-codes/CoinsChange/main.cpp), the REST stub
    (src/rest-api/src/APIService.cpp), and the language-concept demos under
    src/language-concepts/.  The programs share no state; what they share
    is the C++ runtime they call: the stream extraction and insertion
    operators, the <algorithm> and <numeric> routines, [std::vector] and its
    iterators, [std::string], <cctype> and the semantics of [int] and
    [double].  The development models that runtime once, as libstdc++ and
    glibc implement it, and each program on top of it: a program's state is
    a record of its streams ([cout], [cin], files) threaded through the
    state monad [st] of this file, its local containers are values, and
    undefined behaviour, an uncaught exception or an exhausted loop bound
    ends a run as a value of [outcome].

    ** Files, in dependency order

    - [Prelude] (this file): 32-bit [int] and 64-bit [long] and the wrap
      [wrap32]; C++ truncating division; the characters of <cctype> as
      signed [char]s ([schar], [tolower], [toupper] with their domain); the
      decimal printer of [operator<<(int)]; [str_lt], [operator<] on
      [std::string]; the exceptions [exn]; the outcome type [outcome] (a
      result, undefined behaviour [Stuck] of a named kind, or [NoFuel]) and
      the state monad [st] with its notation in [cpp_scope]; [subscript],
      unchecked [operator[]]; the tactics [zcase] and [st_simpl]; the hint
      database [cpp].
    - [Stream]: [std::istream] as a record (the unread characters, failbit,
      eofbit) with the sentry, [operator>>] for [std::string] and [int]
      (libstdc++: 0 on a failed conversion, the bound of [int] with failbit
      outside it, nothing assigned when the sentry fails), [std::getline],
      [clear], [ignore], and the read loops [while (is >> x)].
    - [Ostream]: [std::ostream] with its format state (width, fill,
      adjustment, boolalpha), the manipulators of <iomanip>, the inserters
      as the type class [Insert], and GenericAlgorithms.cpp's [print] and
      [printIdx].
    - [Double]: [double] as binary64 ([SpecFloat] at precision 53),
      literals, arithmetic, the conversion to [float], and
      [operator<<(double)] as [%g].
    - [Random]: glibc's [rand] and [srand] (the additive feedback
      generator of degree 31 seeded by Park-Miller), [mt19937] as libstdc++
      writes it (seeding, the twist of the 624 words with its 64-bit masks,
      the tempering), and
      the distributions of RandomNumbers.cpp as libstdc++ 12 computes them:
      [uniform_int_distribution] by Lemire's downscaling (and the equal and
      upscaling paths), [generate_canonical] from two draws,
      [uniform_real_distribution], [bernoulli_distribution], and
      [std::shuffle] with its two swaps per draw.
    - [RandomSpec]: reference definitions for the random-number library:
      the recurrence of [rand.eng.mers] as a generator that appends one
      word at a time, against which the three in-place loops of
      libstdc++'s [_M_gen_rand] are proved equivalent; Lemire's rejection
      sampling ([lemire_spec.lemire]), which libstdc++'s [_S_nd] is proved
      to compute; and what [std::shuffle] gives on every engine state,
      running out of its bound included.
    - [Vector]: [std::vector] with libstdc++'s capacity growth and the
      iterator invalidation of [vector.modifiers], the inserters of
      <iterator>, and the index, iterator and range-for loops.
    - [Algo]: the <algorithm> and <numeric> routines of the demos, each as
      libstdc++ writes its loop ([std::sort] by its contract).
    - [Introsort]: [std::sort] as libstdc++ writes it ([__introsort_loop]
      with the median-of-three partition, the heap-sort fallback,
      [__final_insertion_sort]) over a comparator that may itself be
      undefined, so that what the sort compares is what libstdc++ compares
      (its results agree with g++ 12 on random inputs with many
      equivalent keys, where the order of equivalent elements shows the
      exact sequence of swaps).
    - [GenericAlgorithms]: GenericAlgorithms.cpp, its predicates, functors
      and every section of [main]; the sort routine of the sorts whose
      comparator is total and the addresses of string literals are
      section variables, and the sort with [function_sort_alphabetical]
      runs [introsort.sort].
    - [Functors]: Functor.cpp ([Module Functor]) and LambdaFunctions.cpp
      ([Module Lambda]): closures capture by value or by reference over an
      explicit store.
    - [FileStream]: FilesAndStream.cpp; [Fridge]: OverloadOstreamOperator.cpp;
      [Rest]: APIService.cpp, the listener as a dispatch table, with a step
      relation [reachable] of runs; [Coins]: CoinsChange/main.cpp with the
      [coin] class of the spec (src/coin.h is not in the repository); the
      loader builds each coin from the [int] it read, undefined when no
      read assigned it.
    - [Iterators]: Iterators.cpp with [ostream_iterator] and
      [istream_iterator] as libstdc++ writes them.
    - [StdString]: the members of [std::string] with libstdc++'s position
      checks, [to_string], [stoi], [stod]; [VectorStringArray]:
      VectorStringArray.cpp.
    - [Heap]: objects in memory as a list of blocks (local, [new],
      [new[]]), pointers as a block and an offset, [delete] and
      [delete[]] with their preconditions, loads, stores and pointer
      arithmetic, [unique_ptr] and [shared_ptr] with its control blocks;
      [Pointers]: Pointers.cpp over [cout] and that memory, the class
      [WithPtr] included; where blocks are placed is a section variable.
    - [Orders]: [operator<] as the class [Less] and the requirement of a
      strict weak ordering as the class [StrictWeakOrder], with instances
      for [int], [std::string] and lexicographic pairs.
    - [RbTree]: [std::set], [map], [multiset] and [multimap] as libstdc++'s
      [_Rb_tree] behaves, the tree being the sorted list of its in-order
      traversal and an iterator a position in it: [_M_insert_unique],
      [_M_insert_equal], [lower_bound], [upper_bound], [equal_range],
      [count], [find], [erase], [operator[]] and [at].
    - [SeqContainers]: [forward_list], [list] (with its 64-bin merge
      [sort]), [deque], [queue], [stack], and [priority_queue] over
      libstdc++'s [push_heap] and [pop_heap] ([__push_heap],
      [__adjust_heap]); [Containers]: Containers.cpp over [cout], with
      [time(0)] and [ctime] as parameters of [main].
    - [CopyMove]: CopyMove.cpp: classes [X] and [Teste] with their special
      members as a type class [Special] (copy and, when declared, move
      constructor and assignment), overload resolution by value category
      ([construct], [assign]) and the elision of prvalue copies as a
      parameter of the build (C++17 or not, [-fno-elide-constructors]).
    - [ObjectModel]: classes with multiple and virtual inheritance as a
      class table: subobjects (paths of non-virtual derivations, shared
      virtual bases), name lookup with hiding, ambiguity and dominance,
      qualified and virtual calls, construction order and the implicit
      copy constructor (slicing); [Polymorphism]:
      InheritanceAndPolymorphism_01.cpp; [MultipleInheritance]:
      MultipleInheritance.cpp, the lines it comments out as errors
      included.
    - [RandomNumbers]: RandomNumbers.cpp over [cout], the state of [rand],
      the global [eng] and the count of [time(0)] calls; the clock and the
      [random_device] (its seed and [entropy()]) are an environment [env].

    ** What the theorems show

    Functional correctness of the coin loop and of the stream round trips
    (print then read, [to_string] then [stoi], [insert] then [erase]);
    equivalence of libstdc++'s binary searches, [remove]/[unique] loops and
    iterator loops with reference definitions; bounds (clamping of
    [operator>>], geometric growth of [push_back]); refinement of the REST
    routing against the spec's table and an invariant of its runs; and the
    the invariant of the ordered containers (strictly increasing or
    non-decreasing keys) kept by every member the demo calls, [equal_range]
    against its reference, the four ways Containers.cpp erases one value of
    a multimap key against one reference, the whole output of
    Containers.cpp for any clock that advances between arrivals (the
    priority queue is shown to depend only on the order of the arrival
    times, by a parametricity argument over [push_heap] and [pop_heap]);
    the output of CopyMove.cpp under every build and the special members
    of its class [Teste] on every branch; static against dynamic binding,
    the layout of the two diamonds and the ill-formedness of the lines
    MultipleInheritance.cpp comments out as errors; the 32-bit invariant
    of [mt19937], the equivalence of libstdc++'s in-place twist with the
    recurrence the standard defines, [uniform_int_distribution] as
    Lemire's rejection sampling, [std::shuffle] as a permutation that
    runs out of its bound only on a draw rejected [reject_fuel + 1] times
    in a row, the values the
    engines section of RandomNumbers.cpp prints, and the invariant that
    keeps its random walk inside the frame; and the
    defects of the programs as theorems: undefined behaviour reached by
    [main] (an invalidated iterator, an indeterminate [int] copied by the
    coin loader, [tolower] of a negative [char] inside [std::sort], a
    [delete] of a pointer [new] did not return, a leak,
    the [int] overflow of [99 * rand()] on every run of RandomNumbers.cpp),
    loops that never end, and outputs that depend on
    unspecified pointer comparisons.

    ** Fuel

    Loops that read a stream take a fuel argument and return [NoFuel] when
    it runs out; the bound used is the length of the input plus one, since
    every iteration that does not stop consumes a character ([read_loop_total]
    and the equivalence theorems show it suffices).  Loops over a container
    take its size plus one ([vector.loop_fuel]); the sift loops of the heap
    take the size of the heap (plus one), as each step moves the hole at
    least one position; the multimap loops of Containers.cpp take the size
    of [equal_range] plus one, which [multimap_erase_methods] shows is
    enough.  The rejection loops of the distributions take [reject_fuel]
    (64) more draws: a draw is rejected with probability below
    [range / 2^32], the concrete runs the theorems evaluate never reach
    the bound, and [shuffle_permutation] and [uniform_int_refines_lemire]
    state what happens when it is reached: only when [reject_fuel + 1]
    draws in a row are rejected by Lemire's test.  The loops of
    [Introsort] take the length of the range plus one: each iteration of
    an unguarded loop moves an index, and leaving the range is undefined
    before the fuel runs out.  The dots loop of
    RandomNumbers.cpp takes [maxIter + 1] iterations of fuel, which
    [dots_walk_in_bounds] shows is enough.
    Where the C++ loop does
    not terminate a theorem shows [NoFuel] for every fuel.

    ** Not modelled

    The unordered containers of Containers.cpp, which are built
    and never read, and the classes of CopyMove.cpp that appear only inside
    comments, are not modelled.  Wall-clock time, [sleep_for] and the
    entropy of [random_device] are outside any model ([time(0)] and the
    device are inputs); other engines and distributions of <random> are
    not modelled.
    Locales other than the C locale, stream flags other than those listed,
    and the members of the library the programs do not call are not
    modelled. *)

From stdpp Require Import base list strings.
From Stdlib Require Import ZArith Lia String Ascii.

Declare Scope cpp_scope.
Delimit Scope cpp_scope with cpp.

(** ** Machine integers *)

(** [int] is 32 bits and [long] 64 bits on the targets the programs are
    built for (g++ on x86-64 Linux). *)
Definition INT_MIN : Z := -2147483648.            (* - 2 ^ 31 *)
Definition INT_MAX : Z := 2147483647.             (* 2 ^ 31 - 1 *)
Definition LONG_MIN : Z := -9223372036854775808.  (* - 2 ^ 63 *)
Definition LONG_MAX : Z := 9223372036854775807.   (* 2 ^ 63 - 1 *)

(** Whether a mathematical integer fits an [int]. *)
Definition in_int (z : Z) : bool := (INT_MIN <=? z)%Z && (z <=? INT_MAX)%Z.

(** Two's-complement reduction to 32 bits: what [int] arithmetic gives on
    the target when a result overflows. *)
Definition wrap32 (z : Z) : Z := ((z + 2 ^ 31) mod 2 ^ 32 - 2 ^ 31)%Z.

(** C++ integer division and remainder truncate toward zero. *)
Definition cdiv (a b : Z) : Z := Z.quot a b.
Definition cmod (a b : Z) : Z := Z.rem a b.

(** An [int] variable: initialised with a value, or indeterminate
    (declared without initialiser and never assigned). *)
Inductive ival := Val (z : Z) | Uninit.

(** ** Characters of <cctype> in the "C" locale *)

(** [isspace]: space, and the controls tab to carriage return (9 to 13). *)
Definition is_ws (c : ascii) : bool :=
  let n := nat_of_ascii c in (n =? 32)%nat || ((9 <=? n)%nat && (n <=? 13)%nat).

Definition is_digit (c : ascii) : bool :=
  (48 <=? nat_of_ascii c)%nat && (nat_of_ascii c <=? 57)%nat.

Definition digit_val (c : ascii) : Z := Z.of_nat (nat_of_ascii c - 48).

Definition digit_char (d : Z) : ascii := ascii_of_nat (48 + Z.to_nat d).

(** Whether [s] starts with a character satisfying [p]. *)
Definition starts_with (p : ascii -> bool) (s : string) : bool :=
  match s with String c _ => p c | EmptyString => false end.

(** ** Decimal printing, as [operator<<] prints an integer *)

(** Prepend the decimal digits of [n] to [acc]; [fuel] bounds the number
    of digits. *)
Fixpoint show_digits (fuel : nat) (n : Z) (acc : string) : string :=
  match fuel with
  | O => acc
  | S f =>
      let acc' := String (digit_char (n mod 10)) acc in
      if (n <? 10)%Z then acc' else show_digits f (n / 10) acc'
  end.

(** A number below [2 ^ k] has at most [k] digits, so [log2 n + 1] digits
    of fuel suffice. *)
Definition show_nonneg (n : Z) : string :=
  show_digits (S (Z.to_nat (Z.log2 n))) n EmptyString.

Definition show_Z (z : Z) : string :=
  if (z <? 0)%Z then String "-" (show_nonneg (- z)) else show_nonneg z.

(** ** Outcomes and the state monad *)

(** The standard exceptions the library throws, with their [what()]. *)
Inductive exn :=
| out_of_range (what : string)
| invalid_argument (what : string)
| length_error (what : string).

Inductive ub :=
| IndeterminateRead
| DivisionByZero
| SignedOverflow
| InvalidDelete
| DoubleDelete
| UseAfterFree
| NullDereference
| OutOfRange
| CtypeDomain          (** a <cctype> function given a value that is neither
                          EOF nor representable as [unsigned char] *)
| PreconditionViolated (** a library precondition broken ([res.on.required]) *)
| InvalidatedIterator  (** an iterator used after the container invalidated it *)
| UncaughtException (e : exn) (** [std::terminate] after an exception that
                                  nothing catches *)
| PureVirtualCall      (** a virtual call that reaches a pure virtual
                          function ([class.abstract]/6) *)
| IllFormed            (** not undefined behaviour but a program the
                          compiler rejects (an ambiguous name or base):
                          the translation has no run *).

(** What a run of modelled code gives: a result, undefined behaviour of the
    kind named, or the loop bound exhausted. *)
Inductive outcome (A : Type) : Type :=
| Ok (a : A)
| Stuck (u : ub)
| NoFuel.
Arguments Ok {A} a.
Arguments Stuck {A} u.
Arguments NoFuel {A}.

(** Sequencing of steps that may have undefined behaviour. *)
Definition out_bind {A B} (m : outcome A) (k : A -> outcome B) : outcome B :=
  match m with Ok a => k a | Stuck u => Stuck u | NoFuel => NoFuel end.

Definition out_map {A B} (f : A -> B) (m : outcome A) : outcome B := out_bind m (fun a => Ok (f a)).

(** [out_bind] over the elements of a list, in order. *)
Fixpoint out_mapM {A B} (f : A -> outcome B) (l : list A) : outcome (list B) :=
  match l with
  | [] => Ok []
  | x :: r => out_bind (f x) (fun y => out_bind (out_mapM f r) (fun ys => Ok (y :: ys)))
  end.

(** A computation over a state [S]. *)
Definition st (S A : Type) : Type := S -> outcome (A * S).

Definition st_ret {S A} (a : A) : st S A := fun s => Ok (a, s).
Definition st_bind {S A B} (m : st S A) (k : A -> st S B) : st S B :=
  fun s =>
    match m s with
    | Ok (a, s') => k a s'
    | Stuck u => Stuck u
    | NoFuel => NoFuel
    end.
Definition st_get {S} : st S S := fun s => Ok (s, s).
Definition st_put {S} (s : S) : st S unit := fun _ => Ok (tt, s).
Definition st_modify {S} (f : S -> S) : st S unit := fun s => Ok (tt, f s).
Definition st_stuck {S A} (u : ub) : st S A := fun _ => Stuck u.
Definition st_nofuel {S A} : st S A := fun _ => NoFuel.

(** A pure step of a computation: its value, its undefined behaviour or
    its exhausted bound. *)
Definition st_lift {S A} (r : outcome A) : st S A :=
  match r with Ok a => st_ret a | Stuck u => st_stuck u | NoFuel => st_nofuel end.

(** [c[i]] on a container without bounds checking ([vector], [array],
    built-in arrays): out of range is undefined. *)
Definition subscript {A} (l : list A) (i : nat) : outcome A :=
  match l !! i with Some x => Ok x | None => Stuck OutOfRange end.

(** Writing [c[i]] on an array or vector, without bounds checking. *)
Definition subscript_set {A} (l : list A) (i : nat) (x : A) : outcome (list A) :=
  if (i <? List.length l)%nat then Ok (<[i := x]> l) else Stuck OutOfRange.

Notation "'let*' x := m 'in' k" := (st_bind m (fun x => k))
  (at level 10, x name, m at level 100, k at level 200) : cpp_scope.
Notation "m ;; k" := (st_bind m (fun _ => k))
  (at level 100, right associativity) : cpp_scope.
Notation "'let?' x := m 'in' k" := (out_bind m (fun x => k))
  (at level 10, x name, m at level 100, k at level 200) : cpp_scope.

(** Reading an [int] variable: reading an indeterminate one is undefined. *)
Definition read_ival {S} (v : ival) : st S Z :=
  match v with
  | Val z => st_ret z
  | Uninit => st_stuck IndeterminateRead
  end.

(** ** Tactics and hints shared by the development *)

Create HintDb cpp.
Create Rewrite HintDb cpp.

(** Case on every integer comparison of the goal, keeping the outcome as a
    hypothesis for [lia]. *)
Ltac zcase :=
  repeat match goal with
  | |- context [Z.ltb ?a ?b] => destruct (Z.ltb_spec a b)
  | |- context [Z.leb ?a ?b] => destruct (Z.leb_spec a b)
  | |- context [Z.eqb ?a ?b] => destruct (Z.eqb_spec a b)
  | H : context [Z.ltb ?a ?b] |- _ => destruct (Z.ltb_spec a b)
  | H : context [Z.leb ?a ?b] |- _ => destruct (Z.leb_spec a b)
  | H : context [Z.eqb ?a ?b] |- _ => destruct (Z.eqb_spec a b)
  end.

(** Unfold the monad so that a run reduces by [simpl]. *)
Ltac st_simpl :=
  cbv [st_bind st_ret st_get st_put st_modify st_stuck st_nofuel read_ival] in *.

(** ** Lemmas on machine integers *)

Lemma wrap32_range (z : Z) : (INT_MIN <= wrap32 z <= INT_MAX)%Z.
Proof.
  unfold wrap32, INT_MIN, INT_MAX.
  pose proof (Z.mod_pos_bound (z + 2 ^ 31) (2 ^ 32) ltac:(lia)). simpl in *. lia.
Qed.

Lemma wrap32_small (z : Z) : (INT_MIN <= z <= INT_MAX)%Z -> wrap32 z = z.
Proof.
  unfold wrap32, INT_MIN, INT_MAX. intros H. simpl.
  rewrite Z.mod_small by lia. lia.
Qed.

Lemma in_int_spec (z : Z) : in_int z = true <-> (INT_MIN <= z <= INT_MAX)%Z.
Proof. unfold in_int. rewrite andb_true_iff, !Z.leb_le. tauto. Qed.

(** On non-negative operands C++ division is Euclidean division. *)
Lemma cdiv_nonneg (a b : Z) : (0 <= a)%Z -> (0 < b)%Z -> cdiv a b = (a / b)%Z.
Proof. intros. unfold cdiv. apply Z.quot_div_nonneg; lia. Qed.

Lemma cmod_nonneg (a b : Z) : (0 <= a)%Z -> (0 < b)%Z -> cmod a b = (a mod b)%Z.
Proof. intros. unfold cmod. apply Z.rem_mod_nonneg; lia. Qed.

#[export] Hint Resolve wrap32_range : cpp.
#[export] Hint Rewrite wrap32_small using lia : cpp.
#[export] Hint Rewrite cdiv_nonneg cmod_nonneg using lia : cpp.

(** ** Lemmas on characters *)

Lemma is_digit_not_ws (c : ascii) : is_digit c = true -> is_ws c = false.
Proof.
  unfold is_digit, is_ws. rewrite andb_true_iff, !Nat.leb_le. intros.
  destruct (Nat.eqb_spec (nat_of_ascii c) 32); [lia|].
  destruct (Nat.leb_spec 9 (nat_of_ascii c)), (Nat.leb_spec (nat_of_ascii c) 13); simpl; lia.
Qed.

Lemma is_digit_not_sign (c : ascii) :
  is_digit c = true -> Ascii.eqb c "-"%char = false /\ Ascii.eqb c "+"%char = false.
Proof.
  intros H. split.
  - destruct (Ascii.eqb_spec c "-"%char); auto. subst. discriminate.
  - destruct (Ascii.eqb_spec c "+"%char); auto. subst. discriminate.
Qed.

(** ** Lemmas on the monad *)

Lemma st_bind_ret_l {S A B} (a : A) (k : A -> st S B) (s : S) :
  st_bind (st_ret a) k s = k a s.
Proof. reflexivity. Qed.

Lemma st_bind_assoc {S A B C} (m : st S A) (k : A -> st S B) (h : B -> st S C) (s : S) :
  st_bind (st_bind m k) h s = st_bind m (fun a => st_bind (k a) h) s.
Proof. unfold st_bind. destruct (m s) as [[a s']| |]; reflexivity. Qed.

(** A step that returns lets the sequence continue from its state. *)
Lemma st_bind_run {S A B} (m : st S A) (k : A -> st S B) (s s' : S) (a : A) :
  m s = Ok (a, s') -> st_bind m k s = k a s'.
Proof. unfold st_bind. by intros ->. Qed.

(** A step with undefined behaviour ends the sequence there. *)
Lemma st_bind_stuck {S A B} (m : st S A) (k : A -> st S B) (s : S) (u : ub) :
  m s = Stuck u -> st_bind m k s = Stuck u.
Proof. unfold st_bind. by intros ->. Qed.

#[export] Hint Rewrite @st_bind_ret_l @st_bind_assoc : cpp.

(** Computations that agree on every state: a [Proper] [st_bind] lets
    [setoid_rewrite] replace a step inside a sequence of steps. *)
Definition st_eq {S A} (m m' : st S A) : Prop := forall s, m s = m' s.

#[export] Instance st_eq_equiv {S A} : Equivalence (@st_eq S A).
Proof. split; repeat intro; congruence. Qed.

#[export] Instance st_bind_proper {S A B} :
  Proper (st_eq ==> pointwise_relation A st_eq ==> st_eq) (@st_bind S A B).
Proof.
  intros m m' Hm k k' Hk s. unfold st_bind. rewrite Hm.
  destruct (m' s) as [[a s']| |]; [apply Hk|done..].
Qed.

Lemma out_bind_ok {A B} (a : A) (k : A -> outcome B) : out_bind (Ok a) k = k a.
Proof. reflexivity. Qed.

(** [out_map] commutes with [out_bind]. *)
Lemma out_map_bind {A B C} (f : B -> C) (m : outcome A) (k : A -> outcome B) :
  out_map f (out_bind m k) = out_bind m (fun a => out_map f (k a)).
Proof. by destruct m. Qed.

(** ** Lists updated by index *)

(** Writing [l[i]] and keeping the first [i + 1] elements. *)
Lemma take_insert_snoc {A} (l : list A) (i : nat) (x : A) :
  (i < List.length l)%nat -> take (S i) (<[i := x]> l) = take i l ++ [x].
Proof.
  intros Hi. rewrite (take_S_r _ _ x); [by rewrite take_insert_ge by lia|].
  by apply list_lookup_insert_eq.
Qed.

(** ** Strings *)

(** stdpp declares [String.append] [simpl never]; these are its two
    defining equations. *)
Lemma str_app_nil_l (s : string) : (EmptyString ++ s)%string = s.
Proof. reflexivity. Qed.

Lemma str_app_cons (c : ascii) (s1 s2 : string) :
  (String c s1 ++ s2)%string = String c (s1 ++ s2).
Proof. reflexivity. Qed.

Lemma str_app_assoc (s1 s2 s3 : string) : ((s1 ++ s2) ++ s3 = s1 ++ (s2 ++ s3))%string.
Proof. induction s1; rewrite ?str_app_nil_l, ?str_app_cons; congruence. Qed.

Lemma str_app_nil_r (s : string) : (s ++ EmptyString)%string = s.
Proof. induction s; rewrite ?str_app_nil_l, ?str_app_cons; congruence. Qed.

Lemma str_length_app (s1 s2 : string) :
  String.length (s1 ++ s2) = (String.length s1 + String.length s2)%nat.
Proof. induction s1; rewrite ?str_app_nil_l, ?str_app_cons; simpl; congruence. Qed.

#[export] Hint Rewrite str_app_nil_l str_app_cons str_app_assoc str_app_nil_r str_length_app : cpp.

(** ** Decimal digits *)

(** The value of a string of decimal digits read from the left, starting
    from the accumulator [a]: the loop of [num_get]. *)
Fixpoint digits_value (a : Z) (s : string) : Z :=
  match s with
  | EmptyString => a
  | String c r => digits_value (a * 10 + digit_val c) r
  end.

(** Whether every character of [s] satisfies [p]. *)
Fixpoint str_forall (p : ascii -> bool) (s : string) : bool :=
  match s with
  | EmptyString => true
  | String c r => p c && str_forall p r
  end.

Definition all_digits (s : string) : bool := str_forall is_digit s.

Lemma digits_value_app (a : Z) (s1 s2 : string) :
  digits_value a (s1 ++ s2) = digits_value (digits_value a s1) s2.
Proof. revert a. induction s1 as [|c s1 IH]; intros a; rewrite ?str_app_cons; simpl; auto. Qed.

Lemma str_forall_app (p : ascii -> bool) (s1 s2 : string) :
  str_forall p (s1 ++ s2) = str_forall p s1 && str_forall p s2.
Proof. induction s1; rewrite ?str_app_cons; simpl; [done|]. rewrite IHs1. apply andb_assoc. Qed.

Lemma all_digits_app (s1 s2 : string) :
  all_digits (s1 ++ s2) = all_digits s1 && all_digits s2.
Proof. apply str_forall_app. Qed.

Lemma digit_char_spec (d : Z) :
  (0 <= d < 10)%Z -> is_digit (digit_char d) = true /\ digit_val (digit_char d) = d.
Proof.
  intros Hd.
  assert (d = 0 \/ d = 1 \/ d = 2 \/ d = 3 \/ d = 4 \/ d = 5 \/ d = 6 \/ d = 7
          \/ d = 8 \/ d = 9)%Z as Hc by lia.
  repeat destruct Hc as [-> | Hc]; subst; split; reflexivity.
Qed.

Lemma show_digits_S (f : nat) (n : Z) (acc : string) :
  show_digits (S f) n acc =
  (if (n <? 10)%Z then String (digit_char (n mod 10)) acc
   else show_digits f (n / 10) (String (digit_char (n mod 10)) acc)).
Proof. reflexivity. Qed.

(** The printed digits of [n], prepended to [acc], read back as [n]. *)
Lemma show_digits_spec (fuel : nat) (n : Z) (acc : string) :
  (0 <= n < 10 ^ Z.of_nat (S fuel))%Z ->
  exists ds, show_digits (S fuel) n acc = (ds ++ acc)%string /\ ds <> EmptyString /\
    all_digits ds = true /\ forall a, digits_value a ds = (a * 10 ^ Z.of_nat (String.length ds) + n)%Z.
Proof.
  revert n acc. induction fuel as [|f IH]; intros n acc Hn;
    pose proof (digit_char_spec (n mod 10) ltac:(apply Z.mod_pos_bound; lia)) as [Hd Hv].
  - cbn [Z.of_nat Pos.of_succ_nat Z.pow Z.pow_pos Pos.iter] in Hn.
    exists (String (digit_char (n mod 10)) EmptyString).
    rewrite show_digits_S. zcase; [|lia]. rewrite Z.mod_small in * by lia.
    repeat split; [discriminate| cbn [all_digits str_forall]; rewrite Hd; done|].
    intros a. cbn [digits_value]. rewrite Hv. cbn [String.length]. lia.
  - rewrite show_digits_S. zcase.
    + exists (String (digit_char (n mod 10)) EmptyString). rewrite Z.mod_small in * by lia.
      repeat split; [discriminate| cbn [all_digits str_forall]; rewrite Hd; done|].
      intros a. cbn [digits_value]. rewrite Hv. cbn [String.length]. lia.
    + destruct (IH (n / 10)%Z (String (digit_char (n mod 10)) acc)) as (ds & Heq & Hne & Hall & Hval).
      { split; [apply Z.div_pos; lia|]. apply Z.div_lt_upper_bound; [lia|].
        rewrite Nat2Z.inj_succ, Z.pow_succ_r in Hn by lia. lia. }
      rewrite Heq.
      exists (ds ++ String (digit_char (n mod 10)) EmptyString)%string.
      repeat split.
      * rewrite str_app_assoc. reflexivity.
      * destruct ds; [done|discriminate].
      * rewrite all_digits_app, Hall. cbn [all_digits str_forall]. rewrite Hd. done.
      * intros a. rewrite digits_value_app, Hval. cbn [digits_value]. rewrite Hv.
        rewrite str_length_app. cbn [String.length].
        rewrite Nat2Z.inj_add, Z.pow_add_r by lia. change (10 ^ Z.of_nat 1)%Z with 10%Z.
        pose proof (Z.div_mod n 10 ltac:(lia)). lia.
Qed.

Lemma show_nonneg_spec (n : Z) :
  (0 <= n)%Z ->
  show_nonneg n <> EmptyString /\ all_digits (show_nonneg n) = true /\
  digits_value 0 (show_nonneg n) = n.
Proof.
  intros Hn. unfold show_nonneg.
  destruct (show_digits_spec (Z.to_nat (Z.log2 n)) n EmptyString) as (ds & -> & Hne & Hall & Hval).
  - split; [done|]. rewrite Nat2Z.inj_succ, Z2Nat.id by apply Z.log2_nonneg.
    destruct (Z.eq_dec n 0) as [->|Hn0]; [reflexivity|].
    pose proof (Z.log2_spec n ltac:(lia)) as [_ Hlt].
    eapply Z.lt_le_trans; [exact Hlt|].
    apply Z.pow_le_mono_l. lia.
  - rewrite str_app_nil_r. split; [exact Hne|split; [exact Hall|rewrite Hval; lia]].
Qed.

(** Bounds on the number of digits printed. *)
Lemma show_digits_length (fuel : nat) (n : Z) (acc : string) (k : nat) :
  (0 <= n < 10 ^ Z.of_nat (S k))%Z ->
  (String.length (show_digits fuel n acc) <= S k + String.length acc)%nat.
Proof.
  revert n acc k. induction fuel as [|f IH]; intros n acc k Hn; [simpl; lia|].
  rewrite show_digits_S. zcase; [cbn [String.length]; lia|].
  destruct k as [|k]; [cbn in Hn; lia|].
  etransitivity; [apply (IH _ _ k)|cbn [String.length]; lia].
  split; [apply Z.div_pos; lia|]. apply Z.div_lt_upper_bound; [lia|].
  rewrite Nat2Z.inj_succ, Z.pow_succ_r in Hn by lia. lia.
Qed.

Lemma digits_value_bound (s : string) (a : Z) :
  (0 <= a)%Z -> all_digits s = true ->
  (a * 10 ^ Z.of_nat (String.length s) <= digits_value a s < (a + 1) * 10 ^ Z.of_nat (String.length s))%Z.
Proof.
  revert a. induction s as [|c s IH]; intros a Ha Hall; cbn [String.length digits_value]; [lia|].
  cbn [all_digits str_forall] in Hall. apply andb_prop in Hall as [Hc Hs].
  assert (Hd : (0 <= digit_val c <= 9)%Z).
  { unfold is_digit in Hc. unfold digit_val. apply andb_prop in Hc as [H1 H2].
    apply Nat.leb_le in H1, H2. lia. }
  destruct (IH (a * 10 + digit_val c)%Z ltac:(lia) Hs) as [H1 H2].
  rewrite Nat2Z.inj_succ, Z.pow_succ_r by lia. nia.
Qed.

Lemma show_nonneg_length (n : Z) (k : nat) :
  (0 <= n < 10 ^ Z.of_nat (S k))%Z -> (String.length (show_nonneg n) <= S k)%nat.
Proof. intros Hn. unfold show_nonneg. pose proof (show_digits_length (S (Z.to_nat (Z.log2 n))) n EmptyString k Hn). simpl in *. lia. Qed.

Lemma show_nonneg_length_lower (n : Z) (k : nat) :
  (10 ^ Z.of_nat k <= n)%Z -> (k < String.length (show_nonneg n))%nat.
Proof.
  intros Hn. assert (0 <= 10 ^ Z.of_nat k)%Z by (apply Z.pow_nonneg; lia).
  destruct (show_nonneg_spec n ltac:(lia)) as (_ & Hall & Hval).
  pose proof (digits_value_bound (show_nonneg n) 0 ltac:(lia) Hall) as [_ Hlt].
  rewrite Hval in Hlt. destruct (Nat.lt_ge_cases k (String.length (show_nonneg n))) as [|Hge]; [done|].
  pose proof (Z.pow_le_mono_r 10 (Z.of_nat (String.length (show_nonneg n))) (Z.of_nat k) ltac:(lia) ltac:(lia)).
  lia.
Qed.

(** ** The [char] type

    [char] is signed on the x86-64 targets: a byte of 128 or more (as in
    the UTF-8 encoding of an accented letter) is a negative [char], and is
    promoted to a negative [int]. *)
Definition schar (c : ascii) : Z :=
  let n := Z.of_nat (nat_of_ascii c) in if (n <? 128)%Z then n else (n - 256)%Z.

(** The [char] an [int] converts to (modulo 256). *)
Definition char_of_int (z : Z) : ascii := ascii_of_nat (Z.to_nat (z mod 256)).

(** [operator<] on [char]. *)
Definition char_lt (a b : ascii) : bool := (schar a <? schar b)%Z.

(** The domain of the <cctype> functions: [EOF] or an [unsigned char]. *)
Definition ctype_ok (z : Z) : bool := ((z =? -1) || ((0 <=? z) && (z <=? 255)))%Z.

(** [std::tolower] and [std::toupper] in the "C" locale; [None] is
    undefined behaviour outside [ctype_ok]. *)
Definition tolower (z : Z) : option Z :=
  if ctype_ok z then Some (if ((65 <=? z) && (z <=? 90))%Z then (z + 32)%Z else z) else None.

Definition toupper (z : Z) : option Z :=
  if ctype_ok z then Some (if ((97 <=? z) && (z <=? 122))%Z then (z - 32)%Z else z) else None.

Lemma schar_range (c : ascii) : (-128 <= schar c <= 127)%Z.
Proof.
  unfold schar. pose proof (nat_ascii_bounded c). zcase; lia.
Qed.

Lemma schar_inj (a b : ascii) : schar a = schar b -> a = b.
Proof.
  intros H. rewrite <- (ascii_nat_embedding a), <- (ascii_nat_embedding b). f_equal.
  unfold schar in H. pose proof (nat_ascii_bounded a). pose proof (nat_ascii_bounded b).
  revert H. zcase; lia.
Qed.

(** [operator<] on [std::string]: lexicographic, characters compared as
    [unsigned char] ([char_traits<char>::lt]). *)
Fixpoint str_lt (a b : string) : bool :=
  match a, b with
  | EmptyString, String _ _ => true
  | _, EmptyString => false
  | String c r, String d t =>
      if (nat_of_ascii c <? nat_of_ascii d)%nat then true
      else if (nat_of_ascii d <? nat_of_ascii c)%nat then false
      else str_lt r t
  end.
