(* ===== verification/Stream.v ===== *)
(** * Input streams: [std::istream] as libstdc++ implements it

    The programs read with [std::cin >> x] (check_input in
    CoinsChange/main.cpp, FilesAndStream.cpp), with [std::getline] over an
    [std::ifstream] (populate_coins(filename), FilesAndStream.cpp) and with
    [std::istringstream >> ...] over each line.  A stream is modelled as the
    characters not yet read with its failbit and eofbit.  The operations follow
    libstdc++ (bits/istream.tcc, bits/locale_facets.tcc, basic_string.tcc):
    the sentry, [operator>>(std::string&)], [operator>>(int&)] and
    [std::getline].  Each operation returns [None] for the target variable
    when it leaves the variable unassigned. *)

From stdpp Require Import base list strings.
From Stdlib Require Import ZArith Lia String Ascii.
From S2P Require Import Prelude.

Local Open Scope string_scope.

Record istream := mk_is { buf : string; failbit : bool; eofbit : bool }.

(** A stream freshly opened on [s] (an [ifstream] that opened, an
    [istringstream(s)], or [cin] with the user's input). *)
Definition open_stream (s : string) : istream := mk_is s false false.

(** [good()]: neither failbit nor eofbit (badbit is never set here). *)
Definition good (i : istream) : bool := negb (failbit i) && negb (eofbit i).

Definition is_empty (s : string) : bool :=
  match s with EmptyString => true | _ => false end.

Fixpoint skip_ws (s : string) : string :=
  match s with
  | String c r => if is_ws c then skip_ws r else s
  | EmptyString => EmptyString
  end.

(** The longest prefix of non-blank characters, and what follows it. *)
Fixpoint read_word (s : string) : string * string :=
  match s with
  | String c r =>
      if is_ws c then (EmptyString, s)
      else let '(w, rest) := read_word r in (String c w, rest)
  | EmptyString => (EmptyString, EmptyString)
  end.

Fixpoint read_digits (s : string) : string * string :=
  match s with
  | String c r =>
      if is_digit c then let '(w, rest) := read_digits r in (String c w, rest)
      else (EmptyString, s)
  | EmptyString => (EmptyString, EmptyString)
  end.

(** The characters up to the first newline, and what follows the newline
    ([None] when there is no newline). *)
Fixpoint read_line (s : string) : string * option string :=
  match s with
  | String c r =>
      if Ascii.eqb c "010"%char then (EmptyString, Some r)
      else let '(l, rest) := read_line r in (String c l, rest)
  | EmptyString => (EmptyString, None)
  end.

(** [basic_istream::sentry]: on a stream that is not [good()] it sets
    failbit and fails; with [skipws] it skips blanks and fails with
    eofbit|failbit when none remain. *)
Definition sentry (skipws : bool) (i : istream) : bool * istream :=
  if good i then
    if skipws then
      let s := skip_ws (buf i) in
      if is_empty s then (false, mk_is EmptyString true true)
      else (true, mk_is s false false)
    else (true, i)
  else (false, mk_is (buf i) true (eofbit i)).

(** [is >> str]: after a successful sentry the string is replaced by the
    next word; eofbit is set when the word ends the input. *)
Definition extract_string (i : istream) : option string * istream :=
  let '(ok, i1) := sentry true i in
  if ok then
    let '(w, rest) := read_word (buf i1) in (Some w, mk_is rest false (is_empty rest))
  else (None, i1).

Definition read_sign (s : string) : bool * string :=
  match s with
  | String c r =>
      if Ascii.eqb c "-"%char then (true, r)
      else if Ascii.eqb c "+"%char then (false, r)
      else (false, s)
  | EmptyString => (false, s)
  end.

(** [is >> n] for an [int n] (libstdc++'s [operator>>(int&)] after LWG
    696, over [num_get::_M_extract_int]): once the sentry succeeds [n] is
    always assigned.  The sign and the longest run of digits are read as a
    [long]; without any digit the [long] is 0 and failbit is set; outside
    [long] it is [LONG_MIN]/[LONG_MAX] with failbit; a [long] outside [int]
    gives [INT_MIN]/[INT_MAX] with failbit.  Both clampings together give
    [INT_MIN]/[INT_MAX] with failbit for any value outside [int].  Only a
    failed sentry leaves [n] unassigned ([None]). *)
Definition extract_int (i : istream) : option Z * istream :=
  let '(ok, i1) := sentry true i in
  if ok then
    let '(neg, s1) := read_sign (buf i1) in
    let '(ds, s2) := read_digits s1 in
    let eof := is_empty s2 in
    if is_empty ds then (Some 0%Z, mk_is s2 true eof)
    else
      let mag := digits_value 0 ds in
      let l := if neg then (- mag)%Z else mag in
      if (l <? INT_MIN)%Z then (Some INT_MIN, mk_is s2 true eof)
      else if (INT_MAX <? l)%Z then (Some INT_MAX, mk_is s2 true eof)
      else (Some l, mk_is s2 false eof)
  else (None, i1).

(** [std::getline(is, str)]: the sentry does not skip blanks; the string is
    erased, then filled up to the newline, which is consumed; reaching the
    end sets eofbit, and failbit as well when nothing was extracted. *)
Definition getline (i : istream) : option string * istream :=
  let '(ok, i1) := sentry false i in
  if ok then
    if is_empty (buf i1) then (Some EmptyString, mk_is EmptyString true true)
    else
      let '(l, r) := read_line (buf i1) in
      match r with
      | Some rest => (Some l, mk_is rest false false)
      | None => (Some l, mk_is EmptyString false true)
      end
  else (None, i1).

(** [is.clear()]: every state flag reset. *)
Definition clear (i : istream) : istream := mk_is (buf i) false false.

(** [is.ignore(numeric_limits<streamsize>::max(), '\n')]: an unformatted
    input, whose sentry does not skip blanks; the characters up to and
    including the first newline are dropped, and reaching the end sets
    eofbit. *)
Definition ignore_line (i : istream) : istream :=
  if good i then
    match read_line (buf i) with
    | (_, Some rest) => mk_is rest false false
    | (_, None) => mk_is EmptyString false true
    end
  else mk_is (buf i) true (eofbit i).

(** [operator>>] is overloaded on the type of its target. *)
Class Extract (T : Type) := extract : istream -> option T * istream.
#[export] Instance extract_string_inst : Extract string := extract_string.
#[export] Instance extract_int_inst : Extract Z := extract_int.

(** [is >> x] on a variable holding [old]. *)
Definition shr {T} `{Extract T} (i : istream) (old : T) : T * istream :=
  let '(r, i') := extract i in
  (match r with Some v => v | None => old end, i').

(** The same on an [int] that may be indeterminate. *)
Definition shr_ival (i : istream) (old : ival) : ival * istream :=
  let '(r, i') := extract_int i in
  (match r with Some v => Val v | None => old end, i').

(** ** Read loops

    [while (is >> x) body] and [while (std::getline(is, x)) body] run the
    body once per value read and stop at the first read that sets failbit.
    [read_loop step] is that loop for the read [step]; it returns the values
    read, in order, and the final stream.  Every read that does not fail
    consumes a character, so the length of the input plus one bounds the
    iterations ([read_loop_total] below). *)
Section ReadLoop.
Context {T : Type} (step : istream -> option T * istream).

Fixpoint read_loop (fuel : nat) (i : istream) : outcome (list T * istream) :=
  match fuel with
  | O => NoFuel
  | S f =>
      let '(r, i') := step i in
      if failbit i' then Ok ([], i')
      else match r with
           | Some x =>
               match read_loop f i' with
               | Ok (xs, i'') => Ok (x :: xs, i'')
               | e => e
               end
           | None => Ok ([], i')
           end
  end.

Definition read_all (i : istream) : outcome (list T * istream) :=
  read_loop (S (String.length (buf i))) i.
End ReadLoop.

(** [while (std::getline(is, line))], [while (is >> word)] and
    [while (is >> num)] for an [int num]. *)
Definition getlines (i : istream) := read_all getline i.
Definition words (i : istream) := read_all extract_string i.
Definition ints (i : istream) := read_all extract_int i.

(** ** Lemmas on the character readers *)

Lemma istream_eta (i : istream) : mk_is (buf i) (failbit i) (eofbit i) = i.
Proof. by destruct i. Qed.

Lemma skip_ws_length (s : string) : (String.length (skip_ws s) <= String.length s)%nat.
Proof. induction s as [|c s IH]; simpl; [lia|]. destruct (is_ws c); simpl; lia. Qed.

Lemma read_word_length (s : string) :
  String.length s = (String.length (fst (read_word s)) + String.length (snd (read_word s)))%nat.
Proof.
  induction s as [|c s IH]; simpl; [done|].
  destruct (is_ws c); [done|]. destruct (read_word s) as [w r]; simpl in *. lia.
Qed.

Lemma read_digits_length (s : string) :
  String.length s = (String.length (fst (read_digits s)) + String.length (snd (read_digits s)))%nat.
Proof.
  induction s as [|c s IH]; simpl; [done|].
  destruct (is_digit c); [|done]. destruct (read_digits s) as [w r]; simpl in *. lia.
Qed.

Lemma read_sign_length (s : string) : (String.length (snd (read_sign s)) <= String.length s)%nat.
Proof.
  destruct s as [|c r]; simpl; [lia|].
  destruct (Ascii.eqb c "-"%char); [simpl; lia|]. destruct (Ascii.eqb c "+"%char); simpl; lia.
Qed.

Lemma read_line_some (s l rest : string) :
  read_line s = (l, Some rest) -> (String.length rest < String.length s)%nat.
Proof.
  revert l. induction s as [|c s IH]; intros l; simpl; [discriminate|].
  destruct (Ascii.eqb c "010"%char).
  - intros [= _ ->]. lia.
  - destruct (read_line s) as [l' r'] eqn:E. intros [= _ ->]. specialize (IH l' eq_refl). lia.
Qed.

(** A non-failing read consumes at least one character. *)
Lemma getline_progress (i : istream) (r : option string) (i' : istream) :
  getline i = (r, i') -> failbit i' = false -> (String.length (buf i') < String.length (buf i))%nat.
Proof.
  unfold getline, sentry. destruct (good i); [|intros [= _ <-]; discriminate].
  destruct (is_empty (buf i)) eqn:He; [intros [= _ <-]; discriminate|].
  destruct (read_line (buf i)) as [l [rest|]] eqn:E; intros [= _ <-]; simpl; intros _.
  - eapply read_line_some; eauto.
  - destruct (buf i); [discriminate|simpl; lia].
Qed.

Lemma extract_string_progress (i : istream) (r : option string) (i' : istream) :
  extract_string i = (r, i') -> failbit i' = false -> (String.length (buf i') < String.length (buf i))%nat.
Proof.
  unfold extract_string, sentry. destruct (good i); [|intros [= _ <-]; discriminate].
  pose proof (skip_ws_length (buf i)) as Hs.
  destruct (is_empty (skip_ws (buf i))) eqn:He; [intros [= _ <-]; discriminate|]. simpl.
  pose proof (read_word_length (skip_ws (buf i))) as Hw.
  destruct (skip_ws (buf i)) as [|c s] eqn:Es; [discriminate|].
  assert (is_ws c = false) as Hc.
  { clear -Es. induction (buf i) as [|c' s' IH]; simpl in Es; [discriminate|].
    destruct (is_ws c') eqn:E'; [auto|congruence]. }
  simpl in Hw |- *. rewrite Hc in Hw |- *.
  destruct (read_word s) as [w rest]; simpl in *. intros [= _ <-]; simpl; intros _. lia.
Qed.

(** A read that assigns nothing has set failbit. *)
Lemma extract_string_none_fail (i : istream) :
  fst (extract_string i) = None -> failbit (snd (extract_string i)) = true.
Proof.
  unfold extract_string, sentry. destruct (good i); [|done].
  destruct (is_empty (skip_ws (buf i))); [done|]. cbn [buf].
  by destruct (read_word _).
Qed.

Lemma extract_int_none_fail (i : istream) :
  fst (extract_int i) = None -> failbit (snd (extract_int i)) = true.
Proof.
  unfold extract_int, sentry. destruct (good i); [|done].
  destruct (is_empty (skip_ws (buf i))); [done|]. cbn [buf].
  destruct (read_sign _) as [neg s1], (read_digits s1) as [ds s2].
  repeat match goal with |- context [if ?b then _ else _] => destruct b end; done.
Qed.

Lemma extract_int_progress (i : istream) (r : option Z) (i' : istream) :
  extract_int i = (r, i') -> failbit i' = false -> (String.length (buf i') < String.length (buf i))%nat.
Proof.
  unfold extract_int, sentry. destruct (good i); [|intros [= _ <-]; discriminate].
  pose proof (skip_ws_length (buf i)) as Hs.
  destruct (is_empty (skip_ws (buf i))); [intros [= _ <-]; discriminate|]. simpl.
  pose proof (read_sign_length (skip_ws (buf i))) as Hg.
  destruct (read_sign (skip_ws (buf i))) as [neg s1]. simpl in Hg.
  pose proof (read_digits_length s1) as Hd.
  destruct (read_digits s1) as [ds s2]. simpl in Hd.
  destruct ds as [|c ds]; simpl in Hd |- *; [intros [= _ <-]; discriminate|].
  repeat match goal with |- context [if ?b then _ else _] => destruct b end;
    intros [= _ <-]; simpl; intros Hf; try discriminate; lia.
Qed.

(** A stream whose failbit is set stays as it is and leaves the target
    unassigned, whatever is read from it. *)
Lemma sentry_failed (b : bool) (i : istream) :
  failbit i = true -> sentry b i = (false, i).
Proof.
  intros H. unfold sentry, good. rewrite H. simpl. rewrite <- H. by rewrite istream_eta.
Qed.

(** ** The read loop: totality and independence from the bound *)

Section ReadLoopFacts.
Context {T : Type} (step : istream -> option T * istream).
Hypothesis step_progress : forall i r i',
  step i = (r, i') -> failbit i' = false -> (String.length (buf i') < String.length (buf i))%nat.

Lemma read_loop_total (fuel : nat) (i : istream) :
  (String.length (buf i) < fuel)%nat -> exists r, read_loop step fuel i = Ok r.
Proof.
  revert i. induction fuel as [|f IH]; intros i Hf; [lia|]. simpl.
  destruct (step i) as [r i'] eqn:E.
  destruct (failbit i') eqn:Hfail; [eauto|].
  destruct r as [x|]; [|eauto].
  pose proof (step_progress _ _ _ E Hfail).
  destruct (IH i' ltac:(lia)) as [[xs i''] ->]. eauto.
Qed.

Lemma read_loop_fuel (f1 f2 : nat) (i : istream) :
  (String.length (buf i) < f1)%nat -> (String.length (buf i) < f2)%nat ->
  read_loop step f1 i = read_loop step f2 i.
Proof.
  revert f2 i. induction f1 as [|f1 IH]; intros [|f2] i H1 H2; try lia. simpl.
  destruct (step i) as [r i'] eqn:E.
  destruct (failbit i') eqn:Hfail; [done|].
  destruct r as [x|]; [|done].
  pose proof (step_progress _ _ _ E Hfail).
  rewrite (IH f2 i') by lia. done.
Qed.
End ReadLoopFacts.

(** The three loops of the programs end within their bound. *)
Lemma getlines_total (i : istream) : exists r, getlines i = Ok r.
Proof. apply read_loop_total; [exact getline_progress | lia]. Qed.

Lemma words_total (i : istream) : exists r, words i = Ok r.
Proof. apply read_loop_total; [exact extract_string_progress | lia]. Qed.

Lemma ints_total (i : istream) : exists r, ints i = Ok r.
Proof. apply read_loop_total; [exact extract_int_progress | lia]. Qed.

(** ** Reading back what was printed *)

Lemma skip_ws_id (s : string) : starts_with is_ws s = false -> skip_ws s = s.
Proof. destruct s as [|c r]; simpl; [done|]. intros ->. done. Qed.

Lemma read_digits_app (ds rest : string) :
  all_digits ds = true -> starts_with is_digit rest = false -> read_digits (ds ++ rest) = (ds, rest).
Proof.
  induction ds as [|c ds IH]; intros Hd Hr.
  - destruct rest as [|c r]; simpl in *; [done|]. by rewrite Hr.
  - rewrite str_app_cons. cbn [all_digits str_forall] in Hd.
    apply andb_true_iff in Hd as [Hc Hds]. simpl. rewrite Hc, IH; auto.
Qed.

Lemma show_nonneg_head (n : Z) :
  (0 <= n)%Z -> exists c r, show_nonneg n = String c r /\ is_digit c = true.
Proof.
  intros Hn. destruct (show_nonneg_spec n Hn) as (Hne & Hall & _).
  destruct (show_nonneg n) as [|c r]; [done|]. exists c, r. split; [done|].
  cbn [all_digits str_forall] in Hall. by apply andb_true_iff in Hall as [-> _].
Qed.

(** How the sign and digit readers split the decimal text of [z]. *)
Lemma parse_show_Z (z : Z) (rest : string) :
  starts_with is_digit rest = false ->
  exists ds, read_sign (skip_ws (show_Z z ++ rest)) = ((z <? 0)%Z, ds ++ rest) /\
    read_digits (ds ++ rest) = (ds, rest) /\ is_empty ds = false /\ digits_value 0 ds = Z.abs z.
Proof.
  intros Hr. unfold show_Z. destruct (Z.ltb_spec z 0) as [Hz|Hz].
  - destruct (show_nonneg_spec (- z) ltac:(lia)) as (Hne & Hall & Hval).
    exists (show_nonneg (- z)). rewrite str_app_cons, skip_ws_id by reflexivity.
    unfold read_sign. cbv beta iota. rewrite Ascii.eqb_refl.
    split; [done|]. rewrite read_digits_app by done. split; [done|].
    split; [destruct (show_nonneg (- z)); [congruence|done]|]. rewrite Hval. lia.
  - destruct (show_nonneg_spec z Hz) as (Hne & Hall & Hval).
    destruct (show_nonneg_head z Hz) as (c & r & E & Hc).
    exists (show_nonneg z). rewrite E, str_app_cons.
    rewrite skip_ws_id by (cbn; apply is_digit_not_ws; done).
    unfold read_sign. destruct (is_digit_not_sign c Hc) as [-> ->].
    rewrite <- str_app_cons, <- E, read_digits_app by done.
    split; [done|]. split; [done|]. rewrite E. split; [done|]. rewrite <- E, Hval. lia.
Qed.

(** What [is >> n] gives for an integer literal of value [z]: [z] itself
    within [int], the clamped bound with failbit outside [int]. *)
Definition int_result (z : Z) (rest : string) : option Z * istream :=
  let eof := is_empty rest in
  if (z <? INT_MIN)%Z then (Some INT_MIN, mk_is rest true eof)
  else if (INT_MAX <? z)%Z then (Some INT_MAX, mk_is rest true eof)
  else (Some z, mk_is rest false eof).

Lemma extract_int_show_Z (z : Z) (rest : string) :
  starts_with is_digit rest = false ->
  extract_int (open_stream (show_Z z ++ rest)) = int_result z rest.
Proof.
  intros Hr. unfold extract_int, sentry, show_Z. cbn [good open_stream buf failbit eofbit negb andb].
  destruct (Z.ltb_spec z 0) as [Hz|Hz].
  - destruct (show_nonneg_spec (- z) ltac:(lia)) as (Hne & Hall & Hval).
    rewrite str_app_cons. simpl. rewrite read_digits_app by done.
    destruct (show_nonneg (- z)) as [|c r] eqn:E; [done|]. simpl is_empty. cbv iota beta.
    rewrite Hval. rewrite Z.opp_involutive. reflexivity.
  - destruct (show_nonneg_spec z Hz) as (Hne & Hall & Hval).
    destruct (show_nonneg_head z Hz) as (c & r & E & Hc).
    rewrite E, str_app_cons. rewrite skip_ws_id by (simpl; apply is_digit_not_ws; done).
    simpl is_empty. cbv iota beta. unfold read_sign. cbn [buf].
    destruct (is_digit_not_sign c Hc) as [-> ->]. cbv iota beta.
    rewrite <- str_app_cons, <- E, read_digits_app by done.
    rewrite E. simpl is_empty. cbv iota beta. rewrite <- E, Hval. reflexivity.
Qed.

(** ** Properties of the stream model *)

Lemma extract_int_in_range (z : Z) (rest : string) :
  (INT_MIN <= z <= INT_MAX)%Z -> starts_with is_digit rest = false ->
  extract_int (open_stream (show_Z z ++ rest)) = (Some z, mk_is rest false (is_empty rest)).
Proof.
  intros Hz Hr. rewrite extract_int_show_Z by done. unfold int_result.
  unfold INT_MIN, INT_MAX, LONG_MIN, LONG_MAX in *. zcase; simpl; try lia; reflexivity.
Qed.

(** C29: [is >> n] reads back any [int] printed by [operator<<], stops
    before the next non-digit and leaves failbit clear. *)
Theorem extract_int_roundtrip (z : Z) (rest : string) :
  (INT_MIN <= z <= INT_MAX)%Z -> starts_with is_digit rest = false ->
  extract_int (open_stream (show_Z z ++ rest)) = (Some z, mk_is rest false (is_empty rest)).
Proof. apply extract_int_in_range. Qed.

Lemma extract_int_roundtrip_witness :
  extract_int (open_stream (show_Z (-356) ++ " x")) = (Some (-356)%Z, mk_is " x" false false).
Proof. apply (extract_int_roundtrip (-356) " x"); [unfold INT_MIN, INT_MAX; lia | reflexivity]. Defined.

(** C30: a literal above [INT_MAX], however long, assigns [INT_MAX] and
    sets failbit; the stream stops after its last digit. *)
Theorem extract_int_overflow (z : Z) (rest : string) :
  (INT_MAX < z)%Z -> starts_with is_digit rest = false ->
  extract_int (open_stream (show_Z z ++ rest)) = (Some INT_MAX, mk_is rest true (is_empty rest)).
Proof.
  intros Hz Hr. rewrite extract_int_show_Z by done. unfold int_result.
  unfold INT_MIN, INT_MAX, LONG_MIN, LONG_MAX in *. zcase; simpl; try lia; reflexivity.
Qed.

Lemma extract_int_overflow_witness :
  extract_int (open_stream (show_Z 99999999999 ++ "")) = (Some INT_MAX, mk_is "" true true).
Proof. apply (extract_int_overflow 99999999999 ""); [unfold INT_MAX; lia | reflexivity]. Defined.

Lemma extract_int_no_digit (c : ascii) (r : string) :
  is_ws c = false -> is_digit c = false -> Ascii.eqb c "-"%char = false -> Ascii.eqb c "+"%char = false ->
  extract_int (open_stream (String c r)) = (Some 0%Z, mk_is (String c r) true false).
Proof.
  intros Hw Hd Hm Hp. unfold extract_int, sentry. cbn [good open_stream buf failbit eofbit negb andb skip_ws].
  rewrite Hw. cbn. rewrite Hm, Hp. cbn. rewrite Hd. reflexivity.
Qed.

(** a token that does not start a number (no blank, digit or sign
    first) assigns 0 and sets failbit, consuming nothing. *)
Theorem extract_int_non_numeric (c : ascii) (r : string) :
  is_ws c = false -> is_digit c = false -> Ascii.eqb c "-"%char = false -> Ascii.eqb c "+"%char = false ->
  extract_int (open_stream (String c r)) = (Some 0%Z, mk_is (String c r) true false).
Proof. apply extract_int_no_digit. Qed.

Lemma extract_int_non_numeric_witness :
  extract_int (open_stream "abc") = (Some 0%Z, mk_is "abc" true false).
Proof. apply extract_int_non_numeric; reflexivity. Defined.

Lemma failed_stream_inert (i : istream) :
  failbit i = true ->
  extract_int i = (None, i) /\ extract_string i = (None, i) /\ getline i = (None, i).
Proof.
  intros H. unfold extract_int, extract_string, getline.
  rewrite !sentry_failed by done. done.
Qed.

(** Once failbit is set, every extraction fails without reading or
    assigning anything: the stream is returned unchanged. *)
Theorem extract_failed_sticky (i : istream) :
  failbit i = true ->
  extract_int i = (None, i) /\ extract_string i = (None, i) /\ getline i = (None, i).
Proof. apply failed_stream_inert. Qed.

Lemma extract_failed_sticky_witness :
  let i := mk_is "12 abc" true false in
  extract_int i = (None, i) /\ extract_string i = (None, i) /\ getline i = (None, i).
Proof. apply (extract_failed_sticky (mk_is "12 abc" true false)). reflexivity. Defined.

(** ** Lines *)

Definition no_newline (l : string) : bool := str_forall (fun c => negb (Ascii.eqb c "010"%char)) l.

(** A file whose lines are [ls], each ended by a newline. *)
Lemma str_forall_impl (p q : ascii -> bool) (s : string) :
  (forall c, p c = true -> q c = true) -> str_forall p s = true -> str_forall q s = true.
Proof.
  intros Hpq. induction s as [|c s IH]; simpl; [done|].
  rewrite !andb_true_iff. intros [Hc Hs]. auto.
Qed.

Lemma no_newline_word (w : string) :
  str_forall (fun c => negb (is_ws c)) w = true -> no_newline w = true.
Proof.
  apply str_forall_impl. intros c Hc. apply negb_true_iff in Hc. apply negb_true_iff.
  destruct (Ascii.eqb_spec c "010"%char); [subst; discriminate|done].
Qed.

Lemma no_newline_show_Z (z : Z) : no_newline (show_Z z) = true.
Proof.
  assert (forall n, (0 <= n)%Z -> no_newline (show_nonneg n) = true) as Hn.
  { intros n Hn. destruct (show_nonneg_spec n Hn) as (_ & Hall & _).
    apply no_newline_word. revert Hall. apply str_forall_impl.
    intros c Hc. apply negb_true_iff. by apply is_digit_not_ws. }
  unfold show_Z. zcase; [|apply Hn; lia]. cbn [no_newline str_forall]. apply Hn. lia.
Qed.

Fixpoint unlines (ls : list string) : string :=
  match ls with
  | [] => EmptyString
  | l :: r => l ++ String "010"%char (unlines r)
  end.

Lemma read_line_app (l rest : string) :
  no_newline l = true -> read_line (l ++ String "010"%char rest) = (l, Some rest).
Proof.
  induction l as [|c l IH]; intros H; [reflexivity|].
  rewrite str_app_cons. cbn [no_newline str_forall] in H.
  apply andb_true_iff in H as [Hc Hl]. apply negb_true_iff in Hc.
  simpl. rewrite Hc, IH; auto.
Qed.

Lemma getline_line (l rest : string) :
  no_newline l = true -> getline (open_stream (l ++ String "010"%char rest)) = (Some l, open_stream rest).
Proof.
  intros H. unfold getline, sentry. cbn [good open_stream failbit eofbit negb andb buf].
  replace (is_empty (l ++ String "010"%char rest)) with false by (destruct l; reflexivity).
  rewrite read_line_app by done. reflexivity.
Qed.

Lemma unlines_length (ls : list string) : (List.length ls <= String.length (unlines ls))%nat.
Proof. induction ls as [|l r IH]; simpl; [lia|]. rewrite str_length_app. simpl. lia. Qed.

Lemma getlines_lines (ls : list string) :
  Forall (fun l => no_newline l = true) ls ->
  getlines (open_stream (unlines ls)) = Ok (ls, mk_is EmptyString true true).
Proof.
  intros Hls. unfold getlines, read_all.
  pose proof (unlines_length ls) as Hlen. cbn [buf open_stream].
  remember (S (String.length (unlines ls))) as fuel eqn:Hf.
  assert (List.length ls < fuel)%nat as Hfuel by lia. clear Hlen Hf.
  revert fuel Hfuel. induction Hls as [|l r Hl Hr IH]; intros [|f] Hf; simpl in Hf; try lia.
  - reflexivity.
  - cbn [read_loop unlines]. rewrite getline_line by done. cbn [failbit open_stream].
    rewrite IH by lia. reflexivity.
Qed.

(** Reading a file line by line with [while (std::getline(f, line))]
    gives back exactly its lines, and ends with eofbit and failbit. *)
Theorem getlines_unlines (ls : list string) :
  Forall (fun l => no_newline l = true) ls ->
  getlines (open_stream (unlines ls)) = Ok (ls, mk_is EmptyString true true).
Proof. apply getlines_lines. Qed.

Lemma getlines_unlines_witness :
  getlines (open_stream (unlines ["dollar dollars 100"; ""; "penny pennies 1"])) =
    Ok (["dollar dollars 100"; ""; "penny pennies 1"], mk_is EmptyString true true).
Proof. apply getlines_unlines. repeat constructor. Defined.
