(* ===== verification/Ostream.v ===== *)
(** * Output streams: [std::ostream] formatting as libstdc++ implements it

    The demos print with [std::cout << ...] and build strings with
    [std::ostringstream] (the [print] and [printIdx] helpers of
    GenericAlgorithms.cpp, Functor.cpp and LambdaFunctions.cpp), using the
    manipulators [setw], [setfill], [left] and [boolalpha] of <iomanip>
    (FilesAndStream.cpp, GenericAlgorithms.cpp).  A stream is the text
    written so far with the formatting state that libstdc++ keeps in
    [ios_base]: the field width, which every formatted insertion uses and
    resets to 0 ([__ostream_insert], [num_put::_M_insert_int]), the fill
    character, the adjustment, and [boolalpha].  The typeclass [Insert]
    gives [operator<<] per argument type, written [o << x] in [cpp_scope]. *)

From stdpp Require Import base list strings.
From Stdlib Require Import ZArith Lia String Ascii.
From S2P Require Import Prelude Stream.

Local Open Scope string_scope.

Record ostream := mk_os {
  os_str : string;        (** the characters written so far *)
  os_width : nat;         (** [width()] *)
  os_fill : ascii;        (** [fill()] *)
  os_left : bool;         (** [(flags() & adjustfield) == left] *)
  os_boolalpha : bool     (** [flags() & boolalpha] *)
}.

(** A default-constructed [std::ostringstream], and [std::cout] at the
    start of [main]: empty, width 0, fill ' ', right adjustment. *)
Definition ostringstream0 : ostream := mk_os "" 0 " " false false.

(** [ostringstream::str()]. *)
Definition str (o : ostream) : string := os_str o.

Fixpoint replicate_char (n : nat) (c : ascii) : string :=
  match n with
  | O => ""
  | S k => String c (replicate_char k c)
  end.

(** [__pad]: a field shorter than [width()] is completed with the fill
    character, after the text under [left] and before it otherwise. *)
Definition pad (o : ostream) (s : string) : string :=
  let n := String.length s in
  if (os_width o <=? n)%nat then s
  else if os_left o then s ++ replicate_char (os_width o - n) (os_fill o)
  else replicate_char (os_width o - n) (os_fill o) ++ s.

(** A formatted insertion of the characters [s]: padded, then [width(0)]. *)
Definition put_field (o : ostream) (s : string) : ostream :=
  mk_os (os_str o ++ pad o s) 0 (os_fill o) (os_left o) (os_boolalpha o).

(** An unformatted write (what [endl] does before flushing). *)
Definition put_raw (o : ostream) (s : string) : ostream :=
  mk_os (os_str o ++ s) (os_width o) (os_fill o) (os_left o) (os_boolalpha o).

(** The escapes of C++ string literals: newline, tab, double quote and carriage return. *)
Definition NL : string := String "010" EmptyString.
Definition TAB : string := String "009" EmptyString.
Definition DQ : string := String "034" EmptyString.
Definition CR : string := String "013" EmptyString.

(** The manipulators of <iomanip> and <ios> the programs use. *)
Module std.
Inductive manip :=
  | setw (n : nat)
  | setfill (c : ascii)
  | left
  | boolalpha
  | endl
  | flush.
End std.

Definition apply_manip (o : ostream) (m : std.manip) : ostream :=
  match m with
  | std.setw n => mk_os (os_str o) n (os_fill o) (os_left o) (os_boolalpha o)
  | std.setfill c => mk_os (os_str o) (os_width o) c (os_left o) (os_boolalpha o)
  | std.left => mk_os (os_str o) (os_width o) (os_fill o) true (os_boolalpha o)
  | std.boolalpha => mk_os (os_str o) (os_width o) (os_fill o) (os_left o) true
  | std.endl => put_raw o (String "010" "")
  | std.flush => o
  end.

(** [operator<<], overloaded on the type of what is inserted. *)
Class Insert (T : Type) := ins : ostream -> T -> ostream.

Notation "o << x" := (ins o x) (at level 40, left associativity) : cpp_scope.

#[export] Instance insert_string : Insert string := put_field.
#[export] Instance insert_char : Insert ascii := fun o c => put_field o (String c "").
(** [int] and [long]: [num_put] prints the decimal digits. *)
#[export] Instance insert_Z : Insert Z := fun o z => put_field o (show_Z z).
(** [size_t] and the [ptrdiff_t] of an iterator difference. *)
#[export] Instance insert_nat : Insert nat := fun o n => put_field o (show_Z (Z.of_nat n)).
(** [bool]: "true"/"false" under [boolalpha], "1"/"0" otherwise. *)
#[export] Instance insert_bool : Insert bool := fun o b =>
  put_field o (if os_boolalpha o then (if b then "true" else "false")
               else (if b then "1" else "0")).
#[export] Instance insert_manip : Insert std.manip := apply_manip.

(** [operator<<(const void* )]: [num_put] with [hex | showbase], so a
    non-null address prints as [0x] and lowercase hexadecimal digits, and
    [nullptr] as [0]. *)
Definition hex_char (d : Z) : ascii :=
  if (d <? 10)%Z then ascii_of_nat (48 + Z.to_nat d) else ascii_of_nat (87 + Z.to_nat d).

Fixpoint hex_digits (fuel : nat) (n : Z) (acc : string) : string :=
  match fuel with
  | O => acc
  | S f =>
      let acc' := String (hex_char (n mod 16)) acc in
      if (n <? 16)%Z then acc' else hex_digits f (n / 16) acc'
  end.

Definition show_pointer (a : Z) : string :=
  if (a =? 0)%Z then "0" else "0x" ++ hex_digits 64 a EmptyString.

Record void_ptr := mk_void_ptr { vp_addr : Z }.

#[export] Instance insert_void_ptr : Insert void_ptr := fun o p => put_field o (show_pointer (vp_addr p)).

Local Open Scope cpp_scope.

(** The [print] template of GenericAlgorithms.cpp (lines 29-33),
    Functor.cpp (lines 57-61) and LambdaFunctions.cpp (lines 20-24): each
    element followed by a blank, into a fresh [ostringstream]. *)
Definition print {T} `{Insert T} (var : list T) : string :=
  str (fold_left (fun out it => out << it << " ") var ostringstream0).

(** [printIdx] of GenericAlgorithms.cpp (lines 35-39). *)
Definition printIdx (index : Z) : string :=
  str (ostringstream0 << std.setfill "0"%char << std.setw 3 << index << ". ").

(** ** Padding *)

Lemma replicate_char_length (n : nat) (c : ascii) : String.length (replicate_char n c) = n.
Proof. induction n; simpl; auto. Qed.

Lemma pad_length (o : ostream) (s : string) :
  String.length (pad o s) = Nat.max (os_width o) (String.length s).
Proof.
  unfold pad. destruct (Nat.leb_spec (os_width o) (String.length s)); [lia|].
  destruct (os_left o); rewrite str_length_app, replicate_char_length; lia.
Qed.

Lemma pad_wide (o : ostream) (s : string) :
  (os_width o <= String.length s)%nat -> pad o s = s.
Proof. intros H. unfold pad. destruct (Nat.leb_spec (os_width o) (String.length s)); [done|lia]. Qed.

Lemma put_field_plain (o : ostream) (s : string) :
  os_width o = 0%nat -> put_field o s = put_raw o s.
Proof. intros H. unfold put_field, put_raw. rewrite pad_wide by lia. by rewrite H. Qed.

#[export] Hint Rewrite replicate_char_length pad_length : cpp.

(** ** The [print] helper *)

(** The elements, each followed by a blank. *)
Fixpoint join_sp {T} (show : T -> string) (v : list T) : string :=
  match v with
  | [] => ""
  | x :: r => show x ++ " " ++ join_sp show r
  end.

(** The elements, each followed by a newline. *)
Fixpoint join_nl {T} (show : T -> string) (v : list T) : string :=
  match v with
  | [] => ""
  | x :: r => show x ++ NL ++ join_nl show r
  end.

Lemma put_raw_nil (o : ostream) : put_raw o "" = o.
Proof. unfold put_raw. rewrite str_app_nil_r. by destruct o. Qed.

Lemma put_raw_app (o : ostream) (a b : string) : put_raw (put_raw o a) b = put_raw o (a ++ b).
Proof. unfold put_raw. cbn. by rewrite str_app_assoc. Qed.

Lemma ins_endl (o : ostream) : o << std.endl = put_raw o NL.
Proof. reflexivity. Qed.

Section PrintSpec.
Context {T : Type} `{Insert T} (show : T -> string).
(** With no width pending, inserting [x] writes [show x] and nothing else. *)
Hypothesis ins_plain : forall o x, os_width o = 0%nat -> o << x = put_raw o (show x).

Lemma print_loop (v : list T) (o : ostream) :
  os_width o = 0%nat ->
  fold_left (fun out it => out << it << " ") v o = put_raw o (join_sp show v).
Proof.
  revert o. induction v as [|x v IH]; intros o Hw; simpl.
  - unfold put_raw. rewrite str_app_nil_r. by destruct o.
  - rewrite ins_plain by done. unfold ins at 1, insert_string.
    rewrite put_field_plain by done. rewrite IH by done.
    unfold put_raw; cbn. by rewrite !str_app_assoc.
Qed.

Lemma print_spec (v : list T) : print v = join_sp show v.
Proof. unfold print, str. rewrite print_loop by done. reflexivity. Qed.

(** [for (x : v) os << x << endl;] *)
Lemma endl_loop (v : list T) (o : ostream) :
  os_width o = 0%nat ->
  fold_left (fun o x => o << x << std.endl) v o = put_raw o (join_nl show v).
Proof.
  revert o. induction v as [|x v IH]; intros o Hw; cbn [fold_left join_nl].
  - by rewrite put_raw_nil.
  - rewrite ins_plain by done. rewrite ins_endl, put_raw_app, IH by done.
    rewrite put_raw_app. by rewrite str_app_assoc.
Qed.
End PrintSpec.

Lemma ins_Z_plain (o : ostream) (z : Z) : os_width o = 0%nat -> o << z = put_raw o (show_Z z).
Proof. apply put_field_plain. Qed.

Lemma ins_string_plain (o : ostream) (s : string) : os_width o = 0%nat -> o << s = put_raw o s.
Proof. apply put_field_plain. Qed.

Lemma ins_nat_plain (o : ostream) (n : nat) :
  os_width o = 0%nat -> o << n = put_raw o (show_Z (Z.of_nat n)).
Proof. apply put_field_plain. Qed.

(** ** Output after earlier output

    What a sequence of insertions writes does not depend on the text the
    stream already holds: [rebase p o] is [o] with [p] written before. *)
Definition rebase (p : string) (o : ostream) : ostream :=
  mk_os (p ++ os_str o) (os_width o) (os_fill o) (os_left o) (os_boolalpha o).

Lemma rebase_split (o : ostream) : o = rebase (os_str o) (mk_os "" (os_width o) (os_fill o) (os_left o) (os_boolalpha o)).
Proof. destruct o. unfold rebase. cbn. by rewrite str_app_nil_r. Qed.

Lemma put_field_rebase (p : string) (o : ostream) (s : string) :
  put_field (rebase p o) s = rebase p (put_field o s).
Proof. unfold put_field, rebase. cbn. by rewrite str_app_assoc. Qed.

Lemma put_raw_rebase (p : string) (o : ostream) (s : string) :
  put_raw (rebase p o) s = rebase p (put_raw o s).
Proof. unfold put_raw, rebase. cbn. by rewrite str_app_assoc. Qed.

Lemma ins_string_rebase (p : string) (o : ostream) (s : string) : rebase p o << s = rebase p (o << s).
Proof. apply put_field_rebase. Qed.

Lemma ins_char_rebase (p : string) (o : ostream) (c : ascii) : rebase p o << c = rebase p (o << c).
Proof. apply put_field_rebase. Qed.

Lemma ins_Z_rebase (p : string) (o : ostream) (z : Z) : rebase p o << z = rebase p (o << z).
Proof. apply put_field_rebase. Qed.

Lemma ins_nat_rebase (p : string) (o : ostream) (n : nat) : rebase p o << n = rebase p (o << n).
Proof. apply put_field_rebase. Qed.

Lemma ins_bool_rebase (p : string) (o : ostream) (b : bool) : rebase p o << b = rebase p (o << b).
Proof. apply put_field_rebase. Qed.

Lemma ins_manip_rebase (p : string) (o : ostream) (m : std.manip) : rebase p o << m = rebase p (o << m).
Proof. destruct m; try reflexivity; apply put_raw_rebase. Qed.

Create Rewrite HintDb ostream_rebase.

#[export] Hint Rewrite put_field_rebase put_raw_rebase ins_string_rebase ins_char_rebase ins_Z_rebase
  ins_nat_rebase ins_bool_rebase ins_manip_rebase : ostream_rebase.

Lemma print_Z (v : list Z) : print v = join_sp show_Z v.
Proof. apply print_spec, ins_Z_plain. Qed.

Lemma print_string (v : list string) : print v = join_sp (fun s => s) v.
Proof. apply print_spec, ins_string_plain. Qed.

(** ** Reading back what [print] wrote *)

Lemma extract_int_lead_blank (s : string) :
  extract_int (open_stream (String " " s)) = extract_int (open_stream s).
Proof. reflexivity. Qed.

Lemma ints_loop_blank (f : nat) (s : string) :
  read_loop extract_int f (open_stream (String " " s)) = read_loop extract_int f (open_stream s).
Proof. destruct f; [done|]. cbn [read_loop]. by rewrite extract_int_lead_blank. Qed.

Lemma ints_loop_print (v : list Z) (fuel : nat) :
  Forall (fun z => in_int z = true) v ->
  (String.length (join_sp show_Z v) < fuel)%nat ->
  read_loop extract_int fuel (open_stream (join_sp show_Z v)) = Ok (v, mk_is "" true true).
Proof.
  revert fuel. induction v as [|z v IH]; intros [|f] Hv Hf; cbn [String.length join_sp] in *; try lia.
  - reflexivity.
  - apply Forall_cons in Hv as [Hz Hv]. apply in_int_spec in Hz.
    change (" " ++ join_sp show_Z v)%string with (String " " (join_sp show_Z v)) in *.
    rewrite str_length_app in Hf. cbn [String.length] in Hf.
    cbn [read_loop]. rewrite extract_int_in_range by done. cbn [failbit is_empty].
    change (mk_is (String " " (join_sp show_Z v)) false false) with (open_stream (String " " (join_sp show_Z v))).
    rewrite ints_loop_blank, IH by (done || lia). reflexivity.
Qed.

Lemma ints_join (v : list Z) :
  Forall (fun z => in_int z = true) v ->
  ints (open_stream (join_sp show_Z v)) = Ok (v, mk_is "" true true).
Proof. intros Hv. unfold ints, read_all. apply ints_loop_print; [done|]. cbn [buf open_stream]. lia. Qed.

(** C31: what [print] writes for a [vector<int>] is read back, element by
    element, by the loop [while (is >> num)] over an [istringstream] on it
    (FilesAndStream.cpp lines 108-111): the same values in the same order,
    the stream ending with eofbit and failbit. *)
Theorem print_ints_roundtrip (v : list Z) :
  Forall (fun z => in_int z = true) v ->
  ints (open_stream (print v)) = Ok (v, mk_is "" true true).
Proof.
  intros Hv. rewrite print_Z. unfold ints, read_all. apply ints_loop_print; [done|].
  cbn [buf open_stream]. lia.
Qed.

Lemma print_ints_roundtrip_witness :
  ints (open_stream (print [1; -22; 2147483647]%Z)) = Ok ([1; -22; 2147483647]%Z, mk_is "" true true).
Proof. apply print_ints_roundtrip. repeat constructor. Defined.

(** ** [printIdx] *)

Lemma zeros_value (k : nat) (a : Z) : digits_value a (replicate_char k "0") = (a * 10 ^ Z.of_nat k)%Z.
Proof.
  revert a. induction k as [|k IH]; intros a; cbn [replicate_char digits_value]; [lia|].
  rewrite IH. change (digit_val "0") with 0%Z. rewrite Nat2Z.inj_succ, Z.pow_succ_r by lia. lia.
Qed.

Lemma zeros_digits (k : nat) : all_digits (replicate_char k "0") = true.
Proof. induction k; [done|]. exact IHk. Qed.

Lemma printIdx_eq (index : Z) :
  printIdx index = (pad (mk_os "" 3 "0" false false) (show_Z index) ++ ". ")%string.
Proof. reflexivity. Qed.

(** [printIdx(index)] of a non-negative index is its decimal digits,
    zero-filled on the left to three characters, then ". ": exactly three
    digits below 1000, and the digits unpadded from 1000 on ([setw] sets a
    minimum width, it never truncates). *)
Theorem printIdx_digits (index : Z) :
  (0 <= index)%Z ->
  exists p, printIdx index = (p ++ ". ")%string /\ all_digits p = true /\
    digits_value 0 p = index /\
    ((index < 1000)%Z -> String.length p = 3%nat) /\
    ((1000 <= index)%Z -> p = show_Z index).
Proof.
  intros Hi. rewrite printIdx_eq.
  assert (Hs : show_Z index = show_nonneg index) by (unfold show_Z; zcase; [lia|done]).
  rewrite Hs. destruct (show_nonneg_spec index Hi) as (_ & Hall & Hval).
  eexists. split; [reflexivity|]. unfold pad. cbn [os_width os_left os_fill].
  destruct (Nat.leb_spec 3 (String.length (show_nonneg index))) as [Hle|Hgt].
  - split; [done|]. split; [done|]. split; [|done].
    intros Hlt. pose proof (show_nonneg_length index 2 ltac:(cbn; lia)). lia.
  - rewrite all_digits_app, zeros_digits, Hall, digits_value_app, zeros_value.
    split; [done|]. split; [by rewrite Z.mul_0_l|]. split.
    + intros _. rewrite str_length_app, replicate_char_length. lia.
    + intros Hge. pose proof (show_nonneg_length_lower index 3 ltac:(cbn; lia)). lia.
Qed.

Lemma printIdx_digits_witness :
  (0 <= 7)%Z /\ exists p, printIdx 7 = (p ++ ". ")%string /\ all_digits p = true /\
    digits_value 0 p = 7%Z /\ ((7 < 1000)%Z -> String.length p = 3%nat) /\
    ((1000 <= 7)%Z -> p = show_Z 7).
Proof. split; [lia|]. apply printIdx_digits. lia. Defined.

(** ** Statements on a console *)

(** A statement [std::cout << ...;] of a program whose only state is
    [std::cout]. *)
Definition say_os (f : ostream -> ostream) : st ostream unit := st_modify f.
