(* ===== verification/Double.v ===== *)
(** * [double]: IEEE-754 binary64 and its printing by [operator<<]

    LambdaFunctions.cpp multiplies salaries by [double] rates,
    GenericAlgorithms.cpp prints [make_pair(1.5, ...)], and
    OverloadOstreamOperator.cpp prints a [double] temperature, and
    RandomNumbers.cpp scales [rand()] to a [float] and draws [double]s
    from [mt19937].  A [double]
    is the specification float [spec_float] of Rocq's core library at
    precision 53 and maximal exponent 1024, whose operations round to
    nearest, ties to even, as the hardware does.  A literal [m.e-k] is the
    correctly rounded quotient of two exact integers, which is how the
    compiler converts it.  [operator<<(double)] prints with [%g] and
    precision 6 (the default [ios_base] state): six significant digits,
    correctly rounded, fixed notation when the decimal exponent is in
    [-4, 6), trailing zeros removed. *)

From Stdlib Require Import ZArith Lia List String Ascii.
From Corelib Require Import Floats.SpecFloat.
From S2P Require Import Prelude Ostream.

Local Open Scope list_scope.
Local Open Scope string_scope.
Local Open Scope Z_scope.

Definition prec : Z := 53.
Definition emax : Z := 1024.

Definition double := spec_float.

(** The [double] nearest to the integer [n]. *)
Definition dbl_of_Z (n : Z) : double := binary_normalize prec emax n 0 false.

(** The literal [m * 10^e10] ([1.05] is [dbl_lit 105 (-2)]). *)
Definition dbl_lit (m e10 : Z) : double :=
  if 0 <=? e10 then dbl_of_Z (m * 10 ^ e10)
  else SFdiv prec emax (dbl_of_Z m) (dbl_of_Z (10 ^ (- e10))).

(** [static_cast<float>(d)]: rounding to binary32 (24-bit mantissa,
    nearest even), read back as the [double] with that value, which is
    exact; [cout << f] prints the [float] promoted to [double]. *)
Definition to_float (d : double) : double :=
  match d with
  | S754_finite s m e =>
      match binary_round 24 128 s m e with
      | S754_finite s' m' e' => binary_normalize prec emax (if s' then Zneg m' else Zpos m') e' s'
      | f => f
      end
  | _ => d
  end.

Definition dmul (x y : double) : double := SFmul prec emax x y.
Definition dadd (x y : double) : double := SFadd prec emax x y.
Definition ddiv (x y : double) : double := SFdiv prec emax x y.
Definition dsub (x y : double) : double := SFsub prec emax x y.
Definition dlt (x y : double) : bool := SFltb x y.

(** ** [%g] with precision 6 *)

(** Round [num / den] to an integer, ties to even. *)
Definition round_half_even (num den : Z) : Z :=
  let q := num / den in
  let r := num mod den in
  if den <? 2 * r then q + 1
  else if 2 * r <? den then q
  else if Z.even q then q else q + 1.

(** The decimal exponent of [num / den] ([num, den > 0]): the [X] with
    [10^X <= num/den < 10^(X+1)]. *)
Fixpoint neg_exp10 (fuel : nat) (num den : Z) (j : Z) : Z :=
  match fuel with
  | O => - j
  | S f => if den <=? num * 10 ^ j then - j else neg_exp10 f num den (j + 1)
  end.

Fixpoint pos_exp10 (fuel : nat) (q j : Z) : Z :=
  match fuel with
  | O => j
  | S f => if 10 ^ (j + 1) <=? q then pos_exp10 f q (j + 1) else j
  end.

(** A finite [double] lies between [2^-1074] and [2^1024]: 1100 steps of
    fuel cover both directions. *)
Definition exp10 (num den : Z) : Z :=
  if den <=? num then pos_exp10 1100 (num / den) 0 else neg_exp10 1100 num den 1.

(** Six significant digits of [num / den] and their decimal exponent. *)
Definition digits6 (num den : Z) : Z * Z :=
  let x := exp10 num den in
  let n := if 0 <=? 5 - x then round_half_even (num * 10 ^ (5 - x)) den
           else round_half_even num (den * 10 ^ (x - 5)) in
  if n =? 10 ^ 6 then (10 ^ 5, x + 1) else (n, x).

(** Remove the trailing zeros of a fraction, and the point if none is left. *)
Fixpoint strip_zeros_rev (s : list ascii) : list ascii :=
  match s with
  | "0"%char :: r => strip_zeros_rev r
  | "."%char :: r => r
  | _ => s
  end.

Definition strip_zeros (s : string) : string :=
  string_of_list_ascii (rev (strip_zeros_rev (rev (list_ascii_of_string s)))).

(** The six digits of [n] ([10^5 <= n < 10^6]) with the point after [k]
    of them. *)
Definition place_point (n : Z) (k : nat) : string :=
  let ds := show_Z n in
  (substring 0 k ds ++ "." ++ substring k (6 - k) ds)%string.

Fixpoint zeros (k : nat) : string :=
  match k with O => "" | S j => String "0" (zeros j) end.

Definition exp_suffix (x : Z) : string :=
  "e" ++ (if x <? 0 then "-" else "+") ++
  (if Z.abs x <? 10 then "0" else "") ++ show_Z (Z.abs x).

(** [%g] of the positive number [num / den]. *)
Definition show_g_pos (num den : Z) : string :=
  let '(n, x) := digits6 num den in
  if ((x <? -4) || (6 <=? x))%bool then
    strip_zeros (place_point n 1) ++ exp_suffix x
  else if x <? 0 then
    strip_zeros ("0." ++ zeros (Z.to_nat (- x - 1)) ++ show_Z n)
  else strip_zeros (place_point n (Z.to_nat (x + 1))).

(** [operator<<(double)] (glibc's [printf("%g")] for the finite values). *)
Definition show_double (d : double) : string :=
  match d with
  | S754_zero s => if s then "-0" else "0"
  | S754_infinity s => if s then "-inf" else "inf"
  | S754_nan => "nan"
  | S754_finite s m e =>
      (if s then "-" else "") ++
      (if 0 <=? e then show_g_pos (Zpos m * 2 ^ e) 1 else show_g_pos (Zpos m) (2 ^ (- e)))
  end.

(** [operator<<(double)]: the [%g] text, padded as any field. *)
#[export] Instance insert_double : Insert double := fun o d => put_field o (show_double d).

Lemma ins_double_rebase (p : string) (o : ostream) (d : double) : (rebase p o << d = rebase p (o << d))%cpp.
Proof. apply put_field_rebase. Qed.

#[export] Hint Rewrite ins_double_rebase : ostream_rebase.
