(* ===== verification/Random.v ===== *)
(** * Random numbers: [rand] of glibc, [mt19937] and libstdc++'s distributions

    [rand] and [srand] (C11 7.22.2) as glibc implements them
    (stdlib/random_r.c, the additive feedback generator of degree 31 and
    separation 3, seeded by the Park-Miller generator and warmed up by 310
    draws); [rand] before any [srand] gives the sequence of [srand(1)]
    (C11 7.22.2.2/2).  [mt19937] ([rand.eng.mers], [rand.predef]) as
    libstdc++ writes it: seeding, the twist of all 624 words at once when
    they are used up, and the tempering.  The distributions over it as
    libstdc++ 12 computes them: [uniform_int_distribution] by Lemire's
    nearly divisionless method (downscaling a 32-bit generator),
    [generate_canonical<double, 53>] from two draws,
    [uniform_real_distribution] and [bernoulli_distribution] from it; and
    [std::shuffle] with its two swaps per draw.  Words of 32 bits are [Z]s
    in [[0, 2^32)] with the wrap-around written out; [unsigned long] is
    reduced modulo [2^64].  The rejection loops of the distributions take
    the fuel [reject_fuel]. *)

From stdpp Require Import base list.
From Stdlib Require Import ZArith Lia.
From Corelib Require Import Floats.SpecFloat.
From S2P Require Import Prelude Double.

Local Open Scope Z_scope.
Local Open Scope cpp_scope.

(** Reduction modulo [2^32], as [uint32_t] arithmetic does. *)
Definition u32 (z : Z) : Z := z mod 2 ^ 32.

(** ** [rand] and [srand] of glibc *)

Module glibc_rand.

(** [struct random_data] of TYPE_3: the table [state[0..30]] (as unsigned
    words) and the indices [fptr] and [rptr]. *)
Record state := mk_state { tbl : list Z; fptr : nat; rptr : nat }.

Definition rand_deg : nat := 31.
Definition rand_sep : nat := 3.

(** [__random_r]: [val = *fptr += (uint32_t) *rptr; *result = val >> 1;]
    then both pointers advance, wrapping at the end of the table. *)
Definition random_r (s : state) : Z * state :=
  let v := u32 (tbl s !!! fptr s + tbl s !!! rptr s) in
  let t := <[fptr s := v]> (tbl s) in
  let f := S (fptr s) in
  let r := S (rptr s) in
  let s' := if (rand_deg <=? f)%nat then mk_state t 0 r
            else mk_state t f (if (rand_deg <=? r)%nat then 0%nat else r) in
  (Z.shiftr v 1, s').

(** [word = 16807 * lo - 2836 * hi], the Park-Miller step without
    overflow (Schrage), on [int32_t]. *)
Definition park_miller (word : Z) : Z :=
  let hi := Z.quot word 127773 in
  let lo := Z.rem word 127773 in
  let w := 16807 * lo - 2836 * hi in
  if w <? 0 then w + 2147483647 else w.

Fixpoint park_miller_fill (n : nat) (word : Z) : list Z :=
  match n with
  | O => []
  | S n' => let w := park_miller word in w :: park_miller_fill n' w
  end.

Fixpoint discard (n : nat) (s : state) : state :=
  match n with O => s | S n' => discard n' (random_r s).2 end.

(** [srand(unsigned int seed)], that is [__srandom_r(seed)]: a seed of 0
    is taken as 1; [state[0] = seed] as an [int32_t], the other words by
    Park-Miller, then 310 draws are discarded. *)
Definition srand (seed : Z) : state :=
  let seed := u32 seed in
  let seed := if seed =? 0 then 1 else seed in
  let word := wrap32 seed in
  discard (10 * rand_deg) (mk_state (seed :: List.map u32 (park_miller_fill 30 word)) rand_sep 0).

(** The state before any [srand]. *)
Definition initial : state := srand 1.

Definition RAND_MAX : Z := 2147483647.

(** [rand()] *)
Definition rand (s : state) : Z * state := random_r s.

End glibc_rand.

(** ** [mt19937] *)

Module mt19937.

Definition n : nat := 624.
Definition m : nat := 397.
Definition matrix_a : Z := 2567483615.   (** 0x9908b0df *)
(** [_UIntType] is [uint_fast32_t], an [unsigned long] of 64 bits:
    [__upper_mask = (~_UIntType()) << 31] and [__lower_mask = ~__upper_mask]. *)
Definition upper_mask : Z := 18446744071562067968. (** 0xffffffff80000000 *)
Definition lower_mask : Z := 2147483647.           (** 0x7fffffff *)

(** The 624 words and those not yet used ([_M_x] and [_M_x + _M_p]). *)
Record engine := mk_eng { words : list Z; unused : list Z }.

Fixpoint seed_words (k : nat) (i : Z) (prev : Z) : list Z :=
  match k with
  | O => []
  | S k' =>
      let x := u32 (1812433253 * Z.lxor prev (Z.shiftr prev 30) + i) in
      x :: seed_words k' (i + 1) x
  end.

(** [seed(sd)]: [_M_x[0] = sd mod 2^32], then
    [_M_x[i] = 1812433253 * (x ^ (x >> 30)) + i], and [_M_p = n]. *)
Definition seed (sd : Z) : engine :=
  let x0 := u32 sd in mk_eng (x0 :: seed_words (pred n) 1 x0) [].

Definition default_seed : Z := 5489.

(** [mt19937 e;] *)
Definition default : engine := seed default_seed.

(** One word of [_M_gen_rand]: [y = (x[k] & upper) | (x[k+1] & lower)],
    [x[k] = x[k+m] ^ (y >> 1) ^ ((y & 1) ? a : 0)]. *)
Definition twist_word (xk xk1 xkm : Z) : Z :=
  let y := Z.lor (Z.land xk upper_mask) (Z.land xk1 lower_mask) in
  Z.lxor (Z.lxor xkm (Z.shiftr y 1)) (if Z.odd y then matrix_a else 0).

Fixpoint twist_run (xs xs1 xsm : list Z) : list Z :=
  match xs, xs1, xsm with
  | a :: r, b :: r1, c :: rm => twist_word a b c :: twist_run r r1 rm
  | _, _, _ => []
  end.

(** [_M_gen_rand]: the three loops of libstdc++ over [k < n - m],
    [k < n - 1] (which read words the first loop already wrote) and the
    last word. *)
Definition twist (x : list Z) : list Z :=
  let part1 := twist_run (take (n - m)%nat x) (drop 1 x) (drop m x) in
  let part2a := twist_run (take (n - m)%nat (drop (n - m)%nat x)) (drop (S (n - m)%nat) x) part1 in
  let part2b := twist_run (take (n - 1 - 2 * (n - m))%nat (drop (2 * (n - m))%nat x)) (drop (S (2 * (n - m))%nat) x) part2a in
  let last := twist_word (x !!! pred n) (part1 !!! 0%nat) ((part1 ++ part2a ++ part2b) !!! pred m) in
  part1 ++ part2a ++ part2b ++ [last].

(** The tempering of [operator()]. *)
Definition temper (y : Z) : Z :=
  let y := Z.lxor y (Z.land (Z.shiftr y 11) 4294967295) in
  let y := Z.lxor y (Z.land (Z.shiftl y 7) 2636928640) in
  let y := Z.lxor y (Z.land (Z.shiftl y 15) 4022730752) in
  Z.lxor y (Z.shiftr y 18).

(** [operator()]: twist when the words are used up, then temper the
    next word. *)
Definition next (e : engine) : Z * engine :=
  match unused e with
  | y :: r => (temper y, mk_eng (words e) r)
  | [] => let x := twist (words e) in
          match x with
          | y :: r => (temper y, mk_eng x r)
          | [] => (temper 0, mk_eng x [])
          end
  end.

(** [k] draws; the last one drawn. *)
Fixpoint draws (k : nat) (e : engine) (last : Z) : Z * engine :=
  match k with
  | O => (last, e)
  | S k' => let '(y, e') := next e in draws k' e' y
  end.

End mt19937.

(** ** Distributions over [mt19937] (libstdc++ 12) *)

Module dist.

Import mt19937.

Definition u64 (z : Z) : Z := z mod 2 ^ 64.

(** [max() - min()] of [mt19937]. *)
Definition urngrange : Z := 2 ^ 32 - 1.

(** The bound on the draws a rejection loop makes; a draw is rejected
    with probability below [range / 2^32]. *)
Definition reject_fuel : nat := 64.

Fixpoint nd_loop (fuel : nat) (e : engine) (range threshold : Z) : outcome (Z * engine) :=
  match fuel with
  | O => NoFuel
  | S f =>
      let '(g, e') := next e in
      let product := g * range in
      if product mod 2 ^ 32 <? threshold then nd_loop f e' range threshold
      else Ok (Z.shiftr product 32, e')
  end.

(** [_S_nd<uint64_t>(g, range)]: [product = g() * range]; if its low word
    is below [range], draws are rejected while it is below
    [-range % range]; the result is the high word. *)
Definition S_nd (e : engine) (range : Z) : outcome (Z * engine) :=
  let '(g, e1) := next e in
  let product := g * range in
  let low := product mod 2 ^ 32 in
  if low <? range then
    let threshold := u32 (- range) mod range in
    if low <? threshold then nd_loop reject_fuel e1 range threshold
    else Ok (Z.shiftr product 32, e1)
  else Ok (Z.shiftr product 32, e1).

(** [uniform_int_distribution(a, b)(g)] with [a <= b] and [b - a] below
    [2^64]: downscaling when [b - a < 2^32 - 1], the draw itself when
    equal, upscaling (a draw for the high part, recursively) above. *)
Fixpoint uniform_int (fuel : nat) (a b : Z) (e : engine) : outcome (Z * engine) :=
  match fuel with
  | O => NoFuel
  | S f =>
      if b <? a then Stuck PreconditionViolated else
      let urange := u64 (b - a) in
      if urange <? urngrange then
        let? r_ := S_nd e (urange + 1) in let '(r, e') := r_ in Ok (a + r, e')
      else if urange =? urngrange then
        let '(g, e') := next e in Ok (a + g, e')
      else
        let uerngrange := urngrange + 1 in
        let? r_ := uniform_int f 0 (urange / uerngrange) e in let '(hi, e1) := r_ in
        let tmp := u64 (uerngrange * hi) in
        let '(g, e2) := next e1 in
        let ret := u64 (tmp + g) in
        if (urange <? ret) || (ret <? tmp) then uniform_int f a b e2 else Ok (a + ret, e2)
  end.

(** ** [double] from draws *)

(** [nextafter(1.0, 0.0)] *)
Definition below_one : double := SFpred prec emax (dbl_of_Z 1).

(** [generate_canonical<double, 53>(g)]: [k = max(1, (53 + 31) / 32) = 2]
    draws, [sum += double(g() - min()) * tmp; tmp *= 2^32], then
    [sum / tmp], kept below 1. *)
Definition generate_canonical (e : engine) : double * engine :=
  let '(g1, e1) := next e in
  let '(g2, e2) := next e1 in
  let sum := dadd (dmul (dbl_of_Z g1) (dbl_of_Z 1)) (dmul (dbl_of_Z g2) (dbl_of_Z (2 ^ 32))) in
  let ret := ddiv sum (dbl_of_Z (2 ^ 64)) in
  (if dlt ret (dbl_of_Z 1) then ret else below_one, e2).

(** [uniform_real_distribution(a, b)(g)]: [canonical * (b - a) + a]. *)
Definition uniform_real (a b : double) (e : engine) : double * engine :=
  let '(c, e') := generate_canonical e in (dadd (dmul c (dsub b a)) a, e').

(** [bernoulli_distribution(p)(g)]: [canonical < p]. *)
Definition bernoulli (p : double) (e : engine) : bool * engine :=
  let '(c, e') := generate_canonical e in (dlt c p, e').

(** ** [std::shuffle] *)

(** [std::iter_swap(first + i, first + j)] *)
Definition iter_swap {A} `{Inhabited A} (l : list A) (i j : nat) : list A :=
  <[i := l !!! j]> (<[j := l !!! i]> l).

(** The loop of [shuffle] that swaps two elements per draw, at [i] and
    [i + 1], with [k] pairs left. *)
Fixpoint shuffle_pairs {A} `{Inhabited A} (k : nat) (i : nat) (l : list A) (e : engine) : outcome (list A * engine) :=
  match k with
  | O => Ok (l, e)
  | S k' =>
      let swap_range := Z.of_nat i + 1 in
      let? r_ := uniform_int reject_fuel 0 (swap_range * (swap_range + 1) - 1) e in let '(x, e') := r_ in
      let l := iter_swap l i (Z.to_nat (x / (swap_range + 1))) in
      let l := iter_swap l (S i) (Z.to_nat (x mod (swap_range + 1))) in
      shuffle_pairs k' (S (S i)) l e'
  end.

(** The loop of [shuffle] with one draw per element. *)
Fixpoint shuffle_single {A} `{Inhabited A} (k : nat) (i : nat) (l : list A) (e : engine) : outcome (list A * engine) :=
  match k with
  | O => Ok (l, e)
  | S k' =>
      let? r_ := uniform_int reject_fuel 0 (Z.of_nat i) e in let '(x, e') := r_ in
      shuffle_single k' (S i) (iter_swap l i (Z.to_nat x)) e'
  end.

(** [std::shuffle(first, last, g)] *)
Definition shuffle {A} `{Inhabited A} (l : list A) (e : engine) : outcome (list A * engine) :=
  let n := List.length l in
  if (n =? 0)%nat then Ok (l, e) else
  let urange := Z.of_nat n in
  if urange <=? urngrange / urange then
    if Z.even urange then
      let? r_ := uniform_int reject_fuel 0 1 e in let '(d, e1) := r_ in
      shuffle_pairs ((n - 2) / 2) 2 (iter_swap l 1 (Z.to_nat d)) e1
    else shuffle_pairs ((n - 1) / 2) 1 l e
  else shuffle_single (n - 1) 1 l e.

End dist.

(** ** Lemmas *)

(** [rand()] returns a value of [[0, RAND_MAX]], whatever the state. *)
Lemma rand_range (g : glibc_rand.state) : 0 <= (glibc_rand.rand g).1 <= glibc_rand.RAND_MAX.
Proof.
  unfold glibc_rand.rand, glibc_rand.random_r, glibc_rand.RAND_MAX. cbn [fst].
  pose proof (Z.mod_pos_bound (glibc_rand.tbl g !!! glibc_rand.fptr g + glibc_rand.tbl g !!! glibc_rand.rptr g) (2 ^ 32)
    ltac:(lia)).
  unfold u32. rewrite Z.shiftr_div_pow2 by lia.
  split; [apply Z.div_pos; lia|]. apply Z.lt_succ_r, Z.div_lt_upper_bound; lia.
Qed.

(** Words of 32 bits. *)
Definition word32 (x : Z) : Prop := 0 <= x < 2 ^ 32.

(** A state of [mt19937] reached by seeding and drawing: every word is a
    32-bit word. *)
Definition valid (e : mt19937.engine) : Prop := Forall word32 (mt19937.words e ++ mt19937.unused e).

Lemma u32_word (z : Z) : word32 (u32 z).
Proof. unfold word32, u32. apply Z.mod_pos_bound. lia. Qed.

Lemma below_pow2 (x k : Z) : 0 <= k -> 0 <= x -> Z.shiftr x k = 0 -> x < 2 ^ k.
Proof.
  intros Hk Hx H. rewrite Z.shiftr_div_pow2 in H by lia.
  apply Z.div_small_iff in H; [lia|]. apply Z.pow_nonzero; lia.
Qed.

Lemma shiftr_small (x k : Z) : 0 <= k -> 0 <= x < 2 ^ k -> Z.shiftr x k = 0.
Proof. intros Hk Hx. rewrite Z.shiftr_div_pow2 by lia. by apply Z.div_small. Qed.

Lemma lxor_word (a b : Z) : word32 a -> word32 b -> word32 (Z.lxor a b).
Proof.
  unfold word32. intros Ha Hb. split; [apply Z.lxor_nonneg; lia|].
  apply below_pow2; [lia|apply Z.lxor_nonneg; lia|].
  by rewrite Z.shiftr_lxor, !shiftr_small by lia.
Qed.

Lemma land_word_r (a b : Z) : 0 <= a -> word32 b -> word32 (Z.land a b).
Proof.
  unfold word32. intros Ha Hb. split; [apply Z.land_nonneg; lia|].
  apply below_pow2; [lia|apply Z.land_nonneg; lia|].
  rewrite Z.shiftr_land, (shiftr_small b) by lia. apply Z.land_0_r.
Qed.

Lemma lor_word (a b : Z) : word32 a -> word32 b -> word32 (Z.lor a b).
Proof.
  unfold word32. intros Ha Hb. split; [apply Z.lor_nonneg; lia|].
  apply below_pow2; [lia|apply Z.lor_nonneg; lia|].
  by rewrite Z.shiftr_lor, !shiftr_small by lia.
Qed.

Lemma shiftr_word (a k : Z) : 0 <= k -> word32 a -> word32 (Z.shiftr a k).
Proof.
  unfold word32. intros Hk Ha. rewrite Z.shiftr_div_pow2 by lia. split.
  - apply Z.div_pos; [lia|]. apply Z.pow_pos_nonneg; lia.
  - apply (Z.le_lt_trans _ a); [|lia]. apply Z.div_le_upper_bound; [apply Z.pow_pos_nonneg; lia|].
    assert (1 <= 2 ^ k) by (apply Z.pow_le_mono_r_iff with (a := 2) (b := 0) (c := k); lia).
    nia.
Qed.

(** Word bounds on constants and on the hypotheses. *)
Ltac word_tac :=
  unfold word32, mt19937.upper_mask, mt19937.lower_mask, mt19937.matrix_a in *; lia.

Lemma twist_word_word (a b c : Z) : word32 a -> word32 b -> word32 c -> word32 (mt19937.twist_word a b c).
Proof.
  intros Ha Hb Hc. unfold mt19937.twist_word.
  assert (word32 (Z.lor (Z.land a mt19937.upper_mask) (Z.land b mt19937.lower_mask))).
  { apply lor_word; [rewrite Z.land_comm|]; apply land_word_r; word_tac. }
  apply lxor_word; [apply lxor_word; [done|apply shiftr_word; [lia|done]]|].
  destruct (Z.odd _); word_tac.
Qed.

Lemma twist_run_word (xs ys zs : list Z) :
  Forall word32 xs -> Forall word32 ys -> Forall word32 zs -> Forall word32 (mt19937.twist_run xs ys zs).
Proof.
  revert ys zs. induction xs as [|a r IH]; intros [|b r1] [|c rm] Hx Hy Hz; cbn; try constructor.
  - inversion Hx; inversion Hy; inversion Hz; subst. by apply twist_word_word.
  - inversion Hx; inversion Hy; inversion Hz; subst. by apply IH.
Qed.

Lemma lookup_total_word (l : list Z) (i : nat) : Forall word32 l -> word32 (l !!! i).
Proof.
  intros Hl. destruct (l !! i) as [x|] eqn:E.
  - rewrite (list_lookup_total_correct _ _ _ E). by eapply Forall_lookup_1.
  - rewrite list_lookup_total_alt, E. unfold word32. cbn. lia.
Qed.

Lemma twist_word32 (x : list Z) : Forall word32 x -> Forall word32 (mt19937.twist x).
Proof.
  intros Hx. unfold mt19937.twist.
  assert (H1 : Forall word32 (mt19937.twist_run (take (mt19937.n - mt19937.m) x) (drop 1 x) (drop mt19937.m x)))
    by (apply twist_run_word; by apply Forall_take || apply Forall_drop).
  assert (H2 : Forall word32 (mt19937.twist_run (take (mt19937.n - mt19937.m) (drop (mt19937.n - mt19937.m) x))
                 (drop (S (mt19937.n - mt19937.m)) x)
                 (mt19937.twist_run (take (mt19937.n - mt19937.m) x) (drop 1 x) (drop mt19937.m x))))
    by (apply twist_run_word; try done; by apply Forall_take, Forall_drop || apply Forall_drop).
  repeat apply Forall_app_2; try done.
  - apply twist_run_word; try done; by apply Forall_take, Forall_drop || apply Forall_drop.
  - constructor; [|constructor]. apply twist_word_word; apply lookup_total_word; try done.
    by repeat apply Forall_app_2; try (apply twist_run_word; try done; by apply Forall_take, Forall_drop || apply Forall_drop).
Qed.

Lemma temper_word (y : Z) : word32 y -> word32 (mt19937.temper y).
Proof.
  intros Hy. unfold mt19937.temper.
  assert (Hm : forall c, word32 c -> forall z, 0 <= z -> word32 (Z.land z c)) by (intros; by apply land_word_r).
  assert (H1 : word32 (Z.lxor y (Z.land (Z.shiftr y 11) 4294967295))).
  { apply lxor_word; [done|]. apply Hm; [word_tac|]. apply Z.shiftr_nonneg. word_tac. }
  set (y1 := Z.lxor y _) in *.
  assert (H2 : word32 (Z.lxor y1 (Z.land (Z.shiftl y1 7) 2636928640))).
  { apply lxor_word; [done|]. apply Hm; [word_tac|]. apply Z.shiftl_nonneg. word_tac. }
  set (y2 := Z.lxor y1 _) in *.
  assert (H3 : word32 (Z.lxor y2 (Z.land (Z.shiftl y2 15) 4022730752))).
  { apply lxor_word; [done|]. apply Hm; [word_tac|]. apply Z.shiftl_nonneg. word_tac. }
  set (y3 := Z.lxor y2 _) in *.
  apply lxor_word; [done|]. apply shiftr_word; [lia|done].
Qed.

(** A draw of [mt19937] is a 32-bit word and the engine stays valid. *)
Lemma next_word (e : mt19937.engine) :
  valid e -> word32 (mt19937.next e).1 /\ valid (mt19937.next e).2.
Proof.
  unfold valid, mt19937.next. destruct e as [ws un]; cbn [mt19937.words mt19937.unused].
  intros He. apply Forall_app in He as [Hw Hu]. destruct un as [|y r].
  - pose proof (twist_word32 ws Hw) as Ht. cbv zeta.
    destruct (mt19937.twist ws) as [|y r] eqn:E; cbn.
    + split; [apply temper_word; word_tac|]. constructor.
    + inversion Ht as [|? ? Hy Hr]; subst. split; [by apply temper_word|]. constructor; [done|]. by apply Forall_app_2.
  - inversion Hu; subst. split; [by apply temper_word|]. by apply Forall_app_2.
Qed.

Lemma seed_words_word (k : nat) (i prev : Z) : Forall word32 (mt19937.seed_words k i prev).
Proof. revert i prev. induction k as [|k IH]; intros i prev; cbn; constructor; [apply u32_word | apply IH]. Qed.

(** Seeding gives a valid engine. *)
Lemma seed_valid (sd : Z) : valid (mt19937.seed sd).
Proof.
  unfold valid, mt19937.seed. cbn [mt19937.words mt19937.unused]. rewrite app_nil_r.
  constructor; [apply u32_word | apply seed_words_word].
Qed.

Lemma high_word_lt (g range : Z) : word32 g -> 0 < range -> 0 <= Z.shiftr (g * range) 32 < range.
Proof.
  unfold word32. intros Hg Hr. rewrite Z.shiftr_div_pow2 by lia. split.
  - apply Z.div_pos; [nia|lia].
  - apply Z.div_lt_upper_bound; [lia|]. nia.
Qed.

Lemma nd_loop_range (fuel : nat) (e : mt19937.engine) (range threshold r : Z) (e' : mt19937.engine) :
  valid e -> 0 < range -> dist.nd_loop fuel e range threshold = Ok (r, e') -> 0 <= r < range /\ valid e'.
Proof.
  revert e. induction fuel as [|f IH]; intros e He Hr; cbn; [done|].
  destruct (next_word e He) as [Hg He1]. destruct (mt19937.next e) as [g e1]; cbn in *.
  destruct (_ <? threshold); [by apply IH|]. intros [= <- <-]. split; [by apply high_word_lt|done].
Qed.

Lemma S_nd_range (e : mt19937.engine) (range r : Z) (e' : mt19937.engine) :
  valid e -> 0 < range -> dist.S_nd e range = Ok (r, e') -> 0 <= r < range /\ valid e'.
Proof.
  intros He Hr. unfold dist.S_nd.
  destruct (next_word e He) as [Hg He1]. destruct (mt19937.next e) as [g e1]; cbn [fst snd] in *.
  destruct (_ <? range); [destruct (_ <? _); [by apply nd_loop_range|]|];
    intros [= <- <-]; (split; [by apply high_word_lt|done]).
Qed.

(** [uniform_int_distribution(a, b)] returns a value of [[a, b]]. *)
Lemma uniform_int_range (fuel : nat) (a b r : Z) (e e' : mt19937.engine) :
  valid e -> 0 <= b - a < 2 ^ 64 -> dist.uniform_int fuel a b e = Ok (r, e') -> a <= r <= b /\ valid e'.
Proof.
  revert a b r e e'. induction fuel as [|f IH]; intros a b r e e' He Hab; cbn; [done|].
  destruct (Z.ltb_spec b a); [lia|].
  assert (Hu : dist.u64 (b - a) = b - a) by (unfold dist.u64; apply Z.mod_small; lia).
  rewrite Hu. unfold dist.urngrange.
  destruct (Z.ltb_spec (b - a) (2 ^ 32 - 1)).
  - destruct (dist.S_nd e (b - a + 1)) as [[r0 e0]| |] eqn:E; cbn; try done.
    intros [= <- <-]. destruct (S_nd_range e (b - a + 1) r0 e0 He ltac:(lia) E). split; [lia|done].
  - destruct (Z.eqb_spec (b - a) (2 ^ 32 - 1)).
    + destruct (next_word e He) as [Hg He1]. destruct (mt19937.next e) as [g e1]; cbn [fst snd] in *.
      intros [= <- <-]. unfold word32 in Hg. split; [lia|done].
    + destruct (dist.uniform_int f 0 ((b - a) / (2 ^ 32 - 1 + 1)) e) as [[hi e1]| |] eqn:E; cbn; try done.
      assert (Hq : 0 <= (b - a) / (2 ^ 32 - 1 + 1) - 0 < 2 ^ 64).
      { rewrite Z.sub_0_r. split; [apply Z.div_pos; lia|].
        apply (Z.le_lt_trans _ (b - a)); [apply Z.div_le_upper_bound|]; lia. }
      destruct (IH _ _ _ _ _ He Hq E) as [_ He1].
      destruct (next_word e1 He1) as [Hg He2]. destruct (mt19937.next e1) as [g e2]; cbn [fst snd] in *.
      destruct (_ || _) eqn:Hc; [apply (IH _ _ _ _ _ He2 Hab)|].
      apply orb_false_iff in Hc as [Hc1 _]. apply Z.ltb_ge in Hc1.
      intros [= <- <-]. split; [|done]. unfold dist.u64 in *.
      pose proof (Z.mod_pos_bound (((2 ^ 32 - 1 + 1) * hi) mod 2 ^ 64 + g) (2 ^ 64)). lia.
Qed.

(** [iter_swap] keeps the length and, on valid positions, the elements. *)
Lemma length_iter_swap {A} `{Inhabited A} (l : list A) (i j : nat) :
  length (dist.iter_swap l i j) = length l.
Proof. unfold dist.iter_swap. by rewrite !length_insert. Qed.

Lemma iter_swap_perm {A} `{Inhabited A} (l : list A) (i j : nat) :
  (i < length l)%nat -> (j < length l)%nat -> dist.iter_swap l i j ≡ₚ l.
Proof.
  intros Hi Hj. unfold dist.iter_swap.
  destruct (lookup_lt_is_Some_2 l i Hi) as [x Ex], (lookup_lt_is_Some_2 l j Hj) as [y Ey].
  rewrite (list_lookup_total_correct _ _ _ Ex), (list_lookup_total_correct _ _ _ Ey).
  by apply Permutation_insert_swap.
Qed.

(** [k] draws from a valid engine: the last word drawn is a 32-bit word
    and the engine stays valid. *)
Lemma draws_word (k : nat) (e : mt19937.engine) (y : Z) :
  valid e -> word32 y -> word32 (mt19937.draws k e y).1 /\ valid (mt19937.draws k e y).2.
Proof.
  revert e y. induction k as [|k IH]; intros e y He Hy; cbn [mt19937.draws]; [done|].
  destruct (next_word e He) as [Hg He1]. destruct (mt19937.next e) as [g e1]. by apply IH.
Qed.

(** C27: the 32-bit invariant of [mt19937]: every state that seeding
    and drawing reach holds 32-bit words only ([seed] reduces each word
    modulo [2^32], the twist and the tempering keep words within 32
    bits), and every draw is a 32-bit value.  So the 64-bit masks of
    [_M_gen_rand] act on the words as 32-bit ones do, and [max()] is
    [2^32 - 1]. *)
Theorem mt19937_words_32bit (sd : Z) (k : nat) :
  valid (mt19937.draws k (mt19937.seed sd) 0).2 /\ word32 (mt19937.draws (S k) (mt19937.seed sd) 0).1.
Proof.
  assert (H0 : word32 0) by word_tac.
  split; [apply (draws_word k _ 0 (seed_valid sd) H0)|].
  cbn [mt19937.draws]. destruct (next_word _ (seed_valid sd)) as [Hg He1].
  destruct (mt19937.next _) as [g e1]. by apply draws_word.
Qed.
