(* ===== verification/RandomSpec.v ===== *)
(** * Reference definitions for the random-number library

    [rand.eng.mers]/2 defines the words of [mt19937] by the recurrence
    [X(i+n) = X(i+m) xor ((X(i)^u | X(i+1)^l) A)] on the whole sequence,
    one new word at a time.  libstdc++ computes the next 624 words at once,
    in place, in three loops ([_M_gen_rand], modelled by [mt19937.twist]
    in Random): the words whose [X(i+m)] is an old word, those whose
    [X(i+m)] the first loop has just written, and the last word, which
    wraps around to the first new one.  This file states the recurrence as
    a reference generator [twist_ref] and proves that the in-place loops
    compute exactly the same words: both solve the recurrence, which has a
    single solution.

    It also states Lemire's rejection sampling as [lemire_spec.lemire]
    (reject a draw whose low word is below [2^32 mod s]) and proves that
    libstdc++'s [_S_nd], which tests the low word against [s] first and
    computes [-s % s] only below it, rejects and returns the same; and it
    shows what [std::shuffle] gives from any valid engine: a permutation,
    or, when the [reject_fuel] bound of a draw runs out, a draw whose
    [reject_fuel + 1] tries Lemire's test all rejects ([shuffle_post]). *)

From stdpp Require Import base list.
From Stdlib Require Import ZArith Lia.
From S2P Require Import Prelude Random.

Local Open Scope Z_scope.

Module mt_spec.

Import mt19937.

(** [X(i+n)] from [X(i)], [X(i+1)] and [X(i+m)], the sequence [X] being
    the words generated so far. *)
Definition ref_word (X : list Z) (i : nat) : Z := twist_word (X !!! i) (X !!! S i) (X !!! (i + m)%nat).

(** [k] more words of the sequence, from position [i] on. *)
Fixpoint ref_gen (k i : nat) (X : list Z) : list Z :=
  match k with
  | O => X
  | S k' => ref_gen k' (S i) (X ++ [ref_word X i])
  end.

(** The next [n] words after the [n] words [x], as the standard defines
    them. *)
Definition twist_ref (x : list Z) : list Z := drop n (ref_gen n 0 x).

(** [out] continues [x] by the recurrence. *)
Definition solves (x out : list Z) : Prop :=
  length out = n /\
  forall j : nat, (j < n)%nat ->
    (x ++ out) !!! (n + j)%nat = twist_word ((x ++ out) !!! j) ((x ++ out) !!! S j) ((x ++ out) !!! (j + m)%nat).

End mt_spec.

(** ** Lemire's rejection sampling

    A draw of [uniform_int_distribution] over a range of [s] values
    ([s < 2^32 - 1]) is Lemire's nearly divisionless method: the 64-bit
    product of a 32-bit draw [g] by [s] is kept when its low word is not
    below [2^32 mod s], and its high word is the result.  The reference
    tests every draw against [2^32 mod s]; libstdc++ ([_S_nd]) computes
    that remainder only when the low word is below [s]. *)

Module lemire_spec.

Import mt19937.

(** Up to [k] draws, each rejected when its low word is below
    [2^32 mod s]; [NoFuel] when all [k] are rejected. *)
Fixpoint lemire (k : nat) (e : engine) (s : Z) : outcome (Z * engine) :=
  match k with
  | O => NoFuel
  | S k' =>
      let '(g, e') := next e in
      if (g * s) mod 2 ^ 32 <? 2 ^ 32 mod s then lemire k' e' s else Ok ((g * s) / 2 ^ 32, e')
  end.

(** The next [k] draws of [e] are all rejected for a range of [s]. *)
Fixpoint exhausts (k : nat) (e : engine) (s : Z) : bool :=
  match k with
  | O => true
  | S k' => let '(g, e') := next e in ((g * s) mod 2 ^ 32 <? 2 ^ 32 mod s) && exhausts k' e' s
  end.

End lemire_spec.

(** What a loop of [std::shuffle] making up to [k] draws from [e] on a
    range of [N] elements gives: a permutation of [l] and a valid engine,
    or one of its draws, within the first [(reject_fuel + 1) k] draws of
    [e] and over a range of [2] to [N * N] values, whose [reject_fuel + 1]
    tries are all rejected. *)
Definition shuffle_post {A} (N : nat) (l : list A) (e : mt19937.engine) (k : nat)
    (r : outcome (list A * mt19937.engine)) : Prop :=
  match r with
  | Ok (l', e') => l' ≡ₚ l /\ valid e'
  | Stuck _ => False
  | NoFuel => exists j s, (j < S dist.reject_fuel * k)%nat /\ 2 <= s <= Z.of_nat N * Z.of_nat N /\
      lemire_spec.exhausts (S dist.reject_fuel) (mt19937.draws j e 0).2 s = true
  end.

(** ** Lemmas *)

Lemma length_twist_run (xs ys zs : list Z) :
  length (mt19937.twist_run xs ys zs) = Nat.min (length xs) (Nat.min (length ys) (length zs)).
Proof.
  revert ys zs. induction xs as [|a r IH]; intros [|b r1] [|c rm]; cbn; try lia. rewrite IH. lia.
Qed.

Lemma twist_run_lookup (xs ys zs : list Z) (i : nat) :
  (i < length xs)%nat -> (i < length ys)%nat -> (i < length zs)%nat ->
  mt19937.twist_run xs ys zs !!! i = mt19937.twist_word (xs !!! i) (ys !!! i) (zs !!! i).
Proof.
  revert ys zs i. induction xs as [|a r IH]; intros [|b r1] [|c rm] [|i]; cbn [length]; intros; try lia.
  - reflexivity.
  - apply (IH r1 rm i); lia.
Qed.

(** Lengths and positions in the lists [twist] builds. *)
Ltac len_tac :=
  repeat rewrite ?length_app, ?length_twist_run, ?length_take, ?length_drop, ?length_cons, ?length_nil;
  unfold mt19937.n, mt19937.m in *; lia.

Ltac lk :=
  repeat first
    [ rewrite lookup_total_app_l by len_tac
    | rewrite lookup_total_app_r by len_tac
    | rewrite lookup_total_take_lt by len_tac
    | rewrite lookup_total_drop
    | rewrite twist_run_lookup by len_tac ].

Ltac same_words := f_equal; try reflexivity; f_equal; lia.

(** The three loops of [_M_gen_rand] solve the recurrence. *)
Lemma twist_solves (x : list Z) : length x = mt19937.n -> mt_spec.solves x (mt19937.twist x).
Proof.
  intros Hx. unfold mt19937.twist.
  set (p1 := mt19937.twist_run _ _ _).
  set (p2a := mt19937.twist_run _ _ p1).
  set (p2b := mt19937.twist_run _ _ p2a).
  assert (L1 : length p1 = 227%nat) by (subst p1; len_tac).
  assert (L2 : length p2a = 227%nat) by (subst p2a; len_tac).
  assert (L3 : length p2b = 169%nat) by (subst p2b; len_tac).
  split; [len_tac|].
  intros j Hj. unfold mt19937.n, mt19937.m in *.
  rewrite lookup_total_app_r by len_tac. rewrite Hx.
  replace (624 + j - 624)%nat with j by lia.
  destruct (decide (j < 227)%nat) as [Ha|Ha]; [|destruct (decide (j < 454)%nat) as [Hb|Hb];
    [|destruct (decide (j < 623)%nat) as [Hc|Hc]]].
  - lk. subst p1. lk. same_words.
  - lk. subst p2a. lk. same_words.
  - lk. subst p2b. lk. same_words.
  - assert (j = 623%nat) as -> by lia. lk. rewrite L1, L2, L3, Hx.
    replace (623 - 227 - 227 - 169)%nat with 0%nat by lia. cbn [lookup_total list_lookup_total]. same_words.
Qed.

(** The positions a word of the recurrence reads come before it. *)
Lemma recurrence_reads_before (j : nat) :
  (j < mt19937.n + j)%nat /\ (S j < mt19937.n + j)%nat /\ (j + mt19937.m < mt19937.n + j)%nat.
Proof. unfold mt19937.n, mt19937.m. lia. Qed.

(** The reference generator appends the words of the recurrence and
    keeps those already there. *)
Lemma ref_gen_spec (k i : nat) (X : list Z) :
  length X = (mt19937.n + i)%nat ->
  (forall j, (j < i)%nat -> X !!! (mt19937.n + j)%nat = mt_spec.ref_word X j) ->
  length (mt_spec.ref_gen k i X) = (mt19937.n + i + k)%nat /\
  take (mt19937.n + i) (mt_spec.ref_gen k i X) = X /\
  forall j, (j < i + k)%nat ->
    mt_spec.ref_gen k i X !!! (mt19937.n + j)%nat = mt_spec.ref_word (mt_spec.ref_gen k i X) j.
Proof.
  revert i X. induction k as [|k IH]; intros i X HX Hrec; cbn [mt_spec.ref_gen].
  - split; [lia|split; [rewrite <- HX; apply firstn_all|]]. intros j Hj. apply Hrec. lia.
  - set (X' := X ++ [mt_spec.ref_word X i]).
    assert (HX' : length X' = (mt19937.n + S i)%nat) by (subst X'; rewrite length_app, HX; cbn [length]; lia).
    assert (Hpre : forall q, (q < length X)%nat -> X' !!! q = X !!! q)
      by (intros q Hq; subst X'; by rewrite lookup_total_app_l).
    assert (Hword : forall j, (j <= i)%nat -> mt_spec.ref_word X' j = mt_spec.ref_word X j).
    { intros j Hj. unfold mt_spec.ref_word. pose proof (recurrence_reads_before j).
      rewrite !Hpre by lia. reflexivity. }
    destruct (IH (S i) X' HX') as (HL & HT & HR).
    { intros j Hj. destruct (decide (j < i)%nat).
      - rewrite Hpre, Hword by lia. by apply Hrec.
      - assert (j = i) as -> by lia. subst X'. rewrite lookup_total_app_r by lia.
        rewrite HX. replace (mt19937.n + i - (mt19937.n + i))%nat with 0%nat by lia. cbn.
        symmetry. by apply Hword. }
    split; [lia|split].
    + rewrite <- (take_drop (mt19937.n + S i) (mt_spec.ref_gen k (S i) X')), HT.
      rewrite take_app_le by lia. subst X'.
      rewrite take_app_le by lia. rewrite <- HX. apply firstn_all.
    + intros j Hj. apply HR. lia.
Qed.

(** A sequence of [2n] words that follows the recurrence past its first
    [n] words continues them by a solution. *)
Lemma drop_solves (x Y : list Z) :
  length x = mt19937.n -> take mt19937.n Y = x -> length Y = (mt19937.n + mt19937.n)%nat ->
  (forall j, (j < mt19937.n)%nat -> Y !!! (mt19937.n + j)%nat = mt_spec.ref_word Y j) ->
  mt_spec.solves x (drop mt19937.n Y).
Proof.
  intros Hx HT HL HR.
  assert (HY : x ++ drop mt19937.n Y = Y) by (rewrite <- HT; apply take_drop).
  split; [rewrite length_drop; lia|]. intros j Hj. rewrite HY. apply HR, Hj.
Qed.

(** The reference generator solves the recurrence. *)
Lemma twist_ref_solves (x : list Z) : length x = mt19937.n -> mt_spec.solves x (mt_spec.twist_ref x).
Proof.
  intros Hx.
  assert (H0 : length x = (mt19937.n + 0)%nat) by (rewrite Nat.add_0_r; exact Hx).
  assert (H1 : forall j, (j < 0)%nat -> x !!! (mt19937.n + j)%nat = mt_spec.ref_word x j) by (intros; lia).
  destruct (ref_gen_spec mt19937.n 0 x H0 H1) as (HL & HT & HR).
  apply drop_solves; [exact Hx|rewrite Nat.add_0_r in HT; exact HT|rewrite HL; lia|].
  intros j Hj. apply HR. lia.
Qed.

(** The recurrence has one solution: each new word is determined by the
    words before it. *)
Lemma solves_unique (x o1 o2 : list Z) :
  length x = mt19937.n -> mt_spec.solves x o1 -> mt_spec.solves x o2 -> o1 = o2.
Proof.
  intros Hx [L1 R1] [L2 R2].
  assert (Hj : forall j, (j < mt19937.n)%nat -> o1 !!! j = o2 !!! j).
  { induction j as [j IH] using lt_wf_ind. intros Hj.
    assert (Hs : forall q, (q < mt19937.n + j)%nat -> (x ++ o1) !!! q = (x ++ o2) !!! q).
    { intros q Hq. destruct (decide (q < length x)%nat).
      - by rewrite !lookup_total_app_l.
      - rewrite !lookup_total_app_r by lia. apply IH; lia. }
    pose proof (recurrence_reads_before j) as (Ha & Hb & Hc).
    specialize (R1 j Hj). specialize (R2 j Hj).
    rewrite lookup_total_app_r, Hx, Nat.add_sub_swap, Nat.sub_diag, Nat.add_0_l in R1, R2 by lia.
    rewrite R1, R2, !Hs by lia. reflexivity. }
  apply (list_eq_same_length _ _ mt19937.n); [done|done|].
  intros i a b Hi Ea Eb. rewrite <- (list_lookup_total_correct _ _ _ Ea), <- (list_lookup_total_correct _ _ _ Eb).
  by apply Hj.
Qed.

(** C26: libstdc++'s [_M_gen_rand], which regenerates the 624 words in
    place in three loops, computes the words the recurrence of
    [rand.eng.mers] defines one at a time: for every state of 624 words,
    [twist] and the reference generator [twist_ref] agree. *)
Theorem twist_refines_recurrence (x : list Z) : length x = mt19937.n -> mt19937.twist x = mt_spec.twist_ref x.
Proof.
  intros Hx. apply (solves_unique x); [done|apply twist_solves, Hx|apply twist_ref_solves, Hx].
Qed.

Lemma twist_refines_recurrence_witness :
  length (mt19937.words mt19937.default) = mt19937.n /\
  mt19937.twist (mt19937.words mt19937.default) = mt_spec.twist_ref (mt19937.words mt19937.default).
Proof.
  assert (H : length (mt19937.words mt19937.default) = mt19937.n) by (vm_compute; reflexivity).
  split; [exact H|]. exact (twist_refines_recurrence _ H).
Defined.

(** ** libstdc++'s [_S_nd] is Lemire's method *)

(** [-s % s] in [uint32_t] is [2^32 mod s]. *)
Lemma threshold_eq (s : Z) : 0 < s < 2 ^ 32 -> u32 (- s) mod s = 2 ^ 32 mod s.
Proof.
  intros Hs. unfold u32.
  assert (E : (- s) mod 2 ^ 32 = 2 ^ 32 - s).
  { rewrite <- (Z.mod_add (- s) 1 (2 ^ 32)) by lia. rewrite Z.mod_small; lia. }
  rewrite E. replace (2 ^ 32 - s) with (2 ^ 32 + (-1) * s) by lia. apply Z.mod_add. lia.
Qed.

Lemma nd_loop_lemire (k : nat) (e : mt19937.engine) (s : Z) :
  dist.nd_loop k e s (2 ^ 32 mod s) = lemire_spec.lemire k e s.
Proof.
  revert e. induction k as [|k IH]; intros e; cbn [dist.nd_loop lemire_spec.lemire]; [done|].
  destruct (mt19937.next e) as [g e']. rewrite IH, Z.shiftr_div_pow2 by lia. reflexivity.
Qed.

(** The low word is compared with [-s % s] only when it is below [s]:
    above, it is above the remainder too. *)
Lemma S_nd_lemire (e : mt19937.engine) (s : Z) :
  0 < s < 2 ^ 32 -> dist.S_nd e s = lemire_spec.lemire (S dist.reject_fuel) e s.
Proof.
  intros Hs. unfold dist.S_nd. cbn [lemire_spec.lemire]. destruct (mt19937.next e) as [g e1]. cbv zeta.
  rewrite threshold_eq, nd_loop_lemire, Z.shiftr_div_pow2 by lia.
  pose proof (Z.mod_pos_bound (2 ^ 32) s ltac:(lia)).
  destruct (Z.ltb_spec ((g * s) mod 2 ^ 32) s); [reflexivity|].
  destruct (Z.ltb_spec ((g * s) mod 2 ^ 32) (2 ^ 32 mod s)); [lia|reflexivity].
Qed.

Lemma uniform_int_lemire (fuel : nat) (a b : Z) (e : mt19937.engine) :
  0 <= b - a < dist.urngrange ->
  dist.uniform_int (S fuel) a b e =
    out_map (fun r_ => (a + r_.1, r_.2)) (lemire_spec.lemire (S dist.reject_fuel) e (b - a + 1)).
Proof.
  intros Hab. cbn [dist.uniform_int]. cbv zeta. unfold dist.urngrange in *.
  destruct (Z.ltb_spec b a); [lia|].
  assert (Hu : dist.u64 (b - a) = b - a) by (unfold dist.u64; apply Z.mod_small; lia).
  rewrite Hu. destruct (Z.ltb_spec (b - a) (2 ^ 32 - 1)); [|lia].
  rewrite S_nd_lemire by lia. destruct (lemire_spec.lemire _ e _) as [[r e']| |]; reflexivity.
Qed.

(** C25: on the path the program takes (a range of fewer than
    [2^32 - 1] values over the 32-bit [mt19937]),
    [uniform_int_distribution(a, b)] is Lemire's rejection sampling: its
    result is [a] plus the high word of [g * (b - a + 1)] for the first
    draw [g] whose low word is not below [2^32 mod (b - a + 1)], within
    [reject_fuel + 1] draws.  libstdc++'s test, which skips the
    remainder when the low word is not below the range, rejects exactly
    the same draws. *)
Theorem uniform_int_refines_lemire (fuel : nat) (a b : Z) (e : mt19937.engine) :
  0 <= b - a < dist.urngrange ->
  dist.uniform_int (S fuel) a b e =
    out_map (fun r_ => (a + r_.1, r_.2)) (lemire_spec.lemire (S dist.reject_fuel) e (b - a + 1)).
Proof. apply uniform_int_lemire. Qed.

Lemma uniform_int_refines_lemire_witness :
  0 <= 100 - 0 < dist.urngrange /\
  dist.uniform_int dist.reject_fuel 0 100 mt19937.default =
    out_map (fun r_ => (0 + r_.1, r_.2)) (lemire_spec.lemire (S dist.reject_fuel) mt19937.default (100 - 0 + 1)).
Proof.
  split; [unfold dist.urngrange; lia|].
  exact (uniform_int_refines_lemire 63 0 100 mt19937.default ltac:(unfold dist.urngrange; lia)).
Defined.

(** ** [std::shuffle] either permutes or meets an exhausted draw *)

Lemma draws_snd (k : nat) (e : mt19937.engine) (y : Z) : (mt19937.draws k e y).2 = (mt19937.draws k e 0).2.
Proof. revert e y. induction k as [|k IH]; intros e y; cbn [mt19937.draws]; [done|]. by destruct (mt19937.next e). Qed.

Lemma draws_add (d1 d2 : nat) (e : mt19937.engine) :
  (mt19937.draws (d1 + d2) e 0).2 = (mt19937.draws d2 (mt19937.draws d1 e 0).2 0).2.
Proof.
  revert e. induction d1 as [|d1 IH]; intros e; [done|]. cbn [Nat.add mt19937.draws].
  destruct (mt19937.next e) as [g e1]. by rewrite (draws_snd (d1 + d2) e1 g), IH, (draws_snd d1 e1 g).
Qed.

(** An accepted draw of Lemire's method comes after one to [k] draws. *)
Lemma lemire_ok_draws (k : nat) (e : mt19937.engine) (s r : Z) (e' : mt19937.engine) :
  lemire_spec.lemire k e s = Ok (r, e') -> exists d, (1 <= d <= k)%nat /\ e' = (mt19937.draws d e 0).2.
Proof.
  revert e. induction k as [|k IH]; intros e; cbn [lemire_spec.lemire]; [done|].
  destruct (mt19937.next e) as [g e1] eqn:En. destruct (_ <? _).
  - intros H. destruct (IH e1 H) as (d & Hd & ->). exists (S d). split; [lia|].
    cbn [mt19937.draws]. rewrite En. cbn [mt19937.draws]. symmetry. apply draws_snd.
  - intros [= _ <-]. exists 1%nat. split; [lia|]. cbn [mt19937.draws]. by rewrite En.
Qed.

Lemma lemire_nofuel (k : nat) (e : mt19937.engine) (s : Z) :
  lemire_spec.lemire k e s = NoFuel -> lemire_spec.exhausts k e s = true.
Proof.
  revert e. induction k as [|k IH]; intros e; cbn [lemire_spec.lemire lemire_spec.exhausts]; [done|].
  destruct (mt19937.next e) as [g e1]. destruct (_ <? _); [apply IH|discriminate].
Qed.

Lemma lemire_not_stuck (k : nat) (e : mt19937.engine) (s : Z) (u : ub) : lemire_spec.lemire k e s <> Stuck u.
Proof.
  revert e. induction k as [|k IH]; intros e; cbn [lemire_spec.lemire]; [discriminate|].
  destruct (mt19937.next e) as [g e1]. destruct (_ <? _); [apply IH|discriminate].
Qed.

(** A draw of [uniform_int_distribution(0, b)] below the engine's range
    gives a value of [[0, b]] after one to [reject_fuel + 1] draws, or
    runs out when all [reject_fuel + 1] draws are rejected. *)
Lemma draw_cases (b : Z) (e : mt19937.engine) :
  valid e -> 0 <= b < dist.urngrange ->
  match dist.uniform_int dist.reject_fuel 0 b e with
  | Ok (x, e') => 0 <= x <= b /\ valid e' /\
      exists d, (1 <= d <= S dist.reject_fuel)%nat /\ e' = (mt19937.draws d e 0).2
  | Stuck _ => False
  | NoFuel => lemire_spec.exhausts (S dist.reject_fuel) e (b + 1) = true
  end.
Proof.
  intros He Hb.
  assert (E0 : dist.uniform_int dist.reject_fuel 0 b e =
    out_map (fun r_ => (0 + r_.1, r_.2)) (lemire_spec.lemire (S dist.reject_fuel) e (b - 0 + 1)))
    by (apply (uniform_int_lemire 63); lia).
  rewrite Z.sub_0_r in E0.
  pose proof (fun r e' => uniform_int_range dist.reject_fuel 0 b r e e' He) as Hr. rewrite E0 in Hr |- *.
  destruct (lemire_spec.lemire _ e _) as [[r e1]|u|] eqn:L; cbn [out_map out_bind fst snd] in Hr |- *.
  - destruct (Hr _ _ ltac:(unfold dist.urngrange in Hb; lia) eq_refl) as [Hx He1].
    split; [done|split; [done|]]. exact (lemire_ok_draws _ _ _ _ _ L).
  - exact (lemire_not_stuck _ _ _ u L).
  - by apply lemire_nofuel.
Qed.

Lemma post_mono {A} (N : nat) (l : list A) (e : mt19937.engine) (k k' : nat) r :
  (k <= k')%nat -> shuffle_post N l e k r -> shuffle_post N l e k' r.
Proof.
  intros Hk. destruct r as [[l' e']| |]; cbn [shuffle_post]; [done|done|].
  intros (j & s & Hj & Hs & Hx). exists j, s. split; [nia|exact (conj Hs Hx)].
Qed.

Lemma post_step {A} (N : nat) (l l1 : list A) (e e1 : mt19937.engine) (d k : nat) r :
  l1 ≡ₚ l -> (1 <= d <= S dist.reject_fuel)%nat -> e1 = (mt19937.draws d e 0).2 ->
  shuffle_post N l1 e1 k r -> shuffle_post N l e (S k) r.
Proof.
  intros Hp Hd ->. destruct r as [[l' e']| |]; cbn [shuffle_post]; [|done|].
  - intros [Hp' He']. split; [by rewrite Hp'|done].
  - intros (j & s & Hj & Hs & Hx). exists (d + j)%nat, s. rewrite draws_add.
    split; [nia|exact (conj Hs Hx)].
Qed.

Lemma post_now {A} (N : nat) (l : list A) (e : mt19937.engine) (k : nat) (s : Z) :
  2 <= s <= Z.of_nat N * Z.of_nat N -> lemire_spec.exhausts (S dist.reject_fuel) e s = true ->
  shuffle_post N l e (S k) NoFuel.
Proof. intros Hs Hx. exists 0%nat, s. split; [lia|exact (conj Hs Hx)]. Qed.

(** The loop with one draw per element, from position [i] on. *)
Lemma shuffle_single_post {A} `{Inhabited A} (k i : nat) (l : list A) (e : mt19937.engine) :
  valid e -> (1 <= i)%nat -> (i + k <= length l)%nat -> Z.of_nat (length l) <= dist.urngrange ->
  shuffle_post (length l) l e k (dist.shuffle_single k i l e).
Proof.
  revert i l e. induction k as [|k IH]; intros i l e He Hi Hk Hn; cbn [dist.shuffle_single].
  - split; [done|done].
  - pose proof (draw_cases (Z.of_nat i) e He ltac:(lia)) as Hd.
    destruct (dist.uniform_int _ 0 _ e) as [[x e1]|u|]; cbn [out_bind]; [|contradiction|].
    + destruct Hd as (Hx & He1 & d & Hd & Ee1).
      set (l1 := dist.iter_swap l i (Z.to_nat x)).
      assert (L1 : length l1 = length l) by apply length_iter_swap.
      apply (post_step _ _ l1 _ e1 d); [apply iter_swap_perm; lia|exact Hd|exact Ee1|].
      rewrite <- L1. apply IH; rewrite ?L1; (done || lia).
    + eapply post_now; [|exact Hd]. nia.
Qed.

(** The loop with two swaps per draw, from position [i] on. *)
Lemma shuffle_pairs_post {A} `{Inhabited A} (k i : nat) (l : list A) (e : mt19937.engine) :
  valid e -> (1 <= i)%nat -> (i + 2 * k <= length l)%nat ->
  Z.of_nat (length l) * Z.of_nat (length l) <= dist.urngrange ->
  shuffle_post (length l) l e k (dist.shuffle_pairs k i l e).
Proof.
  revert i l e. induction k as [|k IH]; intros i l e He Hi Hk Hn; cbn [dist.shuffle_pairs].
  - split; [done|done].
  - set (w := Z.of_nat i + 1).
    assert (Hw : 2 <= w * (w + 1) <= Z.of_nat (length l) * Z.of_nat (length l)) by (subst w; nia).
    pose proof (draw_cases (w * (w + 1) - 1) e He ltac:(lia)) as Hd.
    destruct (dist.uniform_int _ 0 _ e) as [[x e1]|u|]; cbn [out_bind]; [|contradiction|].
    + destruct Hd as (Hx & He1 & d & Hd & Ee1).
      assert (Hq : 0 <= x / (w + 1) < w) by (split; [apply Z.div_pos|apply Z.div_lt_upper_bound]; nia).
      pose proof (Z.mod_pos_bound x (w + 1) ltac:(lia)) as Hr.
      set (l1 := dist.iter_swap l i (Z.to_nat (x / (w + 1)))).
      set (l2 := dist.iter_swap l1 (S i) (Z.to_nat (x mod (w + 1)))).
      assert (L2 : length l2 = length l) by (subst l2 l1; by rewrite !length_iter_swap).
      apply (post_step _ _ l2 _ e1 d); [|exact Hd|exact Ee1|].
      * subst l2 l1. rewrite iter_swap_perm by (rewrite ?length_iter_swap; lia). apply iter_swap_perm; lia.
      * rewrite <- L2. apply IH; rewrite ?L2; (done || lia).
    + eapply post_now; [exact Hw|]. by rewrite Z.sub_add in Hd.
Qed.

Lemma shuffle_post_all {A} `{Inhabited A} (l : list A) (e : mt19937.engine) :
  valid e -> Z.of_nat (length l) <= dist.urngrange ->
  shuffle_post (length l) l e (length l) (dist.shuffle l e).
Proof.
  intros He Hn. unfold dist.shuffle.
  destruct (Nat.eqb_spec (length l) 0) as [_|Hnz]; [split; [done|done]|].
  destruct (Z.leb_spec (Z.of_nat (length l)) (dist.urngrange / Z.of_nat (length l))) as [Hsq|_].
  - assert (Hsq' : Z.of_nat (length l) * Z.of_nat (length l) <= dist.urngrange).
    { pose proof (Z.mul_div_le dist.urngrange (Z.of_nat (length l)) ltac:(lia)). nia. }
    destruct (Z.even _) eqn:Ev.
    + assert (H2 : (2 <= length l)%nat) by (destruct (length l) as [|[|]]; [done|discriminate|lia]).
      pose proof (draw_cases 1 e He ltac:(unfold dist.urngrange; lia)) as Hd.
      destruct (dist.uniform_int _ 0 1 e) as [[x e1]|u|]; cbn [out_bind]; [|contradiction|].
      * destruct Hd as (Hx & He1 & d & Hd & Ee1).
        set (l1 := dist.iter_swap l 1 (Z.to_nat x)).
        assert (L1 : length l1 = length l) by apply length_iter_swap.
        pose proof (Nat.Div0.mul_div_le (length l - 2) 2).
        apply (post_mono _ _ _ (S ((length l - 2) / 2))); [lia|].
        apply (post_step _ _ l1 _ e1 d); [apply iter_swap_perm; lia|exact Hd|exact Ee1|].
        rewrite <- L1. apply shuffle_pairs_post; rewrite ?L1; (done || lia).
      * apply (post_mono _ _ _ 1); [lia|]. eapply post_now; [|exact Hd]. nia.
    + pose proof (Nat.Div0.mul_div_le (length l - 1) 2).
      apply (post_mono _ _ _ ((length l - 1) / 2)); [lia|].
      apply shuffle_pairs_post; (done || lia).
  - apply (post_mono _ _ _ (length l - 1)); [lia|]. apply shuffle_single_post; (done || lia).
Qed.

(** C24: [std::shuffle] on a range of up to [2^32 - 1] elements with an
    [mt19937] that seeding and drawing have produced is never undefined
    and permutes the range, on both of its paths (two swaps per draw when
    [n * n] fits the engine's range, one swap per draw otherwise), leaving
    the engine valid; it runs out of the [reject_fuel] bound only when
    one of its at most [n] draws, over a range of [2] to [n * n] values,
    meets [reject_fuel + 1] draws of the engine that Lemire's test all
    rejects. *)
Theorem shuffle_permutation {A} `{Inhabited A} (l : list A) (e : mt19937.engine) :
  valid e -> Z.of_nat (length l) <= dist.urngrange ->
  match dist.shuffle l e with
  | Ok (l', e') => l' ≡ₚ l /\ valid e'
  | Stuck _ => False
  | NoFuel => exists j s, (j < S dist.reject_fuel * length l)%nat /\
      2 <= s <= Z.of_nat (length l) * Z.of_nat (length l) /\
      lemire_spec.exhausts (S dist.reject_fuel) (mt19937.draws j e 0).2 s = true
  end.
Proof. intros He Hn. exact (shuffle_post_all l e He Hn). Qed.

Lemma shuffle_permutation_witness :
  match dist.shuffle [1; 2; 3; 4; 5; 6; 7; 8; 9; 10] (mt19937.seed 42) with
  | Ok (l', e') => l' ≡ₚ [1; 2; 3; 4; 5; 6; 7; 8; 9; 10] /\ valid e'
  | Stuck _ => False
  | NoFuel => exists j s, (j < S dist.reject_fuel * 10)%nat /\ 2 <= s <= 10 * 10 /\
      lemire_spec.exhausts (S dist.reject_fuel) (mt19937.draws j (mt19937.seed 42) 0).2 s = true
  end.
Proof.
  pose proof (shuffle_permutation [1; 2; 3; 4; 5; 6; 7; 8; 9; 10] (mt19937.seed 42) (seed_valid 42)
    ltac:(cbn; unfold dist.urngrange; lia)) as H.
  exact H.
Defined.
