(* ===== verification/Vector.v ===== *)
(** * [std::vector] with libstdc++'s growth and iterator invalidation

    A vector is its elements, its capacity, and the log of the events that
    invalidate iterators: a reallocation invalidates every iterator, an
    insertion at [p] without reallocation invalidates the iterators at or
    after [p] ([vector.modifiers]: "references, pointers, and iterators
    before the insertion point remain valid").  An iterator is a position
    and the length of the log when it was obtained; it is valid while no
    later event invalidates it.  Using an invalid iterator is undefined
    ([Stuck InvalidatedIterator]).  The capacity follows libstdc++:
    an [initializer_list] allocates exactly its size, and a full vector
    grows to [size + max(size, 1)] ([_M_check_len(1)] in
    [_M_realloc_insert]).  The iterator adaptors of <iterator> that write
    into a vector ([back_insert_iterator], [insert_iterator]) are here as
    well. *)

From stdpp Require Import base list.
From Stdlib Require Import ZArith Lia.
From S2P Require Import Prelude.

Local Open Scope cpp_scope.

Module vector.

Inductive event := Realloc | InsertAt (p : nat).

Record vector (A : Type) := mk {
  elems : list A;      (** [_M_start] .. [_M_finish] *)
  capacity : nat;      (** [_M_end_of_storage - _M_start] *)
  events : list event  (** what invalidated iterators so far *)
}.
Arguments mk {A} elems capacity events.
Arguments elems {A} v.
Arguments capacity {A} v.
Arguments events {A} v.

Record iterator := mk_it { pos : nat; born : nat }.

Section Ops.
Context {A : Type}.

(** [vector<T> v;] *)
Definition empty : vector A := mk [] 0 [].

(** [vector<T> v = {x1, ..., xn};] *)
Definition of_list (l : list A) : vector A := mk l (length l) [].

Definition size (v : vector A) : nat := length (elems v).

(** [_M_check_len(1)]: the capacity after growing a full vector. *)
Definition grow (n : nat) : nat := n + Nat.max n 1.

Definition begin (v : vector A) : iterator := mk_it 0 (length (events v)).
Definition end_ (v : vector A) : iterator := mk_it (size v) (length (events v)).

(** An event since the iterator was obtained invalidates it. *)
Definition invalidates (it : iterator) (e : event) : bool :=
  match e with Realloc => true | InsertAt p => p <=? pos it end.

(** An iterator of [v] was obtained from [v] (its [born] is within the
    log) and nothing invalidated it since. *)
Definition valid (v : vector A) (it : iterator) : bool :=
  (born it <=? length (events v)) &&
  negb (existsb (invalidates it) (drop (born it) (events v))) && (pos it <=? size v).

(** [*it] as an rvalue. *)
Definition deref (v : vector A) (it : iterator) : outcome A :=
  if valid v it then
    match elems v !! pos it with Some x => Ok x | None => Stuck OutOfRange end
  else Stuck InvalidatedIterator.

(** [*it = x]. *)
Definition store (v : vector A) (it : iterator) (x : A) : outcome (vector A) :=
  if valid v it then
    if pos it <? size v then Ok (mk (<[pos it := x]> (elems v)) (capacity v) (events v))
    else Stuck OutOfRange
  else Stuck InvalidatedIterator.

(** [v[i] = x], without bounds checking. *)
Definition at_put (v : vector A) (i : nat) (x : A) : outcome (vector A) :=
  if (i <? size v)%nat then Ok (mk (<[i := x]> (elems v)) (capacity v) (events v)) else Stuck OutOfRange.

(** [++it]. *)
Definition incr (v : vector A) (it : iterator) : outcome iterator :=
  if valid v it then
    if pos it <? size v then Ok (mk_it (S (pos it)) (born it)) else Stuck OutOfRange
  else Stuck InvalidatedIterator.

(** [v.insert(it, x)]: [x] goes before [it]; the result points to it. *)
Definition insert (v : vector A) (it : iterator) (x : A) : outcome (iterator * vector A) :=
  if valid v it then
    let p := pos it in
    let es := take p (elems v) ++ x :: drop p (elems v) in
    let v' := if size v <? capacity v then mk es (capacity v) (events v ++ [InsertAt p])
              else mk es (grow (size v)) (events v ++ [Realloc]) in
    Ok (mk_it p (length (events v')), v')
  else Stuck InvalidatedIterator.

(** [v.push_back(x)], an insertion at [end()]. *)
Definition push_back (v : vector A) (x : A) : vector A :=
  let es := elems v ++ [x] in
  if size v <? capacity v then mk es (capacity v) (events v ++ [InsertAt (size v)])
  else mk es (grow (size v)) (events v ++ [Realloc]).

(** [*back_inserter(v) = x] ([back_insert_iterator::operator=]). *)
Definition back_insert (v : vector A) (x : A) : vector A := push_back v x.

(** [*ins = x] for [insert_iterator ins] holding [iter]:
    [iter = container->insert(iter, x); ++iter;]. *)
Definition insert_assign (v : vector A) (iter : iterator) (x : A) : outcome (iterator * vector A) :=
  match insert v iter x with
  | Ok (it, v') => match incr v' it with Ok it' => Ok (it', v') | Stuck u => Stuck u | NoFuel => NoFuel end
  | Stuck u => Stuck u
  | NoFuel => NoFuel
  end.

(** A sequence of assignments through one [insert_iterator]. *)
Fixpoint insert_all (v : vector A) (iter : iterator) (xs : list A) : outcome (iterator * vector A) :=
  match xs with
  | [] => Ok (iter, v)
  | x :: r => match insert_assign v iter x with
              | Ok (it, v') => insert_all v' it r
              | Stuck u => Stuck u
              | NoFuel => NoFuel
              end
  end.

(** [n] calls of [push_back] from an empty vector. *)
Definition push_backs (xs : list A) : vector A := fold_left push_back xs empty.

(** How many times the storage was reallocated. *)
Definition reallocations (v : vector A) : nat :=
  length (List.filter (fun e => match e with Realloc => true | InsertAt _ => false end) (events v)).

End Ops.

(** ** Loops over a vector *)

Section Loops.
Context {St A : Type}.

(** [for (size_t i = from; i < n; i++) body(i)]. *)
Fixpoint for_upto (fuel : nat) (i n : nat) (body : nat -> st St unit) : st St unit :=
  match fuel with
  | O => st_nofuel
  | S f => if (i <? n)%nat then body i ;; for_upto f (S i) n body else st_ret tt
  end.

(** [for (it = v.begin(); it != v.end(); it++) body(it)], also the
    expansion of a range-for over [v]. *)
Fixpoint for_iter (v : vector A) (fuel : nat) (it : iterator) (body : iterator -> st St unit)
    : st St unit :=
  match fuel with
  | O => st_nofuel
  | S f =>
      if negb (pos it =? pos (end_ v))%nat then
        body it ;;
        let* it' := st_lift (incr v it) in
        for_iter v f it' body
      else st_ret tt
  end.

(** [for (auto x : a) body(x)] over the elements of an array. *)
Fixpoint for_range (l : list A) (body : A -> st St unit) : st St unit :=
  match l with
  | [] => st_ret tt
  | x :: r => body x ;; for_range r body
  end.

(** Both loops take one step per element, and one more to stop. *)
Definition loop_fuel (v : vector A) : nat := S (size v).

End Loops.

(** ** Lemmas *)

Section Lemmas.
Context {A : Type}.
Implicit Types (v : vector A) (it : iterator).

Lemma valid_spec v it :
  valid v it = true <->
  born it <= length (events v) /\ existsb (invalidates it) (drop (born it) (events v)) = false /\
  pos it <= size v.
Proof.
  unfold valid. rewrite !andb_true_iff, negb_true_iff, !Nat.leb_le. tauto.
Qed.

(** Validity after one more event, for an iterator obtained before it. *)
Lemma valid_snoc v it (es : list A) c e :
  born it <= length (events v) ->
  valid (mk es c (events v ++ [e])) it =
    negb (existsb (invalidates it) (drop (born it) (events v))) && negb (invalidates it e) &&
    (pos it <=? length es).
Proof.
  intros Hb. unfold valid, size; cbn [events elems]. rewrite length_app; cbn [length].
  rewrite (proj2 (Nat.leb_le _ _)) by lia. rewrite drop_app_le by done.
  rewrite existsb_app. cbn [existsb]. rewrite orb_false_r, negb_orb. reflexivity.
Qed.

Lemma length_insert_at (l : list A) (p : nat) (x : A) :
  p <= length l -> length (take p l ++ x :: drop p l) = S (length l).
Proof. intros Hp. rewrite length_app, length_take. cbn [length]. rewrite length_drop. lia. Qed.

Lemma fresh_valid v p :
  p <= size v -> valid v (mk_it p (length (events v))) = true.
Proof. intros Hp. apply valid_spec. cbn. rewrite drop_all. cbn. lia. Qed.

(** [insert] on a valid iterator succeeds and puts [x] before it. *)
Lemma insert_ok v it x :
  valid v it = true ->
  exists v', insert v it x = Ok (mk_it (pos it) (length (events v')), v') /\
    elems v' = take (pos it) (elems v) ++ x :: drop (pos it) (elems v) /\
    pos it < size v'.
Proof.
  intros Hv. pose proof (proj1 (valid_spec v it) Hv) as (_ & _ & Hp).
  unfold insert. rewrite Hv.
  eexists. split; [reflexivity|].
  destruct (size v <? capacity v); (split; [reflexivity|]);
    unfold size in *; cbn [elems]; rewrite length_insert_at by done; lia.
Qed.

Lemma insert_assign_ok v it x :
  valid v it = true ->
  exists v', insert_assign v it x = Ok (mk_it (S (pos it)) (length (events v')), v') /\
    elems v' = take (pos it) (elems v) ++ x :: drop (pos it) (elems v) /\
    valid v' (mk_it (S (pos it)) (length (events v'))) = true.
Proof.
  intros Hv. destruct (insert_ok v it x Hv) as (v' & Hi & He & Hlt).
  exists v'. unfold insert_assign. rewrite Hi. unfold incr.
  rewrite fresh_valid by lia. cbn [pos born]. rewrite (proj2 (Nat.ltb_lt _ _)) by done.
  split; [reflexivity|]. split; [done|]. apply fresh_valid. lia.
Qed.

Lemma take_insert_at (l : list A) (p : nat) (x : A) :
  p <= length l -> take (S p) (take p l ++ x :: drop p l) = take p l ++ [x].
Proof.
  intros Hp. rewrite take_app, length_take, Nat.min_l by done.
  rewrite take_take, Nat.min_r by lia. replace (S p - p) with 1 by lia. reflexivity.
Qed.

Lemma drop_insert_at (l : list A) (p : nat) (x : A) :
  p <= length l -> drop (S p) (take p l ++ x :: drop p l) = drop p l.
Proof.
  intros Hp. rewrite drop_app, length_take, Nat.min_l by done.
  rewrite drop_ge by (rewrite length_take; lia). replace (S p - p) with 1 by lia. reflexivity.
Qed.

(** One [push_back]: the elements, and the capacity and reallocation count
    before and after. *)
Lemma push_back_spec v x :
  elems (push_back v x) = elems v ++ [x] /\
  (size v < capacity v -> capacity (push_back v x) = capacity v /\
                          reallocations (push_back v x) = reallocations v) /\
  (capacity v <= size v -> capacity (push_back v x) = grow (size v) /\
                           reallocations (push_back v x) = S (reallocations v)).
Proof.
  unfold push_back, reallocations. destruct (Nat.ltb_spec (size v) (capacity v)); cbn;
    rewrite List.filter_app, length_app; cbn; (split; [done|]); split; intros; lia.
Qed.

Lemma log2_up_step (n : nat) :
  1 <= n -> n <= 2 ^ Nat.log2_up n /\
  (n < 2 ^ Nat.log2_up n -> Nat.log2_up (S n) = Nat.log2_up n) /\
  (n = 2 ^ Nat.log2_up n -> Nat.log2_up (S n) = S (Nat.log2_up n)).
Proof.
  intros Hn. destruct (Nat.eq_dec n 1) as [->|Hn1]; [cbn; lia|].
  pose proof (Nat.log2_up_spec n ltac:(lia)) as [Hlo Hhi].
  split; [done|]. split.
  - intros Hlt. apply Nat.log2_up_unique; [|lia].
    destruct (Nat.log2_up n) eqn:E; cbn in *; lia.
  - intros Heq. rewrite Heq at 1. apply Nat.log2_up_succ_pow2. lia.
Qed.

Lemma push_backs_snoc (xs : list A) (x : A) : push_backs (xs ++ [x]) = push_back (push_backs xs) x.
Proof. unfold push_backs. by rewrite fold_left_app. Qed.

Lemma push_backs_elems (xs : list A) : elems (push_backs xs) = xs.
Proof.
  induction xs as [|x xs IH] using rev_ind; [done|].
  rewrite push_backs_snoc. rewrite (proj1 (push_back_spec _ _)), IH. done.
Qed.

Lemma for_iter_S {St} v f it (body : iterator -> st St unit) :
  for_iter v (S f) it body =
    if negb (pos it =? pos (end_ v))%nat then
      body it ;; let* it' := st_lift (incr v it) in for_iter v f it' body
    else st_ret tt.
Proof. reflexivity. Qed.

Lemma for_upto_S {St} f i n (body : nat -> st St unit) :
  for_upto (S f) i n body = if (i <? n)%nat then body i ;; for_upto f (S i) n body else st_ret tt.
Proof. reflexivity. Qed.

(** The iterator loop from position [k], with one step of fuel per
    remaining element and one more, is the index loop from [k]. *)
Lemma for_iter_upto_from {St} v (body : A -> st St unit) (n k : nat) (s : St) :
  n + k = size v ->
  for_iter v (S n) (mk_it k (length (events v))) (fun it => let* x := st_lift (deref v it) in body x) s =
  for_upto (S n) k (size v) (fun i => let* x := st_lift (subscript (elems v) i) in body x) s.
Proof.
  revert k s. induction n as [|n IH]; intros k s Hk; rewrite for_iter_S, for_upto_S; cbn [pos end_].
  - assert (k = size v) as -> by lia. by rewrite Nat.eqb_refl, Nat.ltb_irrefl.
  - assert (Hlt : k < size v) by lia.
    rewrite (proj2 (Nat.ltb_lt _ _) Hlt), (proj2 (Nat.eqb_neq k _)) by lia. cbn [negb].
    destruct (elems v !! k) as [x|] eqn:E; [|apply lookup_ge_None in E; unfold size in Hlt; lia].
    assert (Hv : valid v (mk_it k (length (events v))) = true) by (apply fresh_valid; lia).
    assert (Hd : deref v (mk_it k (length (events v))) = Ok x)
      by (unfold deref; rewrite Hv; cbn [pos]; by rewrite E).
    assert (Hi : incr v (mk_it k (length (events v))) = Ok (mk_it (S k) (length (events v))))
      by (unfold incr; rewrite Hv; cbn [pos born]; by rewrite (proj2 (Nat.ltb_lt _ _) Hlt)).
    unfold st_bind, subscript. rewrite Hd, Hi, E. cbn [st_lift st_ret].
    destruct (body x s) as [[[] s']| |]; [|done|done]. apply IH. lia.
Qed.

End Lemmas.

(** ** Theorems *)

Section Theorems.
Context {A : Type}.
Implicit Types (v : vector A) (it : iterator).

(** C28: [v.insert(it, x)] invalidates iterators as [vector.modifiers]
    says: without reallocation (size below capacity) the iterators before
    the insertion point stay valid and still denote the same elements,
    those at or after it are invalidated; with reallocation every iterator
    is invalidated. *)
Theorem insert_invalidation v it x it' v' j :
  insert v it x = Ok (it', v') -> valid v j = true ->
  valid v' j = (size v <? capacity v) && (pos j <? pos it) /\
  (size v < capacity v -> pos j < pos it -> deref v' j = deref v j).
Proof.
  intros Hi Hj. unfold insert in Hi. destruct (valid v it) eqn:Hv; [|discriminate].
  injection Hi as <- <-. pose proof (proj1 (valid_spec v j) Hj) as (Hb & Hn & Hp).
  pose proof (proj2 (proj2 (proj1 (valid_spec v it) Hv))) as Hpi. unfold size in *.
  destruct (Nat.ltb_spec (length (elems v)) (capacity v)) as [Hc|Hc].
  - rewrite valid_snoc, Hn, length_insert_at by done. cbn [invalidates negb andb].
    rewrite (proj2 (Nat.leb_le (pos j) _)) by lia. rewrite Nat.ltb_antisym, andb_true_r.
    split; [done|]. intros _ Hlt. unfold deref. rewrite Hj.
    rewrite valid_snoc, Hn, length_insert_at by done. cbn [invalidates negb andb elems].
    rewrite (proj2 (Nat.leb_le (pos j) _)) by lia. rewrite (proj2 (Nat.leb_gt _ _)) by done.
    cbn. rewrite lookup_app_l by (rewrite length_take; lia). rewrite lookup_take_lt by lia. done.
  - rewrite valid_snoc by done. cbn [invalidates negb]. rewrite !andb_false_r. split; [done|lia].
Qed.

(** Assignments of [x1, ..., xn] through an [insert_iterator]
    at a valid position [p] insert them at [p] in their order (the
    [++iter] after each [insert] keeps the next one after it), and leave
    the adaptor on a valid iterator just past them. *)
Theorem insert_iterator_inserts v it xs :
  valid v it = true ->
  exists it' v', insert_all v it xs = Ok (it', v') /\
    elems v' = take (pos it) (elems v) ++ xs ++ drop (pos it) (elems v) /\
    pos it' = pos it + length xs /\ valid v' it' = true.
Proof.
  revert v it. induction xs as [|x xs IH]; intros v it Hv.
  - exists it, v. cbn. rewrite take_drop, Nat.add_0_r. done.
  - destruct (insert_assign_ok v it x Hv) as (v1 & Hi & He & Hv1).
    destruct (IH v1 _ Hv1) as (it' & v' & Hr & He' & Hp' & Hv').
    exists it', v'. cbn [insert_all]. rewrite Hi. split; [done|].
    pose proof (proj2 (proj2 (proj1 (valid_spec v it) Hv))) as Hp. unfold size in Hp.
    rewrite He', He. cbn [pos] in *. rewrite take_insert_at, drop_insert_at by done.
    rewrite <- app_assoc. cbn. split; [done|]. split; [lia|done].
Qed.


(** C34: [n] calls of [push_back] on an empty vector leave it with the
    least power of two at least [n] as capacity, after exactly
    [ceil(log2 n) + 1] reallocations: the growth is geometric, as the
    amortised constant time of [push_back] requires. *)
Theorem push_back_growth (xs : list A) :
  xs <> [] ->
  capacity (push_backs xs) = 2 ^ Nat.log2_up (length xs) /\
  reallocations (push_backs xs) = S (Nat.log2_up (length xs)).
Proof.
  induction xs as [|x xs IH] using rev_ind; [done|]. intros _.
  rewrite push_backs_snoc, length_app, Nat.add_1_r. cbn [length].
  destruct (decide (xs = [])) as [->|Hne]; [split; reflexivity|].
  destruct (IH Hne) as [Hc Hr].
  pose proof (push_back_spec (push_backs xs) x) as (_ & Hlt & Hge).
  assert (Hs : size (push_backs xs) = length xs) by (unfold size; by rewrite push_backs_elems).
  destruct xs as [|y ys]; [done|]. set (n := length (y :: ys)) in *.
  assert (Hn : 1 <= n) by (subst n; cbn; lia).
  destruct (log2_up_step n Hn) as (Hle & Hs1 & Hs2).
  destruct (Nat.lt_ge_cases (size (push_backs (y :: ys))) (capacity (push_backs (y :: ys)))) as [H|H].
  - destruct (Hlt H) as [-> ->]. rewrite Hs1 by lia. done.
  - destruct (Hge H) as [-> ->]. rewrite Hs2 by lia. rewrite Hs, Hr. unfold grow.
    rewrite Nat.pow_succ_r'. split; [|done]. lia.
Qed.

(** The iterator loop [for (it = v.begin(); it != v.end(); it++)]
    over [*it] (and the range-for, its expansion) runs the same steps as
    the index loop [for (size_t i = 0; i < v.size(); i++)] over [v[i]],
    for any body. *)
Theorem iterator_loop_is_index_loop {St} v (body : A -> st St unit) (s : St) :
  for_iter v (loop_fuel v) (begin v) (fun it => let* x := st_lift (deref v it) in body x) s =
  for_upto (loop_fuel v) 0 (size v) (fun i => let* x := st_lift (subscript (elems v) i) in body x) s.
Proof. apply for_iter_upto_from. lia. Qed.

End Theorems.

(** ** Witnesses *)

Lemma insert_invalidation_witness :
  valid (mk [10; 15; 20; 30]%Z 4 [Realloc; Realloc; Realloc; InsertAt 1]) (mk_it 0 3) =
    (size (push_backs [10; 20; 30]%Z) <? capacity (push_backs [10; 20; 30]%Z)) && (0 <? 1) /\
  (size (push_backs [10; 20; 30]%Z) < capacity (push_backs [10; 20; 30]%Z) -> 0 < 1 ->
   deref (mk [10; 15; 20; 30]%Z 4 [Realloc; Realloc; Realloc; InsertAt 1]) (mk_it 0 3) =
   deref (push_backs [10; 20; 30]%Z) (mk_it 0 3)).
Proof.
  exact (insert_invalidation (push_backs [10; 20; 30]%Z) (mk_it 1 3) 15%Z (mk_it 1 4)
           (mk [10; 15; 20; 30]%Z 4 [Realloc; Realloc; Realloc; InsertAt 1]) (mk_it 0 3)
           ltac:(reflexivity) ltac:(reflexivity)).
Defined.

Lemma insert_iterator_inserts_witness :
  exists it' v', insert_all (push_backs [10; 20; 30]%Z) (mk_it 1 3) [15; 17]%Z = Ok (it', v') /\
    elems v' = take 1 (elems (push_backs [10; 20; 30]%Z)) ++ [15; 17]%Z ++ drop 1 (elems (push_backs [10; 20; 30]%Z)) /\
    pos it' = 1 + length [15; 17]%Z /\ valid v' it' = true.
Proof. exact (insert_iterator_inserts (push_backs [10; 20; 30]%Z) (mk_it 1 3) [15; 17]%Z ltac:(reflexivity)). Defined.

Lemma push_back_growth_witness :
  capacity (push_backs [10; 20; 30]%Z) = 2 ^ Nat.log2_up (length [10; 20; 30]%Z) /\
  reallocations (push_backs [10; 20; 30]%Z) = S (Nat.log2_up (length [10; 20; 30]%Z)).
Proof. exact (push_back_growth [10; 20; 30]%Z ltac:(discriminate)). Defined.

End vector.
