(* ===== verification/Heap.v ===== *)
(** * Objects in memory: [new], [delete], [delete[]], pointers, smart pointers

    Memory is a list of blocks, one per object or array, in allocation
    order: its storage duration ([Stack] for a local, [Object] for
    [new T], [Array] for [new T[n]]), whether it is still alive, the size
    of its elements and its cells ([Uninit] until written).  A pointer is
    a block and an element offset; [nullptr] is [None].  The operations
    check what the standard requires and give its undefined behaviour
    otherwise: [delete] needs a pointer returned by [new] and not yet
    deleted ([expr.delete]), [delete[]] one returned by [new[]]; reading
    or writing needs a live block and an offset inside it, reading an
    assigned cell; pointer arithmetic stays within the array or one past
    it ([expr.add]).  [unique_ptr] owns one block and deletes it in its
    destructor and [reset]; [shared_ptr] goes through a control block
    whose use count reaches 0 when the last owner is destroyed. *)

From stdpp Require Import base list.
From Stdlib Require Import ZArith Lia.
From S2P Require Import Prelude.

Module heap.

Inductive kind := Stack | Object | Array.

#[export] Instance kind_eq_dec : EqDecision kind.
Proof. solve_decision. Defined.

Record block := mk_block { bkind : kind; alive : bool; esize : Z; cells : list ival }.

Record ptr := mk_ptr { blk : nat; off : Z }.

#[export] Instance ptr_eq_dec : EqDecision ptr.
Proof. solve_decision. Defined.

(** A [shared_ptr] control block: the use count and the managed object. *)
Record ctrl := mk_ctrl { use_count : nat; managed : option ptr }.

Record heap := mk_heap { blocks : list block; ctrls : list ctrl }.

Definition heap0 : heap := mk_heap [] [].

(** ** Allocation and deallocation *)

Definition alloc (k : kind) (sz : Z) (cs : list ival) (h : heap) : ptr * heap :=
  (mk_ptr (length (blocks h)) 0, mk_heap (blocks h ++ [mk_block k true sz cs]) (ctrls h)).

(** [new T{v1, ..., vn}], [new T] ([Uninit] cells). *)
Definition new_object (sz : Z) (vs : list ival) (h : heap) : ptr * heap := alloc Object sz vs h.

(** [new T[n]]: [n] elements, none initialised. *)
Definition new_array (sz : Z) (n : nat) (h : heap) : ptr * heap := alloc Array sz (repeat Uninit n) h.

(** A local object ([int var1{10};], [int varArray[] = {...};]). *)
Definition local_object (sz : Z) (vs : list ival) (h : heap) : ptr * heap := alloc Stack sz vs h.

Definition kill (b : block) : block := mk_block (bkind b) false (esize b) (cells b).

Definition set_blocks (h : heap) (bs : list block) : heap := mk_heap bs (ctrls h).

(** [delete p] ([k = Object]) and [delete[] p] ([k = Array]); deleting
    [nullptr] does nothing. *)
Definition delete_ (k : kind) (p : option ptr) (h : heap) : outcome heap :=
  match p with
  | None => Ok h
  | Some q =>
      match blocks h !! blk q with
      | Some b =>
          if bool_decide (bkind b = k) && (off q =? 0)%Z then
            if alive b then Ok (set_blocks h (<[blk q := kill b]> (blocks h))) else Stuck DoubleDelete
          else Stuck InvalidDelete
      | None => Stuck InvalidDelete
      end
  end.

(** ** Access *)

(** The block and cell index [p] designates, when an access through it is
    defined. *)
Definition access (h : heap) (p : option ptr) : outcome (nat * block * nat) :=
  match p with
  | None => Stuck NullDereference
  | Some q =>
      match blocks h !! blk q with
      | Some b =>
          if alive b then
            if ((0 <=? off q) && (off q <? Z.of_nat (length (cells b))))%Z
            then Ok (blk q, b, Z.to_nat (off q)) else Stuck OutOfRange
          else Stuck UseAfterFree
      | None => Stuck OutOfRange
      end
  end.

(** [*p] as an rvalue. *)
Definition load (h : heap) (p : option ptr) : outcome Z :=
  match access h p with
  | Ok (_, b, i) => match cells b !! i with Some (Val v) => Ok v | Some Uninit => Stuck IndeterminateRead | None => Stuck OutOfRange end
  | Stuck u => Stuck u
  | NoFuel => NoFuel
  end.

(** [*p = v]. *)
Definition store (h : heap) (p : option ptr) (v : Z) : outcome heap :=
  match access h p with
  | Ok (n, b, i) =>
      Ok (set_blocks h (<[n := mk_block (bkind b) (alive b) (esize b) (<[i := Val v]> (cells b))]> (blocks h)))
  | Stuck u => Stuck u
  | NoFuel => NoFuel
  end.

(** [p + k] ([++p] and [--p] for [k = 1, -1]): within the array or one
    past its end. *)
Definition ptr_add (h : heap) (p : option ptr) (k : Z) : outcome (option ptr) :=
  match p with
  | None => if (k =? 0)%Z then Ok None else Stuck OutOfRange
  | Some q =>
      match blocks h !! blk q with
      | Some b =>
          if ((0 <=? off q + k) && (off q + k <=? Z.of_nat (length (cells b))))%Z
          then Ok (Some (mk_ptr (blk q) (off q + k))) else Stuck OutOfRange
      | None => Stuck OutOfRange
      end
  end.

(** [p < q] on pointers into the same array. *)
Definition ptr_lt (p q : option ptr) : outcome bool :=
  match p, q with
  | Some a, Some b => if (blk a =? blk b)%nat then Ok (off a <? off b)%Z else Stuck PreconditionViolated
  | _, _ => Stuck PreconditionViolated
  end.

(** The address of [p], given where each block was placed. *)
Definition address (base : nat -> Z) (h : heap) (p : option ptr) : Z :=
  match p with
  | None => 0
  | Some q => base (blk q) + off q * (match blocks h !! blk q with Some b => esize b | None => 1 end)
  end.

(** The blocks allocated by [new] or [new[]] and not yet freed. *)
Definition live_dynamic (h : heap) : list nat :=
  List.filter (fun n => match blocks h !! n with
                        | Some b => alive b && negb (bool_decide (bkind b = Stack))
                        | None => false end)
              (seq 0 (length (blocks h))).

(** ** [std::unique_ptr] *)

Module unique_ptr.

Definition t := option ptr.

(** [make_unique<T>(v...)]. *)
Definition make_unique (sz : Z) (vs : list ival) (h : heap) : t * heap :=
  let '(p, h) := new_object sz vs h in (Some p, h).

(** The destructor: [default_delete<T>] ([k = Object]) or
    [default_delete<T[]>] ([k = Array]) on the owned pointer. *)
Definition destroy (k : kind) (u : t) (h : heap) : outcome heap := delete_ k u h.

(** [u.reset()]. *)
Definition reset (k : kind) (u : t) (h : heap) : outcome (t * heap) :=
  match destroy k u h with Ok h => Ok (None, h) | Stuck e => Stuck e | NoFuel => NoFuel end.

(** [u.get()], [u.operator bool()]. *)
Definition get (u : t) : option ptr := u.
Definition to_bool (u : t) : bool := match u with Some _ => true | None => false end.

End unique_ptr.

(** ** [std::shared_ptr] *)

Module shared_ptr.

(** The control block of the [shared_ptr], if it owns anything. *)
Definition t := option nat.

Definition new_ctrl (p : option ptr) (h : heap) : t * heap :=
  (Some (length (ctrls h)), mk_heap (blocks h) (ctrls h ++ [mk_ctrl 1 p])).

(** [make_shared<T>(v...)]: object and count in one allocation. *)
Definition make_shared (sz : Z) (vs : list ival) (h : heap) : t * heap :=
  let '(p, h) := new_object sz vs h in new_ctrl (Some p) h.

(** [shared_ptr<T>(new T(...))] and [shared_ptr<T>(unique_ptr<T>&&)]
    (an empty [unique_ptr] gives an empty [shared_ptr]). *)
Definition from_ptr (p : option ptr) (h : heap) : t * heap :=
  match p with None => (None, h) | Some _ => new_ctrl p h end.

(** [sp.get()]. *)
Definition get (h : heap) (sp : t) : option ptr :=
  match sp with Some c => ctrls h !! c ≫= managed | None => None end.

Definition to_bool (sp : t) : bool := match sp with Some _ => true | None => false end.

(** The destructor: one owner less; the last one deletes the object. *)
Definition destroy (sp : t) (h : heap) : outcome heap :=
  match sp with
  | None => Ok h
  | Some c =>
      match ctrls h !! c with
      | Some (mk_ctrl (S n) p) =>
          let h := mk_heap (blocks h) (<[c := mk_ctrl n p]> (ctrls h)) in
          match n with O => delete_ Object p h | S _ => Ok h end
      | _ => Stuck DoubleDelete
      end
  end.

End shared_ptr.

(** ** Lemmas *)

Lemma alloc_lookup_new (k : kind) (sz : Z) (cs : list ival) (h : heap) :
  blocks (snd (alloc k sz cs h)) !! length (blocks h) = Some (mk_block k true sz cs).
Proof. cbn. rewrite lookup_app_r, Nat.sub_diag by lia. done. Qed.

Lemma alloc_lookup_old (k : kind) (sz : Z) (cs : list ival) (h : heap) (n : nat) :
  (n < length (blocks h))%nat -> blocks (snd (alloc k sz cs h)) !! n = blocks h !! n.
Proof. intros Hn. cbn. by rewrite lookup_app_l. Qed.

Lemma alloc_ptr (k : kind) (sz : Z) (cs : list ival) (h : heap) :
  fst (alloc k sz cs h) = mk_ptr (length (blocks h)) 0.
Proof. reflexivity. Qed.

(** Deleting the block [n] that [new] returned. *)
Lemma delete_fresh (k : kind) (b : block) (h : heap) (n : nat) :
  blocks h !! n = Some b -> bkind b = k -> alive b = true ->
  delete_ k (Some (mk_ptr n 0)) h = Ok (set_blocks h (<[n := kill b]> (blocks h))).
Proof.
  intros Hb Hk Ha. unfold delete_. cbn [blk off]. rewrite Hb, Hk, Ha.
  rewrite bool_decide_eq_true_2 by done. reflexivity.
Qed.

(** Pointer arithmetic and stores inside a live block. *)
Lemma ptr_add_in (h : heap) (n : nat) (b : block) (i k : Z) :
  blocks h !! n = Some b -> (0 <= i + k <= Z.of_nat (length (cells b)))%Z ->
  ptr_add h (Some (mk_ptr n i)) k = Ok (Some (mk_ptr n (i + k))).
Proof.
  intros Hb Hr. unfold ptr_add. cbn [blk off]. rewrite Hb.
  destruct (Z.leb_spec 0 (i + k)), (Z.leb_spec (i + k) (Z.of_nat (length (cells b)))); cbn; [done| lia..].
Qed.

Lemma store_in (h : heap) (n : nat) (b : block) (i v : Z) :
  blocks h !! n = Some b -> alive b = true -> (0 <= i < Z.of_nat (length (cells b)))%Z ->
  store h (Some (mk_ptr n i)) v =
  Ok (set_blocks h (<[n := mk_block (bkind b) true (esize b) (<[Z.to_nat i := Val v]> (cells b))]> (blocks h))).
Proof.
  intros Hb Ha Hr. unfold store, access. cbn [blk off]. rewrite Hb, Ha.
  destruct (Z.leb_spec 0 i), (Z.ltb_spec i (Z.of_nat (length (cells b)))); cbn; [by rewrite Ha | lia..].
Qed.

Lemma set_blocks_id (h : heap) : set_blocks h (blocks h) = h.
Proof. by destruct h. Qed.

Lemma set_blocks_set_blocks (h : heap) (bs bs' : list block) :
  set_blocks (set_blocks h bs) bs' = set_blocks h bs'.
Proof. done. Qed.

(** ** Theorems *)

(** C11: what [delete] does to the pointer [new] returned: the first
    [delete] frees the object, after which reading through the pointer is
    a use after free and a second [delete] a double delete; [delete[]] on
    it, or [delete] on a pointer into the object at a nonzero offset, is
    an invalid delete. *)
Theorem delete_spec (sz : Z) (vs : list ival) (h : heap) :
  let '(p, h1) := new_object sz vs h in
  (exists h2, delete_ Object (Some p) h1 = Ok h2 /\
              load h2 (Some p) = Stuck UseAfterFree /\
              delete_ Object (Some p) h2 = Stuck DoubleDelete) /\
  delete_ Array (Some p) h1 = Stuck InvalidDelete /\
  (forall k, k <> 0%Z -> delete_ Object (Some (mk_ptr (blk p) k)) h1 = Stuck InvalidDelete).
Proof.
  unfold new_object. pose proof (alloc_lookup_new Object sz vs h) as Hl.
  destruct (alloc Object sz vs h) as [p h1] eqn:E. cbn [snd] in Hl.
  replace p with (mk_ptr (length (blocks h)) 0) by (change p with (fst (p, h1)); rewrite <- E; done).
  split; [|split].
  - eexists. split; [by apply delete_fresh|].
    unfold load, access, delete_; cbn [blk off set_blocks blocks].
    rewrite list_lookup_insert_eq by (eapply lookup_lt_Some; done). cbn. done.
  - unfold delete_. cbn [blk off]. rewrite Hl. rewrite bool_decide_eq_false_2 by done. done.
  - intros k Hk. unfold delete_. cbn [blk off]. rewrite Hl.
    rewrite bool_decide_eq_true_2 by done. rewrite (proj2 (Z.eqb_neq k 0)) by done. done.
Qed.

End heap.
