(* ===== verification/Algo.v ===== *)
(** * The <algorithm> and <numeric> routines the demos call

    GenericAlgorithms.cpp, LambdaFunctions.cpp and Containers.cpp call the
    standard algorithms on vectors and strings.  They are modelled here as
    libstdc++ writes them (bits/stl_algo.h, bits/stl_algobase.h,
    bits/stl_numeric.h), on a [list] for the range [begin(), end()); an
    iterator into the range is its index, [end()] is the length, and
    [it - begin()] is the index.  Each routine is in [Module std] under its
    C++ name.  Where the implementation is an optimisation (the binary
    searches, [remove_if], [unique]) a theorem relates it to a reference
    definition; [std::sort] is modelled by its contract (a permutation
    sorted by the comparator), the only thing the standard fixes. *)

From stdpp Require Import base list sorting.
From Stdlib Require Import ZArith Lia.
From S2P Require Import Prelude.

Module std.
Section Algorithms.
Context {A : Type}.

(** [std::find_if]: the index of the first element satisfying [pred]. *)
Fixpoint find_if (pred : A -> bool) (l : list A) : nat :=
  match l with
  | [] => 0
  | x :: r => if pred x then 0 else S (find_if pred r)
  end.

(** [std::find]: [find_if] with [*it == val]. *)
Definition find (eqb : A -> A -> bool) (l : list A) (val : A) : nat :=
  find_if (fun x => eqb x val) l.

(** [std::count_if] and [std::count]. *)
Fixpoint count_if (pred : A -> bool) (l : list A) : nat :=
  match l with
  | [] => 0
  | x :: r => if pred x then S (count_if pred r) else count_if pred r
  end.

Definition count (eqb : A -> A -> bool) (l : list A) (val : A) : nat :=
  count_if (fun x => eqb x val) l.

(** [std::equal(first1, last1, first2, last2, pred)]: for random-access
    iterators libstdc++ first compares the lengths. *)
Fixpoint equal_loop (pred : A -> A -> bool) (l1 l2 : list A) : bool :=
  match l1, l2 with
  | x :: r1, y :: r2 => pred x y && equal_loop pred r1 r2
  | _, _ => true
  end.

Definition equal (pred : A -> A -> bool) (l1 l2 : list A) : bool :=
  (length l1 =? length l2)%nat && equal_loop pred l1 l2.

(** [std::equal] with a predicate that may have undefined behaviour
    ([None]): the loop stops at the first mismatch, so only the pairs up
    to it are evaluated. *)
Fixpoint equal_loop_opt (pred : A -> A -> option bool) (l1 l2 : list A) : option bool :=
  match l1, l2 with
  | x :: r1, y :: r2 =>
      match pred x y with
      | Some true => equal_loop_opt pred r1 r2
      | Some false => Some false
      | None => None
      end
  | _, _ => Some true
  end.

Definition equal_opt (pred : A -> A -> option bool) (l1 l2 : list A) : option bool :=
  if (length l1 =? length l2)%nat then equal_loop_opt pred l1 l2 else Some false.

(** [std::min(a, b, comp)] and [std::max(a, b, comp)]. *)
Definition min (comp : A -> A -> bool) (a b : A) : A := if comp b a then b else a.
Definition max (comp : A -> A -> bool) (a b : A) : A := if comp a b then b else a.

(** [std::min_element] and [std::max_element]: the index of the first
    least / first greatest element; [end()] on an empty range. *)
Fixpoint min_element_from (comp : A -> A -> bool) (l : list A) (i : nat) (best : A) (ibest : nat) : nat :=
  match l with
  | [] => ibest
  | x :: r => if comp x best then min_element_from comp r (S i) x i
              else min_element_from comp r (S i) best ibest
  end.

Definition min_element (comp : A -> A -> bool) (l : list A) : nat :=
  match l with [] => 0 | x :: r => min_element_from comp r 1 x 0 end.

Fixpoint max_element_from (comp : A -> A -> bool) (l : list A) (i : nat) (best : A) (ibest : nat) : nat :=
  match l with
  | [] => ibest
  | x :: r => if comp best x then max_element_from comp r (S i) x i
              else max_element_from comp r (S i) best ibest
  end.

Definition max_element (comp : A -> A -> bool) (l : list A) : nat :=
  match l with [] => 0 | x :: r => max_element_from comp r 1 x 0 end.

(** [std::minmax_element]: the first least and the LAST greatest element
    (C++11 [alg.min.max]); libstdc++ scans by pairs to save comparisons,
    with this result. *)
Fixpoint minmax_element_from (comp : A -> A -> bool) (l : list A) (i : nat)
    (mn : A) (imn : nat) (mx : A) (imx : nat) : nat * nat :=
  match l with
  | [] => (imn, imx)
  | x :: r =>
      let '(mn', imn') := if comp x mn then (x, i) else (mn, imn) in
      let '(mx', imx') := if comp x mx then (mx, imx) else (x, i) in
      minmax_element_from comp r (S i) mn' imn' mx' imx'
  end.

Definition minmax_element (comp : A -> A -> bool) (l : list A) : nat * nat :=
  match l with [] => (0, 0) | x :: r => minmax_element_from comp r 1 x 0 x 0 end.

(** The binary search shared by [std::lower_bound] and [std::upper_bound]
    ([__lower_bound] / [__upper_bound]): the window is [first, first+len);
    [go_right] says whether the answer lies after [middle]. *)
Context `{Inhabited A}.

Fixpoint bsearch (go_right : A -> bool) (l : list A) (fuel first len : nat) : nat :=
  match fuel with
  | O => first
  | S f =>
      if (len =? 0)%nat then first
      else
        let half := Nat.div2 len in
        let middle := (first + half)%nat in
        if go_right (l !!! middle) then bsearch go_right l f (S middle) (len - half - 1)
        else bsearch go_right l f first half
  end.

(** [lower_bound]: the first element that is not [comp( *it, val)]. *)
Definition lower_bound (comp : A -> A -> bool) (l : list A) (val : A) : nat :=
  bsearch (fun x => comp x val) l (length l) 0 (length l).

(** [upper_bound]: the first element with [comp(val, *it)]. *)
Definition upper_bound (comp : A -> A -> bool) (l : list A) (val : A) : nat :=
  bsearch (fun x => negb (comp val x)) l (length l) 0 (length l).


(** [std::iota(first, last, value)] on a range of [n] elements. *)
Fixpoint iota (n : nat) (value : Z) : list Z :=
  match n with
  | O => []
  | S k => value :: iota k (value + 1)%Z
  end.

(** [std::fill] on a range of [n] elements. *)
Definition fill (n : nat) (value : A) : list A := replicate n value.

(** [std::generate_n(first, n, gen)]: [gen] is a function object taken by
    value, so its state evolves in a copy; [gen] maps its state to the
    value produced and the next state. *)
Fixpoint generate_n {G} (n : nat) (gen : G -> A * G) (g : G) : list A :=
  match n with
  | O => []
  | S k => let '(x, g') := gen g in x :: generate_n k gen g'
  end.

(** [std::accumulate(first, last, init, op)]. *)
Definition accumulate {B} (l : list B) (init : A) (op : A -> B -> A) : A :=
  fold_left op l init.

(** [std::partial_sum(first, last, result, op)] and
    [std::adjacent_difference(first, last, result, op)]; both may write in
    place ([result == first]), which libstdc++ allows by carrying the
    running value in a local. *)
Fixpoint partial_sum_from (op : A -> A -> A) (value : A) (l : list A) : list A :=
  match l with
  | [] => []
  | x :: r => let v := op value x in v :: partial_sum_from op v r
  end.

Definition partial_sum (op : A -> A -> A) (l : list A) : list A :=
  match l with [] => [] | x :: r => x :: partial_sum_from op x r end.

Fixpoint adjacent_difference_from (op : A -> A -> A) (value : A) (l : list A) : list A :=
  match l with
  | [] => []
  | x :: r => op x value :: adjacent_difference_from op x r
  end.

Definition adjacent_difference (op : A -> A -> A) (l : list A) : list A :=
  match l with [] => [] | x :: r => x :: adjacent_difference_from op x r end.

(** [std::inner_product(first1, last1, first2, init)] with [+] and [*]:
    the second range is read for each element of the first. *)
Fixpoint inner_product (l1 l2 : list Z) (init : Z) : option Z :=
  match l1, l2 with
  | [], _ => Some init
  | x :: r1, y :: r2 => inner_product r1 r2 (init + x * y)%Z
  | _ :: _, [] => None
  end.

(** [std::replace_if] / [std::replace] (in place), [std::replace_copy_if]
    / [std::replace_copy] (into a [back_inserter]): the same values. *)
Definition replace_if (pred : A -> bool) (l : list A) (new_value : A) : list A :=
  map (fun x => if pred x then new_value else x) l.

Definition replace (eqb : A -> A -> bool) (l : list A) (old_value new_value : A) : list A :=
  replace_if (fun x => eqb x old_value) l new_value.

(** [std::copy(first, last, d_first)] over an existing range, which must
    be long enough, and into a [back_inserter] (appended). *)
Definition copy (src dst : list A) : option (list A) :=
  if (length src <=? length dst)%nat then Some (src ++ drop (length src) dst) else None.

Definition copy_back_inserter (src dst : list A) : list A := dst ++ src.

(** [std::copy_if] into a [back_inserter]; [std::copy_n] of [n] elements
    (the range must hold [n]). *)
Definition copy_if (pred : A -> bool) (l : list A) : list A := List.filter pred l.

Definition copy_n (l : list A) (n : nat) : option (list A) :=
  if (n <=? length l)%nat then Some (take n l) else None.

(** [std::transform] with a binary operation: the second range is read in
    step with the first and must be as long. *)
Fixpoint transform2 {B C} (l1 : list B) (l2 : list C) (op : B -> C -> A) : option (list A) :=
  match l1, l2 with
  | [], _ => Some []
  | x :: r1, y :: r2 => z ← transform2 r1 r2 op; Some (op x y :: z)
  | _ :: _, [] => None
  end.

(** [std::reverse] and [std::reverse_copy]. *)
Definition reverse (l : list A) : list A := rev l.

(** [std::sort(first, last, comp)]: the standard fixes only that the
    result is a permutation of the range in which no element is [comp]-less
    than the one before it (introsort is not stable: the order of
    equivalent elements is unspecified).  [sort comp l l'] says that [l']
    is a possible result. *)
Definition sort (comp : A -> A -> bool) (l l' : list A) : Prop :=
  l' ≡ₚ l /\ Sorted (fun a b => comp b a = false) l'.

(** [std::remove_if] ([__remove_if]): after the first element to remove,
    every kept element is moved down to [result]; the elements past the
    returned end keep what they held.  The source positions read are
    always past the positions written, so they are read from the original
    range. *)
Fixpoint remove_loop (pred : A -> bool) (src v : list A) (result : nat) : list A * nat :=
  match src with
  | [] => (v, result)
  | x :: r => if pred x then remove_loop pred r v result
              else remove_loop pred r (<[result := x]> v) (S result)
  end.

Definition remove_if (pred : A -> bool) (v : list A) : list A * nat :=
  let first := find_if pred v in
  if (first =? length v)%nat then (v, first)
  else remove_loop pred (drop (S first) v) v first.

Definition remove (eqb : A -> A -> bool) (v : list A) (value : A) : list A * nat :=
  remove_if (fun x => eqb x value) v.

(** [vector::erase(it, end())]. *)
Definition erase_from (v : list A) (it : nat) : list A := take it v.

(** [std::adjacent_find(first, last, pred)]. *)
Fixpoint adjacent_find (pred : A -> A -> bool) (l : list A) : nat :=
  match l with
  | x :: (y :: _) as r => if pred x y then 0 else S (adjacent_find pred r)
  | _ => length l
  end.

(** [std::unique] ([__unique]): each element is compared with the last
    element kept ([*dest]), not with its neighbour. *)
Fixpoint unique_loop (pred : A -> A -> bool) (src v : list A) (dest : nat) : list A * nat :=
  match src with
  | [] => (v, dest)
  | x :: r => if pred (v !!! dest) x then unique_loop pred r v dest
              else unique_loop pred r (<[S dest := x]> v) (S dest)
  end.

Definition unique (pred : A -> A -> bool) (v : list A) : list A * nat :=
  let first := adjacent_find pred v in
  if (first =? length v)%nat then (v, length v)
  else let '(v', dest) := unique_loop pred (drop (S (S first)) v) v first in (v', S dest).

(** [std::set_intersection] into a [back_inserter]. *)
Fixpoint set_intersection (comp : A -> A -> bool) (l1 l2 : list A) : list A :=
  match l1 with
  | [] => []
  | x :: r1 =>
      (fix inner (l2 : list A) : list A :=
         match l2 with
         | [] => []
         | y :: r2 =>
             if comp x y then set_intersection comp r1 l2
             else if comp y x then inner r2
             else x :: set_intersection comp r1 r2
         end) l2
  end.

(** [std::next_permutation]: [i] moves left from the end to the first
    [*i < *(i+1)]; [j] moves left from the end to the first [*i < *j];
    they are swapped and the suffix after [i] reversed.  With no such
    [i] the range is reversed and the result is [false]. *)
Fixpoint find_pivot (comp : A -> A -> bool) (l : list A) (ii : nat) : option nat :=
  match ii with
  | O => None
  | S i => if comp (l !!! i) (l !!! ii) then Some i else find_pivot comp l i
  end.

Fixpoint find_swap (comp : A -> A -> bool) (l : list A) (piv : A) (j : nat) : nat :=
  match j with
  | O => O
  | S k => if comp piv (l !!! k) then k else find_swap comp l piv k
  end.

Definition next_permutation (comp : A -> A -> bool) (l : list A) : list A * bool :=
  if (length l <=? 1)%nat then (l, false)
  else match find_pivot comp l (length l - 1) with
       | Some i =>
           let j := find_swap comp l (l !!! i) (length l) in
           let l' := <[i := l !!! j]> (<[j := l !!! i]> l) in
           (take (S i) l' ++ rev (drop (S i) l'), true)
       | None => (rev l, false)
       end.

End Algorithms.
End std.

Arguments std.bsearch {A _} go_right l fuel first len.

(** ** Binary search against linear search *)

(** [p] holds on a prefix of [l] and nowhere after it: the precondition of
    [lower_bound]/[upper_bound] ([alg.binary.search]: the range is
    partitioned with respect to the predicate). *)
Fixpoint partitioned {A} (p : A -> bool) (l : list A) : bool :=
  match l with
  | [] => true
  | x :: r => if p x then partitioned p r else forallb (fun y => negb (p y)) r
  end.

Lemma find_if_ext {A} (p q : A -> bool) (l : list A) :
  (forall x, p x = q x) -> std.find_if p l = std.find_if q l.
Proof. intros Hpq. induction l as [|x r IH]; simpl; [done|]. by rewrite Hpq, IH. Qed.

Section BinarySearch.
Context {A : Type} `{Inhabited A} (p : A -> bool).

Lemma lookup_total_cons_0 (x : A) (r : list A) : (x :: r) !!! 0%nat = x.
Proof. reflexivity. Qed.

Lemma lookup_total_cons_S (x : A) (r : list A) (j : nat) : (x :: r) !!! S j = r !!! j.
Proof. reflexivity. Qed.

Lemma forallb_lookup_total (q : A -> bool) (r : list A) (j : nat) :
  forallb q r = true -> (j < length r)%nat -> q (r !!! j) = true.
Proof.
  revert j. induction r as [|y r IH]; intros [|j] Hf Hj; cbn [length forallb] in *; try lia;
    apply andb_prop in Hf as [Hy Hr]; [done|]. rewrite lookup_total_cons_S. apply IH; [done|lia].
Qed.

(** On a partitioned range the predicate holds exactly before the first
    element where it fails. *)
Lemma partitioned_lookup (l : list A) (i : nat) :
  partitioned p l = true -> (i < length l)%nat ->
  p (l !!! i) = true <-> (i < std.find_if (fun x => negb (p x)) l)%nat.
Proof.
  revert i. induction l as [|x r IH]; intros i Hp Hi; cbn [length partitioned std.find_if] in *; [lia|].
  destruct (p x) eqn:Hx; cbn [negb].
  - destruct i as [|j]; [rewrite lookup_total_cons_0, Hx; split; [lia|done]|].
    rewrite lookup_total_cons_S, IH by (done || lia). lia.
  - destruct i as [|j]; [rewrite lookup_total_cons_0, Hx; split; [done|lia]|].
    rewrite lookup_total_cons_S.
    pose proof (forallb_lookup_total _ r j Hp ltac:(lia)) as Hj. simpl in Hj.
    destruct (p (r !!! j)); [done|]. split; [done|lia].
Qed.

Lemma bsearch_spec (l : list A) (fuel first len : nat) :
  partitioned p l = true -> (first + len <= length l)%nat -> (len <= fuel)%nat ->
  (first <= std.find_if (fun x => negb (p x)) l <= first + len)%nat ->
  std.bsearch p l fuel first len = std.find_if (fun x => negb (p x)) l.
Proof.
  intros Hp. revert first len.
  induction fuel as [|f IH]; intros first len Hlen Hf Hk; simpl; [lia|].
  destruct (Nat.eqb_spec len 0) as [->|Hne]; [lia|].
  assert (Hhalf' : (Nat.div2 len < len)%nat) by (apply Nat.lt_div2; lia).
  (* [lia] does not treat [Nat.div2] as an opaque atom: name it. *)
  remember (Nat.div2 len) as half eqn:Ehalf.
  destruct (p (l !!! (first + half))) eqn:Hm.
  - apply (partitioned_lookup l) in Hm; [|done|lia]. apply IH; lia.
  - assert (~ (first + half < std.find_if (fun x => negb (p x)) l)%nat).
    { rewrite <- partitioned_lookup by (done || lia). by rewrite Hm. }
    apply IH; lia.
Qed.
End BinarySearch.

(** C32: [std::lower_bound] and [std::upper_bound], libstdc++'s binary
    searches, return what a linear scan returns whenever the range is
    partitioned as the standard requires: the first element not less than
    [val], resp. the first element greater than [val]. *)
Theorem binary_search_refines {A} `{Inhabited A} (comp : A -> A -> bool) (l : list A) (val : A) :
  (partitioned (fun x => comp x val) l = true ->
     std.lower_bound comp l val = std.find_if (fun x => negb (comp x val)) l) /\
  (partitioned (fun x => negb (comp val x)) l = true ->
     std.upper_bound comp l val = std.find_if (fun x => comp val x) l).
Proof.
  split; intros Hp; unfold std.lower_bound, std.upper_bound.
  - apply bsearch_spec; [done|lia|lia|]. split; [lia|].
    clear Hp. induction l as [|x r IH]; simpl; [lia|]. destruct (negb (comp x val)); lia.
  - rewrite bsearch_spec by (done || lia || (split; [lia|]; clear Hp; induction l as [|x r IH];
      simpl; [lia|]; destruct (negb (negb (comp val x))); lia)).
    apply find_if_ext. intros x. by destruct (comp val x).
Qed.

Lemma binary_search_refines_witness :
  std.lower_bound Z.ltb [0; 2; 2; 3; 4; 4; 7; 9]%Z 4%Z = 4%nat /\
  std.upper_bound Z.ltb [0; 2; 2; 3; 4; 4; 7; 9]%Z 4%Z = 6%nat.
Proof.
  destruct (binary_search_refines Z.ltb [0; 2; 2; 3; 4; 4; 7; 9]%Z 4%Z) as [Hl Hu].
  split; [rewrite Hl | rewrite Hu]; reflexivity.
Defined.

(** ** [remove_if] + [erase] filters *)

Section RemoveUnique.
Context {A : Type} `{Inhabited A}.

Lemma take_insert_end (v : list A) (i : nat) (x : A) :
  (i < length v)%nat -> take (S i) (<[i := x]> v) = take i v ++ [x].
Proof.
  intros Hi. rewrite (take_S_r _ _ x).
  - by rewrite take_insert_ge by lia.
  - by apply list_lookup_insert_eq.
Qed.

Lemma remove_loop_spec (pred : A -> bool) (src v : list A) (result : nat) :
  (result + length src <= length v)%nat ->
  let '(v', k) := std.remove_loop pred src v result in
  k = (result + length (List.filter (fun x => negb (pred x)) src))%nat /\
  length v' = length v /\
  take k v' = take result v ++ List.filter (fun x => negb (pred x)) src /\
  drop k v' = drop k v.
Proof.
  revert v result. induction src as [|x r IH]; intros v result Hlen; cbn [std.remove_loop].
  - cbn [List.filter]. rewrite app_nil_r. cbn [length]. repeat split; lia.
  - cbn [length] in Hlen. cbn [List.filter]. destruct (pred x) eqn:Hx; cbn [negb].
    + specialize (IH v result ltac:(lia)). destruct (std.remove_loop pred r v result). exact IH.
    + specialize (IH (<[result := x]> v) (S result)). rewrite length_insert in IH.
      specialize (IH ltac:(lia)).
      destruct (std.remove_loop pred r (<[result := x]> v) (S result)) as [v' k].
      destruct IH as (-> & Hl & Ht & Hd). cbn [length].
      split; [lia|]. split; [done|]. split.
      * rewrite Ht, take_insert_end by lia. by rewrite <- app_assoc.
      * rewrite Hd. apply drop_insert_lt. lia.
Qed.

Lemma find_if_split (pred : A -> bool) (v : list A) :
  (std.find_if pred v < length v)%nat ->
  exists x, v = take (std.find_if pred v) v ++ x :: drop (S (std.find_if pred v)) v /\
    pred x = true /\ List.filter (fun y => negb (pred y)) (take (std.find_if pred v) v) =
                     take (std.find_if pred v) v.
Proof.
  induction v as [|y v IH]; cbn [std.find_if length]; [lia|]. intros Hlt.
  destruct (pred y) eqn:Hy.
  - exists y. split; [done|]. split; [done|]. reflexivity.
  - destruct IH as (x & Hv & Hx & Hf); [lia|]. exists x. cbn [take drop].
    split; [by rewrite Hv at 1|]. split; [done|]. cbn [List.filter]. rewrite Hy. cbn [negb]. by rewrite Hf.
Qed.

Lemma find_if_end (pred : A -> bool) (v : list A) :
  std.find_if pred v = length v -> List.filter (fun y => negb (pred y)) v = v.
Proof.
  induction v as [|y v IH]; cbn [std.find_if length]; [done|].
  destruct (pred y) eqn:Hy; [lia|]. intros [= Hv]. cbn [List.filter]. rewrite Hy. cbn [negb]. by rewrite IH.
Qed.

Lemma find_if_le (pred : A -> bool) (v : list A) : (std.find_if pred v <= length v)%nat.
Proof. induction v as [|y v IH]; cbn [std.find_if length]; [lia|]. destruct (pred y); lia. Qed.

Lemma remove_if_spec (pred : A -> bool) (v : list A) :
  let '(v', k) := std.remove_if pred v in
  std.erase_from v' k = List.filter (fun x => negb (pred x)) v /\
  drop k v' = drop k v /\ length v' = length v.
Proof.
  unfold std.remove_if, std.erase_from.
  destruct (Nat.eqb_spec (std.find_if pred v) (length v)) as [Hend|Hlt].
  - rewrite find_if_end, Hend, firstn_all by done. done.
  - pose proof (find_if_le pred v).
    destruct (find_if_split pred v ltac:(lia)) as (x & Hv & Hx & Hpre).
    pose proof (remove_loop_spec pred (drop (S (std.find_if pred v)) v) v (std.find_if pred v)) as Hl.
    rewrite length_drop in Hl. specialize (Hl ltac:(lia)).
    destruct (std.remove_loop _ _ _ _) as [v' k]. destruct Hl as (_ & Hlen & Ht & Hd).
    split; [|done]. rewrite Ht. set (k0 := std.find_if pred v) in *.
    replace (List.filter (fun y => negb (pred y)) v)
      with (List.filter (fun y => negb (pred y)) (take k0 v ++ x :: drop (S k0) v)) by (by rewrite <- Hv).
    rewrite List.filter_app, Hpre. cbn [List.filter]. by rewrite Hx.
Qed.
(** ** [unique] + [erase] keeps an element unless [pred] relates the last
    element kept to it *)

Fixpoint unique_ref (pred : A -> A -> bool) (last : A) (l : list A) : list A :=
  match l with
  | [] => []
  | x :: r => if pred last x then unique_ref pred last r else x :: unique_ref pred x r
  end.

Definition unique_spec (pred : A -> A -> bool) (v : list A) : list A :=
  match v with [] => [] | x :: r => x :: unique_ref pred x r end.

Lemma unique_loop_spec (pred : A -> A -> bool) (src v : list A) (dest : nat) :
  (S dest + length src <= length v)%nat ->
  let '(v', d) := std.unique_loop pred src v dest in
  take (S d) v' = take (S dest) v ++ unique_ref pred (v !!! dest) src.
Proof.
  revert v dest. induction src as [|x r IH]; intros v dest Hlen; cbn [std.unique_loop unique_ref].
  - by rewrite app_nil_r.
  - cbn [length] in Hlen. destruct (pred (v !!! dest) x) eqn:Hp.
    + apply IH. lia.
    + specialize (IH (<[S dest := x]> v) (S dest)). rewrite length_insert in IH.
      specialize (IH ltac:(lia)). destruct (std.unique_loop _ _ _ _) as [v' d].
      rewrite IH, take_insert_end by lia. rewrite list_lookup_total_insert_eq by lia.
      rewrite <- app_assoc. reflexivity.
Qed.

Lemma adjacent_find_cons2 (pred : A -> A -> bool) (x y : A) (r : list A) :
  std.adjacent_find pred (x :: y :: r) = if pred x y then 0%nat else S (std.adjacent_find pred (y :: r)).
Proof. reflexivity. Qed.

Lemma adjacent_find_end (pred : A -> A -> bool) (x : A) (r : list A) :
  std.adjacent_find pred (x :: r) = length (x :: r) -> unique_ref pred x r = r.
Proof.
  revert x. induction r as [|y r IH]; intros x; [done|].
  rewrite adjacent_find_cons2. destruct (pred x y) eqn:Hxy; [cbn; lia|].
  intros [= Hend]. cbn [unique_ref]. rewrite Hxy. f_equal. by apply IH.
Qed.

Lemma adjacent_find_split (pred : A -> A -> bool) (x : A) (r : list A) :
  (std.adjacent_find pred (x :: r) < length (x :: r))%nat ->
  let i := std.adjacent_find pred (x :: r) in
  x :: unique_ref pred x r = take (S i) (x :: r) ++ unique_ref pred ((x :: r) !!! i) (drop (S (S i)) (x :: r)).
Proof.
  revert x. induction r as [|y r IH]; intros x; [cbn; lia|].
  rewrite adjacent_find_cons2. cbn [length]. destruct (pred x y) eqn:Hxy; intros Hlt; cbn [unique_ref]; rewrite Hxy; [reflexivity|].
  cbn [take drop]. rewrite lookup_total_cons_S. rewrite IH by (cbn [length]; lia). reflexivity.
Qed.

Lemma adjacent_find_le (pred : A -> A -> bool) (v : list A) : (std.adjacent_find pred v <= length v)%nat.
Proof.
  induction v as [|x [|y r] IH]; [cbn; lia|cbn; lia|].
  rewrite adjacent_find_cons2. cbn [length] in *. destruct (pred x y); lia.
Qed.

Lemma unique_erase (pred : A -> A -> bool) (v : list A) :
  let '(v', k) := std.unique pred v in std.erase_from v' k = unique_spec pred v.
Proof.
  unfold std.unique, std.erase_from.
  destruct (Nat.eqb_spec (std.adjacent_find pred v) (length v)) as [Hend|Hlt].
  - rewrite firstn_all. destruct v as [|x r]; [done|]. cbn [unique_spec]. by rewrite adjacent_find_end.
  - pose proof (adjacent_find_le pred v). destruct v as [|x r]; [cbn in *; lia|].
    pose proof (unique_loop_spec pred (drop (S (S (std.adjacent_find pred (x :: r)))) (x :: r)) (x :: r)
                  (std.adjacent_find pred (x :: r))) as Hl.
    rewrite length_drop in Hl. specialize (Hl ltac:(lia)).
    destruct (std.unique_loop _ _ _ _) as [v' d]. rewrite Hl.
    cbn [unique_spec]. rewrite adjacent_find_split by lia. reflexivity.
Qed.
End RemoveUnique.

(** [v.erase(std::remove_if(v.begin(), v.end(), pred), v.end())]
    leaves exactly the elements that fail [pred], in order; before the
    [erase], the positions past the returned iterator still hold their old
    values and the size is unchanged. *)
Theorem remove_erase_filter {A} `{Inhabited A} (pred : A -> bool) (v : list A) :
  let '(v', k) := std.remove_if pred v in
  std.erase_from v' k = List.filter (fun x => negb (pred x)) v /\
  drop k v' = drop k v /\ length v' = length v.
Proof. apply remove_if_spec. Qed.

(** [v.erase(std::unique(v.begin(), v.end(), pred), v.end())], the
    in-place loop of libstdc++, equals the reference [unique_spec]: the
    first element, then every element that [pred] does not relate to the
    last element kept (with [==]: adjacent duplicates collapse). *)
Theorem unique_erase_spec {A} `{Inhabited A} (pred : A -> A -> bool) (v : list A) :
  let '(v', k) := std.unique pred v in std.erase_from v' k = unique_spec pred v.
Proof. apply unique_erase. Qed.

(** ** [partial_sum] and [adjacent_difference] are inverse *)

Lemma adjacent_difference_partial_sum_from (v : Z) (l : list Z) :
  std.adjacent_difference_from Z.sub v (std.partial_sum_from Z.add v l) = l.
Proof.
  revert v. induction l as [|x r IH]; intros v; cbn; [done|]. f_equal; [lia|apply IH].
Qed.

Lemma partial_sum_adjacent_difference_from (v : Z) (l : list Z) :
  std.partial_sum_from Z.add v (std.adjacent_difference_from Z.sub v l) = l.
Proof.
  revert v. induction l as [|x r IH]; intros v; cbn; [done|].
  replace (v + (x - v))%Z with x by lia. f_equal. apply IH.
Qed.

(** on integers [std::adjacent_difference] undoes [std::partial_sum]
    and the converse (GenericAlgorithms.cpp lines 355-363 apply one after
    the other in place; no intermediate value leaves [int] there, see
    [GenericAlgorithms]). *)
Theorem partial_sum_roundtrip (l : list Z) :
  std.adjacent_difference Z.sub (std.partial_sum Z.add l) = l /\
  std.partial_sum Z.add (std.adjacent_difference Z.sub l) = l.
Proof.
  destruct l as [|x r]; [done|]. cbn [std.partial_sum std.adjacent_difference].
  split; f_equal; [apply adjacent_difference_partial_sum_from|apply partial_sum_adjacent_difference_from].
Qed.

(** ** [std::sort] under a total order *)

Section SortTotal.
Context {A : Type} (comp : A -> A -> bool).
(** [!comp(b, a)], "a before b", is a total order: [comp] is a strict
    total order, as [<] on integers and on characters. *)
Hypothesis comp_trans : forall a b c, comp b a = false -> comp c b = false -> comp c a = false.
Hypothesis comp_antisym : forall a b, comp b a = false -> comp a b = false -> a = b.
Hypothesis comp_total : forall a b, comp b a = false \/ comp a b = false.

Definition not_after (a b : A) : Prop := comp b a = false.

#[export] Instance not_after_dec : RelDecision not_after.
Proof. intros a b. unfold not_after. apply _. Defined.
#[local] Instance not_after_trans : Transitive not_after.
Proof. intros a b c H1 H2. exact (comp_trans a b c H1 H2). Qed.
#[local] Instance not_after_antisymm : AntiSymm (=) not_after.
Proof. intros a b H1 H2. exact (comp_antisym a b H1 H2). Qed.
#[local] Instance not_after_total : Total not_after.
Proof. intros a b. destruct (comp_total a b); [left|right]; done. Qed.

Lemma sort_merge_sort (l : list A) : std.sort comp l (merge_sort not_after l).
Proof. split; [apply merge_sort_Permutation|exact (Sorted_merge_sort not_after l)]. Qed.

Lemma sort_deterministic (l l1 l2 : list A) : std.sort comp l l1 -> std.sort comp l l2 -> l1 = l2.
Proof.
  intros [P1 S1] [P2 S2]. apply (Sorted_unique not_after); [done|done|].
  by rewrite P1, P2.
Qed.

Lemma sort_total_iff (l l' : list A) : std.sort comp l l' <-> l' = merge_sort not_after l.
Proof.
  split; [intros Hs; eapply sort_deterministic; [exact Hs|apply sort_merge_sort]|].
  intros ->. apply sort_merge_sort.
Qed.
End SortTotal.
