(* ===== verification/Introsort.v ===== *)
(** * [std::sort] as libstdc++ writes it (bits/stl_algo.h, bits/stl_heap.h)

    [std::__sort]: [__introsort_loop] partitions around a median of three
    while the range is longer than [_S_threshold = 16] and the depth limit
    [2 * __lg(n)] lasts, falls back on a heap sort ([__partial_sort]) when
    it is spent, and [__final_insertion_sort] finishes the nearly sorted
    range.  Each helper is a definition of its own, on a [list] with
    iterators as indices, under its libstdc++ name.

    The comparator returns an [outcome bool], so a comparator with
    undefined behaviour of its own (a <cctype> call on a negative [char])
    stops the sort at the first comparison that is undefined, and what
    the sort compares is exactly what libstdc++ compares.  Reads and
    writes go through [subscript] and [subscript_set]: the unguarded
    loops, which rely on a sentinel instead of a bound, are undefined when
    they run past the range.  Each loop takes a fuel argument one above
    the number of its iterations on the range. *)

From stdpp Require Import base list.
From Stdlib Require Import Lia.
From S2P Require Import Prelude.

Local Open Scope cpp_scope.

Module introsort.
Section Sort.
Context {A : Type} (comp : A -> A -> outcome bool).

(** [__comp(it1, it2)] on two positions. *)
Definition comp_at (v : list A) (i j : nat) : outcome bool :=
  let? x := subscript v i in let? y := subscript v j in comp x y.

(** [std::iter_swap(a, b)]: [tmp = *a; *a = *b; *b = tmp]. *)
Definition iter_swap (v : list A) (i j : nat) : outcome (list A) :=
  let? x := subscript v i in
  let? y := subscript v j in
  let? v := subscript_set v i y in
  subscript_set v j x.

(** [__move_median_to_first(result, a, b, c)] *)
Definition move_median_to_first (v : list A) (result a b c : nat) : outcome (list A) :=
  let? ab := comp_at v a b in
  if ab then
    let? bc := comp_at v b c in
    if bc then iter_swap v result b
    else
      let? ac := comp_at v a c in
      if ac then iter_swap v result c else iter_swap v result a
  else
    let? ac := comp_at v a c in
    if ac then iter_swap v result a
    else
      let? bc := comp_at v b c in
      if bc then iter_swap v result c else iter_swap v result b.

(** [while (__comp(__first, __pivot)) ++__first;] *)
Fixpoint scan_up (fuel : nat) (v : list A) (first pivot : nat) : outcome nat :=
  match fuel with
  | O => NoFuel
  | S f =>
      let? b := comp_at v first pivot in
      if b then scan_up f v (S first) pivot else Ok first
  end.

(** [while (__comp(__pivot, __last)) --__last;], from [last]; stepping
    before the first element is undefined. *)
Fixpoint scan_down (fuel : nat) (v : list A) (last pivot : nat) : outcome nat :=
  match fuel with
  | O => NoFuel
  | S f =>
      let? b := comp_at v pivot last in
      if b then match last with O => Stuck OutOfRange | S l => scan_down f v l pivot end
      else Ok last
  end.

(** The [while (true)] loop of [__unguarded_partition(first, last,
    pivot)]: scan up, [--__last], scan down, return [first] when it is
    not below [last], else swap and [++__first]. *)
Fixpoint partition_loop (fuel : nat) (v : list A) (first last pivot : nat) : outcome (list A * nat) :=
  match fuel with
  | O => NoFuel
  | S f =>
      let? first := scan_up (S (length v)) v first pivot in
      match last with
      | O => Stuck OutOfRange
      | S last =>
          let? last := scan_down (S (length v)) v last pivot in
          if negb (first <? last)%nat then Ok (v, first)
          else
            let? v := iter_swap v first last in
            partition_loop f v (S first) last pivot
      end
  end.

Definition unguarded_partition (v : list A) (first last pivot : nat) : outcome (list A * nat) :=
  partition_loop (S (length v)) v first last pivot.

(** [__unguarded_partition_pivot(first, last)]: the median of
    [first + 1], [mid] and [last - 1] moves to [first] and is the pivot
    of the partition of [[first + 1, last)]. *)
Definition unguarded_partition_pivot (v : list A) (first last : nat) : outcome (list A * nat) :=
  let mid := (first + (last - first) / 2)%nat in
  let? v := move_median_to_first v first (S first) mid (last - 1) in
  unguarded_partition v (S first) last first.

(** [__push_heap(first, hole, top, value)]: the hole moves up while its
    parent compares less than [value]. *)
Fixpoint push_heap (fuel : nat) (v : list A) (first hole top : nat) (value : A) : outcome (list A) :=
  match fuel with
  | O => NoFuel
  | S f =>
      let parent := ((hole - 1) / 2)%nat in
      let? b := if (top <? hole)%nat then let? p := subscript v (first + parent) in comp p value
                else Ok false in
      if b then
        let? p := subscript v (first + parent) in
        let? v := subscript_set v (first + hole) p in
        push_heap f v first parent top value
      else subscript_set v (first + hole) value
  end.

(** The loop of [__adjust_heap]: while [second < (len - 1) / 2] the hole
    moves down to the larger of its two children. *)
Fixpoint adjust_down (fuel : nat) (v : list A) (first hole second len : nat) : outcome (list A * nat * nat) :=
  match fuel with
  | O => NoFuel
  | S f =>
      if (second <? (len - 1) / 2)%nat then
        let second := (2 * (second + 1))%nat in
        let? b := comp_at v (first + second) (first + (second - 1)) in
        let second := if b then (second - 1)%nat else second in
        let? x := subscript v (first + second) in
        let? v := subscript_set v (first + hole) x in
        adjust_down f v first second second len
      else Ok (v, hole, second)
  end.

(** [__adjust_heap(first, hole, len, value)]: the loop, the last left
    child alone when [len] is even, then [__push_heap] from the hole up
    to where it started. *)
Definition adjust_heap (v : list A) (first hole len : nat) (value : A) : outcome (list A) :=
  let top := hole in
  let? r_ := adjust_down (S len) v first hole hole len in
  let '(v, hole, second) := r_ in
  let? r_ := (if Nat.even len && (second =? (len - 2) / 2)%nat then
                let second := (2 * (second + 1))%nat in
                let? x := subscript v (first + (second - 1)) in
                let? v := subscript_set v (first + hole) x in
                Ok (v, (second - 1)%nat)
              else Ok (v, hole)) in
  let '(v, hole) := r_ in
  push_heap (S hole) v first hole top value.

(** [__pop_heap(first, last, result)] *)
Definition pop_heap (v : list A) (first last result : nat) : outcome (list A) :=
  let? value := subscript v result in
  let? x := subscript v first in
  let? v := subscript_set v result x in
  adjust_heap v first 0 (last - first) value.

(** The loop of [__make_heap]: each parent from [(len - 2) / 2] down to
    0 is sifted down. *)
Fixpoint make_heap_loop (fuel : nat) (v : list A) (first len parent : nat) : outcome (list A) :=
  match fuel with
  | O => NoFuel
  | S f =>
      let? value := subscript v (first + parent) in
      let? v := adjust_heap v first parent len value in
      match parent with O => Ok v | S p => make_heap_loop f v first len p end
  end.

(** [__make_heap(first, last)] *)
Definition make_heap (v : list A) (first last : nat) : outcome (list A) :=
  let len := (last - first)%nat in
  if (len <? 2)%nat then Ok v else make_heap_loop (S len) v first len ((len - 2) / 2).

(** The loop of [__heap_select] over [[i, last)], [k] elements left. *)
Fixpoint heap_select_loop (k : nat) (v : list A) (first middle i : nat) : outcome (list A) :=
  match k with
  | O => Ok v
  | S k' =>
      let? b := comp_at v i first in
      let? v := if b then pop_heap v first middle i else Ok v in
      heap_select_loop k' v first middle (S i)
  end.

(** [__heap_select(first, middle, last)] *)
Definition heap_select (v : list A) (first middle last : nat) : outcome (list A) :=
  let? v := make_heap v first middle in
  heap_select_loop (last - middle) v first middle middle.

(** [__sort_heap(first, last)]: [while (last - first > 1)] pop the top
    to [--last]; [k] rounds left. *)
Fixpoint sort_heap_loop (k : nat) (v : list A) (first last : nat) : outcome (list A) :=
  match k with
  | O => Ok v
  | S k' =>
      let last := (last - 1)%nat in
      let? v := pop_heap v first last last in
      sort_heap_loop k' v first last
  end.

Definition sort_heap (v : list A) (first last : nat) : outcome (list A) :=
  sort_heap_loop (last - first - 1) v first last.

(** [__partial_sort(first, middle, last)] *)
Definition partial_sort (v : list A) (first middle last : nat) : outcome (list A) :=
  let? v := heap_select v first middle last in sort_heap v first middle.

(** The loop of [__unguarded_linear_insert(last)]: [val], taken out of
    [last], moves down while it compares less than the element before
    it; there is no bound but the sentinel. *)
Fixpoint linear_insert_loop (fuel : nat) (v : list A) (last : nat) (val : A) : outcome (list A) :=
  match fuel with
  | O => NoFuel
  | S f =>
      match last with
      | O => Stuck OutOfRange
      | S next =>
          let? x := subscript v next in
          let? b := comp val x in
          if b then let? v := subscript_set v last x in linear_insert_loop f v next val
          else subscript_set v last val
      end
  end.

Definition unguarded_linear_insert (v : list A) (last : nat) : outcome (list A) :=
  let? val := subscript v last in linear_insert_loop (S last) v last val.

(** [_GLIBCXX_MOVE_BACKWARD3(first, i, i + 1); *first = val]: the
    elements of [[first, i)] move one place up and [val] goes first. *)
Definition move_to_first (v : list A) (first i : nat) (val : A) : list A :=
  take first v ++ [val] ++ take (i - first) (drop first v) ++ drop (S i) v.

(** The loop of [__insertion_sort] from [i], [k] elements left: an
    element less than the first goes first, the others are inserted
    unguarded. *)
Fixpoint insertion_loop (k : nat) (v : list A) (first i : nat) : outcome (list A) :=
  match k with
  | O => Ok v
  | S k' =>
      let? b := comp_at v i first in
      let? v := if b then let? val := subscript v i in Ok (move_to_first v first i val)
                else unguarded_linear_insert v i in
      insertion_loop k' v first (S i)
  end.

(** [__insertion_sort(first, last)] *)
Definition insertion_sort (v : list A) (first last : nat) : outcome (list A) :=
  if (first =? last)%nat then Ok v else insertion_loop (last - S first) v first (S first).

(** [__unguarded_insertion_sort(i, last)], [k] elements left. *)
Fixpoint unguarded_insertion_loop (k : nat) (v : list A) (i : nat) : outcome (list A) :=
  match k with
  | O => Ok v
  | S k' => let? v := unguarded_linear_insert v i in unguarded_insertion_loop k' v (S i)
  end.

Definition S_threshold : nat := 16.

(** [__final_insertion_sort(first, last)] *)
Definition final_insertion_sort (v : list A) (first last : nat) : outcome (list A) :=
  if (S_threshold <? last - first)%nat then
    let? v := insertion_sort v first (first + S_threshold) in
    unguarded_insertion_loop (last - (first + S_threshold)) v (first + S_threshold)
  else insertion_sort v first last.

(** [__introsort_loop(first, last, depth_limit)]: the right part of each
    partition is sorted by the recursive call and the loop goes on with
    the left part, both with the decremented limit. *)
Fixpoint introsort_loop (depth : nat) (v : list A) (first last : nat) : outcome (list A) :=
  if (last - first <=? S_threshold)%nat then Ok v
  else
    match depth with
    | O => partial_sort v first last last
    | S d =>
        let? r_ := unguarded_partition_pivot v first last in
        let '(v, cut) := r_ in
        let? v := introsort_loop d v cut last in
        introsort_loop d v first cut
    end.

(** [std::sort(begin, end, comp)] ([std::__sort]): the depth limit is
    [2 * __lg(n)]. *)
Definition sort (v : list A) : outcome (list A) :=
  let n := length v in
  if (n =? 0)%nat then Ok v
  else
    let? v := introsort_loop (Nat.log2 n * 2) v 0 n in
    final_insertion_sort v 0 n.

End Sort.
End introsort.
