(* ===== verification/GenericAlgorithms.v ===== *)
(** * GenericAlgorithms.cpp

    The predicates and function objects of the file (lines 29-82) and its
    [main] (lines 86-590), a script of demonstration sections, each
    printing a numbered line with [printIdx(idx++)] and the result of one
    algorithm.  [main]'s state is [cout] and the counter [idx]; each
    section is a definition in the state monad [st] of the prelude, named
    after its banner, taking and returning the local variables that later
    sections use.  [std::sort] is the one routine whose result the
    standard does not fix: the sections are parameterised by the [sorter]
    the library uses, and the theorems assume of it only the contract
    [std.sort] of [Algo].  The one sort whose comparator can be undefined
    (with [function_sort_alphabetical]) runs libstdc++'s algorithm
    ([introsort.sort] of [Introsort]), since which comparisons it makes
    decides whether and where the comparator is undefined. *)

From stdpp Require Import base list strings sorting.
From Stdlib Require Import ZArith Lia String Ascii.
From S2P Require Import Prelude Ostream Double Algo Introsort.

Local Open Scope string_scope.
Local Open Scope cpp_scope.

#[local] Instance ascii_inhabited : Inhabited ascii := populate "000"%char.
#[local] Instance string_inhabited : Inhabited string := populate EmptyString.

(** ** The predicates and function objects (lines 41-82) *)

(** [function_sort_alphabetical] (lines 43-45): [std::tolower] of each
    [char]; [None] when a [char] is negative, outside the domain of
    [tolower]. *)
Definition function_sort_alphabetical (c1 c2 : ascii) : option bool :=
  l1 ← tolower (schar c1); l2 ← tolower (schar c2); Some (l1 <? l2)%Z.

(** [function_if_has_exclamation] (lines 47-50). *)
Definition function_if_has_exclamation (s : string) : bool :=
  negb (std.find Ascii.eqb (list_ascii_of_string s) "!"%char =? String.length s)%nat.

(** [functor_if_longer_than] (lines 52-60): the constructor stores the
    [int] argument in a [size_t] (modulo 2^64). *)
Definition functor_if_longer_than (number : Z) : string -> bool :=
  let n := (number mod 2 ^ 64)%Z in
  fun str => (n <? Z.of_nat (String.length str))%Z.

(** [function_if_even] (lines 62-64) and [functor_if_even] (lines 66-71). *)
Definition function_if_even (n1 : Z) : bool := (cmod n1 2 =? 0)%Z.
Definition functor_if_even (n1 : Z) : bool := (cmod n1 2 =? 0)%Z.

(** [functor_even_numbers] (lines 73-82): the state [n] starts at the
    even number at or below [number]; each call adds 2 and returns it. *)
Definition functor_even_numbers (number : Z) : Z :=
  if (cmod number 2 =? 0)%Z then number else (number - 1)%Z.

Definition functor_even_numbers_call (n : Z) : Z * Z := ((n + 2)%Z, (n + 2)%Z).

(** [lambda_if_equal_case] (line 210): [toupper] of each [char]. *)
Definition lambda_if_equal_case (c1 c2 : ascii) : option bool :=
  u1 ← toupper (schar c1); u2 ← toupper (schar c2); Some (u1 =? u2)%Z.

(** [lambda_minor_size] and [lambda_higher_size] (lines 239, 254). *)
Definition lambda_minor_size (s1 s2 : string) : bool := (String.length s1 <? String.length s2)%nat.
Definition lambda_higher_size (s1 s2 : string) : bool := (String.length s2 <? String.length s1)%nat.

(** The text of lines 149 and 155, with the two bytes of the UTF-8
    encoding of the accented letter. *)
Definition strS2_init : string :=
  "O que AconTecer" ++ String "195" (String "161" " com Esta string?").

(** ** The state of [main] *)

Record ga := mk_ga { cout : ostream; idx : Z }.

(** A statement [cout << ...;]. *)
Definition say (f : ostream -> ostream) : st ga unit :=
  fun s => Ok (tt, mk_ga (f (cout s)) (idx s)).

(** [idx++]. *)
Definition idx_pp : st ga Z := fun s => Ok (idx s, mk_ga (cout s) (idx s + 1)%Z).

(** [if (it != v.cend()) cout << "\tFound <" << *it << "> at pos: " << (it - v.cbegin()) << endl;] *)
Definition say_found {T} `{Insert T, Inhabited T} (v : list T) (it : nat) : st ga unit :=
  if (it <? List.length v)%nat
  then say (fun o => o << (TAB ++ "Found <") << (v !!! it) << "> at pos: " << it << std.endl)
  else st_ret tt.

(** Undefined behaviour of a <cctype> call. *)
Definition ctype_ub {A} (r : option A) : st ga A :=
  match r with Some a => st_ret a | None => st_stuck CtypeDomain end.

(** The same inside a comparator: [None] of a <cctype> call is undefined. *)
Definition ctype_out {A} (r : option A) : outcome A :=
  match r with Some a => Ok a | None => Stuck CtypeDomain end.

(** The section banners: [cout << "NAME ....\n\n";]. *)
Definition banner (title : string) : st ga unit := say (fun o => o << (title ++ NL ++ NL)).

Section Main.
(** The [std::sort] of the library: any function meeting [std.sort]. *)
Variable sorter : forall {A : Type}, (A -> A -> bool) -> list A -> list A.
(** The addresses of the string literals (their layout is the
    compiler's). *)
Variable addr : string -> Z.

(** FIND, FIND_IF (lines 99-142); returns [vecS1]. *)
Definition find_section : st ga (list string) :=
  say (fun o => o << ("FIND, FIND_IF ................................................................................" ++ NL ++ NL)) ;;
  let strS1 := "Estamos voltando ao C++! Uhu!" in
  let* i := idx_pp in
  say (fun o => o << printIdx i << "String <" << strS1 << ("> using standard FIND" ++ NL)) ;;
  say_found (list_ascii_of_string strS1) (std.find Ascii.eqb (list_ascii_of_string strS1) "+"%char) ;;
  let vecS1 := ["Estamos"; "voltando"; "ao"; "C++!"; "Uhu!"] in
  let* i := idx_pp in
  say (fun o => o << printIdx i << "Vector { " << print vecS1 << ("} using FIND_IF with 'function_if_has_exclamation'" ++ NL)) ;;
  say_found vecS1 (std.find_if function_if_has_exclamation vecS1) ;;
  let lgnThan := 7%Z in
  let* i := idx_pp in
  say (fun o => o << printIdx i << "Vector { " << print vecS1 << "} using FIND_IF with 'functor_if_longer_than(" << lgnThan << (")'" ++ NL)) ;;
  say_found vecS1 (std.find_if (functor_if_longer_than lgnThan) vecS1) ;;
  let* i := idx_pp in
  say (fun o => o << printIdx i << "Vector { " << print vecS1 << "} using FIND_IF with lambda 's.size()>lgnThan' in place and lgnThan(" << lgnThan << (")'" ++ NL)) ;;
  say_found vecS1 (std.find_if (fun s => (lgnThan mod 2 ^ 64 <? Z.of_nat (String.length s))%Z) vecS1) ;;
  let lgnThan := 5%Z in
  let* i := idx_pp in
  say (fun o => o << printIdx i << "Vector { " << print vecS1 << "} using FIND_IF with 'lambda_is_longer_than' declared and lgnThan(" << lgnThan << (")'" ++ NL)) ;;
  let lambda_is_longer_than := fun s => (lgnThan mod 2 ^ 64 <? Z.of_nat (String.length s))%Z in
  say_found vecS1 (std.find_if lambda_is_longer_than vecS1) ;;
  say (fun o => o << std.endl) ;;
  st_ret vecS1.

(** SORT (lines 144-171).  The sort with [function_sort_alphabetical]
    runs libstdc++'s introsort of [Introsort], whose comparisons call
    [tolower] and are undefined on a negative [char]: which pairs it
    compares decides where the undefined behaviour happens. *)
Definition sort_section : st ga unit :=
  banner "SORT .........................................................................................";;
  let strS2 := strS2_init in
  let* i := idx_pp in
  say (fun o => o << printIdx i << "String <" << strS2 << ("> using standard SORT;" ++ NL)) ;;
  let strS2 := string_of_list_ascii (sorter char_lt (list_ascii_of_string strS2)) in
  say (fun o => o << (TAB ++ "Result in same string <") << strS2 << (">" ++ NL)) ;;
  let strS3 := strS2_init in
  let* i := idx_pp in
  say (fun o => o << printIdx i << "String <" << strS2 << ("> using SORT with 'function_sort_alphabetical';" ++ NL)) ;;
  let* cs3 := st_lift (introsort.sort (fun a b => ctype_out (function_sort_alphabetical a b))
                                      (list_ascii_of_string strS3)) in
  let strS3 := string_of_list_ascii cs3 in
  say (fun o => o << (TAB ++ "Result in same string <") << strS3 << (">" ++ NL)) ;;
  let vecI0 := [2; 1; 3; 6; 5; 1; 9; 7; 8; 2; 3]%Z in
  let* i := idx_pp in
  say (fun o => o << printIdx i << "Vector { " << print vecI0 << ("} using standard SORT;" ++ NL)) ;;
  let vecI0 := sorter Z.ltb vecI0 in
  say (fun o => o << (TAB ++ "Result in same vector { ") << print vecI0 << ("}" ++ NL)) ;;
  let* i := idx_pp in
  say (fun o => o << printIdx i << "Vector { " << print vecI0 << ("} using SORT with greater<int>();" ++ NL)) ;;
  let vecI0 := sorter (fun a b => b <? a)%Z vecI0 in
  say (fun o => o << (TAB ++ "Result in same vector { ") << print vecI0 << ("}" ++ NL)) ;;
  say (fun o => o << std.endl).

(** COUNT, COUNT_IF (lines 173-194); returns [vecI1]. *)
Definition count_section : st ga (list Z) :=
  banner "COUNT, COUNT_IF ..............................................................................";;
  let vecI1 := [1; 2; 3; 4; 5; 2; 1; 7; 8; 2; 3]%Z in
  let counter := std.count Z.eqb vecI1 2%Z in
  let* i := idx_pp in
  say (fun o => o << printIdx i << "Vector { " << print vecI1 << ("} using standard COUNT;" ++ NL ++ TAB ++ "Found (2) in vector ") << counter << (" times" ++ NL)) ;;
  let counter := std.count_if function_if_even vecI1 in
  let* i := idx_pp in
  say (fun o => o << printIdx i << "Vector { " << print vecI1 << ("} using COUNT_IF with 'function_if_even';" ++ NL ++ TAB ++ "Found ") << counter << (" even numbers" ++ NL)) ;;
  let counter := std.count_if functor_if_even vecI1 in
  let* i := idx_pp in
  say (fun o => o << printIdx i << "Vector { " << print vecI1 << ("} using COUNT_IF with 'functor_if_even';" ++ NL ++ TAB ++ "Found ") << counter << (" even numbers" ++ NL)) ;;
  let counter := std.count_if (fun n => cmod n 2 =? 0)%Z vecI1 in
  let* i := idx_pp in
  say (fun o => o << printIdx i << "Vector { " << print vecI1 << ("} using COUNT_IF with lambda 'n % 2 == 0' in place;" ++ NL ++ TAB ++ "Found ") << counter << (" even numbers" ++ NL)) ;;
  say (fun o => o << std.endl) ;;
  st_ret vecI1.

(** EQUAL (lines 197-216); [std::boolalpha] stays set on [cout]. *)
Definition equal_section (vecI1 : list Z) : st ga unit :=
  banner "EQUAL ........................................................................................";;
  let vecI2 := [1; 2; 3; 4; 5; 1; 7; 8; 2]%Z in
  let* i := idx_pp in
  say (fun o => o << printIdx i << "Vectors { " << print vecI1 << "} and { " << print vecI2 << "} using standard EQUAL; Are equal? ") ;;
  say (fun o => o << std.boolalpha << std.equal Z.eqb vecI1 vecI2 << std.endl) ;;
  let strS5 := "Testando" in
  let strS6 := "testAndO" in
  let strS7 := "testAdO" in
  let* i := idx_pp in
  say (fun o => o << printIdx i << "Strings <" << strS5 << "> and <" << strS6 << "> using EQUAL with 'lambda_if_equal_case'; Are equal? ") ;;
  let* r := ctype_ub (std.equal_opt lambda_if_equal_case (list_ascii_of_string strS5) (list_ascii_of_string strS6)) in
  say (fun o => o << std.boolalpha << r << std.endl) ;;
  let* i := idx_pp in
  say (fun o => o << printIdx i << "Strings <" << strS5 << "> and <" << strS7 << "> using EQUAL with 'lambda_if_equal_case'; Are equal? ") ;;
  let* r := ctype_ub (std.equal_opt lambda_if_equal_case (list_ascii_of_string strS5) (list_ascii_of_string strS7)) in
  say (fun o => o << std.boolalpha << r << std.endl) ;;
  say (fun o => o << std.endl).

(** PAIR (lines 219-231). *)
Definition pair_section : st ga unit :=
  banner "PAIR .........................................................................................";;
  let pairStrStr := ("Mari", "MM") in
  let* i := idx_pp in
  say (fun o => o << printIdx i << "pairStrStr.first = <" << pairStrStr.1 << "> and pairStrStr.second = <" << pairStrStr.2 << ">" << std.endl) ;;
  let pairIntStr := (1%Z, "Mari MM") in
  let* i := idx_pp in
  say (fun o => o << printIdx i << "pairIntStr.first = <" << pairIntStr.1 << "> and pairIntStr.second = <" << pairIntStr.2 << ">" << std.endl) ;;
  let pairFltStr := (dbl_lit 15 (-1), "Float") in
  let* i := idx_pp in
  say (fun o => o << printIdx i << "pairFltStr.first = <" << pairFltStr.1 << "> and pairFltStr.second = <" << pairFltStr.2 << ">" << std.endl) ;;
  say (fun o => o << std.endl).

(** MIN, MAX, MINMAX (lines 234-261).  The braced lists hold the string
    literals, of type [const char*]: [max] without a comparator compares
    their addresses. *)
Definition minmax_section : st ga unit :=
  banner "MIN, MAX, MINMAX .............................................................................";;
  let strS8 := "Mariane" in
  let strS9 := "Medeiros" in
  let lits := ["agora"; "hum"; "vamos"; "testar"] in
  let* i := idx_pp in
  say (fun o => o << printIdx i << "Strings <" << strS8 << "> and <" << strS9 << ("> using MIN with 'lambda_minor_size';" ++ NL ++ TAB ++ "Min = ") << std.min lambda_minor_size strS8 strS9 << std.endl) ;;
  let* i := idx_pp in
  say (fun o => o << printIdx i << ("Collection {" ++ DQ ++ "agora" ++ DQ ++ ", " ++ DQ ++ "hum" ++ DQ ++ ", " ++ DQ ++ "vamos" ++ DQ ++ ", " ++ DQ ++ "testar" ++ DQ ++ "} using MIN with 'lambda_minor_size';" ++ NL ++ TAB ++ "Min = ") << lits !!! std.min_element lambda_minor_size lits << std.endl) ;;
  let* i := idx_pp in
  say (fun o => o << printIdx i << "Strings <" << strS8 << "> and <" << strS9 << ("> using standard MAX;" ++ NL ++ TAB ++ "Max = ") << std.max str_lt strS8 strS9 << std.endl) ;;
  let* i := idx_pp in
  say (fun o => o << printIdx i << ("Collection {" ++ DQ ++ "agora" ++ DQ ++ ", " ++ DQ ++ "hum" ++ DQ ++ ", " ++ DQ ++ "vamos" ++ DQ ++ ", " ++ DQ ++ "testar" ++ DQ ++ "} using standard MAX;" ++ NL ++ TAB ++ "Max = ") << lits !!! std.max_element (fun p q => addr p <? addr q)%Z lits << std.endl) ;;
  let* i := idx_pp in
  say (fun o => o << printIdx i << ("Collection {" ++ DQ ++ "agora" ++ DQ ++ ", " ++ DQ ++ "hum" ++ DQ ++ ", " ++ DQ ++ "vamos" ++ DQ ++ ", " ++ DQ ++ "testar" ++ DQ ++ "} using MAX with 'lambda_higher_size';" ++ NL ++ TAB ++ "Max = ") << lits !!! std.max_element lambda_higher_size lits << std.endl) ;;
  let pairVar := std.minmax_element lambda_minor_size lits in
  let* i := idx_pp in
  say (fun o => o << printIdx i << ("Collection {" ++ DQ ++ "agora" ++ DQ ++ ", " ++ DQ ++ "hum" ++ DQ ++ ", " ++ DQ ++ "vamos" ++ DQ ++ ", " ++ DQ ++ "testar" ++ DQ ++ "} using MINMAX with 'lambda_minor_size';" ++ NL ++ TAB ++ "Min (pair.first) = ") << lits !!! pairVar.1 << "; Max (pair.second) = " << lits !!! pairVar.2 << std.endl) ;;
  say (fun o => o << std.endl).

(** MIN/MAX/MINMAX_ELEMENT (lines 264-285). *)
Definition minmax_element_section : st ga unit :=
  banner "MIN/MAX/MINMAX_ELEMENT .......................................................................";;
  let vecS10 := ["agora"; "hum"; "vamos"; "testar"] in
  let* i := idx_pp in
  say (fun o => o << printIdx i << "Vector { " << print vecS10 << ("} using MIN_ELEMENT with 'lambda_minor_size';" ++ NL)) ;;
  say_found vecS10 (std.min_element lambda_minor_size vecS10) ;;
  let* i := idx_pp in
  say (fun o => o << printIdx i << "Vector { " << print vecS10 << ("} using standard MAX_ELEMENT;" ++ NL)) ;;
  say_found vecS10 (std.max_element str_lt vecS10) ;;
  let pairMinMax := std.minmax_element str_lt vecS10 in
  let* i := idx_pp in
  say (fun o => o << printIdx i << "Vector { " << print vecS10 << ("} using standard MINMAX_ELEMENT;" ++ NL ++ TAB ++ "Min (pair.first) = ") << vecS10 !!! pairMinMax.1 << "; Max (pair.second) = " << vecS10 !!! pairMinMax.2 << std.endl) ;;
  say (fun o => o << std.endl).

(** [if (itBounds != v.end()) cout << "\tFound ... bound <" << *itBounds << "> at pos: " << ... << endl;] *)
Definition say_bound (which : string) (v : list Z) (it : nat) : st ga unit :=
  if (it <? List.length v)%nat
  then say (fun o => o << (TAB ++ "Found ") << which << " bound <" << v !!! it << "> at pos: " << it << std.endl)
  else st_ret tt.

(** UPPER_BOUND, LOWER_BOUND (lines 288-314): the first two searches run
    on a vector that is not sorted. *)
Definition bounds_section : st ga unit :=
  banner "UPPER_BOUND, LOWER_BOUND .....................................................................";;
  let vecI40 := [2; 4; 1; 9; 7; 6; 0; 8; 7; 3; 2]%Z in
  let* i := idx_pp in
  say (fun o => o << printIdx i << "Vector { " << print vecI40 << ("} using standard UPPER_BOUND with parameter 5 (greater than 5);" ++ NL)) ;;
  say_bound "upper" vecI40 (std.upper_bound Z.ltb vecI40 5%Z) ;;
  let* i := idx_pp in
  say (fun o => o << printIdx i << "Vector { " << print vecI40 << ("} using standard LOWER_BOUND with parameter 1 (not less than 1);" ++ NL)) ;;
  say_bound "lower" vecI40 (std.lower_bound Z.ltb vecI40 1%Z) ;;
  let vecI40 := sorter Z.ltb vecI40 in
  let* i := idx_pp in
  say (fun o => o << printIdx i << "Vector { " << print vecI40 << ("} using standard LOWER_BOUND with parameter 4 (not less than 4);" ++ NL)) ;;
  say_bound "lower" vecI40 (std.lower_bound Z.ltb vecI40 4%Z) ;;
  say (fun o => o << std.endl).

(** IOTA, FILL, GENERATE_N (lines 317-337); returns [vecI3]. *)
Definition iota_section : st ga (list Z) :=
  banner "IOTA, FILL, GENERATE_N .......................................................................";;
  let vecI3 := std.iota 10 3%Z in
  let* i := idx_pp in
  say (fun o => o << printIdx i << "Vector { " << print vecI3 << ("}, size 10, fullfiled by IOTA with parameter 3;" ++ NL)) ;;
  let vecI4 := std.fill 5 3%Z in
  let* i := idx_pp in
  say (fun o => o << printIdx i << "Vector { " << print vecI4 << ("}, size 5, fulfilled by FILL with parameter 3;" ++ NL)) ;;
  let vecI41 := std.generate_n 5 functor_even_numbers_call (functor_even_numbers 3%Z) in
  let* i := idx_pp in
  say (fun o => o << printIdx i << "Vector { " << print vecI41 << ("}, size 5, fulfilled by GENERATE_N with 'functor_even_numbers(3)';" ++ NL)) ;;
  say (fun o => o << std.endl) ;;
  st_ret vecI3.

(** ACCUMULATE, PARTIAL_SUM, ADJACENT_DIFFERENCE, INNER_PRODUCT (lines
    340-370); [vecI3] is updated in place; returns it.  [inner_product]
    reads [vecI5] for each element of [vecI3]. *)
Definition numeric_section (vecI3 : list Z) : st ga (list Z) :=
  banner "ACCUMULATE, PARTIAL_SUM, ADJACENT_DIFFERENCE, INNER_PRODUCT ..................................";;
  let x := std.accumulate vecI3 0%Z Z.add in
  let* i := idx_pp in
  say (fun o => o << printIdx i << "Vector { " << print vecI3 << "} using standard ACCUMULATE with parameter 0 (vector sum + 0) = " << x << std.endl) ;;
  let x := std.accumulate vecI3 10%Z Z.add in
  let* i := idx_pp in
  say (fun o => o << printIdx i << "Vector { " << print vecI3 << "} using standard ACCUMULATE with parameter 10 (vector sum + 10) = " << x << std.endl) ;;
  let lambda_even_numbers := fun sum n => if (cmod n 2 =? 0)%Z then (sum + n)%Z else sum in
  let x := std.accumulate vecI3 10%Z lambda_even_numbers in
  let* i := idx_pp in
  say (fun o => o << printIdx i << "Vector { " << print vecI3 << "} using ACCUMULATE with 'lambda_even_numbers' and parameter 10 (vector sum of even + 10) = " << x << std.endl) ;;
  let* i := idx_pp in
  say (fun o => o << printIdx i << "Vector { " << print vecI3 << ("} using standard PARTIAL_SUM from begin;" ++ NL)) ;;
  let vecI3 := std.partial_sum Z.add vecI3 in
  say (fun o => o << (TAB ++ "Result in same vector { ") << print vecI3 << ("}" ++ NL)) ;;
  let* i := idx_pp in
  say (fun o => o << printIdx i << "Vector { " << print vecI3 << ("} using standard ADJACENT_DIFFERENCE from begin (inverse of partial_sum);" ++ NL)) ;;
  let vecI3 := std.adjacent_difference Z.sub vecI3 in
  say (fun o => o << (TAB ++ "Result in same vector { ") << print vecI3 << ("}" ++ NL)) ;;
  let vecI5 := std.iota 10 0%Z in
  let* innProd := (match std.inner_product vecI3 vecI5 0%Z with
                   | Some r => st_ret r | None => st_stuck OutOfRange end) in
  let* i := idx_pp in
  say (fun o => o << printIdx i << "Vector { " << print vecI5 << "} using standard INNER_PRODUCT with parameter 0 = " << innProd << std.endl) ;;
  say (fun o => o << std.endl) ;;
  st_ret vecI3.

(** The [char] that [c = toupper(c)] stores. *)
Definition toupper_char (c : ascii) : option ascii :=
  u ← toupper (schar c); Some (char_of_int u).

(** FOR_EACH (lines 373-398); returns [vecI3]. *)
Definition for_each_section (vecI3 : list Z) : st ga (list Z) :=
  banner "FOR_EACH .....................................................................................";;
  let* i := idx_pp in
  say (fun o => o << printIdx i << "Vector { " << print vecI3 << ("} using FOR_EACH with lambda 'return (n%3==0)?n=1:n=0' in place;" ++ NL)) ;;
  let vecI3 := map (fun n => if (cmod n 3 =? 0)%Z then 1%Z else 0%Z) vecI3 in
  say (fun o => o << (TAB ++ "Result in same vector ( ") << print vecI3 << ("}" ++ NL)) ;;
  let* i := idx_pp in
  say (fun o => o << printIdx i << "Vector { " << print vecI3 << ("} using FOR_EACH with lambda 'cout<<((n==0)?" ++ DQ ++ "false" ++ DQ ++ ":" ++ DQ ++ "true" ++ DQ ++ "' in place;" ++ NL ++ TAB ++ "Result {")) ;;
  say (fun o => fold_left (fun o n => o << (if (n =? 0)%Z then "false" else "true") << " ") vecI3 o) ;;
  say (fun o => o << ("}" ++ NL)) ;;
  let strS10 := "TeStAnDo!" in
  let* i := idx_pp in
  say (fun o => o << printIdx i << "String <" << strS10 << ("> using FOR_EACH with lambda 'return c=toupper(c)' in place;" ++ NL)) ;;
  let* cs := ctype_ub (mapM toupper_char (list_ascii_of_string strS10)) in
  let strS10 := string_of_list_ascii cs in
  say (fun o => o << (TAB ++ "Result in same string <") << strS10 << (">" ++ NL)) ;;
  let* i := idx_pp in
  say (fun o => o << printIdx i << "Vector { " << print vecI3 << "} using FOR_EACH with lambda 'cout<<n<<" << (";' in place;" ++ NL ++ TAB ++ "Result {")) ;;
  say (fun o => fold_left (fun o n => o << n << " ") vecI3 o) ;;
  say (fun o => o << ("}" ++ NL)) ;;
  say (fun o => o << std.endl) ;;
  st_ret vecI3.

(** REPLACE, REPLACE_IF (lines 401-416). *)
Definition replace_section : st ga unit :=
  banner "REPLACE, REPLACE_IF ..........................................................................";;
  let vecI6 := std.iota 10 1%Z in
  let* i := idx_pp in
  say (fun o => o << printIdx i << "Vector { " << print vecI6 << ("} using standard REPLACE (5 by 6);" ++ NL)) ;;
  let vecI6 := std.replace Z.eqb vecI6 5%Z 6%Z in
  say (fun o => o << (TAB ++ "Result in same vector { ") << print vecI6 << ("}" ++ NL)) ;;
  let* i := idx_pp in
  say (fun o => o << printIdx i << "Vector { " << print vecI6 << ("} using REPLACE_IF with 'function_if_even' (even by 0);" ++ NL)) ;;
  let vecI6 := std.replace_if function_if_even vecI6 0%Z in
  say (fun o => o << (TAB ++ "Result in same vector { ") << print vecI6 << ("}" ++ NL)) ;;
  say (fun o => o << std.endl).

(** The lambda [[](int n, int m){ return n>m; }] of line 554. *)
Definition lambda_n_gt_m (n m : Z) : bool := (m <? n)%Z.

(** [lambda_if_odd] (line 441). *)
Definition lambda_if_odd (n : Z) : bool := if (cmod n 2 =? 0)%Z then false else true.

(** COPY, COPY_N, COPY_IF (lines 419-445). *)
Definition copy_section : st ga unit :=
  banner "COPY, COPY_N, COPY_IF ........................................................................";;
  let vecI10 := [1; 2; 3; 4; 5]%Z in
  let* vecI11 := (match std.copy vecI10 (std.fill (List.length vecI10) 0%Z) with
                  | Some r => st_ret r | None => st_stuck OutOfRange end) in
  let* i := idx_pp in
  say (fun o => o << printIdx i << "Vector { " << print vecI10 << ("} using standard COPY;" ++ NL ++ TAB ++ "Result in new vector { ") << print vecI11 << ("};" ++ NL)) ;;
  let vecI12 := std.copy_back_inserter vecI10 [] in
  let* i := idx_pp in
  say (fun o => o << printIdx i << "Vector { " << print vecI10 << ("} using standard COPY with back_inserter;" ++ NL ++ TAB ++ "Result in new vector { ") << print vecI12 << ("}" ++ NL)) ;;
  let* vecI13 := (match std.copy_n vecI10 3 with Some r => st_ret r | None => st_stuck OutOfRange end) in
  let* i := idx_pp in
  say (fun o => o << printIdx i << "Vector { " << print vecI10 << ("} using standard COPY with parameter 3 and back_inserter;" ++ NL ++ TAB ++ "Result in new vector { ") << print vecI13 << ("}" ++ NL)) ;;
  let vecI14 := std.copy_if lambda_if_odd vecI10 in
  let* i := idx_pp in
  say (fun o => o << printIdx i << "Vector { " << print vecI10 << ("} using COPY_IF with 'lambda_if_odd' and back_inserter;" ++ NL ++ TAB ++ "Result in new vector { ") << print vecI14 << ("}" ++ NL)) ;;
  say (fun o => o << std.endl).

(** REPLACE_COPY, REPLACE_COPY_IF (lines 448-463); returns [vecI15]. *)
Definition replace_copy_section : st ga (list Z) :=
  banner "REPLACE_COPY, REPLACE_COPY_IF ................................................................";;
  let vecI15 := [3; 1; 4; 2; 3]%Z in
  let vecI16 := std.replace Z.eqb vecI15 3%Z 0%Z in
  let* i := idx_pp in
  say (fun o => o << printIdx i << "Vector { " << print vecI15 << ("} using standard REPLACE_COPY (3 by 0) with back_inserter;" ++ NL ++ TAB ++ "Result in new vector { ") << print vecI16 << ("}" ++ NL)) ;;
  let vecI17 := std.replace_if lambda_if_odd vecI15 0%Z in
  let* i := idx_pp in
  say (fun o => o << printIdx i << "Vector { " << print vecI15 << ("} using REPLACE_COPY_IF with 'lambda_if_odd' (odd by 0) and back_inserter;" ++ NL ++ TAB ++ "Result in new vector { ") << print vecI17 << ("}" ++ NL)) ;;
  say (fun o => o << std.endl) ;;
  st_ret vecI15.

(** TRANSFORM (lines 466-483). *)
Definition transform_section (vecI15 : list Z) : st ga unit :=
  banner "TRANSFORM ....................................................................................";;
  let strS11 := "Uma string para ser testada!" in
  let* cs := ctype_ub (mapM toupper_char (list_ascii_of_string strS11)) in
  let strS12 := string_of_list_ascii cs in
  let* i := idx_pp in
  say (fun o => o << printIdx i << "String <" << strS11 << ("> using TRANSFORM with lambda 'return toupper(c)' in place and back_inserter;" ++ NL ++ TAB ++ "Result in new string <") << strS12 << (">" ++ NL)) ;;
  let vecI18 := [1; 2; 3; 4; 5]%Z in
  let lambda_sum_up := fun n1 n2 => (n1 + n2)%Z in
  let* vecI19 := (match std.transform2 vecI15 vecI18 lambda_sum_up with
                  | Some r => st_ret r | None => st_stuck OutOfRange end) in
  let* i := idx_pp in
  say (fun o => o << printIdx i << "Vectors { " << print vecI15 << "} + { " << print vecI18 << ("} using TRANSFORM with 'lambda_sum_up' and back_inserter;" ++ NL ++ TAB ++ "Result in new vector { ") << print vecI19 << ("}" ++ NL)) ;;
  say (fun o => o << std.endl).

(** REVERSE, REVERSE_COPY (lines 486-501). *)
Definition reverse_section (vecI15 : list Z) : st ga unit :=
  banner "REVERSE, REVERSE_COPY ........................................................................";;
  let* i := idx_pp in
  say (fun o => o << printIdx i << "Vector { " << print vecI15 << ("} using standard REVERSE;" ++ NL)) ;;
  let vecI15 := std.reverse vecI15 in
  say (fun o => o << (TAB ++ "Result in same vector { ") << print vecI15 << ("}" ++ NL)) ;;
  let* i := idx_pp in
  say (fun o => o << printIdx i << "Vector { " << print vecI15 << ("} using standard REVERSE_COPY and back_inserter;" ++ NL)) ;;
  let vecI20 := std.reverse vecI15 in
  say (fun o => o << (TAB ++ "Result in new vector { ") << print vecI20 << ("}" ++ NL)) ;;
  say (fun o => o << std.endl).

(** [v.erase(it, v.end())] after [remove], [remove_if] or [unique]. *)
Definition erase_after (r : list Z * nat) : list Z := std.erase_from r.1 r.2.

(** REMOVE, REMOVE_IF (both + ERASE) (lines 504-527). *)
Definition remove_section : st ga unit :=
  banner "REMOVE, REMOVE_IF (both + ERASE) .............................................................";;
  let vecI30 := [1; 2; 1; 3; 1; 4]%Z in
  let* i := idx_pp in
  say (fun o => o << printIdx i << "Vector { " << print vecI30 << ("} using standard REMOVE and ERASE to remove 1's;" ++ NL)) ;;
  let vecI30 := erase_after (std.remove Z.eqb vecI30 1%Z) in
  say (fun o => o << (TAB ++ "Result in same vector { ") << print vecI30 << ("}" ++ NL)) ;;
  let vecI31 := [1; 2; 1; 3; 1; 4]%Z in
  let* i := idx_pp in
  say (fun o => o << printIdx i << "Vector { " << print vecI31 << ("} using REMOVE_IF with 'lambda_if_odd' and ERASE;" ++ NL)) ;;
  let vecI31 := erase_after (std.remove_if lambda_if_odd vecI31) in
  say (fun o => o << (TAB ++ "Result in same vector { ") << print vecI31 << ("}" ++ NL)) ;;
  say (fun o => o << std.endl).

(** UNIQUE (+ ERASE) (lines 530-558); returns [vecI32]. *)
Definition unique_section : st ga (list Z) :=
  banner "UNIQUE (+ ERASE) .............................................................................";;
  let vecI32 := [1; 1; 2; 2; 2; 1; 3; 3; 1; 4; 3]%Z in
  let* i := idx_pp in
  say (fun o => o << printIdx i << "Vector { " << print vecI32 << ("} using standard UNIQUE and ERASE;" ++ NL)) ;;
  let vecI32 := erase_after (std.unique Z.eqb vecI32) in
  say (fun o => o << (TAB ++ "Result in same vector { ") << print vecI32 << ("}" ++ NL)) ;;
  let vecI33 := sorter Z.ltb [1; 1; 2; 2; 2; 1; 3; 3; 1; 4; 3]%Z in
  let* i := idx_pp in
  say (fun o => o << printIdx i << "Vector { " << print vecI33 << ("} using standard UNIQUE and ERASE;" ++ NL)) ;;
  let vecI33 := erase_after (std.unique Z.eqb vecI33) in
  say (fun o => o << (TAB ++ "Result in same vector { ") << print vecI33 << ("}" ++ NL)) ;;
  let vecI34 := [1; 1; 2; 2; 2; 1; 3; 3; 1; 4; 3]%Z in
  let* i := idx_pp in
  say (fun o => o << printIdx i << "Vector { " << print vecI34 << ("} using UNIQUE with lambda 'return n>m' in place, and ERASE;" ++ NL)) ;;
  let vecI34 := erase_after (std.unique lambda_n_gt_m vecI34) in
  say (fun o => o << (TAB ++ "Result in same vector { ") << print vecI34 << ("}" ++ NL)) ;;
  say (fun o => o << std.endl) ;;
  st_ret vecI32.

(** SET_INTERSECTION (lines 561-572). *)
Definition set_intersection_section (vecI32 : list Z) : st ga unit :=
  banner "SET_INTERSECTION .............................................................................";;
  let vecI35 := [1; 3; 5]%Z in
  let vecI32 := sorter Z.ltb vecI32 in
  let vecI35 := sorter Z.ltb vecI35 in
  let vecI36 := std.set_intersection Z.ltb vecI35 vecI32 in
  let* i := idx_pp in
  say (fun o => o << printIdx i << "Vectors { " << print vecI35 << "} and { " << print vecI32 << ("} using standard SET_INTERSECTION and back_inserter;" ++ NL ++ TAB ++ "Result in new vector { ") << print vecI36 << ("}" ++ NL)) ;;
  say (fun o => o << std.endl).

(** The do-while loop of lines 581-583. *)
Fixpoint permutation_loop (fuel : nat) (strS20 : list ascii) : st ga unit :=
  match fuel with
  | O => st_nofuel
  | S f =>
      say (fun o => o << " <" << string_of_list_ascii strS20 << ">") ;;
      let '(strS20, more) := std.next_permutation char_lt strS20 in
      if more then permutation_loop f strS20 else st_ret tt
  end.

(** NEXT_PERMUTATION (lines 575-584). *)
Definition next_permutation_section (fuel : nat) : st ga unit :=
  banner "NEXT_PERMUTATION .............................................................................";;
  let strS20 := "ABC" in
  let* i := idx_pp in
  say (fun o => o << printIdx i << "String <" << strS20 << ("> using standard NEXT_PERMUTATION in loop;" ++ NL ++ TAB ++ "Result")) ;;
  permutation_loop fuel (list_ascii_of_string strS20) ;;
  say (fun o => o << std.endl).

(** [main] (lines 86-590): the sections in order; [idx] starts at 1. *)
Definition main (fuel : nat) : st ga Z :=
  let* vecS1 := find_section in
  sort_section ;;
  let* vecI1 := count_section in
  equal_section vecI1 ;;
  pair_section ;;
  minmax_section ;;
  minmax_element_section ;;
  bounds_section ;;
  let* vecI3 := iota_section in
  let* vecI3 := numeric_section vecI3 in
  let* vecI3 := for_each_section vecI3 in
  replace_section ;;
  copy_section ;;
  let* vecI15 := replace_copy_section in
  transform_section vecI15 ;;
  reverse_section vecI15 ;;
  remove_section ;;
  let* vecI32 := unique_section in
  set_intersection_section vecI32 ;;
  next_permutation_section fuel ;;
  say (fun o => o << "END OF PROGRAM" << std.endl) ;;
  st_ret 0%Z.

Definition run_main (fuel : nat) : outcome (Z * ga) := main fuel (mk_ga ostringstream0 1%Z).
End Main.

(** ** Theorems *)

Definition Sorter := forall A : Type, (A -> A -> bool) -> list A -> list A.

(** C33: [main] has undefined behaviour, whatever the [sorter] of the
    other sorts and the literal layout are and however long the last loop
    may run: libstdc++'s [std::sort] with [function_sort_alphabetical]
    (line 157) compares the bytes of the UTF-8 accented letter, negative
    as [char], and the comparator passes them to [std::tolower]. *)
Theorem main_ctype_ub (sorter : Sorter) (addr : string -> Z) (fuel : nat) :
  run_main sorter addr fuel = Stuck CtypeDomain.
Proof. vm_compute. reflexivity. Qed.

(** ** [std::sort] on [char] and on [int] is determined *)

Lemma char_lt_false (a b : ascii) : char_lt a b = false <-> (schar b <= schar a)%Z.
Proof. unfold char_lt. rewrite Z.ltb_ge. done. Qed.

Lemma char_lt_trans (a b c : ascii) : char_lt b a = false -> char_lt c b = false -> char_lt c a = false.
Proof. rewrite !char_lt_false. lia. Qed.

Lemma char_lt_antisym (a b : ascii) : char_lt b a = false -> char_lt a b = false -> a = b.
Proof. rewrite !char_lt_false. intros. apply schar_inj. lia. Qed.

Lemma char_lt_total (a b : ascii) : char_lt b a = false \/ char_lt a b = false.
Proof. rewrite !char_lt_false. lia. Qed.

Lemma char_sort_iff (l l' : list ascii) :
  std.sort char_lt l l' <-> l' = merge_sort (not_after char_lt) l.
Proof. apply sort_total_iff; [exact char_lt_trans|exact char_lt_antisym|exact char_lt_total]. Qed.

(** Whichever sorting algorithm the library uses, [std::sort] of the
    string of line 149 (operator< on [char], which is signed) puts the two
    bytes of the UTF-8 accented letter first and in reverse order (0xA1
    before 0xC3): the "sorted" text printed at line 152 is not valid
    UTF-8. *)
Theorem sorted_text_splits_utf8 (l' : list ascii) :
  std.sort char_lt (list_ascii_of_string strS2_init) l' ->
  take 2 l' = ["161"%char; "195"%char].
Proof. rewrite char_sort_iff. intros ->. vm_compute. reflexivity. Qed.

Lemma sorted_text_splits_utf8_witness :
  take 2 (merge_sort (not_after char_lt) (list_ascii_of_string strS2_init)) = ["161"%char; "195"%char].
Proof.
  apply sorted_text_splits_utf8. apply (sort_merge_sort char_lt char_lt_total).
Defined.

(** ** [unique] with [n > m] *)

Lemma unique_ref_gt_sorted (last : Z) (l : list Z) :
  HdRel Z.le last (unique_ref lambda_n_gt_m last l) /\
  Sorted Z.le (unique_ref lambda_n_gt_m last l).
Proof.
  revert last. induction l as [|x r IH]; intros last; cbn [unique_ref]; [split; constructor|].
  destruct (lambda_n_gt_m last x) eqn:E; [apply IH|].
  unfold lambda_n_gt_m in E. apply Z.ltb_ge in E.
  destruct (IH x) as [Hhd Hs]. split; [constructor; lia|by constructor].
Qed.

(** [unique] with the lambda [n > m] (line 554) drops every element
    smaller than the last one kept, so what remains after the [erase] is
    sorted in non-decreasing order, whatever the input. *)
Theorem unique_gt_sorted (v : list Z) :
  Sorted Z.le (erase_after (std.unique lambda_n_gt_m v)).
Proof.
  pose proof (unique_erase lambda_n_gt_m v) as H. unfold erase_after.
  destruct (std.unique _ v) as [v' k]. cbn [fst snd]. rewrite H.
  destruct v as [|x r]; [constructor|]. cbn [unique_spec].
  destruct (unique_ref_gt_sorted x r). by constructor.
Qed.

(** ** [max] over string literals compares addresses *)

(** the line of [max({"agora", "hum", "vamos", "testar"})] (line 251)
    depends on where the compiler places the four literals: [operator<] on
    [const char*] compares addresses, so two layouts print different
    maxima (the result is unspecified). *)
Theorem max_literals_unspecified :
  exists addr1 addr2 : string -> Z,
    minmax_section addr1 (mk_ga ostringstream0 1) <> minmax_section addr2 (mk_ga ostringstream0 1).
Proof.
  exists (fun p => if String.eqb p "vamos" then 1%Z else 0%Z), (fun p => if String.eqb p "testar" then 1%Z else 0%Z).
  vm_compute. intros [=].
Qed.
