(* ===== verification/Functors.v ===== *)
(** * Functor.cpp and LambdaFunctions.cpp: function objects and closures

    Functor.cpp defines two classes with [operator()] ([functor_evenp],
    overloaded on [int] and [string], and [functor_divisible], which stores
    its divisor) and passes them by value to the two overloads of [do_it].
    LambdaFunctions.cpp builds closures: a capture by value is a copy kept
    in the closure object, a capture by reference reads and writes the
    variable of [main]; a [mutable] lambda changes its own copies.
    [std::find_if] takes its predicate by value, so the calls it makes
    update a copy of the closure object that is dropped when it returns.
    The state of LambdaFunctions.cpp's [main] is [cout] with the two
    variables that closures capture by reference ([num] and [i]). *)

From stdpp Require Import base list strings.
From Stdlib Require Import ZArith Lia String Ascii.
From S2P Require Import Prelude Ostream Double Algo.

Local Open Scope string_scope.
Local Open Scope cpp_scope.

(** ** Functor.cpp *)

Module Functor.

(** [functor_evenp::operator()(int)] (lines 27-29). *)
Definition functor_evenp_int (n : Z) : bool := (cmod n 2 =? 0)%Z.

(** [functor_evenp::operator()(string)] (lines 31-33). *)
Definition functor_evenp_string (s : string) : bool := Nat.even (String.length s).

(** [functor_divisible] (lines 36-45): [n % divisor] is undefined for a
    zero divisor, and for [INT_MIN % -1], whose quotient overflows. *)
Record functor_divisible := mk_functor_divisible { divisor : Z }.

Definition functor_divisible_call (f : functor_divisible) (n : Z) : outcome bool :=
  if (divisor f =? 0)%Z then Stuck DivisionByZero
  else if ((n =? INT_MIN) && (divisor f =? -1))%Z then Stuck SignedOverflow
  else Ok (cmod n (divisor f) =? 0)%Z.

(** The first [do_it] (lines 48-50). *)
Definition do_it_evenp (vec : list Z) : st ostream unit :=
  say_os (fun o => fold_left (fun o v =>
    o << TAB << v << " is even? " << (if functor_evenp_int v then "yes" else "no") << std.endl) vec o).

(** The second [do_it] (lines 52-54). *)
Fixpoint do_it_divisible (vec : list Z) (is_div : functor_divisible) : st ostream unit :=
  match vec with
  | [] => st_ret tt
  | v :: r =>
      fun o => match functor_divisible_call is_div v with
               | Ok b => do_it_divisible r is_div
                           (o << TAB << v << " is divisible? " << (if b then "yes" else "no") << std.endl)
               | Stuck u => Stuck u
               | NoFuel => NoFuel
               end
  end.

(** [main] (lines 64-102). *)
Definition main : st ostream Z :=
  let n := 6%Z in
  (if functor_evenp_int n
   then say_os (fun o => o << "Example 1a: int <" << n << ("> is even!" ++ NL))
   else say_os (fun o => o << "Example 1a: int <" << n << ("> is not even!" ++ NL))) ;;
  let s := "Mariane" in
  (if functor_evenp_string s
   then say_os (fun o => o << "Example 1b: string <" << s << ("> has even size!" ++ NL))
   else say_os (fun o => o << "Example 1b: string <" << s << ("> does not have even size!" ++ NL))) ;;
  let intVec := [1; 2; 3; 4; 5; 7; 9; 8]%Z in
  say_os (fun o => o << "Example 1c: Passing vector { " << print intVec << ("} and 'functor_evenp' as argument for function 'do_it':'" ++ NL)) ;;
  do_it_evenp intVec ;;
  say_os (fun o => o << std.endl) ;;
  let divByThree := mk_functor_divisible 3 in
  let intVec2 := [1; 3; 4; 9; 33; 7]%Z in
  say_os (fun o => o << "Example 2a: Passing vector { " << print intVec2 << ("} and 'functor_divisible' (by 3) as argument for function 'do_it':'" ++ NL)) ;;
  do_it_divisible intVec2 divByThree ;;
  let divByFive := mk_functor_divisible 5 in
  let intVec3 := [1; 10; 32; 40; 50; 7]%Z in
  say_os (fun o => o << "Example 2b: Passing vector { " << print intVec3 << ("} and 'functor_divisible' (by 5) as argument for function 'do_it':'" ++ NL)) ;;
  do_it_divisible intVec3 divByFive ;;
  say_os (fun o => o << "END OF PROGRAM" << std.endl) ;;
  st_ret 0%Z.

End Functor.

(** ** LambdaFunctions.cpp *)

Module Lambda.

(** [main]'s state: [cout], and the variables captured by reference:
    [size_t num] (line 80) and [int i] (line 98). *)
Record state := mk_state { cout : ostream; num : Z; i : Z }.

Definition say (f : ostream -> ostream) : st state unit :=
  fun s => Ok (tt, mk_state (f (cout s)) (num s) (i s)).

Definition set_num (n : Z) : st state unit := fun s => Ok (tt, mk_state (cout s) n (i s)).
Definition set_i (v : Z) : st state unit := fun s => Ok (tt, mk_state (cout s) (num s) v).
Definition get_num : st state Z := fun s => Ok (num s, s).
Definition get_i : st state Z := fun s => Ok (i s, s).

(** [++i] on an [int]. *)
Definition incr (v : Z) : outcome Z := if (v =? INT_MAX)%Z then Stuck SignedOverflow else Ok (v + 1)%Z.

(** How a closure holds [i]: its own copy, or a reference to [main]'s. *)
Inductive capture_i := ByValue (v : Z) | ByReference.

(** The closure objects of lines 83, 105 and 114; all capture [num] by
    reference. *)
Inductive lambda :=
  | is_lower_than                       (** [[&num](string s) {...}] *)
  | is_lower_than_mut (ci : capture_i). (** [[&num, i]] / [[&num, &i]] with [mutable] *)

(** A call of the closure on [s]: the result, and the closure object
    after the call (a [mutable] closure updates its copy of [i]). *)
Definition call (f : lambda) (s : string) : st state (bool * lambda) :=
  match f with
  | is_lower_than =>
      let* n := get_num in st_ret ((Z.of_nat (String.length s) <? n)%Z, f)
  | is_lower_than_mut (ByValue v) =>
      fun st0 => match incr v with
                 | Ok v' => (say (fun o => o << "Ex.... ++i inside lambda <" << v' << (">" ++ NL)) ;;
                             let* n := get_num in
                             st_ret ((Z.of_nat (String.length s) <? n)%Z, is_lower_than_mut (ByValue v'))) st0
                 | Stuck u => Stuck u
                 | NoFuel => NoFuel
                 end
  | is_lower_than_mut ByReference =>
      let* v := get_i in
      fun st0 => match incr v with
                 | Ok v' => (set_i v' ;;
                             say (fun o => o << "Ex.... ++i inside lambda <" << v' << (">" ++ NL)) ;;
                             let* n := get_num in
                             st_ret ((Z.of_nat (String.length s) <? n)%Z, f)) st0
                 | Stuck u => Stuck u
                 | NoFuel => NoFuel
                 end
  end.

(** [std::find_if] with a closure: it works on its own copy of the
    closure object. *)
Fixpoint find_if_closure (f : lambda) (l : list string) : st state nat :=
  match l with
  | [] => st_ret 0%nat
  | x :: r =>
      let* res := call f x in
      let '(b, f') := res in
      if b then st_ret 0%nat else let* k := find_if_closure f' r in st_ret (S k)
  end.

(** [gerar_aumento_salario] (lines 27-29): a closure holding a copy of
    [percent]. *)
Record raise_closure := mk_raise { percent : double }.
Definition gerar_aumento_salario (p : double) : raise_closure := mk_raise p.
Definition call_raise (f : raise_closure) (salario : double) : double := dmul salario (percent f).

(** [if (itFind != vecS5.cend()) cout << "Ex.NN. Found <" << *itFind << "> at pos " << ... ;] *)
Definition say_found (ex : string) (vecS5 : list string) (itFind : nat) (tail : ostream -> ostream) : st state unit :=
  if (itFind <? List.length vecS5)%nat
  then say (fun o => tail (o << ex << " Found <" << vecS5 !!! itFind << "> at pos " << itFind))
  else st_ret tt.

(** [main] (lines 32-141). *)
Definition main : st state Z :=
  let vecV1 := [10; 3; 4; 2; 5; 7; 9; 6; 1]%Z in
  let counter := std.count_if (fun n => cmod n 2 =? 0)%Z vecV1 in
  say (fun o => o << "Ex.10. Vector { " << print vecV1 << "} counted " << counter << (" even numbers" ++ NL ++ NL)) ;;
  let if_even := fun n => (cmod n 2 =? 0)%Z in
  let counter := std.count_if if_even vecV1 in
  say (fun o => o << "Ex.20. Vector { " << print vecV1 << "} counted " << counter << (" even numbers" ++ NL ++ NL)) ;;
  say (fun o => o << "Ex.30. Vector { " << print vecV1 << "} replaced even numbers by 0 = { ") ;;
  let vecV1 := std.replace_if if_even vecV1 0%Z in
  say (fun o => o << print vecV1 << ("}" ++ NL ++ NL)) ;;
  let vecS5 := ["Estamos"; "voltando"; "ao"; "C++!"; "Uhu!"] in
  set_num 8 ;;
  let* n := get_num in
  say (fun o => o << "Ex.40. Vector { " << print vecS5 << "}; num <" << n << (">;" ++ NL)) ;;
  let* itFind := find_if_closure is_lower_than vecS5 in
  let* n := get_num in
  say_found "Ex.40." vecS5 itFind (fun o => o << " with 'is_lower_than' and 'num' <" << n << (">" ++ NL ++ NL)) ;;
  set_num 5 ;;
  let* n := get_num in
  say (fun o => o << "Ex.50. Vector { " << print vecS5 << "}; num <" << n << (">;" ++ NL)) ;;
  let* itFind := find_if_closure is_lower_than vecS5 in
  let* n := get_num in
  say_found "Ex.50." vecS5 itFind (fun o => o << " with 'is_lower_than' and 'num' <" << n << (">" ++ NL ++ NL)) ;;
  set_i 0 ;;
  let* i0 := get_i in
  let is_lower_than_v2 := is_lower_than_mut (ByValue i0) in
  let* n := get_num in
  say (fun o => o << "Ex.60. Vector { " << print vecS5 << "}; num <" << n << ">; i <" << i0 << ("> in local scope before lambda execution;" ++ NL)) ;;
  let* itFind := find_if_closure is_lower_than_v2 vecS5 in
  let* i1 := get_i in
  say_found "Ex.60." vecS5 itFind (fun o => o << " with 'is_lower_than' and 'i' <" << i1 << ("> in local scope after lambda" ++ NL ++ NL)) ;;
  let is_lower_than_v3 := is_lower_than_mut ByReference in
  let* n := get_num in
  let* i1 := get_i in
  say (fun o => o << "Ex.70. Vector { " << print vecS5 << "}; num <" << n << ">; i <" << i1 << ("> in local scope before lambda execution;" ++ NL)) ;;
  let* itFind := find_if_closure is_lower_than_v3 vecS5 in
  let* i2 := get_i in
  say_found "Ex.70." vecS5 itFind (fun o => o << " with 'is_lower_than' and 'i' <" << i2 << ("> in local scope after lambda" ++ NL ++ NL)) ;;
  let calcula_aumento_05 := gerar_aumento_salario (dbl_lit 105 (-2)) in
  say (fun o => o << "Ex.80. R$4000,00 with raise of 05% = " << call_raise calcula_aumento_05 (dbl_lit 400000 (-2)) << std.endl) ;;
  say (fun o => o << "Ex.80. R$3000,00 with raise of 05% = " << call_raise calcula_aumento_05 (dbl_lit 300000 (-2)) << std.endl) ;;
  let calcula_aumento_15 := gerar_aumento_salario (dbl_lit 115 (-2)) in
  say (fun o => o << "Ex.80. R$3000,00 with raise of 15% = " << call_raise calcula_aumento_15 (dbl_lit 300000 (-2)) << std.endl << std.endl) ;;
  say (fun o => o << "END OF PROGRAM" << std.endl) ;;
  st_ret 0%Z.

Definition run_main : outcome (Z * state) := main (mk_state ostringstream0 0 0).

End Lambda.

(** ** Theorems *)

Lemma cmod_2_even (n : Z) : (cmod n 2 =? 0)%Z = Z.even n.
Proof.
  unfold cmod. destruct (Z.even n) eqn:E.
  - apply Z.eqb_eq. apply Z.rem_divide; [lia|]. apply Z.even_spec in E as [k ->]. exists k. lia.
  - apply Z.eqb_neq. intros H. apply Z.rem_divide in H; [|lia]. destruct H as [k ->].
    rewrite Z.even_mul in E. cbn in E. rewrite orb_true_r in E. discriminate.
Qed.

(** [functor_evenp] and [functor_divisible] decide evenness and
    divisibility for every [int], negative ones included (C++ [%]
    truncates); [functor_divisible] has undefined behaviour exactly for a
    zero divisor and for [INT_MIN % -1]. *)
Theorem functors_decide (n d : Z) :
  Functor.functor_evenp_int n = Z.even n /\
  (d = 0%Z -> Functor.functor_divisible_call (Functor.mk_functor_divisible d) n = Stuck DivisionByZero) /\
  (n = INT_MIN -> d = (-1)%Z -> Functor.functor_divisible_call (Functor.mk_functor_divisible d) n = Stuck SignedOverflow) /\
  (d <> 0%Z -> ~ (n = INT_MIN /\ d = (-1)%Z) ->
   exists b, Functor.functor_divisible_call (Functor.mk_functor_divisible d) n = Ok b /\ (b = true <-> (d | n)%Z)).
Proof.
  split; [apply cmod_2_even|]. unfold Functor.functor_divisible_call; cbn [Functor.divisor].
  split; [intros ->; reflexivity|]. split; [intros -> ->; reflexivity|].
  intros Hd Hov. destruct (Z.eqb_spec d 0) as [|_]; [done|].
  destruct (Z.eqb_spec n INT_MIN), (Z.eqb_spec d (-1)); cbn [andb]; try tauto.
  all: eexists; split; [reflexivity|]; unfold cmod; rewrite Z.eqb_eq; split; [apply Z.rem_divide; lia|apply Z.rem_divide; lia].
Qed.

Lemma functors_decide_witness :
  exists b, Functor.functor_divisible_call (Functor.mk_functor_divisible 3) (-9) = Ok b /\ (b = true <-> (3 | -9)%Z).
Proof. apply functors_decide; [lia|unfold INT_MIN; lia]. Defined.

(** ** Capture by value and by reference *)

Section Capture.
Import Lambda.

Lemma incr_ok (v : Z) : (v < INT_MAX)%Z -> incr v = Ok (v + 1)%Z.
Proof. intros H. unfold incr. destruct (Z.eqb_spec v INT_MAX); [lia|done]. Qed.

(** What the closures test: [s.size() < num]. *)
Definition shorter (n : Z) (x : string) : bool := (Z.of_nat (String.length x) <? n)%Z.

Lemma find_if_by_value (l : list string) (s : state) (v : Z) :
  (v + Z.of_nat (List.length l) <= INT_MAX)%Z ->
  exists s', find_if_closure (is_lower_than_mut (ByValue v)) l s =
               Ok (std.find_if (shorter (num s)) l, s') /\ i s' = i s /\ num s' = num s.
Proof.
  revert s v. induction l as [|x r IH]; intros s v Hv; [exists s; done|].
  cbn [List.length] in Hv. cbn [find_if_closure call std.find_if].
  unfold st_bind. rewrite incr_ok by lia. cbn -[find_if_closure].
  change ((Z.of_nat (String.length x) <? num s)%Z) with (shorter (num s) x).
  destruct (shorter (num s) x).
  - eexists. split; [reflexivity|]. done.
  - destruct (IH (mk_state (cout s << "Ex.... ++i inside lambda <" << (v + 1)%Z << (">" ++ NL)) (num s) (i s)) (v + 1)%Z)
      as (s' & Hrun & Hi & Hn); [lia|].
    cbn [num i] in *. rewrite Hrun. eexists. done.
Qed.

Lemma find_if_by_reference (l : list string) (s : state) :
  (i s + Z.of_nat (List.length l) <= INT_MAX)%Z ->
  exists s', find_if_closure (is_lower_than_mut ByReference) l s =
               Ok (std.find_if (shorter (num s)) l, s') /\
             i s' = (i s + Z.of_nat (Nat.min (S (std.find_if (shorter (num s)) l)) (List.length l)))%Z /\
             num s' = num s.
Proof.
  revert s. induction l as [|x r IH]; intros s Hv; [exists s; cbn; split; [done|lia]|].
  cbn [List.length] in Hv. cbn [find_if_closure call std.find_if].
  unfold st_bind, get_i. rewrite incr_ok by lia. cbn -[find_if_closure].
  change ((Z.of_nat (String.length x) <? num s)%Z) with (shorter (num s) x).
  destruct (shorter (num s) x).
  - eexists. split; [reflexivity|]. cbn. split; [lia|done].
  - destruct (IH (mk_state (cout s << "Ex.... ++i inside lambda <" << (i s + 1)%Z << (">" ++ NL)) (num s) (i s + 1)))
      as (s' & Hrun & Hi & Hn); [cbn; lia|].
    cbn [num i] in *. rewrite Hrun. eexists. split; [reflexivity|]. split; [|done].
    rewrite Hi. lia.
Qed.
End Capture.

(** [std::find_if] with a [mutable] closure finds what a plain
    predicate finds; a closure that captured [i] by value (line 105)
    increments only its own copy, so [main]'s [i] is unchanged, while one
    that captured [i] by reference (line 114) increments [main]'s [i] once
    per call: one call per element up to and including the one found. *)
Theorem capture_semantics (l : list string) (s : Lambda.state) (v : Z) :
  (v + Z.of_nat (List.length l) <= INT_MAX)%Z ->
  (Lambda.i s + Z.of_nat (List.length l) <= INT_MAX)%Z ->
  (exists s', Lambda.find_if_closure (Lambda.is_lower_than_mut (Lambda.ByValue v)) l s =
                Ok (std.find_if (shorter (Lambda.num s)) l, s') /\ Lambda.i s' = Lambda.i s) /\
  (exists s', Lambda.find_if_closure (Lambda.is_lower_than_mut Lambda.ByReference) l s =
                Ok (std.find_if (shorter (Lambda.num s)) l, s') /\
              Lambda.i s' = (Lambda.i s + Z.of_nat (Nat.min (S (std.find_if (shorter (Lambda.num s)) l)) (List.length l)))%Z).
Proof.
  intros Hv Hi. split.
  - destruct (find_if_by_value l s v Hv) as (s' & H & Hi' & _). eauto.
  - destruct (find_if_by_reference l s Hi) as (s' & H & Hi' & _). eauto.
Qed.

Lemma capture_semantics_witness :
  (exists s', Lambda.find_if_closure (Lambda.is_lower_than_mut (Lambda.ByValue 0)) ["Estamos"; "voltando"; "ao"]
                (Lambda.mk_state ostringstream0 5 0) =
                Ok (std.find_if (shorter 5) ["Estamos"; "voltando"; "ao"], s') /\ Lambda.i s' = 0%Z) /\
  (exists s', Lambda.find_if_closure (Lambda.is_lower_than_mut Lambda.ByReference) ["Estamos"; "voltando"; "ao"]
                (Lambda.mk_state ostringstream0 5 0) =
                Ok (std.find_if (shorter 5) ["Estamos"; "voltando"; "ao"], s') /\
              Lambda.i s' = (0 + Z.of_nat (Nat.min (S (std.find_if (shorter 5) ["Estamos"; "voltando"; "ao"])) 3))%Z).
Proof.
  exact (capture_semantics ["Estamos"; "voltando"; "ao"] (Lambda.mk_state ostringstream0 5 0) 0
           ltac:(cbn; unfold INT_MAX; lia) ltac:(cbn; unfold INT_MAX; lia)).
Defined.
