(* ===== verification/FileStream.v ===== *)
(** * FilesAndStream.cpp: files, the console and string streams

    [main] reads files/input.txt word by word and line by line, writes
    files/output.txt, reads a number and two words from [std::cin], prints
    with <iomanip>, and finally echoes the integers found on each line typed.
    Its state is [cout], [cin] and the content of files/output.txt; the
    content of files/input.txt ([None] when it cannot be opened) and whether
    files/output.txt can be created are inputs.  The loops over a stream are
    the [read_loop]s of [Stream], whose fuel is the input's length. *)

From stdpp Require Import base list strings.
From Stdlib Require Import ZArith Lia String Ascii.
From S2P Require Import Prelude Stream Ostream.

Local Open Scope string_scope.
Local Open Scope cpp_scope.

Module FilesAndStream.

Record fs_state := mk_fs { cout : ostream; cin : istream; output_txt : option string }.

Definition say (f : ostream -> ostream) : st fs_state unit :=
  fun s => Ok (tt, mk_fs (f (cout s)) (cin s) (output_txt s)).

Definition set_cin (i : istream) : st fs_state unit :=
  fun s => Ok (tt, mk_fs (cout s) i (output_txt s)).

Definition get_cin : st fs_state istream := fun s => Ok (cin s, s).

(** A loop over a stream that ran out of fuel, or its undefined behaviour. *)
Definition lift {A} (r : outcome A) : st fs_state A :=
  match r with Ok a => st_ret a | Stuck u => st_stuck u | NoFuel => st_nofuel end.

(** [cout << x << endl;] for each element. *)
Definition say_lines {T} `{Insert T} (xs : list T) : st fs_state unit :=
  say (fun o => fold_left (fun o x => o << x << std.endl) xs o).

(** Reading the input file word by word (lines 20-30). *)
Definition words_section (input_txt : option string) : st fs_state unit :=
  say (fun o => o << (NL ++ "Reading input sample file (word by word) ......................................") << std.endl) ;;
  match input_txt with
  | Some content =>
      let* r := lift (words (open_stream content)) in
      say_lines r.1
  | None => say (fun o => o << ("Ops! File <files/input.txt> not found!" ++ NL))
  end.

(** Reading it line by line (lines 32-41); [open] clears the flags left
    by the first loop. *)
Definition lines_section (input_txt : option string) : st fs_state unit :=
  say (fun o => o << (NL ++ "Reading input sample file (line by line) ......................................") << std.endl) ;;
  match input_txt with
  | Some content =>
      let* r := lift (getlines (open_stream content)) in
      say_lines r.1
  | None => say (fun o => o << ("Ops! File <files/input.txt> not found!" ++ NL))
  end.

(** Writing the output file (lines 43-55). *)
Definition output_section (can_write : bool) : st fs_state unit :=
  say (fun o => o << (NL ++ "Writing output file ...........................................................") << std.endl) ;;
  if can_write then
    (fun s => Ok (tt, mk_fs (cout s) (cin s) (Some (os_str (ostringstream0 << "Hellouuuu!" << std.endl))))) ;;
    say (fun o => o << ("Check <files/output.txt>!" ++ NL))
  else say (fun o => o << ("Ops! File <files/output.txt> not writen!" ++ NL)).

(** Reading a number from the keyboard (lines 57-67): [x] is not printed,
    only [cin.good()] is tested. *)
Definition cin_section : st fs_state unit :=
  say (fun o => o << (NL ++ "Input from keyboard (cin) .....................................................") << std.endl) ;;
  say (fun o => o << "Type a number: ") ;;
  let* i := get_cin in
  let '(_, i) := extract_int i in
  set_cin i ;;
  (if good i then say (fun o => o << ("Uau! Good number!" ++ NL))
   else say (fun o => o << ("I've said a NUMBER!" ++ NL))) ;;
  set_cin (ignore_line (clear i)).

(** IOManip for print (lines 70-86); [left] and [setfill] stay set on
    [cout] for the rest of [main]. *)
Definition iomanip_section : st fs_state unit :=
  say (fun o => o << (NL ++ "IOManip for print ............................................................") << std.endl) ;;
  say (fun o => o << ("Simply cout:" ++ NL)) ;;
  say (fun o => o << "Mary " << 34%Z << " years" << std.endl) ;;
  say (fun o => o << "William " << 35%Z << " years" << std.endl) ;;
  say (fun o => o << (NL ++ "Some iomanip:" ++ NL)) ;;
  say (fun o => o << std.setw 15 << "Mary " << std.setw 5 << 34%Z << "years" << std.endl) ;;
  say (fun o => o << std.setw 15 << "William " << std.setw 5 << 35%Z << "years" << std.endl) ;;
  say (fun o => o << (NL ++ "Some iomanip:" ++ NL)) ;;
  say (fun o => o << std.left << std.setw 15 << "Mary " << std.setw 5 << 34%Z << "years" << std.endl) ;;
  say (fun o => o << std.left << std.setw 15 << "William " << std.setw 5 << 35%Z << "years" << std.endl) ;;
  say (fun o => o << (NL ++ "Some iomanip:" ++ NL)) ;;
  say (fun o => o << std.setfill "."%char) ;;
  say (fun o => o << std.left << std.setw 15 << "Mary " << std.setw 5 << 34%Z << "years" << std.endl) ;;
  say (fun o => o << std.left << std.setw 15 << "William " << std.setw 5 << 35%Z << "years" << std.endl).

(** [cin >> var1] keeps [var1] when the extraction fails. *)
Definition read_word_cin (var1 : string) : st fs_state string :=
  let* i := get_cin in
  let '(r, i) := extract_string i in
  set_cin (ignore_line (clear i)) ;;
  st_ret (match r with Some w => w | None => var1 end).

(** OStringStream and cout (lines 88-102). *)
Definition ostringstream_section : st fs_state unit :=
  say (fun o => o << (NL ++ "OStringStream and cout .......................................................") << std.endl) ;;
  let OutSStream := ostringstream0 in
  let var1 := "" in
  say (fun o => o << "Type 1st word: ") ;;
  let* var1 := read_word_cin var1 in
  let OutSStream := OutSStream << std.setw 15 << var1 in
  say (fun o => o << "Type 2nd word: ") ;;
  let* var1 := read_word_cin var1 in
  let OutSStream := OutSStream << std.setw 20 << var1 in
  say (fun o => o << "You typed: " << str OutSStream << std.endl).

(** The body of the last loop (lines 108-111). *)
Definition echo_ints (var2 : string) : st fs_state unit :=
  let* r := lift (ints (open_stream var2)) in
  say_lines r.1.

Fixpoint echo_lines (lines : list string) : st fs_state unit :=
  match lines with
  | [] => st_ret tt
  | l :: r => echo_ints l ;; echo_lines r
  end.

(** IStringStream and cin (lines 104-112): [getline(cin, var2)] until it
    fails. *)
Definition istringstream_section : st fs_state unit :=
  say (fun o => o << (NL ++ "IStringStream and cin ........................................................") << std.endl) ;;
  say (fun o => o << "Type text and/or numbers and press ENTER; numbers will be re-impressed (CTRL+Z / ENTER exit): " << std.endl) ;;
  let* i := get_cin in
  let* r := lift (getlines i) in
  set_cin r.2 ;;
  echo_lines r.1.

(** [main] (lines 18-117). *)
Definition main (input_txt : option string) (can_write : bool) : st fs_state Z :=
  words_section input_txt ;;
  lines_section input_txt ;;
  output_section can_write ;;
  cin_section ;;
  iomanip_section ;;
  ostringstream_section ;;
  istringstream_section ;;
  say (fun o => o << "END OF PROGRAM" << std.endl) ;;
  st_ret 0%Z.

Definition run_main (input_txt : option string) (can_write : bool) (stdin : string) : outcome (Z * fs_state) :=
  main input_txt can_write (mk_fs ostringstream0 (open_stream stdin) None).

End FilesAndStream.

Import FilesAndStream.

(** ** Theorems *)

(** [good()] after reading an [int]: the number must not end the input. *)
Lemma good_after_int (z : Z) (rest : string) :
  (INT_MIN <= z <= INT_MAX)%Z -> starts_with is_digit rest = false ->
  good (snd (extract_int (open_stream (show_Z z ++ rest)))) = negb (is_empty rest).
Proof. intros Hz Hr. rewrite extract_int_in_range by done. reflexivity. Qed.

(** the keyboard section reads the typed number but tests
    [cin.good()], not [cin.fail()]: a number that ends the input (no
    newline after it) sets eofbit, and the program answers "I've said a
    NUMBER!"; with anything after the number it answers "Uau! Good
    number!". *)
Theorem cin_section_eof (z : Z) (rest : string) (s : fs_state) :
  (INT_MIN <= z <= INT_MAX)%Z -> starts_with is_digit rest = false ->
  cin s = open_stream (show_Z z ++ rest) -> os_width (cout s) = 0%nat ->
  exists s', cin_section s = Ok (tt, s') /\
    os_str (cout s') = (os_str (cout s) ++ NL ++ "Input from keyboard (cin) ....................................................." ++ NL ++
                        "Type a number: " ++
                        (if is_empty rest then "I've said a NUMBER!" else "Uau! Good number!") ++ NL)%string.
Proof.
  intros Hz Hr Hcin Hw. destruct s as [[str w f l b] i out]. cbn in Hcin, Hw. subst i w.
  unfold cin_section, st_bind, say, get_cin. cbn -[extract_int show_Z].
  rewrite extract_int_in_range by done. cbn -[show_Z].
  destruct (is_empty rest); cbn; eexists; (split; [reflexivity|]); cbn; rewrite !str_app_assoc; reflexivity.
Qed.

Lemma cin_section_eof_witness :
  exists s', cin_section (mk_fs ostringstream0 (open_stream (show_Z 42 ++ "")) None) = Ok (tt, s') /\
    os_str (cout s') = (os_str ostringstream0 ++ NL ++ "Input from keyboard (cin) ....................................................." ++ NL ++
                        "Type a number: " ++
                        (if is_empty "" then "I've said a NUMBER!" else "Uau! Good number!") ++ NL)%string.
Proof.
  apply (cin_section_eof 42 "" (mk_fs ostringstream0 (open_stream (show_Z 42 ++ "")) None));
    [unfold INT_MIN, INT_MAX; lia|reflexivity|reflexivity|reflexivity].
Defined.

Lemma no_newline_app (a b : string) :
  no_newline a = true -> no_newline b = true -> no_newline (a ++ b) = true.
Proof. intros Ha Hb. unfold no_newline. rewrite str_forall_app. by apply andb_true_intro. Qed.

Lemma no_newline_join (zs : list Z) : no_newline (join_sp show_Z zs) = true.
Proof.
  induction zs as [|z zs IH]; [done|]. cbn [join_sp].
  apply no_newline_app; [apply no_newline_show_Z|]. exact IH.
Qed.

Lemma say_lines_Z (zs : list Z) (o : ostream) (i : istream) (out : option string) :
  os_width o = 0%nat ->
  say_lines zs (mk_fs o i out) = Ok (tt, mk_fs (put_raw o (join_nl show_Z zs)) i out).
Proof. intros Hw. unfold say_lines, say. cbn [cout cin output_txt]. rewrite (endl_loop show_Z ins_Z_plain) by done. done. Qed.

Lemma echo_lines_spec (zss : list (list Z)) (o : ostream) (i : istream) (out : option string) :
  os_width o = 0%nat -> Forall (Forall (fun z => in_int z = true)) zss ->
  echo_lines (map (join_sp show_Z) zss) (mk_fs o i out) =
    Ok (tt, mk_fs (put_raw o (String.concat "" (map (join_nl show_Z) zss))) i out).
Proof.
  revert o. induction zss as [|zs zss IH]; intros o Hw Hall; cbn [map echo_lines String.concat].
  - by rewrite put_raw_nil.
  - apply Forall_cons in Hall as [Hzs Hall].
    unfold echo_ints, st_bind. rewrite ints_join by done. cbn [lift st_ret fst].
    rewrite say_lines_Z by done. rewrite IH by (done || by destruct o).
    rewrite put_raw_app. destruct zss; [by rewrite str_app_nil_r|reflexivity].
Qed.

(** When the user types lines of integers (each followed by a
    newline), the last section of [main] reads them with
    [getline(cin, var2)] and [while (InSStream >> num)], and prints every
    integer on a line of its own, in the order typed; the read ends with
    eofbit and failbit on [cin]. *)
Theorem echo_numbers (zss : list (list Z)) (s : fs_state) :
  Forall (Forall (fun z => in_int z = true)) zss ->
  cin s = open_stream (unlines (map (join_sp show_Z) zss)) -> os_width (cout s) = 0%nat ->
  exists s', istringstream_section s = Ok (tt, s') /\ cin s' = mk_is "" true true /\
    os_str (cout s') = (os_str (cout s) ++ NL ++ "IStringStream and cin ........................................................" ++ NL ++
                        "Type text and/or numbers and press ENTER; numbers will be re-impressed (CTRL+Z / ENTER exit): " ++ NL ++
                        String.concat "" (map (join_nl show_Z) zss))%string.
Proof.
  intros Hall Hcin Hw. destruct s as [[str w f l b] i out]. cbn in Hcin, Hw. subst i w.
  unfold istringstream_section, st_bind, say, get_cin. cbn [cout cin output_txt].
  rewrite getlines_lines.
  2:{ apply Forall_map. apply Forall_forall. intros zs _. apply no_newline_join. }
  cbn [lift st_ret fst snd set_cin].
  rewrite echo_lines_spec by (done || reflexivity).
  eexists. split; [reflexivity|]. split; [reflexivity|]. cbn. by rewrite !str_app_assoc.
Qed.

Lemma echo_numbers_witness :
  exists s', istringstream_section
               (mk_fs ostringstream0 (open_stream (unlines (map (join_sp show_Z) [[1; 2]; [-7]]%Z))) None) = Ok (tt, s') /\
    cin s' = mk_is "" true true /\
    os_str (cout s') = (os_str ostringstream0 ++ NL ++ "IStringStream and cin ........................................................" ++ NL ++
                        "Type text and/or numbers and press ENTER; numbers will be re-impressed (CTRL+Z / ENTER exit): " ++ NL ++
                        String.concat "" (map (join_nl show_Z) [[1; 2]; [-7]]%Z))%string.
Proof.
  apply (echo_numbers [[1; 2]; [-7]]%Z); [repeat constructor|reflexivity|reflexivity].
Defined.
