(* ===== verification/Fridge.v ===== *)
(** * OverloadOstreamOperator.cpp: a class printed by an overloaded [<<]

    [refrigerator] (lines 13-38) holds a [double] temperature and two
    flags; it prints itself either on [std::cout] ([print()], lines 29-33)
    or on a given stream ([print(ostream&)], lines 34-38), and
    [operator<<] (lines 46-49) forwards to the latter.  [main] (lines
    54-73) prints the default state twice, opens the door, and prints it
    again. *)

From Stdlib Require Import ZArith String Ascii.
From S2P Require Import Prelude Ostream Double.

Local Open Scope string_scope.
Local Open Scope cpp_scope.

Module OverloadOstreamOperator.

Record refrigerator := mk_fridge {
  temperature : double;   (** [double temperature{0.0}] *)
  power_on : bool;        (** [bool power_on{true}] *)
  door_open : bool        (** [bool door_open{false}] *)
}.

(** The default member initialisers (lines 15-17). *)
Definition refrigerator0 : refrigerator := mk_fridge (dbl_lit 0 0) true false.

(** The member functions (lines 26-28). *)
Definition change_temperature (f : refrigerator) (delta : double) : refrigerator :=
  mk_fridge (dadd (temperature f) delta) (power_on f) (door_open f).
Definition open_door (f : refrigerator) : refrigerator := mk_fridge (temperature f) (power_on f) true.
Definition close_door (f : refrigerator) : refrigerator := mk_fridge (temperature f) (power_on f) false.

(** [print(ostream & os) const] (lines 34-38). *)
Definition print_os (f : refrigerator) (os : ostream) : ostream :=
  let os := os << "Temperature: " << temperature f << ", " in
  let os := os << "Power: " << (if power_on f then "on" else "off") << ", " in
  os << "Door: " << (if door_open f then "open" else "closed") << std.endl.

(** [print() const] (lines 29-33): three statements on [std::cout]. *)
Definition print_cout (f : refrigerator) : st ostream unit :=
  say_os (fun o => o << "Temperature: " << temperature f << ", ") ;;
  say_os (fun o => o << "Power: " << (if power_on f then "on" else "off") << ", ") ;;
  say_os (fun o => o << "Door: " << (if door_open f then "open" else "closed") << std.endl).

(** [operator<<(ostream&, const refrigerator&)] (lines 46-49). *)
#[export] Instance insert_refrigerator : Insert refrigerator := fun os fridge => print_os fridge os.

(** [main] (lines 54-73). *)
Definition main : st ostream Z :=
  let fridge1 := refrigerator0 in
  say_os (fun o => o << "1st fridge values --> ") ;;
  print_cout fridge1 ;;
  say_os (fun o => o << "2nd fridge values --> " << fridge1) ;;
  let fridge1 := open_door fridge1 in
  say_os (fun o => o << "3rd fridge values --> " << fridge1) ;;
  say_os (fun o => o << std.endl << "END OF PROGRAM") ;;
  st_ret 0%Z.

End OverloadOstreamOperator.

Import OverloadOstreamOperator.

(** ** Theorems *)

(** The two printers of [refrigerator], written separately, agree:
    [fridge.print()] writes on [cout] exactly what [cout << fridge] (that
    is [print(cout)]) writes, in every state. *)
Theorem print_cout_os (f : refrigerator) (o : ostream) :
  print_cout f o = Ok (tt, o << f).
Proof. reflexivity. Qed.

(** The text of one [print]: the door and power flags in words. *)
Definition fridge_text (f : refrigerator) : string :=
  "Temperature: " ++ show_double (temperature f) ++ ", " ++
  "Power: " ++ (if power_on f then "on" else "off") ++ ", " ++
  "Door: " ++ (if door_open f then "open" else "closed") ++ NL.

(** [cout << fridge] writes the temperature as [operator<<(double)]
    prints it, then the power and door flags in words, one line, in every
    state of the object (on a stream with no width pending). *)
Theorem fridge_print_text (f : refrigerator) (o : ostream) :
  os_width o = 0%nat -> o << f = put_raw o (fridge_text f).
Proof.
  intros Hw. destruct o as [s w fl l b]. cbn in Hw. subst w.
  unfold ins, insert_refrigerator, print_os, fridge_text. cbn.
  unfold put_raw. cbn. rewrite !str_app_assoc. reflexivity.
Qed.

Lemma fridge_print_text_witness :
  ostringstream0 << open_door refrigerator0 = put_raw ostringstream0 (fridge_text (open_door refrigerator0)).
Proof. apply fridge_print_text. reflexivity. Defined.

(** [main] prints the default state (temperature 0, power on, door
    closed) twice, then the state with the door open, and "END OF
    PROGRAM" after an empty line. *)
Lemma fridge_main_output :
  main ostringstream0 =
    Ok (0%Z, put_raw ostringstream0
               ("1st fridge values --> " ++ fridge_text refrigerator0 ++
                "2nd fridge values --> " ++ fridge_text refrigerator0 ++
                "3rd fridge values --> " ++ fridge_text (open_door refrigerator0) ++
                NL ++ "END OF PROGRAM")).
Proof. vm_compute. reflexivity. Qed.
