(* ===== verification/Rest.v ===== *)
(** * APIService.cpp: the REST stub

    [addSupportToMethodsHTTP] (lines 9-19) registers one handler per HTTP
    method on the listener: [handleGET] for GET, and [notHandleMethod]
    bound to the method for the eight others.  [handleGET] (lines 21-45)
    logs the path and routes on it; every reply carries the JSON envelope
    built by [assemblyResponse] (lines 51-63).  The file does not compile as
    written (a closing parenthesis is missing at lines 33, 35 and 41); the
    model follows the evident intent of those three statements.  The
    listener of cpprestsdk and the [Logger] of the header are not in the
    repository: a server is the log and the replies sent, and the listener
    dispatches each request to the handler registered for its method (a
    method without one gets 405, as cpprestsdk answers).  A JSON object is
    kept sorted by key, as cpprestsdk's [web::json::object] keeps it. *)

From stdpp Require Import base list strings.
From Stdlib Require Import ZArith Lia String Ascii.
From S2P Require Import Prelude.

Local Open Scope string_scope.

(** ** HTTP and JSON *)

(** [web::http::methods]. *)
Inductive method := GET | PUT | POST | DEL | PATCH | HEAD | OPTIONS | TRCE | CONNECT.

#[export] Instance method_eq_dec : EqDecision method.
Proof. solve_decision. Defined.

(** The strings the constants stand for ([methods::DEL] is "DELETE",
    [methods::TRCE] is "TRACE"). *)
Definition method_name (m : method) : string :=
  match m with
  | GET => "GET" | PUT => "PUT" | POST => "POST" | DEL => "DELETE" | PATCH => "PATCH"
  | HEAD => "HEAD" | OPTIONS => "OPTIONS" | TRCE => "TRACE" | CONNECT => "CONNECT"
  end.

(** [web::http::status_codes] used by the file, and 405 of the listener. *)
Definition OK : Z := 200.
Definition NotFound : Z := 404.
Definition MethodNotAllowed : Z := 405.
Definition NotImplemented : Z := 501.

Inductive json := JNull | JString (s : string) | JObject (fields : list (string * json)).

(** [obj[key] = v] on a sorted object: replace, or insert in key order. *)
Fixpoint obj_set (fields : list (string * json)) (key : string) (v : json) : list (string * json) :=
  match fields with
  | [] => [(key, v)]
  | (k, w) :: r =>
      if String.eqb k key then (k, v) :: r
      else if str_lt key k then (key, v) :: fields
      else (k, w) :: obj_set r key v
  end.

Definition json_set (o : json) (key : string) (v : json) : json :=
  match o with JObject fs => JObject (obj_set fs key v) | _ => o end.

Definition json_get (o : json) (key : string) : option json :=
  match o with
  | JObject fs => snd <$> List.find (fun kv => String.eqb kv.1 key) fs
  | _ => None
  end.

(** ** APIService *)

(** [response_codes::code]. *)
Inductive code := ERROR | SUCCESS.

(** [response_codes::to_string] (lines 69-75). *)
Definition to_string (c : code) : string :=
  match c with ERROR => "error" | SUCCESS => "success" end.

Definition code_eqb (a b : code) : bool :=
  match a, b with ERROR, ERROR | SUCCESS, SUCCESS => true | _, _ => false end.

(** [assemblyResponse] (lines 51-63). *)
Definition assemblyResponse (rStatus : code) (rMessageOrData : string) : json :=
  let response := JObject [] in
  let isStatusSuccess := code_eqb rStatus SUCCESS in
  let response := json_set response "status" (JString (to_string rStatus)) in
  let response := json_set response "message" (if isStatusSuccess then JNull else JString rMessageOrData) in
  json_set response "data" (if isStatusSuccess then JString rMessageOrData else JNull).

Record http_request := mk_request { req_method : method; req_path : string }.
Record reply := mk_reply { status_code : Z; body : json }.

(** What the handlers change: the log and the replies sent. *)
Record server := mk_server { log : list string; replies : list reply }.

Definition server0 : server := mk_server [] [].

(** [message.reply(status, body)]. *)
Definition send (s : server) (st : Z) (b : json) : server := mk_server (log s) (replies s ++ [mk_reply st b]).

(** [Logger::getLogger()->log(line)]. *)
Definition log_line (s : server) (line : string) : server := mk_server (log s ++ [line]) (replies s).

(** [extractMessagePath] (lines 65-67). *)
Definition extractMessagePath (message : http_request) : string := req_path message.

(** [handleGET] (lines 21-45). *)
Definition handleGET (s : server) (message : http_request) : server :=
  let path := extractMessagePath message in
  let s := log_line s ("GET for path <" ++ path ++ ">") in
  if String.eqb path "/api" then
    send s OK (assemblyResponse SUCCESS "API REST for <demonstration>")
  else if String.eqb path "/api/resource-a" then
    (if true then send s OK (assemblyResponse SUCCESS "Yeah! Nicely done handling GET for resourceA!")
     else send s OK (assemblyResponse ERROR "Oops! Handling GET for resourceA was troubling..."))
  else if String.eqb path "/api/resource-a/subresource" then
    send s OK (assemblyResponse SUCCESS "Yeah! Nicely done handling GET for subresource!")
  else send s NotFound (assemblyResponse ERROR "path not found").

(** [notHandleMethod] (lines 47-49). *)
Definition notHandleMethod (s : server) (message : http_request) (m : method) : server :=
  send s NotImplemented (assemblyResponse ERROR (method_name m ++ " not implemented")).

(** A handler, as [std::bind] builds it. *)
Definition handler := server -> http_request -> server.

(** [addSupportToMethodsHTTP] (lines 9-19): the listener's table. *)
Definition addSupportToMethodsHTTP : list (method * handler) :=
  [(GET, handleGET);
   (PUT, fun s r => notHandleMethod s r PUT);
   (POST, fun s r => notHandleMethod s r POST);
   (DEL, fun s r => notHandleMethod s r DEL);
   (PATCH, fun s r => notHandleMethod s r PATCH);
   (HEAD, fun s r => notHandleMethod s r HEAD);
   (OPTIONS, fun s r => notHandleMethod s r OPTIONS);
   (TRCE, fun s r => notHandleMethod s r TRCE);
   (CONNECT, fun s r => notHandleMethod s r CONNECT)].

(** The listener: the handler registered for the request's method. *)
Definition dispatch (table : list (method * handler)) (s : server) (r : http_request) : server :=
  match List.find (fun mh => bool_decide (mh.1 = req_method r)) table with
  | Some (_, h) => h s r
  | None => send s MethodNotAllowed (JObject [])
  end.

Definition serve (s : server) (r : http_request) : server := dispatch addSupportToMethodsHTTP s r.

(** Runs of the service: a sequence of requests served in order. *)
Inductive reachable : server -> list http_request -> Prop :=
  | reach_init : reachable server0 []
  | reach_step s rs r : reachable s rs -> reachable (serve s r) (rs ++ [r]).

(** ** The contract of the service (spec, section 6) *)

(** The three resources that GET serves. *)
Definition get_paths : list string := ["/api"; "/api/resource-a"; "/api/resource-a/subresource"].

(** Status code and envelope status the spec promises for a request. *)
Definition spec_status (r : http_request) : Z * code :=
  if bool_decide (req_method r = GET) then
    (if existsb (String.eqb (req_path r)) get_paths then (OK, SUCCESS) else (NotFound, ERROR))
  else (NotImplemented, ERROR).

(** The log line of a request: one per GET. *)
Definition log_of (r : http_request) : list string :=
  if bool_decide (req_method r = GET) then ["GET for path <" ++ req_path r ++ ">"] else [].

(** ** Theorems *)

(** The envelope of every reply: the object holds exactly the keys
    "data", "message" and "status" (in the sorted order of the JSON
    object), "status" is "success" or "error", and exactly one of
    "message" and "data" is null: the text is the data on success and the
    message on error. *)
Theorem envelope_shape (c : code) (m : string) :
  assemblyResponse c m =
    JObject [("data", if code_eqb c SUCCESS then JString m else JNull);
             ("message", if code_eqb c SUCCESS then JNull else JString m);
             ("status", JString (to_string c))].
Proof. destruct c; reflexivity. Qed.

Lemma serve_get (s : server) (p : string) :
  serve s (mk_request GET p) = handleGET s (mk_request GET p).
Proof. reflexivity. Qed.

Lemma serve_other (s : server) (r : http_request) :
  req_method r <> GET -> serve s r = notHandleMethod s r (req_method r).
Proof. destruct r as [[] p]; cbn; [done|..]; reflexivity. Qed.

Lemma handleGET_spec (s : server) (p : string) :
  exists text, handleGET s (mk_request GET p) =
    send (log_line s ("GET for path <" ++ p ++ ">")) (spec_status (mk_request GET p)).1
         (assemblyResponse (spec_status (mk_request GET p)).2 text).
Proof.
  unfold handleGET, spec_status, extractMessagePath. cbn [req_path req_method get_paths existsb].
  rewrite bool_decide_eq_true_2 by done.
  destruct (String.eqb_spec p "/api"); [eexists; reflexivity|].
  destruct (String.eqb_spec p "/api/resource-a"); [eexists; reflexivity|].
  destruct (String.eqb_spec p "/api/resource-a/subresource"); eexists; reflexivity.
Qed.

(** C38: the listener with the table of [addSupportToMethodsHTTP] and the
    handlers implement the routing the spec describes: GET on the three
    resources replies 200 with a success envelope, GET elsewhere 404 with
    an error envelope, every other method 501 with the message
    "<METHOD> not implemented"; only GET requests are logged. *)
Theorem serve_refines (s : server) (r : http_request) :
  exists text,
    serve s r = send (mk_server (log s ++ log_of r) (replies s)) (spec_status r).1
                     (assemblyResponse (spec_status r).2 text) /\
    (req_method r <> GET -> text = method_name (req_method r) ++ " not implemented").
Proof.
  destruct (decide (req_method r = GET)) as [Hg|Hg].
  - destruct r as [m p]. cbn in Hg. subst m. rewrite serve_get.
    destruct (handleGET_spec s p) as [text ->]. exists text. split; [|done].
    unfold log_of. rewrite bool_decide_eq_true_2 by done. reflexivity.
  - rewrite serve_other by done. eexists. split; [|reflexivity].
    unfold notHandleMethod, spec_status, log_of. rewrite !bool_decide_eq_false_2 by done.
    rewrite app_nil_r. by destruct s.
Qed.

(** C39: along any run of the service, the log holds one line per GET
    request, in order, and the replies are one per request, in order, each
    with the status code the spec gives it. *)
Theorem run_invariant (s : server) (rs : list http_request) :
  reachable s rs ->
  log s = List.concat (map log_of rs) /\
  map status_code (replies s) = map (fun r => (spec_status r).1) rs.
Proof.
  induction 1 as [|s rs r _ [Hlog Hrep]]; [done|].
  destruct (serve_refines s r) as (text & -> & _). cbn.
  rewrite !map_app, List.concat_app, Hlog, Hrep. cbn.
  split; [by rewrite List.app_nil_r|done].
Qed.

Lemma run_invariant_witness :
  log (serve (serve (serve server0 (mk_request GET "/api")) (mk_request POST "/api")) (mk_request GET "/x")) =
    List.concat (map log_of [mk_request GET "/api"; mk_request POST "/api"; mk_request GET "/x"]) /\
  map status_code (replies (serve (serve (serve server0 (mk_request GET "/api")) (mk_request POST "/api")) (mk_request GET "/x"))) =
    map (fun r => (spec_status r).1) [mk_request GET "/api"; mk_request POST "/api"; mk_request GET "/x"].
Proof.
  apply run_invariant.
  change [mk_request GET "/api"; mk_request POST "/api"; mk_request GET "/x"]
    with ((([] ++ [mk_request GET "/api"]) ++ [mk_request POST "/api"]) ++ [mk_request GET "/x"])%list.
  repeat constructor.
Defined.
