(* ===== verification/Coins.v ===== *)
(** * The coin-change calculator: src/minor-codes/CoinsChange/main.cpp

    State: the console ([cin] as an [istream], [cout] as the list of events
    printed) in the record [io]; the program threads it through the monad
    [st io].  Operations: [check_input] (the do-while prompt loop),
    [populate_coins_default] and [populate_coins_file] (the two overloads of
    [populate_coins]), [give_change] (the range-for over the coins in
    [main]) and [coins_main].  The class [coin] and its method [do_coin]
    live in src/coin.h and src/coin.cpp, which the repository does not
    contain; they are modelled from the spec (sections 3 and 4.2): a coin
    has a singular name, a plural name and a value, and [do_coin] prints
    how many whole coins fit into the change and returns what is left. *)

From stdpp Require Import base list strings.
From Stdlib Require Import ZArith Lia String Ascii.
From S2P Require Import Prelude Stream.

Local Open Scope string_scope.
Local Open Scope cpp_scope.

(** ** Data *)

(** [coin{singular, plural, value}]; [value] is the [int] member, an
    [ival] so that reading it is checked ([parse_coin_line] never builds
    a coin from an indeterminate [int]: the copy is already undefined). *)
Record coin := mk_coin { singular : string; plural : string; value : ival }.

(** What the program prints. *)
Inductive event :=
| Prompt                        (** "Please enter the amount of change ..." *)
| CoinCount (c : coin) (n : Z)  (** do_coin: [n] coins of [c] *)
| NotHandled (r : Z)            (** "Plus r not handled by currency system!" *)
| ConfigError                   (** "ERROR: Problem reading coins config file!" *)
| Exiting                       (** "Exiting..." *)
| TheEnd.                       (** "END" *)

Record io := mk_io { cin : istream; cout : list event }.

Definition emit (e : event) : st io unit :=
  st_modify (fun s => mk_io (cin s) (cout s ++ [e])).

(** [std::cin >> x] on a variable holding [old]. *)
Definition read_cin (old : Z) : st io Z :=
  fun s => let '(v, i') := shr (cin s) old in Ok (v, mk_io i' (cout s)).

(** ** coin::do_coin (src/coin.cpp, modelled from the spec) *)

(** [change / value] whole coins fit; a non-zero count is printed; the rest
    [change - count * value] is returned.  The division is C++'s, so a
    zero value is undefined and a negative change gives a count rounded
    toward zero. *)
Definition do_coin (c : coin) (change : Z) : st io Z :=
  let* v := read_ival (value c) in
  if (v =? 0)%Z then st_stuck DivisionByZero
  else
    let n := cdiv change v in
    (if (n =? 0)%Z then st_ret tt else emit (CoinCount c n)) ;;
    st_ret (change - n * v)%Z.

(** ** main.cpp *)

(** [for (auto c : coins) change = c.do_coin(change);] (lines 97-100). *)
Fixpoint give_change (coins : list coin) (change : Z) : st io Z :=
  match coins with
  | [] => st_ret change
  | c :: cs => let* ch := do_coin c change in give_change cs ch
  end.

(** [check_input] (lines 22-29): prompt and read until the value is -1 or
    lies in [1, 499]; [input] keeps its value when a read fails. *)
Fixpoint check_input_loop (fuel : nat) (input : Z) : st io Z :=
  match fuel with
  | O => st_nofuel
  | S f =>
      emit Prompt ;;
      let* input' := read_cin input in
      if ((input' <? -1) || (input' =? 0) || (499 <? input'))%Z
      then check_input_loop f input'
      else st_ret input'
  end.

Definition check_input (fuel : nat) : st io Z := check_input_loop fuel 0%Z.

(** [populate_coins()] (lines 31-46): the hard-coded American coins. *)
Definition populate_coins_default : list coin :=
  [mk_coin "dollar" "dollars" (Val 100); mk_coin "half" "halves" (Val 50);
   mk_coin "quarter" "quarters" (Val 25); mk_coin "dime" "dimes" (Val 10);
   mk_coin "nickel" "nickels" (Val 5); mk_coin "penny" "pennies" (Val 1)].

(** The body of the getline loop of [populate_coins(filename)] (lines
    57-69): [ISStream >> singular >> plural >> value] on the line, with
    [singular] and [plural] empty strings and [value] uninitialised
    before the reads; then [coin c(singular, plural, value)] copies
    [value] into the constructor's [int] parameter (line 68), which is
    undefined when no read assigned it (C++17 [basic.indet]/2). *)
Definition parse_coin_line (line : string) : outcome coin :=
  let i := open_stream line in
  let '(sg, i) := shr i EmptyString in
  let '(pl, i) := shr i EmptyString in
  let '(v, _) := shr_ival i Uninit in
  match v with
  | Val z => Ok (mk_coin sg pl (Val z))
  | Uninit => Stuck IndeterminateRead
  end.

(** [populate_coins(filename)] (lines 48-76): [file] is the contents of the
    file, [None] when it cannot be opened. *)
Definition populate_coins_file (file : option string) : st io (list coin) :=
  match file with
  | None => emit ConfigError ;; st_ret []
  | Some contents =>
      match getlines (open_stream contents) with
      | Ok (lines, _) => st_lift (out_mapM parse_coin_line lines)
      | Stuck u => st_stuck u
      | NoFuel => st_nofuel
      end
  end.

(** The while loop of [main] (lines 93-103). *)
Fixpoint main_loop (fuel : nat) (coins : list coin) (input : Z) : st io unit :=
  match fuel with
  | O => st_nofuel
  | S f =>
      if (input =? -1)%Z then st_ret tt
      else
        let* input' := check_input f in
        let* change := give_change coins input' in
        (if (change =? 0)%Z then st_ret tt else emit (NotHandled change)) ;;
        main_loop f coins input'
  end.

(** [main] after the coins are loaded (lines 88-105): the empty-table exit,
    the loop, and "END"; returns the exit code. *)
Definition run_coins (fuel : nat) (coins : list coin) : st io Z :=
  match coins with
  | [] => emit Exiting ;; st_ret 1%Z
  | _ :: _ => main_loop fuel coins 0%Z ;; emit TheEnd ;; st_ret 0%Z
  end.

(** [main] (lines 78-106). *)
Definition coins_main (fuel : nat) (file : option string) : st io Z :=
  let* coins := populate_coins_file file in
  run_coins fuel coins.

(** A run from a console whose input is [input]. *)
Definition run_main (fuel : nat) (file : option string) (input : string) : outcome (Z * io) :=
  coins_main fuel file (mk_io (open_stream input) []).

(** ** The greedy loop *)

Lemma io_eta (s : io) : mk_io (cin s) (cout s) = s.
Proof. by destruct s. Qed.

(** A coin whose value is a positive [int]. *)
Definition coin_ok (c : coin) : bool :=
  match value c with Val v => (0 <? v)%Z | Uninit => false end.

(** The money handed out by the printed counts. *)
Definition event_paid (e : event) : Z :=
  match e with
  | CoinCount c n => match value c with Val v => n * v | Uninit => 0 end
  | _ => 0
  end%Z.

Definition paid (es : list event) : Z := fold_right (fun e acc => event_paid e + acc)%Z 0%Z es.

Lemma paid_app (es1 es2 : list event) : paid (es1 ++ es2) = (paid es1 + paid es2)%Z.
Proof. induction es1 as [|e es IH]; simpl; [done|]. rewrite IH. lia. Qed.

(** What [do_coin] prints for a count [n]. *)
Definition coin_out (c : coin) (n : Z) : list event :=
  if (n =? 0)%Z then [] else [CoinCount c n].

Lemma paid_coin_out (c : coin) (v n : Z) :
  value c = Val v -> paid (coin_out c n) = (n * v)%Z.
Proof. intros Hv. unfold coin_out. zcase; simpl; [lia|]. rewrite Hv. lia. Qed.

Lemma do_coin_run (c : coin) (v change : Z) (s : io) :
  value c = Val v -> (v <> 0)%Z ->
  do_coin c change s =
    Ok ((change - cdiv change v * v)%Z, mk_io (cin s) (cout s ++ coin_out c (cdiv change v))).
Proof.
  intros Hv Hv0. unfold do_coin, emit, coin_out. st_simpl. rewrite Hv.
  destruct (Z.eqb_spec v 0); [lia|].
  destruct (Z.eqb_spec (cdiv change v) 0); [rewrite app_nil_r, io_eta|]; reflexivity.
Qed.

(** On a non-negative change the greedy step keeps [change mod v]. *)
Lemma do_coin_nonneg (c : coin) (v change : Z) (s : io) :
  value c = Val v -> (0 < v)%Z -> (0 <= change)%Z ->
  do_coin c change s =
    Ok ((change mod v)%Z, mk_io (cin s) (cout s ++ coin_out c (change / v))).
Proof.
  intros Hv Hpos Hc. rewrite (do_coin_run c v) by (auto; lia).
  rewrite cdiv_nonneg by lia. rewrite (Z.mod_eq change v) by lia.
  do 2 f_equal. lia.
Qed.

Lemma coin_ok_val (c : coin) : coin_ok c = true -> exists v, value c = Val v /\ (0 < v)%Z.
Proof. unfold coin_ok. destruct (value c) as [v|]; [|done]. intros H%Z.ltb_lt. eauto. Qed.

Lemma give_change_spec (coins : list coin) (change : Z) (s : io) :
  Forall (fun c => coin_ok c = true) coins -> (0 <= change)%Z ->
  exists r outs,
    give_change coins change s = Ok (r, mk_io (cin s) (cout s ++ outs)) /\
    change = (paid outs + r)%Z /\ (0 <= r <= change)%Z /\
    (forall c v, c ∈ coins -> value c = Val v -> (r < v)%Z).
Proof.
  revert change s. induction coins as [|c cs IH]; intros change s Hok Hc.
  - exists change, []. rewrite app_nil_r, io_eta. simpl.
    repeat split; try lia. intros c v Hin. inversion Hin.
  - inversion Hok as [|? ? Hc0 Hcs]; subst.
    destruct (coin_ok_val c Hc0) as (v & Hv & Hpos). simpl. st_simpl.
    rewrite (do_coin_nonneg c v) by auto. cbv beta iota.
    pose proof (Z.mod_pos_bound change v Hpos) as Hm.
    destruct (IH (change mod v)%Z (mk_io (cin s) (cout s ++ coin_out c (change / v))) Hcs
                 ltac:(lia)) as (r & outs & Hrun & Hpaid & Hr & Hlt).
    exists r, (coin_out c (change / v) ++ outs)%list. rewrite Hrun. cbn [cin cout].
    rewrite app_assoc. split; [reflexivity|].
    rewrite paid_app, (paid_coin_out c v) by done.
    pose proof (Z.div_mod change v ltac:(lia)) as Hdm.
    split; [lia|]. split.
    + pose proof (Z.mod_le change v). lia.
    + intros c' v' Hin Hv'. apply elem_of_cons in Hin as [->|Hin]; [|eauto].
      rewrite Hv in Hv'. injection Hv' as <-. lia.
Qed.

(** C1: for a table of positive coin values and a non-negative change, the
    loop of [main] terminates without undefined behaviour, prints counts
    that pay out the change exactly together with the remainder, and the
    remainder is non-negative and below every coin value. *)
Theorem give_change_conserves (coins : list coin) (change : Z) (s : io) :
  Forall (fun c => coin_ok c = true) coins -> (0 <= change)%Z ->
  exists r outs,
    give_change coins change s = Ok (r, mk_io (cin s) (cout s ++ outs)) /\
    change = (paid outs + r)%Z /\ (0 <= r <= change)%Z /\
    (forall c v, c ∈ coins -> value c = Val v -> (r < v)%Z).
Proof. apply give_change_spec. Qed.

Lemma give_change_conserves_witness :
  exists r outs,
    give_change populate_coins_default 356 (mk_io (open_stream "") []) =
      Ok (r, mk_io (open_stream "") ([] ++ outs)) /\
    356%Z = (paid outs + r)%Z /\ (0 <= r <= 356)%Z /\
    (forall c v, c ∈ populate_coins_default -> value c = Val v -> (r < v)%Z).
Proof.
  apply (give_change_conserves populate_coins_default 356 (mk_io (open_stream "") []));
    [repeat constructor | lia].
Defined.

(** When the table has a coin of value 1 no change is left over, so
    [main] never prints "not handled". *)
Corollary give_change_exact (coins : list coin) (change : Z) (s : io) :
  Forall (fun c => coin_ok c = true) coins -> (0 <= change)%Z ->
  (exists c, c ∈ coins /\ value c = Val 1) ->
  exists outs, give_change coins change s = Ok (0%Z, mk_io (cin s) (cout s ++ outs)) /\
    change = paid outs.
Proof.
  intros Hok Hc (c1 & Hin & Hv1).
  destruct (give_change_spec coins change s Hok Hc) as (r & outs & Hrun & Hpaid & Hr & Hlt).
  specialize (Hlt c1 1%Z Hin Hv1). assert (r = 0%Z) as -> by lia.
  exists outs. split; [done|lia].
Qed.

Lemma give_change_exact_witness :
  exists outs, give_change populate_coins_default 356 (mk_io (open_stream "") []) =
    Ok (0%Z, mk_io (open_stream "") ([] ++ outs)) /\ 356%Z = paid outs.
Proof.
  apply (give_change_exact populate_coins_default 356 (mk_io (open_stream "") []));
    [repeat constructor | lia |].
  exists (mk_coin "penny" "pennies" (Val 1)). split; [|reflexivity].
  apply list_elem_of_In. simpl. tauto.
Defined.

(** ** The input loop *)

(** The values [check_input] accepts. *)
Definition valid_amount (z : Z) : bool := ((z =? -1) || ((1 <=? z) && (z <=? 499)))%Z.

Lemma check_input_cond (z : Z) :
  ((z <? -1) || (z =? 0) || (499 <? z))%Z = negb (valid_amount z).
Proof. unfold valid_amount. zcase; simpl; try reflexivity; lia. Qed.

(** A read that sets failbit yields nothing, or an [int] bound. *)
Lemma extract_int_fail_value (i i' : istream) (r : option Z) :
  extract_int i = (r, i') -> failbit i' = true ->
  r = None \/ r = Some 0%Z \/ r = Some INT_MIN \/ r = Some INT_MAX.
Proof.
  unfold extract_int, sentry. destruct (good i); [|intros [= <- _]; auto].
  destruct (is_empty (skip_ws (buf i))); [intros [= <- _]; auto|]. cbn [buf].
  destruct (read_sign _) as [neg s1], (read_digits s1) as [ds s2].
  repeat match goal with |- context [if ?b then _ else _] => destruct b end;
    intros [= <- <-]; cbn [failbit]; auto; discriminate.
Qed.

Lemma check_input_loop_diverges (fuel : nat) (input : Z) (s : io) :
  valid_amount input = false -> failbit (snd (extract_int (cin s))) = true ->
  check_input_loop fuel input s = NoFuel.
Proof.
  revert input s. induction fuel as [|f IH]; intros input s Hv Hfail; [reflexivity|].
  destruct (extract_int (cin s)) as [r i'] eqn:E. simpl in Hfail.
  cbn [check_input_loop]. unfold emit, read_cin, shr, extract, extract_int_inst.
  st_simpl. cbn [cin cout]. rewrite E, check_input_cond.
  assert (Hv' : valid_amount (match r with Some v => v | None => input end) = false).
  { destruct (extract_int_fail_value _ _ _ E Hfail) as [->|[->|[->| ->]]]; [done|reflexivity..]. }
  rewrite Hv'. simpl. apply IH; [done|]. cbn [cin].
  by rewrite (proj1 (failed_stream_inert i' Hfail)).
Qed.

(** C3: [check_input] never returns once a read of [std::cin] fails: on a
    token that is not a number (which stores 0), at the end of the input
    (which stores nothing), or on a number outside [int] (clamped to a
    bound).  [input] holds a value outside the accepted range, failbit stays set since nothing clears it,
    and the do-while condition stays true.  No bound on the iterations
    suffices. *)
Theorem check_input_diverges (fuel : nat) (s : io) :
  failbit (snd (extract_int (cin s))) = true -> check_input fuel s = NoFuel.
Proof. intros H. by apply check_input_loop_diverges. Qed.

Lemma check_input_diverges_witness :
  failbit (snd (extract_int (open_stream "99999999999"))) = true /\
  check_input 1000 (mk_io (open_stream "99999999999") []) = NoFuel.
Proof.
  split; [reflexivity|].
  apply (check_input_diverges 1000 (mk_io (open_stream "99999999999") [])). reflexivity.
Defined.

(** The console text "z1 z2 ... zn " typed by the user. *)
Fixpoint ints_text (zs : list Z) : string :=
  match zs with
  | [] => EmptyString
  | z :: r => show_Z z ++ String " " (ints_text r)
  end.

(** A leading blank does not change what [is >> n] reads. *)
Lemma extract_int_blank (t : string) :
  extract_int (open_stream (String " " t)) = extract_int (open_stream t).
Proof. reflexivity. Qed.

Lemma check_input_loop_blank (f : nat) (input : Z) (t : string) (out : list event) :
  check_input_loop f input (mk_io (open_stream (String " " t)) out) =
  check_input_loop f input (mk_io (open_stream t) out).
Proof. destruct f; reflexivity. Qed.

Lemma check_input_reads_valid (zs : list Z) (z : Z) (fuel : nat) (input : Z) (out : list event) :
  Forall (fun x => (INT_MIN <= x <= INT_MAX)%Z /\ valid_amount x = false) zs ->
  valid_amount z = true -> (List.length zs < fuel)%nat ->
  check_input_loop fuel input (mk_io (open_stream (ints_text (zs ++ [z]))) out) =
    Ok (z, mk_io (open_stream " ") (out ++ repeat Prompt (S (List.length zs)))).
Proof.
  intros Hzs Hz. revert fuel input out.
  induction Hzs as [|x zs [Hx Hxv] Hzs IH]; intros [|f] input out Hf; simpl in Hf; try lia.
  - cbn [app ints_text check_input_loop]. unfold emit, read_cin, shr, extract, extract_int_inst.
    st_simpl. cbn [cin cout]. rewrite extract_int_in_range; [| |reflexivity].
    + cbn [is_empty]. rewrite check_input_cond, Hz. reflexivity.
    + unfold valid_amount in Hz. unfold INT_MIN, INT_MAX. zcase; simpl in Hz; lia.
  - cbn [app ints_text check_input_loop]. unfold emit, read_cin, shr, extract, extract_int_inst.
    st_simpl. cbn [cin cout]. rewrite extract_int_in_range by done.
    cbn [is_empty]. rewrite check_input_cond, Hxv. cbn [negb].
    change (mk_is (String " " (ints_text (zs ++ [z]))) false false)
      with (open_stream (String " " (ints_text (zs ++ [z])))).
    rewrite check_input_loop_blank, IH by lia.
    rewrite <- app_assoc. reflexivity.
Qed.

(** C4: [check_input] skips the out-of-range numbers typed before the first
    acceptable one and returns it, after one prompt per number read. *)
Theorem check_input_accepts (zs : list Z) (z : Z) (fuel : nat) (input : Z) (out : list event) :
  Forall (fun x => (INT_MIN <= x <= INT_MAX)%Z /\ valid_amount x = false) zs ->
  valid_amount z = true -> (List.length zs < fuel)%nat ->
  check_input_loop fuel input (mk_io (open_stream (ints_text (zs ++ [z]))) out) =
    Ok (z, mk_io (open_stream " ") (out ++ repeat Prompt (S (List.length zs)))).
Proof. apply check_input_reads_valid. Qed.

Lemma check_input_accepts_witness :
  check_input 3 (mk_io (open_stream (ints_text [0; 500; 356]%Z)) []) =
    Ok (356%Z, mk_io (open_stream " ") ([] ++ repeat Prompt 3)).
Proof.
  apply (check_input_accepts [0; 500]%Z 356 3 0 []);
    [repeat constructor; unfold INT_MIN, INT_MAX; lia | reflexivity | simpl; lia].
Defined.

(** ** Loading the table *)

(** A token [operator>>(std::string&)] reads whole: non-empty, no blank. *)
Definition word_ok (w : string) : bool :=
  negb (is_empty w) && str_forall (fun c => negb (is_ws c)) w.

(** A well-formed line of the coins file, "singular plural value". *)
Definition coin_line (c : coin) : string :=
  singular c ++ String " " (plural c ++ String " "
    (match value c with Val v => show_Z v | Uninit => EmptyString end)).

Definition coin_wf (c : coin) : bool :=
  word_ok (singular c) && word_ok (plural c) &&
  match value c with Val v => in_int v | Uninit => false end.

(** The coins file holding the table [tab], one coin per line. *)
Definition render (tab : list coin) : string := unlines (map coin_line tab).

Lemma read_word_app (w rest : string) :
  str_forall (fun c => negb (is_ws c)) w = true ->
  starts_with (fun c => negb (is_ws c)) rest = false ->
  read_word (w ++ rest) = (w, rest).
Proof.
  induction w as [|c w IH]; intros Hw Hr.
  - destruct rest as [|c r]; simpl in *; [done|]. apply negb_false_iff in Hr. by rewrite Hr.
  - rewrite str_app_cons. simpl in Hw. apply andb_true_iff in Hw as [Hc Hw].
    apply negb_true_iff in Hc. simpl. rewrite Hc, IH; auto.
Qed.

Lemma extract_string_word (w rest : string) :
  word_ok w = true -> starts_with (fun c => negb (is_ws c)) rest = false ->
  extract_string (open_stream (w ++ rest)) = (Some w, mk_is rest false (is_empty rest)).
Proof.
  intros Hw Hr. unfold word_ok in Hw. apply andb_true_iff in Hw as [Hne Hw].
  unfold extract_string, sentry. cbn [good open_stream failbit eofbit negb andb buf].
  destruct w as [|c w']; [done|]. rewrite str_app_cons.
  rewrite skip_ws_id by (simpl in Hw |- *; apply andb_true_iff in Hw as [Hc _];
                         by apply negb_true_iff in Hc).
  cbn [is_empty buf]. rewrite <- str_app_cons, read_word_app; done.
Qed.

Lemma extract_string_blank (t : string) :
  extract_string (open_stream (String " " t)) = extract_string (open_stream t).
Proof. reflexivity. Qed.

Lemma parse_coin_line_ok (c : coin) : coin_wf c = true -> parse_coin_line (coin_line c) = Ok c.
Proof.
  destruct c as [sg pl [v|]]; unfold coin_wf; cbn [singular plural value];
    [|rewrite andb_false_r; discriminate].
  rewrite !andb_true_iff. intros [[Hsg Hpl] Hv]. apply in_int_spec in Hv.
  unfold parse_coin_line, coin_line, shr, shr_ival, extract, extract_string_inst.
  cbn [singular plural value].
  rewrite extract_string_word by done. cbn [is_empty].
  change (mk_is (String " " (pl ++ String " " (show_Z v))) false false)
    with (open_stream (String " " (pl ++ String " " (show_Z v)))).
  rewrite extract_string_blank, extract_string_word by done. cbn [is_empty].
  change (mk_is (String " " (show_Z v)) false false) with (open_stream (String " " (show_Z v))).
  rewrite extract_int_blank, <- (str_app_nil_r (show_Z v)), extract_int_in_range by done.
  reflexivity.
Qed.

Lemma no_newline_coin_line (c : coin) : coin_wf c = true -> no_newline (coin_line c) = true.
Proof.
  destruct c as [sg pl [v|]]; unfold coin_wf, word_ok; cbn [singular plural value];
    [|rewrite andb_false_r; discriminate].
  rewrite !andb_true_iff. intros [[[_ Hsg] [_ Hpl]] _]. unfold coin_line, no_newline. cbn [singular plural value].
  rewrite str_forall_app. cbn [str_forall]. rewrite str_forall_app. cbn [str_forall].
  fold (no_newline sg) (no_newline pl) (no_newline (show_Z v)).
  rewrite !no_newline_word, no_newline_show_Z by done. reflexivity.
Qed.

Lemma lines_of_render (tab : list coin) :
  Forall (fun c => coin_wf c = true) tab ->
  getlines (open_stream (render tab)) = Ok (map coin_line tab, mk_is EmptyString true true).
Proof.
  intros Htab. apply getlines_lines. apply Forall_map.
  eapply Forall_impl; [exact Htab|]. intros c. apply no_newline_coin_line.
Qed.

(** The lines of a well-formed table parse back to its coins, whatever
    follows them. *)
Lemma parse_table_app (tab : list coin) (ls : list string) :
  Forall (fun c => coin_wf c = true) tab ->
  out_mapM parse_coin_line (map coin_line tab ++ ls)%list = out_map (fun cs => (tab ++ cs)%list) (out_mapM parse_coin_line ls).
Proof.
  intros Htab. induction Htab as [|c tab Hc Htab IH]; cbn [map app out_mapM].
  - by destruct (out_mapM parse_coin_line ls).
  - rewrite parse_coin_line_ok by done. cbn [out_bind]. rewrite IH.
    by destruct (out_mapM parse_coin_line ls).
Qed.

(** C5: [populate_coins(filename)] reads back every well-formed table: a
    file written one coin per line as "singular plural value" gives the
    coins in file order (no sorting; spec section 4.1). *)
Theorem populate_coins_roundtrip (tab : list coin) (s : io) :
  Forall (fun c => coin_wf c = true) tab ->
  populate_coins_file (Some (render tab)) s = Ok (tab, s).
Proof.
  intros Htab. unfold populate_coins_file. rewrite lines_of_render by done.
  pose proof (parse_table_app tab [] Htab) as H. rewrite app_nil_r in H. rewrite H. cbn. by rewrite app_nil_r.
Qed.

Lemma populate_coins_roundtrip_witness :
  populate_coins_file (Some (render populate_coins_default)) (mk_io (open_stream "") []) =
    Ok (populate_coins_default, mk_io (open_stream "") []).
Proof. apply populate_coins_roundtrip. repeat constructor. Defined.

(** ** Malformed lines *)

(** A line with two words and no value leaves [value] unassigned. *)
Lemma parse_missing_value (w1 w2 : string) :
  word_ok w1 = true -> word_ok w2 = true -> parse_coin_line (w1 ++ String " " w2) = Stuck IndeterminateRead.
Proof.
  intros H1 H2. unfold parse_coin_line, shr, shr_ival, extract, extract_string_inst.
  rewrite extract_string_word by done. cbn [is_empty].
  change (mk_is (String " " w2) false false) with (open_stream (String " " w2)).
  rewrite extract_string_blank, <- (str_app_nil_r w2), extract_string_word by done.
  reflexivity.
Qed.

(** A third token that is not a number stores 0 in [value]. *)
Lemma parse_not_a_number (w1 w2 : string) (c : ascii) (r : string) :
  word_ok w1 = true -> word_ok w2 = true ->
  is_ws c = false -> is_digit c = false -> Ascii.eqb c "-"%char = false -> Ascii.eqb c "+"%char = false ->
  parse_coin_line (w1 ++ String " " (w2 ++ String " " (String c r))) = Ok (mk_coin w1 w2 (Val 0)).
Proof.
  intros H1 H2 Hw Hd Hm Hp.
  unfold parse_coin_line, shr, shr_ival, extract, extract_string_inst, extract_int_inst.
  rewrite extract_string_word by done. cbn [is_empty].
  change (mk_is (String " " (w2 ++ String " " (String c r))) false false)
    with (open_stream (String " " (w2 ++ String " " (String c r)))).
  rewrite extract_string_blank, extract_string_word by done. cbn [is_empty].
  change (mk_is (String " " (String c r)) false false) with (open_stream (String " " (String c r))).
  rewrite extract_int_blank, extract_int_no_digit by done. reflexivity.
Qed.

Lemma unlines_app (a b : list string) : unlines (a ++ b) = (unlines a ++ unlines b)%string.
Proof. induction a as [|l a IH]; simpl; [done|]. rewrite IH, str_app_assoc. reflexivity. Qed.

(** A file holding a well-formed table, the line [l], then another
    well-formed table, parses as the first table followed by what the
    lines from [l] on parse to. *)
Lemma populate_line_between (tab tab2 : list coin) (l : string) (s : io) :
  Forall (fun c => coin_wf c = true) tab -> Forall (fun c => coin_wf c = true) tab2 -> no_newline l = true ->
  populate_coins_file (Some (render tab ++ unlines [l] ++ render tab2)) s =
    st_lift (out_map (fun cs => (tab ++ cs)%list) (out_mapM parse_coin_line (l :: map coin_line tab2))) s.
Proof.
  intros H1 H2 Hl. unfold populate_coins_file, render.
  rewrite <- !unlines_app, getlines_lines.
  - cbv iota beta. by rewrite parse_table_app.
  - apply Forall_app. split; [|constructor; [done|]];
      apply Forall_map; [eapply Forall_impl; [exact H1|]|eapply Forall_impl; [exact H2|]];
      intros c; apply no_newline_coin_line.
Qed.

(** C6: malformed lines of the coins file are not skipped, as the spec
    (section 4.1) says they are.  A line anywhere in the file with only
    two words, or an empty line, leaves [value] unassigned, and building
    the coin from it at line 68 is undefined; a line whose third token is
    not a number is kept, with the value 0 that [operator>>] stores on
    failure. *)
Theorem malformed_line_ub (tab tab2 : list coin) (w1 w2 : string) (c : ascii) (r : string) (s : io) :
  Forall (fun c => coin_wf c = true) tab -> Forall (fun c => coin_wf c = true) tab2 ->
  word_ok w1 = true -> word_ok w2 = true ->
  is_ws c = false -> is_digit c = false -> Ascii.eqb c "-"%char = false -> Ascii.eqb c "+"%char = false ->
  no_newline r = true ->
  populate_coins_file (Some (render tab ++ unlines [w1 ++ String " " w2] ++ render tab2)) s = Stuck IndeterminateRead /\
  populate_coins_file (Some (render tab ++ unlines [EmptyString] ++ render tab2)) s = Stuck IndeterminateRead /\
  populate_coins_file (Some (render tab ++ unlines [w1 ++ String " " (w2 ++ String " " (String c r))] ++ render []))
    s = Ok ((tab ++ [mk_coin w1 w2 (Val 0)])%list, s).
Proof.
  intros Ht Ht2 H1 H2 Hw Hd Hm Hp Hr.
  assert (N1 : no_newline w1 = true) by (apply no_newline_word; by apply andb_true_iff in H1 as [_ ?]).
  assert (N2 : no_newline w2 = true) by (apply no_newline_word; by apply andb_true_iff in H2 as [_ ?]).
  assert (Nc : negb (Ascii.eqb c "010"%char) = true) by (destruct c as [[] [] [] [] [] [] [] []]; done).
  split; [|split].
  - rewrite populate_line_between by (try done; unfold no_newline in *; rewrite str_forall_app; cbn [str_forall]; by rewrite N1, N2).
    cbn [out_mapM]. by rewrite parse_missing_value.
  - by rewrite populate_line_between.
  - rewrite populate_line_between by (try done; unfold no_newline in *;
      rewrite str_forall_app; cbn [str_forall]; rewrite str_forall_app; cbn [str_forall]; by rewrite N1, N2, Nc, Hr).
    cbn [out_mapM map]. rewrite parse_not_a_number by done. reflexivity.
Qed.

Lemma malformed_line_ub_witness :
  populate_coins_file (Some (render populate_coins_default ++ unlines ["half" ++ String " " "halves"] ++ render []))
    (mk_io (open_stream "") []) = Stuck IndeterminateRead /\
  populate_coins_file (Some (render populate_coins_default ++ unlines [EmptyString] ++ render []))
    (mk_io (open_stream "") []) = Stuck IndeterminateRead /\
  populate_coins_file (Some (render populate_coins_default ++ unlines ["half" ++ String " " ("halves" ++ String " " (String "x" "5"))] ++ render []))
    (mk_io (open_stream "") []) = Ok ((populate_coins_default ++ [mk_coin "half" "halves" (Val 0)])%list, mk_io (open_stream "") []).
Proof. apply (malformed_line_ub populate_coins_default [] "half" "halves" "x" "5"); try reflexivity; repeat constructor. Defined.




(** With no table [main] exits with code 1: an unreadable file prints
    the configuration error then "Exiting...", an empty file only
    "Exiting..."; nothing is read from the console. *)
Theorem main_without_table (fuel : nat) (input : string) :
  run_main fuel None input = Ok (1%Z, mk_io (open_stream input) [ConfigError; Exiting]) /\
  run_main fuel (Some EmptyString) input = Ok (1%Z, mk_io (open_stream input) [Exiting]).
Proof. split; reflexivity. Qed.
