(* ===== verification/Iterators.v ===== *)
(** * Iterators.cpp: iterators of a vector, inserters and stream iterators

    [main] (lines 25-140) walks [vector<int> intV] with indices, iterators
    and a range-for, writes through an iterator, fills [intV3] through a
    [back_inserter], a [list] through a [front_inserter], inserts into
    [intV3] through two [inserter]s, prints with [ostream_iterator]s and
    reads [cin] through [istream_iterator]s.  The state is [cout] and
    [cin]; the containers are local values threaded through [main].  The
    vector and its iterators are those of [Vector], so the invalidation of
    [it2_intV3_middle] by the insertion at line 98 is visible: its increment
    at line 100 is undefined. *)

From stdpp Require Import base list strings.
From Stdlib Require Import ZArith Lia String Ascii.
From S2P Require Import Prelude Stream Ostream Vector.

Local Open Scope string_scope.
Local Open Scope cpp_scope.

Module Iterators.

Record it_state := mk_st { cout : ostream; cin : istream }.

Definition say (f : ostream -> ostream) : st it_state unit :=
  fun s => Ok (tt, mk_st (f (cout s)) (cin s)).

Definition get_cin : st it_state istream := fun s => Ok (cin s, s).

Definition set_cin (i : istream) : st it_state unit := fun s => Ok (tt, mk_st (cout s) i).

(** [template <class T> void print(string separator, T var)] (lines
    18-22), on the elements of the container. *)
Definition print {T} `{Insert T} (separator : string) (var : list T) : st it_state unit :=
  say (fun o => o << separator << " ") ;;
  say (fun o => fold_left (fun o it => o << std.setw 4 << it << " ") var o) ;;
  say (fun o => o << std.endl).

(** ** The RW iterators (lines 27-57) *)

Definition rw_section : st it_state (vector.vector Z) :=
  let intV := vector.of_list [1; 2; 3]%Z in
  let intV2 := @vector.empty Z in
  let it1 := vector.begin intV in
  let it2 := vector.begin intV in
  vector.for_upto (vector.loop_fuel intV) 0 (vector.size intV)
    (fun i => let* x := st_lift (subscript (vector.elems intV) i) in say (fun o => o << " =" << x)) ;;
  say (fun o => o << std.endl) ;;
  vector.for_iter intV (vector.loop_fuel intV) (vector.begin intV)
    (fun it3 => let* x := st_lift (vector.deref intV it3) in say (fun o => o << " *" << x)) ;;
  say (fun o => o << std.endl) ;;
  vector.for_iter intV (vector.loop_fuel intV) (vector.begin intV)
    (fun it => let* it4 := st_lift (vector.deref intV it) in say (fun o => o << " #" << it4)) ;;
  say (fun o => o << std.endl) ;;
  let* x := st_lift (vector.deref intV it1) in
  say (fun o => o << " %" << x) ;;
  let* it1 := st_lift (vector.incr intV it1) in
  let* x := st_lift (vector.deref intV it1) in
  say (fun o => o << " %" << x << std.endl) ;;
  vector.for_iter intV (vector.loop_fuel intV) (vector.begin intV)
    (fun it5 => let* x := st_lift (vector.deref intV it5) in
                say (fun o => o << "(" << (Z.of_nat (vector.pos it5) - Z.of_nat (vector.pos (vector.begin intV)))%Z
                                << ") =" << x << std.endl)) ;;
  let* intV := st_lift (vector.store intV it2 15%Z) in
  print "!" (vector.elems intV) ;;
  st_ret intV.

(** ** The inserters (lines 83-104) *)

(** [for (int i = from; i < to; i += step) body(i)] on a value. *)
Fixpoint for_int {A} (fuel : nat) (i to step : Z) (body : Z -> A -> A) (a : A) : A :=
  match fuel with
  | O => a
  | S f => if (i <? to)%Z then for_int f (i + step) to step body (body i a) else a
  end.

(** [*front_inserter(l) = x] on a [std::list]: [l.push_front(x)]. *)
Definition front_insert {A} (l : list A) (x : A) : list A := x :: l.

Definition inserters_section : st it_state unit :=
  let intV3 := @vector.empty Z in
  let intV3 := for_int 3 10 40 10 (fun i v => vector.back_insert v i) intV3 in
  print "-" (vector.elems intV3) ;;
  let intL1 := [10; 20; 30]%Z in
  let intL1 := front_insert intL1 5%Z in
  print "@" intL1 ;;
  let it2_intV3_middle := vector.begin intV3 in
  let* it2_intV3_middle := st_lift (vector.incr intV3 it2_intV3_middle) in
  let it2_intV3 := it2_intV3_middle in
  let* r := st_lift (vector.insert_assign intV3 it2_intV3 15%Z) in
  let '(it2_intV3, intV3) := r in
  print "$" (vector.elems intV3) ;;
  let* it2_intV3_middle := st_lift (vector.incr intV3 it2_intV3_middle) in
  let* it2_intV3_middle := st_lift (vector.incr intV3 it2_intV3_middle) in
  let it2_intV3 := it2_intV3_middle in
  let* r := st_lift (vector.insert_assign intV3 it2_intV3 25%Z) in
  let '(it2_intV3, intV3) := r in
  print "~" (vector.elems intV3).

(** ** Stream iterators (lines 107-135) *)

(** [ostream_iterator<T>(cout)] and [ostream_iterator<T>(cout, delim)]. *)
Record ostream_iterator := mk_osit { osit_delim : option string }.

(** [*it = value]: [*_M_stream << value; if (_M_string) *_M_stream << _M_string;]. *)
Definition osit_assign {T} `{Insert T} (it : ostream_iterator) (value : T) : st it_state unit :=
  say (fun o => o << value) ;;
  match osit_delim it with Some d => say (fun o => o << d) | None => st_ret tt end.

(** [istream_iterator<T>]: the last value read and whether the stream
    was still good after it ([_M_value], [_M_ok]). *)
Record istream_iterator (T : Type) := mk_isit { isit_value : T; isit_ok : bool }.
Arguments mk_isit {T} isit_value isit_ok.
Arguments isit_value {T} i.
Arguments isit_ok {T} i.

Section IstreamIterator.
Context {T : Type} (step : istream -> option T * istream) (value0 : T).

(** [_M_read()]: [if (_M_ok && !( *_M_stream >> _M_value)) _M_ok = false;]. *)
Definition isit_read (it : istream_iterator T) (i : istream) : istream_iterator T * istream :=
  if isit_ok it then
    let '(r, i') := step i in
    (mk_isit (match r with Some v => v | None => isit_value it end) (negb (failbit i')), i')
  else (it, i).

(** [istream_iterator<T> it(cin)]: [_M_value()], [_M_ok(true)], then
    [_M_read()]. *)
Definition isit_make : st it_state (istream_iterator T) :=
  let* i := get_cin in
  let '(it, i) := isit_read (mk_isit value0 true) i in
  set_cin i ;; st_ret it.

(** [istream_iterator<T> eof;] *)
Definition isit_eof : istream_iterator T := mk_isit value0 false.

(** [it == eof]: both at end of stream, or both on [cin] ([_M_equal]). *)
Definition isit_equal (a b : istream_iterator T) : bool := Bool.eqb (isit_ok a) (isit_ok b).

(** [*it]: dereferencing the end-of-stream iterator breaks its
    precondition. *)
Definition isit_deref (it : istream_iterator T) : outcome T :=
  if isit_ok it then Ok (isit_value it) else Stuck PreconditionViolated.

(** [it++]: a precondition that [it] is not at end of stream, then
    [_M_read()]. *)
Definition isit_incr (it : istream_iterator T) : st it_state (istream_iterator T) :=
  if isit_ok it then
    let* i := get_cin in
    let '(it', i) := isit_read it i in
    set_cin i ;; st_ret it'
  else st_stuck PreconditionViolated.

(** [while (itIS2 != eof) { it_vecS = *itIS2; itIS2++; }] *)
Fixpoint isit_collect (fuel : nat) (it : istream_iterator T) (vecS : vector.vector T)
    : st it_state (vector.vector T) :=
  match fuel with
  | O => st_nofuel
  | S f =>
      if negb (isit_equal it isit_eof) then
        let* x := st_lift (isit_deref it) in
        let vecS := vector.back_insert vecS x in
        let* it := isit_incr it in
        isit_collect f it vecS
      else st_ret vecS
  end.

End IstreamIterator.

Definition ostream_iterators_section : st it_state unit :=
  let itOS1 := mk_osit None in
  osit_assign itOS1 1%Z ;; osit_assign itOS1 4%Z ;; osit_assign itOS1 7%Z ;;
  say (fun o => o << std.endl) ;;
  let itOS2 := mk_osit (Some "-") in
  osit_assign itOS2 7%Z ;; osit_assign itOS2 8%Z ;; osit_assign itOS2 9%Z ;;
  say (fun o => o << std.endl).

(** Lines 121-124. *)
Definition read_digit_section : st it_state unit :=
  say (fun o => o << "Type a digit: ") ;;
  let* itIS1 := isit_make extract_int 0%Z in
  let* x := st_lift (isit_deref itIS1) in
  say (fun o => o << "Typed " << x << std.endl).

(** Lines 127-134: the words of [cin] into [vecS]; one iteration per word,
    so the length of the input bounds the loop. *)
Definition read_words_section : st it_state (vector.vector string) :=
  let vecS := @vector.empty string in
  let* i := get_cin in
  let* itIS2 := isit_make extract_string "" in
  isit_collect extract_string "" (S (String.length (buf i))) itIS2 vecS.

(** "Você digitou " in UTF-8. *)
Definition voce_digitou : string :=
  "Voc" ++ String (ascii_of_nat 195) (String (ascii_of_nat 170) " digitou ").

Definition istream_iterators_section : st it_state unit :=
  read_digit_section ;;
  say (fun o => o << "Type something (until ENTER + CTRL+Z + ENTER in Win CMD): ") ;;
  let* vecS := read_words_section in
  print voce_digitou (vector.elems vecS).

(** [main] (lines 25-140); lines 61-80 only construct iterators that are
    never used. *)
Definition main : st it_state Z :=
  let* intV := rw_section in
  let itV10 := vector.begin intV in
  let itV20 := vector.end_ intV in
  inserters_section ;;
  ostream_iterators_section ;;
  istream_iterators_section ;;
  say (fun o => o << "END OF PROGRAM" << std.endl) ;;
  st_ret 0%Z.

Definition run_main (input : string) : outcome (Z * it_state) :=
  main (mk_st ostringstream0 (open_stream input)).


(** ** Lemmas *)

(** Insertions into a stream of width 0 append their texts. *)
Ltac plain_out :=
  repeat first [ rewrite put_field_plain by (cbn [os_width put_raw put_field]; done)
               | rewrite ins_Z_plain by (cbn [os_width put_raw put_field]; done)
               | rewrite ins_endl | rewrite put_raw_app ].

Section CollectLoop.
Context {T : Type} (step : istream -> option T * istream) (d : T).
Hypothesis step_none_fail : forall i, fst (step i) = None -> failbit (snd (step i)) = true.

Lemma isit_collect_S f it v :
  isit_collect step d (S f) it v =
    if negb (isit_equal it (isit_eof d)) then
      let* x := st_lift (isit_deref it) in
      let* it := isit_incr step it in
      isit_collect step d f it (vector.back_insert v x)
    else st_ret v.
Proof. reflexivity. Qed.

(** The loop over an [istream_iterator] collects what the read loop
    [while (is >> x)] reads, in order, and leaves the stream where it
    does. *)
Lemma isit_collect_read_loop (f : nat) (it0 : istream_iterator T) (v : vector.vector T) (o : ostream) (i : istream) :
  isit_ok it0 = true ->
  isit_collect step d f (fst (isit_read step it0 i)) v (mk_st o (snd (isit_read step it0 i))) =
  match read_loop step f i with
  | Ok (xs, i') => Ok (fold_left vector.push_back xs v, mk_st o i')
  | Stuck u => Stuck u
  | NoFuel => NoFuel
  end.
Proof.
  revert it0 v i. induction f as [|f IH]; intros it0 v i Hok; [reflexivity|].
  unfold isit_read at 1 2. rewrite Hok. cbn [read_loop].
  destruct (step i) as [r i'] eqn:E. cbn [fst snd]. rewrite isit_collect_S.
  destruct (failbit i') eqn:F; [reflexivity|].
  destruct r as [x|]; [|pose proof (step_none_fail i) as H; rewrite E in H; cbn in H; by rewrite (H eq_refl) in F].
  specialize (IH (mk_isit x true) (vector.back_insert v x) i' eq_refl).
  unfold isit_incr, isit_deref. cbn [isit_ok isit_value isit_equal isit_eof Bool.eqb negb].
  unfold st_bind, st_lift, st_ret, get_cin, set_cin. cbn [cin cout].
  destruct (isit_read step (mk_isit x true) i') as [it2 i2] eqn:E2. cbn [fst snd] in IH. cbn [cin cout].
  rewrite IH. by destruct (read_loop step f i') as [[xs i'']| |].
Qed.

End CollectLoop.

(** ** Theorems *)

(** C7: whatever the console input, [main] has undefined behaviour at
    line 100: [it2_intV3_middle] points at the insertion point of the
    [insert] made at line 98 through [it2_intV3] (size 3, capacity 4: no
    reallocation), so that insertion invalidated it, and [++] on it is
    undefined. *)
Theorem main_invalidated_iterator (input : string) :
  run_main input = Stuck InvalidatedIterator.
Proof. reflexivity. Qed.

(** The [istream_iterator<string>] loop of lines 127-134 ends,
    and collects into [vecS] exactly the words that [while (cin >> w)]
    reads, in order, leaving [cin] as that loop leaves it. *)
Theorem istream_iterator_words (o : ostream) (i : istream) :
  exists xs i', words i = Ok (xs, i') /\
    read_words_section (mk_st o i) = Ok (vector.push_backs xs, mk_st o i').
Proof.
  destruct (words_total i) as [[xs i'] Hw]. exists xs, i'. split; [done|].
  unfold read_words_section, isit_make. unfold st_bind, get_cin, set_cin, st_ret. cbn [cin cout].
  pose proof (isit_collect_read_loop extract_string "" extract_string_none_fail
                (S (String.length (buf i))) (mk_isit "" true) vector.empty o i eq_refl) as H.
  destruct (isit_read extract_string (mk_isit "" true) i) as [it1 i1]. cbn [fst snd] in H. cbn [cin cout].
  rewrite H. unfold words, read_all in Hw. by rewrite Hw.
Qed.

(** C35: lines 121-124 read an [int] through an
    [istream_iterator<int>] and print it back: an [int] literal typed is
    echoed after "Typed "; a token that is not a number leaves the
    iterator at end of stream, and [*itIS1] breaks the precondition of
    [operator*] (undefined). *)
Theorem read_digit_spec (o : ostream) (z : Z) (rest : string) (c : ascii) (r : string) :
  os_width o = 0%nat -> (INT_MIN <= z <= INT_MAX)%Z -> starts_with is_digit rest = false ->
  is_ws c = false -> is_digit c = false -> Ascii.eqb c "-"%char = false -> Ascii.eqb c "+"%char = false ->
  read_digit_section (mk_st o (open_stream (show_Z z ++ rest))) =
    Ok (tt, mk_st (put_raw o ("Type a digit: " ++ "Typed " ++ show_Z z ++ NL)) (mk_is rest false (is_empty rest))) /\
  read_digit_section (mk_st o (open_stream (String c r))) = Stuck PreconditionViolated.
Proof.
  intros Hw Hz Hr Hc Hd Hm Hp. unfold read_digit_section, isit_make, isit_read, isit_deref.
  unfold st_bind, say, get_cin, set_cin, st_ret, st_lift. cbn [cin cout isit_ok].
  rewrite extract_int_in_range, extract_int_no_digit by done. cbn -[put_field put_raw].
  split; [|done]. plain_out. reflexivity.
Qed.

(** The [ostream_iterator]s of lines 109-119 print "147" then
    "7-8-9-", each on its line: an [ostream_iterator] without delimiter
    writes the values alone, with one it writes the delimiter after each
    value. *)
Theorem ostream_iterators_text (s : it_state) :
  os_width (cout s) = 0%nat ->
  ostream_iterators_section s =
    Ok (tt, mk_st (put_raw (cout s) ("147" ++ NL ++ "7-8-9-" ++ NL)) (cin s)).
Proof.
  intros Hw. destruct s as [o i]. cbn in Hw.
  unfold ostream_iterators_section, osit_assign, say, st_bind, st_ret. cbn [cout cin osit_delim].
  plain_out. reflexivity.
Qed.

(** ** Witnesses *)

Lemma read_digit_spec_witness :
  read_digit_section (mk_st ostringstream0 (open_stream (show_Z 5 ++ " ab"))) =
    Ok (tt, mk_st (put_raw ostringstream0 ("Type a digit: " ++ "Typed " ++ show_Z 5 ++ NL))
                  (mk_is " ab" false (is_empty " ab"))) /\
  read_digit_section (mk_st ostringstream0 (open_stream (String "x" "yz"))) = Stuck PreconditionViolated.
Proof.
  exact (read_digit_spec ostringstream0 5 " ab" "x" "yz" eq_refl
           ltac:(unfold INT_MIN, INT_MAX; lia) eq_refl eq_refl eq_refl eq_refl eq_refl).
Defined.

Lemma ostream_iterators_text_witness :
  ostream_iterators_section (mk_st ostringstream0 (open_stream "")) =
    Ok (tt, mk_st (put_raw (cout (mk_st ostringstream0 (open_stream ""))) ("147" ++ NL ++ "7-8-9-" ++ NL))
                  (cin (mk_st ostringstream0 (open_stream "")))).
Proof. exact (ostream_iterators_text (mk_st ostringstream0 (open_stream "")) eq_refl). Defined.

End Iterators.
