(* ===== verification/StdString.v ===== *)
(** * [std::string]: the members and conversions the programs call

    [basic_string] holds the members of [std::string] used by
    VectorStringArray.cpp as libstdc++ writes them: a position argument is
    checked by [_M_check] (beyond [size()] it throws [std::out_of_range]
    naming the member), a count is limited by [_M_limit] to what remains,
    [operator[]] does no check (beyond [size()] it is undefined).  A
    [size_type] is an [N] ([npos] is [2^64 - 1]); a position that passed
    [_M_check] is at most the length and becomes a [nat].  A member that
    may throw returns [exn + string].  [string_conversions] holds
    [std::to_string(int)], [std::stoi] ([strtol] then the [int] range
    check of [__stoa]) and [std::stod] ([strtod] on decimal text). *)

From stdpp Require Import base tactics.
From Stdlib Require Import ZArith Lia String Ascii.
From Corelib Require Import Floats.SpecFloat.
From S2P Require Import Prelude Stream Double.

Local Open Scope string_scope.

(** ** Prefixes and suffixes of a string *)

Fixpoint str_take (n : nat) (s : string) : string :=
  match n, s with
  | O, _ | _, EmptyString => EmptyString
  | S k, String c r => String c (str_take k r)
  end.

Fixpoint str_drop (n : nat) (s : string) : string :=
  match n, s with
  | O, _ => s
  | _, EmptyString => EmptyString
  | S k, String _ r => str_drop k r
  end.

(** The first index of [c] in [s]. *)
Fixpoint str_index (c : ascii) (s : string) : option nat :=
  match s with
  | EmptyString => None
  | String d r => if Ascii.eqb c d then Some O else option_map S (str_index c r)
  end.

Module basic_string.

Definition size_type := N.

(** [basic_string::npos], [size_type(-1)]. *)
Definition npos : size_type := (2 ^ 64 - 1)%N.

Definition size (s : string) : size_type := N.of_nat (String.length s).

(** [_M_check(pos, what)]. *)
Definition _M_check (s : string) (pos : size_type) (what : string) : exn + nat :=
  if (size s <? pos)%N then inl (out_of_range what) else inr (N.to_nat pos).

(** [_M_limit(pos, off)]: [off], or what remains after [pos]. *)
Definition _M_limit (s : string) (pos off : size_type) : nat :=
  N.to_nat (if (off <? size s - pos)%N then off else size s - pos).

(** [s.append(str)], [s += str] and [s + str]. *)
Definition append (s str : string) : string := s ++ str.

(** [s.append(str, pos, n)]. *)
Definition append_substr (s str : string) (pos n : size_type) : exn + string :=
  match _M_check str pos "basic_string::append" with
  | inl e => inl e
  | inr p => inr (s ++ str_take (_M_limit str pos n) (str_drop p str))
  end.

(** [s.insert(pos, cstr)], which libstdc++ forwards to
    [replace(pos, 0, cstr, strlen(cstr))]. *)
Definition insert (s : string) (pos : size_type) (t : string) : exn + string :=
  match _M_check s pos "basic_string::replace" with
  | inl e => inl e
  | inr p => inr (str_take p s ++ t ++ str_drop p s)
  end.

(** [s.erase(pos, n)]. *)
Definition erase (s : string) (pos n : size_type) : exn + string :=
  match _M_check s pos "basic_string::erase" with
  | inl e => inl e
  | inr p =>
      if (n =? npos)%N then inr (str_take p s)
      else inr (str_take p s ++ str_drop (p + _M_limit s pos n) s)
  end.

(** [s.find(c, pos)]. *)
Definition find (s : string) (c : ascii) (pos : size_type) : size_type :=
  if (pos <? size s)%N then
    match str_index c (str_drop (N.to_nat pos) s) with
    | Some k => N.of_nat (N.to_nat pos + k)
    | None => npos
    end
  else npos.

(** The first position of [s] where [t] starts, if any. *)
Fixpoint search (s t : string) : option nat :=
  if String.prefix t s then Some 0%nat
  else match s with EmptyString => None | String _ r => option_map S (search r t) end.

(** [s.find(t, pos)]: an empty [t] is found at [pos] when [pos <= size()];
    otherwise the first occurrence starting at or after [pos]. *)
Definition find_str (s t : string) (pos : size_type) : size_type :=
  if (String.length t =? 0)%nat then (if (pos <=? size s)%N then pos else npos)
  else if (size s <=? pos)%N then npos
  else match search (str_drop (N.to_nat pos) s) t with
       | Some k => N.of_nat (N.to_nat pos + k)
       | None => npos
       end.

(** [s[pos]] as an rvalue: [s[size()]] is the terminating null. *)
Definition get (s : string) (pos : nat) : outcome ascii :=
  match String.get pos s with
  | Some c => Ok c
  | None => if (pos =? String.length s)%nat then Ok "000"%char else Stuck OutOfRange
  end.

(** [s[pos] = c]. *)
Definition set (s : string) (pos : nat) (c : ascii) : outcome string :=
  if (pos <? String.length s)%nat then Ok (str_take pos s ++ String c (str_drop (S pos) s))
  else Stuck OutOfRange.

(** [s1 > s2]: [s2 < s1], [char_traits<char>::compare]. *)
Definition gt (s1 s2 : string) : bool := str_lt s2 s1.

End basic_string.

Module string_conversions.

(** [std::to_string(int)]. *)
Definition to_string (z : Z) : string := show_Z z.

(** [std::stoi(str)]: [strtol(str, &end, 10)] skips blanks and reads a
    sign and digits; no digit is [invalid_argument], a value outside
    [long] ([ERANGE]) or outside [int] is [out_of_range]. *)
Definition stoi (str : string) : exn + Z :=
  let '(neg, t1) := read_sign (skip_ws str) in
  let '(ds, _) := read_digits t1 in
  if is_empty ds then inl (invalid_argument "stoi")
  else
    let mag := digits_value 0 ds in
    let v := if neg then (- mag)%Z else mag in
    if ((v <? INT_MIN)%Z || (INT_MAX <? v)%Z)%bool then inl (out_of_range "stoi") else inr v.

(** The exponent of a decimal literal, when an [e] or [E] is followed by
    an optionally signed digit. *)
Definition read_exponent (s : string) : Z :=
  match s with
  | String c r =>
      if (Ascii.eqb c "e" || Ascii.eqb c "E")%bool then
        let '(neg, r1) := read_sign r in
        let '(ds, _) := read_digits r1 in
        if is_empty ds then 0%Z
        else if neg then (- digits_value 0 ds)%Z else digits_value 0 ds
      else 0%Z
  | EmptyString => 0%Z
  end.

(** [std::stod(str)] on decimal text ([strtod]): digits, an optional
    fraction and an optional exponent; no digit is [invalid_argument], an
    infinite result ([ERANGE]) is [out_of_range].  The value is [dbl_lit]
    of the digits, which is correctly rounded when they are below [2^53]
    and the power of ten at most [10^22] (both operands exact, one
    rounding), as for "1234.5".  Hexadecimal, [inf], [nan] and the
    [ERANGE] of underflow are not modelled. *)
Definition stod (str : string) : exn + double :=
  let '(neg, t1) := read_sign (skip_ws str) in
  let '(ip, t2) := read_digits t1 in
  let '(fp, t3) :=
    match t2 with
    | String "." r => read_digits r
    | _ => (EmptyString, t2)
    end in
  if (is_empty ip && is_empty fp)%bool then inl (invalid_argument "stod")
  else
    let d := dbl_lit (digits_value 0 (ip ++ fp)) (read_exponent t3 - Z.of_nat (String.length fp)) in
    let d := if neg then SFopp d else d in
    match d with
    | S754_infinity _ => inl (out_of_range "stod")
    | _ => inr d
    end.

End string_conversions.

(** ** Lemmas *)

Lemma str_take_app_length (a b : string) (k : nat) :
  str_take (String.length a + k) (a ++ b) = (a ++ str_take k b)%string.
Proof. induction a as [|c a IH]; simpl; [done|]. rewrite str_app_cons. f_equal. exact IH. Qed.

Lemma str_drop_app_length (a b : string) (k : nat) :
  str_drop (String.length a + k) (a ++ b) = str_drop k b.
Proof. induction a as [|c a IH]; simpl; [done|]. exact IH. Qed.

Lemma str_take_drop (n : nat) (s : string) : (str_take n s ++ str_drop n s)%string = s.
Proof. revert s; induction n as [|n IH]; intros [|c s]; simpl; try done. rewrite str_app_cons. f_equal. apply IH. Qed.

Lemma str_take_length (n : nat) (s : string) :
  (n <= String.length s)%nat -> String.length (str_take n s) = n.
Proof.
  revert s; induction n as [|n IH]; intros [|c s]; cbn; intros H; try done; [lia|].
  rewrite IH by lia. done.
Qed.

Lemma str_drop_length (n : nat) (s : string) :
  String.length (str_drop n s) = (String.length s - n)%nat.
Proof. revert s; induction n as [|n IH]; intros [|c s]; cbn; try done. Qed.

Lemma size_inserted (s t : string) (p : nat) :
  (p <= String.length s)%nat ->
  basic_string.size (str_take p s ++ t ++ str_drop p s) = (basic_string.size s + basic_string.size t)%N.
Proof.
  intros Hp. unfold basic_string.size. rewrite !str_length_app, str_take_length, str_drop_length by done. lia.
Qed.

(** [_M_limit] of the inserted text's length, at the insertion point. *)
Lemma limit_inserted (s t : string) (pos : N) :
  (pos <= basic_string.size s)%N ->
  basic_string._M_limit (str_take (N.to_nat pos) s ++ t ++ str_drop (N.to_nat pos) s) pos (basic_string.size t) =
    String.length t.
Proof.
  intros Hp. unfold basic_string._M_limit.
  rewrite size_inserted by (unfold basic_string.size in Hp; lia).
  unfold basic_string.size in *.
  destruct (N.ltb_spec (N.of_nat (String.length t)) (N.of_nat (String.length s) + N.of_nat (String.length t) - pos)); lia.
Qed.

Lemma take_drop_inserted (a t b : string) :
  str_take (String.length a) (a ++ t ++ b) = a /\
  str_drop (String.length a + String.length t) (a ++ t ++ b) = b.
Proof.
  split.
  - rewrite <- (Nat.add_0_r (String.length a)), str_take_app_length. apply str_app_nil_r.
  - rewrite str_drop_app_length, <- (Nat.add_0_r (String.length t)), str_drop_app_length. done.
Qed.

(** ** Theorems *)

(** C36: [s.insert(pos, t)] then [erase(pos, t.size())] gives [s] back
    when [pos <= s.size()]; beyond the end [insert] throws
    [std::out_of_range] (from [replace], to which libstdc++ forwards). *)
Theorem insert_erase_roundtrip (s t : string) (pos : N) :
  (basic_string.size t < basic_string.npos)%N ->
  match basic_string.insert s pos t with
  | inr s' => (pos <= basic_string.size s)%N /\ basic_string.erase s' pos (basic_string.size t) = inr s
  | inl e => (basic_string.size s < pos)%N /\ e = out_of_range "basic_string::replace"
  end.
Proof.
  intros Ht. unfold basic_string.insert, basic_string._M_check at 1.
  destruct (N.ltb_spec (basic_string.size s) pos) as [Hlt|Hle]; [done|]. split; [done|].
  unfold basic_string.erase, basic_string._M_check.
  assert (Hp : (N.to_nat pos <= String.length s)%nat) by (unfold basic_string.size in Hle; lia).
  rewrite size_inserted by done.
  destruct (N.ltb_spec (basic_string.size s + basic_string.size t) pos); [lia|].
  rewrite (proj2 (N.eqb_neq _ _)) by lia. rewrite limit_inserted by done.
  f_equal. pose proof (str_take_length _ s Hp) as Hl.
  remember (str_take (N.to_nat pos) s) as a eqn:Ea. rewrite <- Hl.
  destruct (take_drop_inserted a t (str_drop (String.length a) s)) as [-> ->].
  rewrite Hl, Ea. apply str_take_drop.
Qed.

(** C37: [std::stoi] reads back what [std::to_string] writes for every
    [int], whatever non-digit follows; a literal outside [int] throws
    [std::out_of_range]; a text that starts with no blank, sign or digit
    throws [std::invalid_argument]. *)
Theorem stoi_spec (z : Z) (rest : string) (c : ascii) (r : string) :
  starts_with is_digit rest = false ->
  is_ws c = false -> is_digit c = false -> Ascii.eqb c "-"%char = false -> Ascii.eqb c "+"%char = false ->
  string_conversions.stoi (string_conversions.to_string z ++ rest) =
    (if in_int z then inr z else inl (out_of_range "stoi")) /\
  string_conversions.stoi (String c r) = inl (invalid_argument "stoi").
Proof.
  intros Hr Hw Hd Hm Hp. split.
  - destruct (parse_show_Z z rest Hr) as (ds & E1 & E2 & E3 & E4).
    unfold string_conversions.stoi, string_conversions.to_string. rewrite E1, E2, E3, E4.
    unfold in_int. destruct (Z.ltb_spec z 0); [replace (- Z.abs z)%Z with z by lia|rewrite Z.abs_eq by lia];
      zcase; cbn; try reflexivity; lia.
  - unfold string_conversions.stoi. cbn [skip_ws]. rewrite Hw. unfold read_sign. rewrite Hm, Hp.
    cbn [read_digits]. rewrite Hd. reflexivity.
Qed.

(** ** Witnesses *)

Lemma insert_erase_roundtrip_witness :
  match basic_string.insert "MariOLHA" 4%N "!" with
  | inr s' => (4%N <= basic_string.size "MariOLHA")%N /\ basic_string.erase s' 4%N (basic_string.size "!") = inr "MariOLHA"
  | inl e => (basic_string.size "MariOLHA" < 4%N)%N /\ e = out_of_range "basic_string::replace"
  end.
Proof. exact (insert_erase_roundtrip "MariOLHA" "!" 4%N ltac:(vm_compute; reflexivity)). Defined.

Lemma stoi_spec_witness :
  string_conversions.stoi (string_conversions.to_string 1234 ++ ".5") =
    (if in_int 1234 then inr 1234%Z else inl (out_of_range "stoi")) /\
  string_conversions.stoi (String "x" "1") = inl (invalid_argument "stoi").
Proof. exact (stoi_spec 1234 ".5" "x" "1" eq_refl eq_refl eq_refl eq_refl eq_refl). Defined.
