(* ===== verification/VectorStringArray.v ===== *)
(** * VectorStringArray.cpp: vector, array, built-in arrays, string, C strings

    [main] (lines 16-224) prints each container three ways (index loop,
    iterator loop, range-for), writes one element, runs a sequence of
    [std::string] members on [S1], and compares, prints and classifies
    C strings with <cctype>.  The state is [cout]; the containers are
    local values.  [vector] is [Vector]'s, [std::string] is [StdString]'s;
    [std::array] and built-in arrays are lists (their size is fixed), and a
    built-in array declared without initialiser holds indeterminate values
    until assigned.  [CS1 > CS2] compares the addresses of two local
    arrays, which the language leaves unspecified: the answer is a
    parameter of [main] (the stack layout the compiler chose).
    The first line of the file is [/====...] with a single slash, which
    does not compile; the model reads it as the comment it is meant to be. *)

From stdpp Require Import base list strings.
From Stdlib Require Import ZArith Lia String Ascii.
From S2P Require Import Prelude Stream Ostream Double Vector StdString.

Local Open Scope string_scope.
Local Open Scope cpp_scope.

Module VectorStringArray.

Definition say := say_os.

(** [a[i] = x] on an array, without bounds checking. *)
Definition array_set {A} (l : list A) (i : nat) (x : A) : outcome (list A) :=
  if (i <? List.length l)%nat then Ok (<[i := x]> l) else Stuck OutOfRange.

(** A thrown exception that [main] does not catch. *)
Definition uncaught {A} (r : exn + A) : st ostream A :=
  match r with inl e => st_stuck (UncaughtException e) | inr a => st_ret a end.

(** ** <cctype> classification as glibc returns it

    The classification functions return the bit of glibc's table
    ([__ctype_b], [_ISbit] on a little-endian target) when the class
    holds, 0 otherwise; outside [EOF] and [unsigned char] they are
    undefined. *)

Definition ctype_mask (bit : Z) (p : Z -> bool) (z : Z) : option Z :=
  if ctype_ok z then Some (if p z then bit else 0%Z) else None.

Definition in_range (lo hi z : Z) : bool := ((lo <=? z) && (z <=? hi))%Z.

Definition isdigit := ctype_mask 2048 (in_range 48 57).
Definition islower := ctype_mask 512 (in_range 97 122).
Definition isupper := ctype_mask 256 (in_range 65 90).
Definition isspace := ctype_mask 8192 (fun z => (in_range 9 13 z || (z =? 32))%Z).
Definition ispunct := ctype_mask 4
  (fun z => (in_range 33 47 z || in_range 58 64 z || in_range 91 96 z || in_range 123 126 z)%bool).

(** A <cctype> call; outside its domain it is undefined. *)
Definition ctype_call (f : Z -> option Z) (c : ascii) : st ostream Z :=
  match f (schar c) with Some v => st_ret v | None => st_stuck CtypeDomain end.

(** ** VECTOR (lines 19-43) *)

Definition vector_section : st ostream unit :=
  say (fun o => o << "VECTOR .........." << std.endl) ;;
  let V1 := vector.of_list [10; 20; 30; 40]%Z in
  say (fun o => o << (NL ++ "#")) ;;
  vector.for_upto (vector.loop_fuel V1) 0 (vector.size V1)
    (fun i => let* x := st_lift (subscript (vector.elems V1) i) in say (fun o => o << x << " ")) ;;
  say (fun o => o << (NL ++ "@")) ;;
  vector.for_iter V1 (vector.loop_fuel V1) (vector.begin V1)
    (fun iter => let* x := st_lift (vector.deref V1 iter) in say (fun o => o << x << " ")) ;;
  say (fun o => o << (NL ++ "*")) ;;
  vector.for_iter V1 (vector.loop_fuel V1) (vector.begin V1)
    (fun it => let* v := st_lift (vector.deref V1 it) in say (fun o => o << v << " ")) ;;
  let* V1 := st_lift (vector.at_put V1 2 25%Z) in
  say (fun o => o << (NL ++ NL)).

(** ** ARRAY (lines 49-73) *)

Definition array_section : st ostream unit :=
  say (fun o => o << "ARRAY ..........." << std.endl) ;;
  let A1 := [10; 20; 30; 40]%Z in
  say (fun o => o << (NL ++ "#")) ;;
  vector.for_upto (S (List.length A1)) 0 (List.length A1)
    (fun i => let* x := st_lift (subscript A1 i) in say (fun o => o << x << " ")) ;;
  say (fun o => o << (NL ++ "@")) ;;
  vector.for_range A1 (fun a => say (fun o => o << a << " ")) ;;
  let* A1 := st_lift (array_set A1 2 25%Z) in
  say (fun o => o << (NL ++ NL)).

(** ** BUILT-IN ARRAY (lines 79-111); [BIA3] is allocated, filled and
    freed without being read, which leaves no trace in the output. *)

Definition builtin_array_section : st ostream unit :=
  say (fun o => o << "BUILT-IN ARRAY .........." << std.endl) ;;
  let BIA1 := [10; 20; 30]%Z in
  let BIA2 := [Uninit; Uninit; Uninit] in
  let* BIA2 := st_lift (array_set BIA2 0 (Val 40)) in
  let* BIA2 := st_lift (array_set BIA2 1 (Val 50)) in
  let* BIA2 := st_lift (array_set BIA2 2 (Val 60)) in
  let BIA1Size := List.length BIA1 in
  say (fun o => o << (NL ++ "#")) ;;
  vector.for_upto (S BIA1Size) 0 BIA1Size
    (fun i => let* x := st_lift (subscript BIA1 i) in say (fun o => o << x << " ")) ;;
  say (fun o => o << (NL ++ "@")) ;;
  vector.for_range BIA1 (fun bia => say (fun o => o << bia << " ")) ;;
  say (fun o => o << (NL ++ "*")) ;;
  vector.for_range BIA2 (fun bia => let* x := read_ival bia in say (fun o => o << x << " ")) ;;
  let* BIA1 := st_lift (array_set BIA1 1 25%Z) in
  say (fun o => o << (NL ++ NL)).

(** ** STRING (lines 117-166) *)

(** [for (size_t i = 0; i < s.size(); i++) cout << s[i];] *)
Definition print_indexed (s : string) : st ostream unit :=
  vector.for_upto (S (String.length s)) 0 (String.length s)
    (fun i => let* c := st_lift (basic_string.get s i) in say (fun o => o << c)).

(** [for (auto c : s) cout << c;] *)
Definition print_chars (s : string) : st ostream unit :=
  vector.for_range (list_ascii_of_string s) (fun c => say (fun o => o << c)).

Definition string_section : st ostream string :=
  say (fun o => o << "STRING .........." << std.endl) ;;
  let S1 := string_of_list_ascii ["M"; "a"; "r"; "i"]%char in
  let S2 := "OLHA" in
  let S3 := S2 in
  say (fun o => o << (NL ++ "#")) ;; print_indexed S1 ;;
  say (fun o => o << (NL ++ "@")) ;; print_indexed S2 ;;
  say (fun o => o << (NL ++ "*")) ;; print_chars S1 ;;
  say (fun o => o << (NL ++ "$ ")) ;; print_chars S2 ;;
  say (fun o => o << "S3: " << S3 << std.endl) ;;
  let* S2 := st_lift (basic_string.set S2 2 "I"%char) in
  say (fun o => o << "S2: " << S2 << std.endl) ;;
  say (fun o => o << "S1 + S2: " << basic_string.append S1 S2 << std.endl) ;;
  say (fun o => o << "S1 > S2: " << basic_string.gt S1 S2 << std.endl) ;;
  let S1 := basic_string.append S1 S3 in
  say (fun o => o << "S1: " << S1 << std.endl) ;;
  let posFind := basic_string.find S1 "r"%char 0%N in
  (if negb (posFind =? basic_string.npos)%N then say (fun o => o << "uooou!" << std.endl) else st_ret tt) ;;
  let S1 := basic_string.append S1 S2 in
  say (fun o => o << "S1: " << S1 << std.endl) ;;
  let* S1 := uncaught (basic_string.append_substr S1 S2 2%N 3%N) in
  say (fun o => o << "S1: " << S1 << std.endl) ;;
  let* S1 := uncaught (basic_string.insert S1 4%N "!") in
  say (fun o => o << "S1: " << S1 << std.endl) ;;
  let* S1 := uncaught (basic_string.erase S1 4%N 1%N) in
  say (fun o => o << "S1: " << S1 << std.endl) ;;
  let* S1 := uncaught (basic_string.erase S1 8%N 7%N) in
  say (fun o => o << "S1: " << S1 << std.endl) ;;
  let S1 := basic_string.append S1 (string_conversions.to_string 123) in
  say (fun o => o << "S1: " << S1 << std.endl) ;;
  let* i := uncaught (string_conversions.stoi "1234.5") in
  say (fun o => o << "stoi: " << i << std.endl) ;;
  let* d := uncaught (string_conversions.stod "1234.5") in
  say (fun o => o << "stod: " << d << std.endl) ;;
  say (fun o => o << (NL ++ NL)) ;;
  st_ret S1.

(** ** C-STYLE STRING (lines 172-217) *)

(** [cout << cs] for a [char] array: the characters up to the first
    null. *)
Fixpoint c_str_text (cs : list ascii) : string :=
  match cs with
  | [] => EmptyString
  | c :: r => if Ascii.eqb c "000"%char then EmptyString else String c (c_str_text r)
  end.

Definition cstyle_section (S1 : string) (cs1_above_cs2 : bool) : st ostream unit :=
  say (fun o => o << "C-STYLE STRING .........." << std.endl) ;;
  let CS1 := ["M"; "a"; "r"; "i"; "000"]%char in
  let CS2 := (list_ascii_of_string "OLHA" ++ ["000"%char])%list in
  let CSSize := List.length CS1 in
  say (fun o => o << (NL ++ "#")) ;;
  vector.for_upto CSSize 0 (CSSize - 1)
    (fun i => let* c := st_lift (subscript CS1 i) in say (fun o => o << c)) ;;
  say (fun o => o << (NL ++ "@")) ;;
  vector.for_upto CSSize 0 (CSSize - 1)
    (fun i => let* c := st_lift (subscript CS2 i) in say (fun o => o << c)) ;;
  say (fun o => o << (NL ++ "*")) ;;
  vector.for_range CS1 (fun cs => say (fun o => o << cs)) ;;
  say (fun o => o << (NL ++ "&")) ;;
  vector.for_range CS2 (fun cs => say (fun o => o << cs)) ;;
  let* CS2 := st_lift (array_set CS2 2 "I"%char) in
  say (fun o => o << c_str_text CS2 << std.endl) ;;
  say (fun o => o << "CS1 > CS2: " << cs1_above_cs2 << std.endl) ;;
  let CS3 := S1 in
  say (fun o => o << "CS3: " << CS3 << std.endl) ;;
  let c := (list_ascii_of_string "1aB !" ++ ["000"%char])%list in
  say (fun o => o << "<" << c_str_text c << ">" << std.endl) ;;
  let* c0 := st_lift (subscript c 0) in let* c1 := st_lift (subscript c 1) in
  let* c2 := st_lift (subscript c 2) in let* c3 := st_lift (subscript c 3) in
  let* c4 := st_lift (subscript c 4) in
  let* r := ctype_call isdigit c0 in
  say (fun o => o << "<" << c0 << "> isdigit(c[0]) =0 is false; !0 is true: " << r << std.endl) ;;
  let* r := ctype_call islower c1 in
  say (fun o => o << "<" << c1 << "> islower(c[1]) =0 is false; !0 is true: " << r << std.endl) ;;
  let* r := ctype_call isupper c2 in
  say (fun o => o << "<" << c2 << "> isupper(c[2]) =0 is false; !0 is true: " << r << std.endl) ;;
  let* r := ctype_call isspace c3 in
  say (fun o => o << "<" << c3 << "> isspace(c[3]) =0 is false; !0 is true: " << r << std.endl) ;;
  let* r := ctype_call ispunct c4 in
  say (fun o => o << "<" << c4 << "> ispunct(c[4]) =0 is false; !0 is true: " << r << std.endl) ;;
  let* r := ctype_call toupper c1 in
  say (fun o => o << "<" << c1 << "> toupper(c[1]): " << char_of_int r << std.endl) ;;
  let* r := ctype_call tolower c2 in
  say (fun o => o << "<" << c2 << "> tolower(c[2]): " << char_of_int r << std.endl) ;;
  say (fun o => o << (NL ++ NL)).

(** [main] (lines 16-224). *)
Definition main (cs1_above_cs2 : bool) : st ostream Z :=
  vector_section ;;
  array_section ;;
  builtin_array_section ;;
  let* S1 := string_section in
  cstyle_section S1 cs1_above_cs2 ;;
  say (fun o => o << "END OF PROGRAM") ;;
  st_ret 0%Z.

Definition run_main (cs1_above_cs2 : bool) : outcome (Z * ostream) := main cs1_above_cs2 ostringstream0.

(** ** The output *)

Definition NUL : string := String "000" EmptyString.

(** The text the program writes: the loops print the initial contents
    (the assignments [V1[2] = 25], [A1[2] = 25] and [BIA1[1] = 25] come
    after them and are never printed), the range-for over a [char] array
    prints its null terminator, and the classification functions print
    glibc's table bits. *)
Definition expected_output (cs1_above_cs2 : bool) : string :=
  "VECTOR .........." ++ NL ++
  NL ++
  "#10 20 30 40 " ++ NL ++
  "@10 20 30 40 " ++ NL ++
  "*10 20 30 40 " ++ NL ++
  NL ++
  "ARRAY ..........." ++ NL ++
  NL ++
  "#10 20 30 40 " ++ NL ++
  "@10 20 30 40 " ++ NL ++
  NL ++
  "BUILT-IN ARRAY .........." ++ NL ++
  NL ++
  "#10 20 30 " ++ NL ++
  "@10 20 30 " ++ NL ++
  "*40 50 60 " ++ NL ++
  NL ++
  "STRING .........." ++ NL ++
  NL ++
  "#Mari" ++ NL ++
  "@OLHA" ++ NL ++
  "*Mari" ++ NL ++
  "$ OLHAS3: OLHA" ++ NL ++
  "S2: OLIA" ++ NL ++
  "S1 + S2: MariOLIA" ++ NL ++
  "S1 > S2: 0" ++ NL ++
  "S1: MariOLHA" ++ NL ++
  "uooou!" ++ NL ++
  "S1: MariOLHAOLIA" ++ NL ++
  "S1: MariOLHAOLIAIA" ++ NL ++
  "S1: Mari!OLHAOLIAIA" ++ NL ++
  "S1: MariOLHAOLIAIA" ++ NL ++
  "S1: MariOLHA" ++ NL ++
  "S1: MariOLHA123" ++ NL ++
  "stoi: 1234" ++ NL ++
  "stod: 1234.5" ++ NL ++
  NL ++
  NL ++
  "C-STYLE STRING .........." ++ NL ++
  NL ++
  "#Mari" ++ NL ++
  "@OLHA" ++ NL ++
  "*Mari" ++ NUL ++ NL ++
  "&OLHA" ++ NUL ++ "OLIA" ++ NL ++
  "CS1 > CS2: " ++ (if cs1_above_cs2 then "1" else "0") ++ NL ++
  "CS3: MariOLHA123" ++ NL ++
  "<1aB !>" ++ NL ++
  "<1> isdigit(c[0]) =0 is false; !0 is true: 2048" ++ NL ++
  "<a> islower(c[1]) =0 is false; !0 is true: 512" ++ NL ++
  "<B> isupper(c[2]) =0 is false; !0 is true: 256" ++ NL ++
  "< > isspace(c[3]) =0 is false; !0 is true: 8192" ++ NL ++
  "<!> ispunct(c[4]) =0 is false; !0 is true: 4" ++ NL ++
  "<a> toupper(c[1]): A" ++ NL ++
  "<B> tolower(c[2]): b" ++ NL ++
  NL ++
  NL ++
  "END OF PROGRAM".

(** ** Theorems *)

(** [main] returns 0 and writes [expected_output]: no member of
    [std::string] throws on the positions it is given, [append(S2, 2, 3)]
    takes the two characters left, [erase(8, 7)] the six left, and
    [stoi("1234.5")] stops at the point; the one line that depends on the
    compiler is [CS1 > CS2], a comparison of the addresses of two
    unrelated arrays, which the language leaves unspecified. *)
Theorem main_output (cs1_above_cs2 : bool) :
  exists out, run_main cs1_above_cs2 = Ok (0%Z, out) /\ os_str out = expected_output cs1_above_cs2.
Proof. destruct cs1_above_cs2; eexists; (split; [reflexivity|]); vm_compute; reflexivity. Qed.

End VectorStringArray.
