(* ===== verification/Pointers.v ===== *)
(** * Pointers.cpp: raw pointers, smart pointers, arrays, a class owning memory

    [main] (lines 23-406) works in eight sections over [cout] and the
    memory of [Heap]: a pointer to a local, [new]/[delete] of scalars and
    of a [point2D], an array filled through a pointer, [unique_ptr] and
    [shared_ptr] (with [create_ptr], lines 15-20), pointer arithmetic on a
    built-in array, the class [WithPtr] with its deep copy, and the prefix
    and postfix operators.  The local objects whose address is printed
    are blocks of the memory too; where the blocks were placed ([base])
    and the addresses of the pointer variables printed with [&]
    ([var_addr]) are left to the implementation, so they are section
    variables.  The objects still alive at the end of [main] are
    destroyed in the reverse order of their declarations. *)

From stdpp Require Import base list strings.
From Stdlib Require Import ZArith Lia String Ascii.
From S2P Require Import Prelude Ostream Vector Heap.

Local Open Scope string_scope.
Local Open Scope cpp_scope.

Module Pointers.

Import heap.

Record pstate := mk_ps { cout : ostream; mem : heap.heap }.

Definition say (f : ostream -> ostream) : st pstate unit :=
  fun s => Ok (tt, mk_ps (f (cout s)) (mem s)).

(** A step on the memory that may have undefined behaviour. *)
Definition on_heap {A} (f : heap.heap -> outcome (A * heap.heap)) : st pstate A :=
  fun s => match f (mem s) with
           | Ok (a, h) => Ok (a, mk_ps (cout s) h)
           | Stuck u => Stuck u
           | NoFuel => NoFuel
           end.

Definition alloc_with {A} (f : heap.heap -> A * heap.heap) : st pstate A := on_heap (fun h => Ok (f h)).

Definition update (f : heap.heap -> outcome heap.heap) : st pstate unit :=
  on_heap (fun h => match f h with Ok h => Ok (tt, h) | Stuck u => Stuck u | NoFuel => NoFuel end).

Definition inspect {A} (f : heap.heap -> outcome A) : st pstate A :=
  fun s => match f (mem s) with Ok a => Ok (a, s) | Stuck u => Stuck u | NoFuel => NoFuel end.

(** [*p], [*p = v], [p + k]. *)
Definition rd (p : option ptr) : st pstate Z := inspect (fun h => load h p).
Definition wr (p : option ptr) (v : Z) : st pstate unit := update (fun h => store h p v).
Definition padd (p : option ptr) (k : Z) : st pstate (option ptr) := inspect (fun h => ptr_add h p k).

(** [p->m] for the member at cell [i] of a struct of [int]s. *)
Definition member (p : option ptr) (i : Z) : option ptr :=
  option_map (fun q => mk_ptr (blk q) (off q + i)) p.

(** [a + b] on [int]: signed overflow is undefined. *)
Definition int_add (a b : Z) : st pstate Z :=
  if in_int (a + b) then st_ret (a + b)%Z else st_stuck SignedOverflow.

Section Program.

(** Where each block was placed, by allocation order. *)
Variable base : nat -> Z.
(** The addresses of the pointer objects [ptr1], [uptr2], [sptr2]. *)
Variable var_addr : string -> Z.

(** The value [cout << p] prints. *)
Definition addr (p : option ptr) : st pstate void_ptr :=
  fun s => Ok (mk_void_ptr (address base (mem s) p), s).

Definition var (name : string) : void_ptr := mk_void_ptr (var_addr name).

(** [for (int i = 0; i < n; i++) cout << a[i] << " ";] *)
Definition print_ints (a : option ptr) (n : nat) : st pstate unit :=
  vector.for_upto (S n) 0 n
    (fun i => let* q := padd a (Z.of_nat i) in let* v := rd q in say (fun o => o << v << " ")).

(** [create_ptr()] (lines 15-20). *)
Definition create_ptr : st pstate unique_ptr.t :=
  let x := 10%Z in
  alloc_with (unique_ptr.make_unique 4 [Val x]).

(** ** Traditional pointers (lines 45-89) *)

Definition stack_section : st pstate unit :=
  let* var1 := alloc_with (local_object 4 [Val 10]) in
  let ptr1 := Some var1 in
  say (fun o => o << "&ptr1 = " << var "ptr1" << std.endl) ;;
  let* a := addr ptr1 in say (fun o => o << "ptr1  = " << a << std.endl) ;;
  let* a := addr (Some var1) in say (fun o => o << "&var1 = " << a << std.endl) ;;
  let* v := rd ptr1 in say (fun o => o << "*ptr1 = " << v << std.endl) ;;
  let* v := rd (Some var1) in say (fun o => o << "var1  = " << v << std.endl) ;;
  let* a := addr ptr1 in say (fun o => o << "Logical (ptr1)  = " << a << std.endl) ;;
  say (fun o => o << "Logical (!ptr1) = " << negb (bool_decide (is_Some ptr1)) << std.endl).

Definition heap_section : st pstate unit :=
  let* ptr2 := alloc_with (new_object 4 [Uninit]) in
  let* ptr3 := alloc_with (new_object 4 [Val 36]) in
  update (delete_ Object (Some ptr2)) ;;
  update (delete_ Object (Some ptr3)) ;;
  let* ptr4 := alloc_with (new_object 4 [Val 20; Val 30]) in
  let* v := rd (member (Some ptr4) 0) in say (fun o => o << "point2D ptr4->x = " << v << std.endl) ;;
  let* v := rd (member (Some ptr4) 1) in say (fun o => o << "point2D ptr4->y = " << v << std.endl) ;;
  update (delete_ Object (Some ptr4)).

(** [for (ptrI = ptrArray, num = 0; ptrI < ptrArray + sizeArray; ptrI++, num += 2) *ptrI = num;] *)
Fixpoint fill_even (fuel : nat) (ptrArray ptrI : option ptr) (sizeArray num : Z) : st pstate (option ptr * Z) :=
  match fuel with
  | O => st_nofuel
  | S f =>
      let* e := padd ptrArray sizeArray in
      let* c := inspect (fun _ => ptr_lt ptrI e) in
      if c then
        wr ptrI num ;;
        let* ptrI := padd ptrI 1 in
        let* num := int_add num 2 in
        fill_even f ptrArray ptrI sizeArray num
      else st_ret (ptrI, num)
  end.

(** Lines 75-80: the array, the [int] of line 77, and the first loop. *)
Definition array_fill : st pstate (option ptr * option ptr) :=
  let sizeArray := 10%Z in
  let* ptrArray := alloc_with (new_array 4 (Z.to_nat sizeArray)) in
  let* ptrI := alloc_with (new_object 4 [Uninit]) in
  let* r := fill_even (S (Z.to_nat sizeArray)) (Some ptrArray) (Some ptrArray) sizeArray 0 in
  st_ret (Some ptrArray, fst r).

Definition array_section : st pstate unit :=
  let sizeArray := 10%nat in
  let* r := array_fill in
  let '(ptrArray, ptrI) := r in
  say (fun o => o << "Array (method 1) = ") ;; print_ints ptrArray sizeArray ;; say (fun o => o << std.endl) ;;
  vector.for_upto (S sizeArray) 0 sizeArray
    (fun num => let* q := padd ptrArray (Z.of_nat num) in wr q (Z.of_nat num)) ;;
  say (fun o => o << "Array (method 2) = ") ;; print_ints ptrArray sizeArray ;; say (fun o => o << std.endl) ;;
  update (delete_ Array ptrArray) ;;
  update (delete_ Object ptrI) ;;
  say (fun o => o << std.endl).

(** ** [unique_ptr] (lines 118-160) *)

Definition print_point (label : string) (p : option ptr) : st pstate unit :=
  let* v := rd (member p 0) in say (fun o => o << ("point2D " ++ label ++ "->x = ") << v << std.endl) ;;
  let* v := rd (member p 1) in say (fun o => o << ("point2D " ++ label ++ "->y = ") << v << std.endl).

(** The objects of the section, destroyed at the end of [main]. *)
Record uptrs := mk_uptrs { uptr1 : unique_ptr.t; uptr2 : unique_ptr.t; uptr4 : unique_ptr.t;
                          uptr5 : unique_ptr.t; uptr6 : unique_ptr.t; uptrArray : unique_ptr.t }.

Definition unique_section : st pstate uptrs :=
  let sizeArray := 10%nat in
  let uptr1 : unique_ptr.t := None in
  let* uptr2 := alloc_with (unique_ptr.make_unique 4 [Val 15]) in
  say (fun o => o << "&uptr2 = " << var "uptr2" << std.endl) ;;
  let* a := addr (unique_ptr.get uptr2) in say (fun o => o << "uptr2  = " << a << std.endl) ;;
  let* v := rd uptr2 in say (fun o => o << "*uptr2 = " << v << std.endl) ;;
  say (fun o => o << "Logical (uptr2)  = " << unique_ptr.to_bool uptr2 << std.endl) ;;
  say (fun o => o << "Logical (!uptr2) = " << negb (unique_ptr.to_bool uptr2) << std.endl) ;;
  let* uptr4 := alloc_with (unique_ptr.make_unique 4 [Val 10; Val 15]) in
  print_point "uptr4" uptr4 ;;
  let* uptr5 := alloc_with (unique_ptr.make_unique 4 [Val 40; Val 55]) in
  let '(uptr4, uptr5) := (uptr5, uptr4) in
  let* v := rd (member uptr4 0) in say (fun o => o << "point2D uptr4->x after swap = " << v << std.endl) ;;
  let* v := rd (member uptr4 1) in say (fun o => o << "point2D uptr4->y after swap = " << v << std.endl) ;;
  let* v := rd (member uptr5 0) in say (fun o => o << "point2D uptr5->x after swap = " << v << std.endl) ;;
  let* v := rd (member uptr5 1) in say (fun o => o << "point2D uptr5->y after swap = " << v << std.endl) ;;
  let '(uptr4, uptr5) := (uptr5, uptr4) in
  let* uptr6 := create_ptr in
  let* v := rd uptr6 in say (fun o => o << "uptr6 created by function = " << v << std.endl) ;;
  let* arr := alloc_with (new_array 4 sizeArray) in
  let uptrArray : unique_ptr.t := Some arr in
  vector.for_upto (S sizeArray) 0 sizeArray
    (fun num => let* q := padd uptrArray (Z.of_nat num) in wr q (Z.of_nat num)) ;;
  say (fun o => o << "Array = ") ;; print_ints uptrArray sizeArray ;; say (fun o => o << std.endl) ;;
  say (fun o => o << "Array = ") ;; print_ints (unique_ptr.get uptrArray) sizeArray ;; say (fun o => o << std.endl) ;;
  let* uptrArray := on_heap (unique_ptr.reset Array uptrArray) in
  say (fun o => o << std.endl) ;;
  st_ret (mk_uptrs uptr1 uptr2 uptr4 uptr5 uptr6 uptrArray).

(** ** [shared_ptr] (lines 183-228) *)

Record sptrs := mk_sptrs { sptr1 : shared_ptr.t; sptr2 : shared_ptr.t; sptr3 : shared_ptr.t;
                          sptr4 : shared_ptr.t; sptr5 : shared_ptr.t; sptr6 : shared_ptr.t }.

Definition sget (sp : shared_ptr.t) : st pstate (option ptr) := fun s => Ok (shared_ptr.get (mem s) sp, s).

Definition shared_section : st pstate sptrs :=
  let sptr1 : shared_ptr.t := None in
  let* sptr2 := alloc_with (shared_ptr.make_shared 4 [Val 15]) in
  let* p36 := alloc_with (new_object 4 [Val 36]) in
  let* sptr3 := alloc_with (shared_ptr.from_ptr (Some p36)) in
  say (fun o => o << "&sptr2 = " << var "sptr2" << std.endl) ;;
  let* p := sget sptr2 in
  let* a := addr p in say (fun o => o << "sptr2  = " << a << std.endl) ;;
  let* v := rd p in say (fun o => o << "*sptr2 = " << v << std.endl) ;;
  say (fun o => o << "Logical (sptr2)  = " << shared_ptr.to_bool sptr2 << std.endl) ;;
  say (fun o => o << "Logical (!sptr2) = " << negb (shared_ptr.to_bool sptr2) << std.endl) ;;
  let* sptr4 := alloc_with (shared_ptr.make_shared 4 [Val 10; Val 15]) in
  let* p := sget sptr4 in print_point "sptr4" p ;;
  let* sptr5 := alloc_with (shared_ptr.make_shared 4 [Val 40; Val 55]) in
  let '(sptr4, sptr5) := (sptr5, sptr4) in
  let* p := sget sptr4 in
  let* v := rd (member p 0) in say (fun o => o << "point2D sptr4->x after swap = " << v << std.endl) ;;
  let* v := rd (member p 1) in say (fun o => o << "point2D sptr4->y after swap = " << v << std.endl) ;;
  let* p := sget sptr5 in
  let* v := rd (member p 0) in say (fun o => o << "point2D sptr5->x after swap = " << v << std.endl) ;;
  let* v := rd (member p 1) in say (fun o => o << "point2D sptr5->y after swap = " << v << std.endl) ;;
  let '(sptr4, sptr5) := (sptr5, sptr4) in
  let* u := create_ptr in
  let* sptr6 := alloc_with (shared_ptr.from_ptr u) in
  let* p := sget sptr6 in
  let* v := rd p in say (fun o => o << "sptr6 created by function = " << v << std.endl) ;;
  say (fun o => o << std.endl) ;;
  st_ret (mk_sptrs sptr1 sptr2 sptr3 sptr4 sptr5 sptr6).

(** ** Built-in arrays and pointers (lines 238-293) *)

(** [for (char *ptrChr = a; *ptrChr != '\0'; ptrChr++) cout << *ptrChr << " ";] *)
Fixpoint print_c_string (fuel : nat) (ptrChr : option ptr) : st pstate unit :=
  match fuel with
  | O => st_nofuel
  | S f =>
      let* c := rd ptrChr in
      if (c =? 0)%Z then st_ret tt
      else say (fun o => o << char_of_int c << " ") ;;
           let* ptrChr := padd ptrChr 1 in
           print_c_string f ptrChr
  end.

Definition show_ptr_line (label : string) (p : option ptr) : st pstate unit :=
  let* a := addr p in let* v := rd p in
  say (fun o => o << label << a << "; *ptrArray = " << v << std.endl).

Definition builtin_section : st pstate (option ptr) :=
  let* va := alloc_with (local_object 4 [Val 4; Val 3; Val 2; Val 1]) in
  let varArray := Some va in
  say (fun o => o << "varArray contains: ") ;; print_ints varArray 4 ;; say (fun o => o << std.endl) ;;
  let* a := addr varArray in say (fun o => o << "varArray     = " << a << std.endl) ;;
  let* a := addr varArray in say (fun o => o << "&varArray[0] = " << a << std.endl) ;;
  let ptrVarArray := varArray in
  let* a := addr ptrVarArray in say (fun o => o << "ptrVarArray  = " << a << std.endl) ;;
  let* v := rd ptrVarArray in say (fun o => o << "*ptrVarArray = " << v << std.endl) ;;
  let* a := addr ptrVarArray in let* v := rd ptrVarArray in
  say (fun o => o << "varArray[0]: ptrVarArray     = " << a << "; *(ptrVarArray)   = " << v << std.endl) ;;
  let* q := padd ptrVarArray 1 in let* a := addr q in let* v := rd q in
  say (fun o => o << "varArray[1]: ptrVarArray + 1 = " << a << "; *(ptrVarArray+1) = " << v << std.endl) ;;
  let* q := padd ptrVarArray 2 in let* a := addr q in let* v := rd q in
  say (fun o => o << "varArray[2]: ptrVarArray + 2 = " << a << "; *(ptrVarArray+2) = " << v << std.endl) ;;
  show_ptr_line "ptrVarArray   = " ptrVarArray ;;
  let* ptrVarArray := padd ptrVarArray 1 in show_ptr_line "++ptrVarArray = " ptrVarArray ;;
  let* ptrVarArray := padd ptrVarArray 1 in show_ptr_line "++ptrVarArray = " ptrVarArray ;;
  let* ptrVarArray := padd ptrVarArray (-1) in show_ptr_line "--ptrVarArray = " ptrVarArray ;;
  let sizeVarArray := 4%nat in
  say (fun o => o << "varArray contains: ") ;; print_ints varArray sizeVarArray ;; say (fun o => o << std.endl) ;;
  let* vc := alloc_with (local_object 1 (map (fun c => Val (Z.of_nat (nat_of_ascii c))) (list_ascii_of_string "Testing") ++ [Val 0])) in
  say (fun o => o << "varArrayChr contains: ") ;; print_c_string 9 (Some vc) ;; say (fun o => o << std.endl) ;;
  say (fun o => o << std.endl) ;;
  st_ret varArray.

(** ** The class [WithPtr] (lines 301-362) *)

Record WithPtr := mk_WithPtr { p : option ptr; n : Z }.

(** [for (int i = 0; i < n; i++) p[i] = other.p[i];] *)
Definition copy_chars (dst src : option ptr) (n : Z) : st pstate unit :=
  vector.for_upto (S (Z.to_nat n)) 0 (Z.to_nat n)
    (fun i => let* q := padd src (Z.of_nat i) in let* c := rd q in
              let* q' := padd dst (Z.of_nat i) in wr q' c).

(** [WithPtr(int n) : n(n) { p = new char[n]; }] *)
Definition WithPtr_ctor (n : Z) : st pstate WithPtr :=
  let* q := alloc_with (new_array 1 (Z.to_nat n)) in st_ret (mk_WithPtr (Some q) n).

(** The deep copy constructor (lines 329-332). *)
Definition WithPtr_copy (other : WithPtr) : st pstate WithPtr :=
  let n := n other in
  let* q := alloc_with (new_array 1 (Z.to_nat n)) in
  copy_chars (Some q) (p other) n ;;
  st_ret (mk_WithPtr (Some q) n).

(** The deep assignment (lines 348-357); [this == &other] compares the
    objects, here their [p]. *)
Definition WithPtr_assign (self other : WithPtr) : st pstate WithPtr :=
  if bool_decide (p self = p other) then st_ret self
  else
    let n := n other in
    update (delete_ Array (p self)) ;;
    let* q := alloc_with (new_array 1 (Z.to_nat n)) in
    copy_chars (Some q) (p other) n ;;
    st_ret (mk_WithPtr (Some q) n).

(** [~WithPtr() { delete [] p; }] *)
Definition WithPtr_dtor (w : WithPtr) : st pstate unit := update (delete_ Array (p w)).

Definition withptr_section : st pstate (WithPtr * WithPtr) :=
  let* obj1 := WithPtr_ctor 5 in
  let* obj2 := WithPtr_copy obj1 in
  let* obj2 := WithPtr_assign obj2 obj1 in
  st_ret (obj1, obj2).

(** ** Prefix and postfix operators (lines 371-400) *)

Definition prefix_section (varArray : option ptr) : st pstate unit :=
  let ptr := varArray in
  let* v := rd ptr in say (fun o => o << (NL ++ "*ptr     = ") << v) ;;
  let* ptr := padd ptr 1 in let* v := rd ptr in say (fun o => o << (NL ++ "*++ptr   = ") << v) ;;
  let* ptr := padd ptr 1 in let* v := rd ptr in say (fun o => o << (NL ++ "*(++ptr) = ") << v) ;;
  let* v := rd ptr in let* v := int_add v 1 in wr ptr v ;; say (fun o => o << (NL ++ "++(*ptr) = ") << v) ;;
  let temp := ptr in let* ptr := padd ptr 1 in let* v := rd temp in say (fun o => o << (NL ++ "*ptr++   = ") << v) ;;
  let temp := ptr in let* ptr := padd ptr 1 in let* v := rd temp in say (fun o => o << (NL ++ "*(ptr++) = ") << v) ;;
  let x := 2%Z in
  say (fun o => o << (NL ++ "x(") << x << ")") ;;
  let y := x in let* x := int_add x 1 in
  say (fun o => o << (NL ++ "x(") << x << "); y(" << y << ")") ;;
  let* x := int_add x 1 in let z := x in
  say (fun o => o << (NL ++ "x(") << x << "); z(" << z << ")") ;;
  say (fun o => o << std.endl).

(** The destructors run when [main] returns, in the reverse order of the
    declarations. *)
Definition destroy_all (us : uptrs) (ss : sptrs) (obj1 obj2 : WithPtr) : st pstate unit :=
  WithPtr_dtor obj2 ;; WithPtr_dtor obj1 ;;
  update (shared_ptr.destroy (sptr6 ss)) ;; update (shared_ptr.destroy (sptr5 ss)) ;;
  update (shared_ptr.destroy (sptr4 ss)) ;; update (shared_ptr.destroy (sptr3 ss)) ;;
  update (shared_ptr.destroy (sptr2 ss)) ;; update (shared_ptr.destroy (sptr1 ss)) ;;
  update (unique_ptr.destroy Array (uptrArray us)) ;; update (unique_ptr.destroy Object (uptr6 us)) ;;
  update (unique_ptr.destroy Object (uptr5 us)) ;; update (unique_ptr.destroy Object (uptr4 us)) ;;
  update (unique_ptr.destroy Object (uptr2 us)) ;; update (unique_ptr.destroy Object (uptr1 us)).

(** [main] (lines 23-406). *)
Definition main : st pstate Z :=
  stack_section ;;
  heap_section ;;
  array_section ;;
  let* us := unique_section in
  let* ss := shared_section in
  let* varArray := builtin_section in
  let* objs := withptr_section in
  prefix_section varArray ;;
  say (fun o => o << "END OF PROGRAM" << std.endl) ;;
  destroy_all us ss (fst objs) (snd objs) ;;
  st_ret 0%Z.

End Program.

Definition run_main (base : nat -> Z) (var_addr : string -> Z) : outcome (Z * pstate) :=
  main base var_addr (mk_ps ostringstream0 heap0).

(** ** Lemmas *)

(** The values the first loop of line 79 stores: [ptrArray[k] = 2 k]. *)
Definition evens (i m : nat) : list ival := map (fun k => Val (2 * Z.of_nat k)) (seq i m).

Lemma evens_S (i m : nat) : evens i (S m) = Val (2 * Z.of_nat i) :: evens (S i) m.
Proof. done. Qed.

(** The loop [for (ptrI = ptrArray, num = 0; ptrI < ptrArray + sizeArray;
    ptrI++, num += 2) *ptrI = num;] started at [ptrI = ptrArray + i]: it
    writes [2 k] into cell [k] for [i <= k < i + m] and stops with [ptrI]
    one past the end of the array. *)
Lemma fill_even_spec (m : nat) : forall f o h b bl i,
  blocks h !! b = Some bl -> alive bl = true -> List.length (cells bl) = (i + m)%nat -> (m < f)%nat ->
  (2 * Z.of_nat (i + m) <= INT_MAX)%Z ->
  fill_even f (Some (mk_ptr b 0)) (Some (mk_ptr b (Z.of_nat i))) (Z.of_nat (i + m)) (2 * Z.of_nat i) (mk_ps o h)
  = Ok ((Some (mk_ptr b (Z.of_nat (i + m))), 2 * Z.of_nat (i + m))%Z,
        mk_ps o (set_blocks h (<[b := mk_block (bkind bl) true (esize bl) (take i (cells bl) ++ evens i m)]> (blocks h)))).
Proof.
  induction m as [|m IH]; intros [|f] o h b bl i Hb Ha Hl Hf Hmax; try lia.
  - cbn [fill_even]. unfold padd, inspect, st_bind. cbn [mem].
    rewrite (ptr_add_in h b bl) by (done || lia). cbn [ptr_lt blk off]. rewrite Nat.eqb_refl.
    destruct (Z.ltb_spec (Z.of_nat i) (0 + Z.of_nat (i + 0))); [lia|]. unfold st_ret.
    rewrite Nat.add_0_r, app_nil_r, take_ge by lia.
    rewrite <- Ha. destruct bl; cbn. rewrite list_insert_id by done. by rewrite set_blocks_id.
  - cbn [fill_even]. unfold padd, inspect, wr, update, on_heap, st_bind. cbn [mem].
    rewrite (ptr_add_in h b bl) by (done || lia). cbn [ptr_lt blk off]. rewrite Nat.eqb_refl.
    destruct (Z.ltb_spec (Z.of_nat i) (0 + Z.of_nat (i + S m))); [|lia]. cbv beta iota.
    cbn [mem cout]. rewrite (store_in h b bl) by (done || lia). cbv beta iota. cbn [mem cout].
    set (bl' := mk_block (bkind bl) true (esize bl) (<[Z.to_nat (Z.of_nat i) := Val (2 * Z.of_nat i)]> (cells bl))).
    assert (Hb' : blocks (set_blocks h (<[b := bl']> (blocks h))) !! b = Some bl').
    { cbn. apply list_lookup_insert_eq. eapply lookup_lt_Some; done. }
    rewrite (ptr_add_in _ b bl') by (done || (subst bl'; cbn; rewrite length_insert; lia)).
    unfold int_add. replace (in_int (2 * Z.of_nat i + 2)) with true
      by (symmetry; apply in_int_spec; unfold INT_MIN; lia).
    unfold st_ret.
    replace (Z.of_nat i + 1)%Z with (Z.of_nat (S i)) by lia.
    replace (2 * Z.of_nat i + 2)%Z with (2 * Z.of_nat (S i))%Z by lia.
    replace (i + S m)%nat with (S i + m)%nat by lia.
    rewrite (IH f o _ b bl' (S i)) by (try done; subst bl'; cbn; rewrite ?length_insert; lia).
    subst bl'. cbn [set_blocks blocks ctrls bkind esize cells alive].
    rewrite list_insert_insert_eq, Nat2Z.id, take_insert_snoc by lia.
    by rewrite evens_S, <- app_assoc.
Qed.

(** ** Theorems *)

(** C9: lines 75-79 on any memory: [new int[10]] and [new int] take
    the next two blocks, the loop stores [0, 2, ..., 18] into the array
    and leaves [ptrI] one past its end.  Nothing points to the [int] of
    line 77 any more, yet it is still alive: it is leaked, and the
    [delete ptrI] of line 87 is given the end of the array instead. *)
Theorem array_fill_spec (o : ostream) (bs : list block) (cs : list ctrl) :
  array_fill (mk_ps o (mk_heap bs cs)) =
  Ok ((Some (mk_ptr (List.length bs) 0), Some (mk_ptr (List.length bs) 10)),
      mk_ps o (mk_heap (bs ++ [mk_block Array true 4 (evens 0 10); mk_block Object true 4 [Uninit]]) cs)).
Proof.
  unfold array_fill, alloc_with, on_heap, st_bind. cbn [new_array new_object alloc blocks ctrls mem cout fst snd].
  set (A := mk_block Array true 4 (repeat Uninit (Z.to_nat 10))).
  set (h := mk_heap ((bs ++ [A]) ++ [mk_block Object true 4 [Uninit]]) cs).
  assert (Hb : blocks h !! List.length bs = Some A).
  { cbn. rewrite lookup_app_l, lookup_app_r, Nat.sub_diag by (rewrite ?length_app; cbn; lia). done. }
  pose proof (fill_even_spec 10 11 o h (List.length bs) A 0 Hb eq_refl eq_refl) as H.
  cbv [Z.of_nat Nat.add Z.mul Pos.of_succ_nat Pos.succ Pos.mul] in H.
  change (S (Z.to_nat 10)) with 11%nat. rewrite H by (unfold INT_MAX; lia).
  unfold st_ret. cbn [fst snd]. do 3 f_equal. subst h A. cbn.
  rewrite insert_app_l, insert_app_r_alt, Nat.sub_diag by (rewrite ?length_app; cbn; lia).
  unfold set_blocks. cbn [ctrls]. rewrite <- app_assoc. reflexivity.
Qed.

(** C8: wherever the implementation places the objects, [main] has
    undefined behaviour: [delete ptrI] on line 87 deletes the end of the
    array [ptrArray], which [new] did not return. *)
Theorem main_invalid_delete (base : nat -> Z) (var_addr : string -> Z) :
  run_main base var_addr = Stuck InvalidDelete.
Proof. vm_compute. reflexivity. Qed.

(** C10: on any memory, [WithPtr obj2 = obj1] (line 361) reads the
    characters of [new char[5]], which the constructor never wrote: the
    copy constructor of lines 329-332 reads indeterminate values. *)
Theorem withptr_copy_indeterminate (s : pstate) :
  withptr_section s = Stuck IndeterminateRead.
Proof.
  destruct s as [o [bs cs]].
  unfold withptr_section, WithPtr_ctor, WithPtr_copy, alloc_with, on_heap, st_bind, st_ret.
  cbn [new_array alloc blocks ctrls mem cout fst snd p n Z.to_nat].
  unfold copy_chars. rewrite vector.for_upto_S.
  unfold padd, rd, inspect, st_bind, ptr_add, load, access. simpl.
  repeat (rewrite lookup_app_l, lookup_app_r, Nat.sub_diag by (rewrite ?length_app; cbn; lia); simpl).
  reflexivity.
Qed.

End Pointers.
