(* ===== verification/Orders.v ===== *)
(** * Comparators: [operator<] as the ordered containers use it

    The ordered containers ([set], [map], [multiset], [multimap],
    [priority_queue], [list::sort], [list::merge]) take a comparator
    [Compare] and require it to be a strict weak ordering
    ([alg.sorting]).  [Less A] is [operator<] on [A]; [StrictWeakOrder]
    states the requirement, and the instances discharge it for [int],
    [std::string] (libstdc++ compares [unsigned char]s, [str_lt]) and the
    lexicographic order the classes of Containers.cpp define. *)

From stdpp Require Import base list strings.
From Stdlib Require Import ZArith Lia String Ascii.
From S2P Require Import Prelude.

(** [operator<] on [A], as a function to [bool]. *)
Class Less (A : Type) := less : A -> A -> bool.

Arguments less {_ _} !_ !_ /.

(** The requirement of [alg.sorting] on [comp]: irreflexive, transitive,
    and incomparability transitive (written here as the transitivity of
    [!(b < a)]). *)
Class StrictWeakOrder (A : Type) `{Less A} : Prop := {
  less_irrefl : forall a, less a a = false;
  less_trans : forall a b c, less a b = true -> less b c = true -> less a c = true;
  not_less_trans : forall a b c, less b a = false -> less c b = false -> less c a = false
}.

(** A strict total order: incomparable values are equal ([int],
    [std::string], and the lexicographic orders built from them). *)
Class StrictTotalOrder (A : Type) `{Less A} : Prop := {
  total_irrefl : forall a, less a a = false;
  total_trans : forall a b c, less a b = true -> less b c = true -> less a c = true;
  total_eq : forall a b, less a b = false -> less b a = false -> a = b
}.

(** Two values are equivalent when neither is less than the other. *)
Definition equiv `{Less A} (a b : A) : bool := negb (less a b) && negb (less b a).

#[export] Instance less_Z : Less Z := Z.ltb.
#[export] Instance less_string : Less string := str_lt.

(** Lexicographic comparison of pairs, as the classes [book_idx] and
    [restaurant_queue] write it:
    [(a1 != a2) ? a1 < a2 : b1 < b2] up to equivalence of the first
    components. *)
Definition lex_less `{Less A, Less B} (p q : A * B) : bool :=
  if less p.1 q.1 then true else if less q.1 p.1 then false else less p.2 q.2.

#[export] Instance less_pair `{Less A, Less B} : Less (A * B) := lex_less.

(** ** Lemmas *)

Section Laws.
Context `{StrictWeakOrder A}.

Lemma less_asym (a b : A) : less a b = true -> less b a = false.
Proof.
  intros Hab. destruct (less b a) eqn:Hba; [|done].
  pose proof (less_trans a b a Hab Hba) as Haa. by rewrite less_irrefl in Haa.
Qed.

Lemma less_not_less_trans (a b c : A) : less a b = true -> less c b = false -> less a c = true.
Proof.
  intros Hab Hcb. destruct (less a c) eqn:Hac; [done|].
  pose proof (not_less_trans b c a Hcb Hac). congruence.
Qed.

Lemma not_less_less_trans (a b c : A) : less b a = false -> less b c = true -> less a c = true.
Proof.
  intros Hba Hbc. destruct (less a c) eqn:Hac; [done|].
  pose proof (not_less_trans c a b Hac Hba). congruence.
Qed.

Lemma equiv_refl (a : A) : equiv a a = true.
Proof. unfold equiv. by rewrite less_irrefl. Qed.

Lemma equiv_sym (a b : A) : equiv a b = equiv b a.
Proof. unfold equiv. by rewrite andb_comm. Qed.

End Laws.

Lemma str_lt_irrefl (a : string) : str_lt a a = false.
Proof. induction a as [|c r IH]; [done|]. cbn [str_lt]. by rewrite Nat.ltb_irrefl. Qed.

Lemma str_lt_trans (a b c : string) : str_lt a b = true -> str_lt b c = true -> str_lt a c = true.
Proof.
  revert b c. induction a as [|x r IH]; intros [|y s] [|z t]; cbn [str_lt]; try done.
  destruct (Nat.ltb_spec (nat_of_ascii x) (nat_of_ascii y)), (Nat.ltb_spec (nat_of_ascii y) (nat_of_ascii x));
  destruct (Nat.ltb_spec (nat_of_ascii y) (nat_of_ascii z)), (Nat.ltb_spec (nat_of_ascii z) (nat_of_ascii y));
  destruct (Nat.ltb_spec (nat_of_ascii x) (nat_of_ascii z)), (Nat.ltb_spec (nat_of_ascii z) (nat_of_ascii x));
  try lia; try done. apply IH.
Qed.

(** On strings, incomparable means equal. *)
Lemma str_lt_total (a b : string) : str_lt a b = false -> str_lt b a = false -> a = b.
Proof.
  revert b. induction a as [|x r IH]; intros [|y s]; cbn [str_lt]; try done.
  destruct (Nat.ltb_spec (nat_of_ascii x) (nat_of_ascii y)) as [Hxy|Hxy],
    (Nat.ltb_spec (nat_of_ascii y) (nat_of_ascii x)) as [Hyx|Hyx]; try done; try lia.
  intros H1 H2. assert (x = y) as ->.
  { rewrite <- (ascii_nat_embedding x), <- (ascii_nat_embedding y). f_equal. lia. }
  by rewrite (IH s).
Qed.

#[export] Instance total_weak `{StrictTotalOrder A} : StrictWeakOrder A.
Proof.
  split; [apply total_irrefl | apply total_trans |].
  intros a b c Hba Hcb. destruct (less c a) eqn:Hca; [|done].
  destruct (less a b) eqn:Hab.
  - by rewrite (total_trans c a b Hca Hab) in Hcb.
  - rewrite (total_eq a b Hab Hba) in Hca. congruence.
Qed.

#[export] Instance total_Z : StrictTotalOrder Z.
Proof.
  split; unfold less, less_Z; intros *; rewrite ?Z.ltb_irrefl; try done;
  rewrite ?Z.ltb_lt, ?Z.ltb_ge; lia.
Qed.

#[export] Instance total_string : StrictTotalOrder string.
Proof. split; [apply str_lt_irrefl | apply str_lt_trans | apply str_lt_total]. Qed.

#[export] Instance total_pair `{StrictTotalOrder A, StrictTotalOrder B} : StrictTotalOrder (A * B).
Proof.
  split.
  - intros [a b]. change (lex_less (a, b) (a, b) = false). unfold lex_less; cbn. by rewrite !total_irrefl.
  - intros [a1 a2] [b1 b2] [c1 c2].
    change (lex_less (a1, a2) (b1, b2) = true -> lex_less (b1, b2) (c1, c2) = true ->
            lex_less (a1, a2) (c1, c2) = true). unfold lex_less; cbn.
    destruct (less a1 b1) eqn:E1; [|destruct (less b1 a1) eqn:E2; [done|]];
      (destruct (less b1 c1) eqn:E3; [|destruct (less c1 b1) eqn:E4; [done|]]); intros Hab Hbc.
    + by rewrite (total_trans _ _ _ E1 E3).
    + by rewrite <- (total_eq _ _ E3 E4), E1.
    + by rewrite (total_eq _ _ E1 E2), E3.
    + rewrite (total_eq _ _ E1 E2), <- (total_eq _ _ E3 E4), !total_irrefl.
      eapply total_trans; eauto.
  - intros [a1 a2] [b1 b2].
    change (lex_less (a1, a2) (b1, b2) = false -> lex_less (b1, b2) (a1, a2) = false -> (a1, a2) = (b1, b2)).
    unfold lex_less; cbn. destruct (less a1 b1) eqn:E1; [done|]. destruct (less b1 a1) eqn:E2; [done|].
    intros Hab Hba. by rewrite (total_eq _ _ E1 E2), (total_eq _ _ Hab Hba).
Qed.
