(* ===== verification/RbTree.v ===== *)
(** * The ordered associative containers: libstdc++'s [_Rb_tree]

    [std::set], [std::map], [std::multiset] and [std::multimap] are all
    the red-black tree [_Rb_tree<Key, Val, KeyOfValue, Compare>] of
    libstdc++ (bits/stl_tree.h), with [KeyOfValue] the identity for the
    sets and [select1st] for the maps.  What the programs observe of a
    tree is the in-order sequence of its values, so a tree is modelled as
    that sequence, a [list V], and an iterator as a position in it (the
    size is [end()]).  Each member is the function the tree computes on
    the in-order sequence: [_M_insert_unique] (set and map [insert]),
    [_M_insert_equal] (multiset and multimap [insert], placed after the
    equivalent keys), [lower_bound], [upper_bound], [equal_range],
    [count], [find], [erase] of a position and of a key, and the map
    members [operator[]] and [at].  The balancing is not observable and
    is not modelled.

    The invariant of the tree is the order of its sequence: keys strictly
    increasing for the unique containers, non-decreasing for the multi
    containers; every member that changes a tree keeps it. *)

From stdpp Require Import base list strings.
From Stdlib Require Import ZArith Lia String.
From S2P Require Import Prelude Orders.

(** ** Locally sorted lists *)

Section Sorted.
Context {V : Type} (R : V -> V -> bool).

(** Every element is related to the next one. *)
Fixpoint lsorted (l : list V) : bool :=
  match l with
  | x :: ((y :: _) as r) => R x y && lsorted r
  | _ => true
  end.

Lemma lsorted_cons (x : V) (l : list V) :
  lsorted (x :: l) = true <-> lsorted l = true /\ (forall y, head l = Some y -> R x y = true).
Proof.
  destruct l as [|y l]; cbn.
  - split; [done|]. intros _. done.
  - rewrite andb_true_iff. split; [intros [Hxy Hs]; split; [done|]; by intros ? [= <-]|].
    intros [Hs Hh]. split; [by apply Hh|done].
Qed.

Lemma lsorted_tail (x : V) (l : list V) : lsorted (x :: l) = true -> lsorted l = true.
Proof. rewrite lsorted_cons. tauto. Qed.

Lemma lsorted_drop (l : list V) (j : nat) : lsorted l = true -> lsorted (drop j l) = true.
Proof.
  revert j. induction l as [|x l IH]; intros [|j] Hs; cbn; try done.
  apply IH. eapply lsorted_tail; done.
Qed.

Lemma lsorted_cons_eq (x : V) (l : list V) :
  lsorted (x :: l) = match head l with Some y => R x y | None => true end && lsorted l.
Proof. by destruct l. Qed.

(** Replacing an element by one related to the same elements. *)
Lemma lsorted_insert_same (l : list V) (i : nat) (x y : V) :
  (forall a, R a y = R a x) -> (forall b, R y b = R x b) -> l !! i = Some x ->
  lsorted (<[i := y]> l) = lsorted l.
Proof.
  intros Hl Hr. revert i. induction l as [|z l IH]; intros [|i] Hi; try done.
  - injection Hi as ->. cbn [insert list_insert]. rewrite !lsorted_cons_eq. destruct l; cbn; by rewrite ?Hr.
  - cbn in Hi. cbn [insert list_insert]. rewrite !lsorted_cons_eq, IH by done. f_equal.
    destruct l as [|w l]; [done|]. destruct i; cbn; [injection Hi as ->; by rewrite Hl|]. done.
Qed.

Context (R_trans : forall a b c, R a b = true -> R b c = true -> R a c = true).

(** With a transitive relation, the head is related to every later element. *)
Lemma lsorted_head_all (x : V) (l : list V) :
  lsorted (x :: l) = true -> Forall (fun y => R x y = true) l.
Proof.
  revert x. induction l as [|y l IH]; intros x Hs; [constructor|].
  apply lsorted_cons in Hs as [Hs Hxy]. specialize (Hxy y eq_refl).
  constructor; [done|]. eapply Forall_impl; [by apply IH|]. cbn. eauto.
Qed.

(** Erasing a range [[i, j)] keeps a list sorted. *)
Lemma lsorted_take_drop (l : list V) (i j : nat) :
  lsorted l = true -> (i <= j)%nat -> lsorted (take i l ++ drop j l) = true.
Proof.
  revert i j. induction l as [|x l IH]; intros i j Hs Hij; [by rewrite take_nil, drop_nil|].
  destruct i as [|i]; [by apply lsorted_drop|].
  destruct j as [|j]; [lia|]. cbn.
  apply lsorted_cons. split; [apply IH; [eapply lsorted_tail; done | lia]|].
  intros y Hy. pose proof (lsorted_head_all x l Hs) as Hall. rewrite Forall_forall in Hall. apply Hall.
  assert (Hin : y ∈ take i l ++ drop j l).
  { destruct (take i l ++ drop j l); [done|]. injection Hy as ->. left. }
  apply elem_of_app in Hin as [Hin|Hin];
    [rewrite <- (take_drop i l) | rewrite <- (take_drop j l)]; apply elem_of_app; auto.
Qed.

End Sorted.

Module rb_tree.

Section Tree.
Context {K V : Type} `{Less K} (key_of : V -> K).

(** ** Members of [_Rb_tree] on the in-order sequence *)

(** [_M_insert_unique(v)]: inserts [v] unless a value with an equivalent
    key is present; the [bool] is the [second] of the returned pair. *)
Fixpoint _M_insert_unique (v : V) (t : list V) : list V * bool :=
  match t with
  | [] => ([v], true)
  | x :: r =>
      if less (key_of x) (key_of v) then let '(r', b) := _M_insert_unique v r in (x :: r', b)
      else if less (key_of v) (key_of x) then (v :: t, true)
      else (t, false)
  end.

(** [_M_insert_equal(v)]: the descent goes right on [!(k < key(x))], so
    [v] is placed after every value with an equivalent key. *)
Fixpoint _M_insert_equal (v : V) (t : list V) : list V :=
  match t with
  | [] => [v]
  | x :: r => if less (key_of v) (key_of x) then v :: t else x :: _M_insert_equal v r
  end.

(** [lower_bound(k)]: the first position whose key is not less than [k]. *)
Fixpoint lower_bound (k : K) (t : list V) : nat :=
  match t with
  | [] => 0
  | x :: r => if less (key_of x) k then S (lower_bound k r) else 0
  end.

(** [upper_bound(k)]: the first position whose key is greater than [k]. *)
Fixpoint upper_bound (k : K) (t : list V) : nat :=
  match t with
  | [] => 0
  | x :: r => if less k (key_of x) then 0 else S (upper_bound k r)
  end.

Definition equal_range (k : K) (t : list V) : nat * nat := (lower_bound k t, upper_bound k t).

(** [count(k)]: [distance] over [equal_range(k)]. *)
Definition count (k : K) (t : list V) : nat :=
  let '(lo, hi) := equal_range k t in hi - lo.

(** [find(k)]: [lower_bound(k)] if its key is equivalent to [k], [end()]
    otherwise. *)
Definition find (k : K) (t : list V) : nat :=
  let j := lower_bound k t in
  match t !! j with
  | Some x => if less k (key_of x) then List.length t else j
  | None => List.length t
  end.

(** [erase(position)]. *)
Definition erase_at (i : nat) (t : list V) : list V := take i t ++ drop (S i) t.

(** [erase(position)] on an iterator that must be dereferenceable. *)
Definition erase (i : nat) (t : list V) : outcome (list V) :=
  if (i <? List.length t)%nat then Ok (erase_at i t) else Stuck PreconditionViolated.

(** [erase(k)]: erases [equal_range(k)] and returns how many values it
    held. *)
Definition erase_key (k : K) (t : list V) : list V * nat :=
  let '(lo, hi) := equal_range k t in (take lo t ++ drop hi t, hi - lo).

(** Construction from an initializer list: one insertion per element,
    in order. *)
Definition init_unique (vs : list V) : list V := foldl (fun t v => fst (_M_insert_unique v t)) [] vs.
Definition init_equal (vs : list V) : list V := foldl (fun t v => _M_insert_equal v t) [] vs.

(** ** The invariant *)

(** The keys of a set or map are strictly increasing ... *)
Definition unique_sorted : list V -> bool := lsorted (fun a b => less (key_of a) (key_of b)).
(** ... those of a multiset or multimap non-decreasing. *)
Definition equal_sorted : list V -> bool := lsorted (fun a b => negb (less (key_of b) (key_of a))).

(** ** Lemmas *)

Lemma lower_le_upper `{!StrictWeakOrder K} (k : K) (t : list V) : (lower_bound k t <= upper_bound k t)%nat.
Proof.
  induction t as [|x r IH]; cbn; [lia|].
  destruct (less (key_of x) k) eqn:E; [|lia]. by rewrite (less_asym _ _ E); lia.
Qed.

Lemma insert_unique_head (v : V) (t : list V) (y : V) :
  head (fst (_M_insert_unique v t)) = Some y -> y = v \/ head t = Some y.
Proof.
  destruct t as [|x r]; cbn; [naive_solver|].
  destruct (less (key_of x) (key_of v)); [destruct (_M_insert_unique v r)|destruct (less (key_of v) (key_of x))];
    cbn; naive_solver.
Qed.

Lemma insert_equal_head (v : V) (t : list V) (y : V) :
  head (_M_insert_equal v t) = Some y -> y = v \/ head t = Some y.
Proof. destruct t as [|x r]; cbn; [naive_solver|]. destruct (less (key_of v) (key_of x)); cbn; naive_solver. Qed.

Lemma insert_unique_sorted `{!StrictWeakOrder K} (v : V) (t : list V) :
  unique_sorted t = true -> unique_sorted (fst (_M_insert_unique v t)) = true.
Proof.
  unfold unique_sorted. induction t as [|x r IH]; intros Hs; [done|]. cbn [_M_insert_unique].
  destruct (less (key_of x) (key_of v)) eqn:Exv.
  - destruct (_M_insert_unique v r) as [r' b] eqn:E. cbn [fst].
    apply lsorted_cons in Hs as [Hs Hh]. apply lsorted_cons. split.
    + specialize (IH Hs). by cbn in IH.
    + intros y Hy. assert (Hy' : head (fst (_M_insert_unique v r)) = Some y) by by rewrite E.
      apply insert_unique_head in Hy' as [->|Hy']; auto.
  - destruct (less (key_of v) (key_of x)) eqn:Evx; [|done]. cbn [fst].
    apply lsorted_cons. split; [done|]. by intros y [= <-].
Qed.

Lemma insert_equal_sorted `{!StrictWeakOrder K} (v : V) (t : list V) :
  equal_sorted t = true -> equal_sorted (_M_insert_equal v t) = true.
Proof.
  unfold equal_sorted. induction t as [|x r IH]; intros Hs; [done|]. cbn [_M_insert_equal].
  destruct (less (key_of v) (key_of x)) eqn:Evx.
  - apply lsorted_cons. split; [done|]. intros y [= <-]. by rewrite (less_asym _ _ Evx).
  - apply lsorted_cons in Hs as [Hs Hh]. apply lsorted_cons. split; [by apply IH|].
    intros y Hy. apply insert_equal_head in Hy as [->|Hy]; [by rewrite Evx|auto].
Qed.

Lemma unique_sorted_equal_sorted `{!StrictWeakOrder K} (t : list V) :
  unique_sorted t = true -> equal_sorted t = true.
Proof.
  unfold unique_sorted, equal_sorted. induction t as [|x r IH]; [done|].
  rewrite !lsorted_cons. intros [Hs Hh]. split; [auto|]. intros y Hy. by rewrite (less_asym _ _ (Hh y Hy)).
Qed.

Lemma equal_sorted_trans `{!StrictWeakOrder K} (a b c : V) :
  negb (less (key_of b) (key_of a)) = true -> negb (less (key_of c) (key_of b)) = true ->
  negb (less (key_of c) (key_of a)) = true.
Proof. rewrite !negb_true_iff. apply not_less_trans. Qed.

Lemma erase_key_sorted `{!StrictWeakOrder K} (k : K) (t : list V) :
  (unique_sorted t = true -> unique_sorted (fst (erase_key k t)) = true) /\
  (equal_sorted t = true -> equal_sorted (fst (erase_key k t)) = true).
Proof.
  unfold erase_key, equal_range, unique_sorted, equal_sorted. cbn [fst]. pose proof (lower_le_upper k t).
  split; intros; apply lsorted_take_drop; try done;
    [intros ???; apply less_trans | intros ???; apply equal_sorted_trans].
Qed.

Lemma erase_at_sorted `{!StrictWeakOrder K} (i : nat) (t : list V) :
  (unique_sorted t = true -> unique_sorted (erase_at i t) = true) /\
  (equal_sorted t = true -> equal_sorted (erase_at i t) = true).
Proof.
  unfold erase_at. split; intros; apply lsorted_take_drop; try done; try lia;
    [intros ???; apply less_trans | intros ???; apply equal_sorted_trans].
Qed.

Lemma init_unique_sorted `{!StrictWeakOrder K} (vs : list V) : unique_sorted (init_unique vs) = true.
Proof.
  unfold init_unique. generalize (@nil V) (eq_refl : unique_sorted [] = true).
  induction vs as [|v vs IH]; intros t Ht; cbn; [done|]. apply IH. by apply insert_unique_sorted.
Qed.

Lemma init_equal_sorted `{!StrictWeakOrder K} (vs : list V) : equal_sorted (init_equal vs) = true.
Proof.
  unfold init_equal. generalize (@nil V) (eq_refl : equal_sorted [] = true).
  induction vs as [|v vs IH]; intros t Ht; cbn; [done|]. apply IH. by apply insert_equal_sorted.
Qed.

(** The values equivalent to [k], in sequence order. *)
Definition equivalents (k : K) (t : list V) : list V := List.filter (fun x => equiv k (key_of x)) t.

Lemma equivalents_cons (x : V) (k : K) (r : list V) :
  equivalents k (x :: r) = if equiv k (key_of x) then x :: equivalents k r else equivalents k r.
Proof. done. Qed.

Lemma equivalents_greater `{!StrictWeakOrder K} (k : K) (r : list V) :
  Forall (fun y => less k (key_of y) = true) r -> equivalents k r = [].
Proof. induction 1 as [|y r Hy _ IH]; [done|]. unfold equivalents, equiv. cbn. by rewrite Hy. Qed.

(** In a multi container, once a key is greater than [k] no later value
    is equivalent to [k]. *)
Lemma equivalents_after `{!StrictWeakOrder K} (k : K) (x : V) (r : list V) :
  equal_sorted (x :: r) = true -> less k (key_of x) = true -> equivalents k (x :: r) = [].
Proof.
  intros Hs Hk. apply equivalents_greater. constructor; [done|].
  eapply Forall_impl; [apply (lsorted_head_all _ equal_sorted_trans x r Hs)|].
  intros y Hy. rewrite negb_true_iff in Hy. by apply (less_not_less_trans _ (key_of x)).
Qed.

Lemma lower_bound_0 `{!StrictWeakOrder K} (k : K) (x : V) (r : list V) :
  equal_sorted (x :: r) = true -> less (key_of x) k = false -> lower_bound k r = 0%nat.
Proof.
  destruct r as [|y r]; [done|]. intros Hs Hx. apply lsorted_cons in Hs as [_ Hh].
  specialize (Hh y eq_refl). rewrite negb_true_iff in Hh. cbn.
  by rewrite (not_less_trans k (key_of x) (key_of y) Hx Hh).
Qed.

(** [equal_range(k)] delimits exactly the values equivalent to [k]. *)
Lemma equal_range_equivalents `{!StrictWeakOrder K} (k : K) (t : list V) :
  equal_sorted t = true ->
  take (upper_bound k t - lower_bound k t) (drop (lower_bound k t) t) = equivalents k t.
Proof.
  induction t as [|x r IH]; intros Hs; [done|].
  pose proof (lsorted_tail _ _ _ Hs) as Hr. cbn [lower_bound upper_bound].
  destruct (less (key_of x) k) eqn:E1; [|destruct (less k (key_of x)) eqn:E2].
  - rewrite (less_asym _ _ E1). cbn [Nat.sub drop]. rewrite IH by done.
    unfold equivalents, equiv. cbn. by rewrite E1, andb_false_r.
  - rewrite Nat.sub_0_r, take_0. symmetry. by apply equivalents_after.
  - cbn [Nat.sub drop take]. rewrite (lower_bound_0 k x r Hs E1) in IH.
    rewrite Nat.sub_0_r, drop_0 in IH. rewrite IH by done.
    unfold equivalents, equiv. cbn. by rewrite E1, E2.
Qed.

(** [_M_insert_equal(v)] puts [v] after the values equivalent to it. *)
Lemma insert_equal_equivalents `{!StrictWeakOrder K} (v : V) (t : list V) :
  equal_sorted t = true -> equivalents (key_of v) (_M_insert_equal v t) = equivalents (key_of v) t ++ [v].
Proof.
  induction t as [|x r IH]; intros Hs.
  - unfold equivalents. cbn. by rewrite equiv_refl.
  - cbn [_M_insert_equal]. destruct (less (key_of v) (key_of x)) eqn:E.
    + rewrite (equivalents_cons v), equiv_refl. by rewrite (equivalents_after _ x r Hs E).
    + rewrite !(equivalents_cons x), IH by (eapply lsorted_tail; done).
      by destruct (equiv (key_of v) (key_of x)).
Qed.

Lemma upper_bound_le_length (k : K) (t : list V) : (upper_bound k t <= List.length t)%nat.
Proof. induction t as [|x r IH]; cbn; [lia|]. destruct (less k (key_of x)); lia. Qed.

(** The values before [lower_bound(k)] have keys less than [k] ... *)
Lemma lower_bound_prefix (k : K) (t : list V) :
  Forall (fun x => less (key_of x) k = true) (take (lower_bound k t) t).
Proof.
  induction t as [|x r IH]; cbn; [constructor|].
  destruct (less (key_of x) k) eqn:E; cbn; [by constructor|constructor].
Qed.

(** ... and in a multi container those from [upper_bound(k)] on have keys
    greater than [k]. *)
Lemma upper_bound_suffix `{!StrictWeakOrder K} (k : K) (t : list V) :
  equal_sorted t = true -> Forall (fun x => less k (key_of x) = true) (drop (upper_bound k t) t).
Proof.
  induction t as [|x r IH]; intros Hs; cbn; [constructor|].
  destruct (less k (key_of x)) eqn:E; cbn.
  - constructor; [done|]. eapply Forall_impl; [apply (lsorted_head_all _ equal_sorted_trans x r Hs)|].
    intros y Hy. rewrite negb_true_iff in Hy. by apply (less_not_less_trans _ (key_of x)).
  - apply IH. eapply lsorted_tail; done.
Qed.

(** When [equal_range(k)] is not empty, [find(k)] is its first position. *)
Lemma find_lower_bound `{!StrictWeakOrder K} (k : K) (t : list V) :
  (lower_bound k t < upper_bound k t)%nat -> find k t = lower_bound k t.
Proof.
  unfold find. induction t as [|x r IH]; cbn; [lia|].
  destruct (less (key_of x) k) eqn:E.
  - rewrite (less_asym _ _ E). intros Hlt. specialize (IH ltac:(lia)).
    change ((x :: r) !! S (lower_bound k r)) with (r !! lower_bound k r).
    revert IH. repeat case_match; lia.
  - intros Hlt. change ((x :: r) !! 0) with (Some x). cbn. destruct (less k (key_of x)); cbn in *; lia.
Qed.

End Tree.

(** ** The members of [std::map] *)

Section Map.
Context {K T : Type} `{Less K}.

(** [operator[](k)]: [lower_bound(k)]; if no equivalent key is there, a
    value-initialised [T] is emplaced at that position; the result is the
    mapped value. *)
Definition subscript (dflt : T) (k : K) (m : list (K * T)) : T * list (K * T) :=
  let i := lower_bound fst k m in
  match m !! i with
  | Some (k', v) => if less k k' then (dflt, take i m ++ (k, dflt) :: drop i m) else (v, m)
  | None => (dflt, m ++ [(k, dflt)])
  end.

(** [at(k)]: the mapped value, or [out_of_range("map::at")]. *)
Definition at_ (k : K) (m : list (K * T)) : exn + T :=
  let i := lower_bound fst k m in
  match m !! i with
  | Some (k', v) => if less k k' then inl (out_of_range "map::at") else inr v
  | None => inl (out_of_range "map::at")
  end.

(** [at(k)] used as an lvalue: [f] applied to the mapped value in place. *)
Definition at_update (k : K) (f : T -> T) (m : list (K * T)) : exn + list (K * T) :=
  let i := lower_bound fst k m in
  match m !! i with
  | Some (k', v) => if less k k' then inl (out_of_range "map::at") else inr (<[i := (k', f v)]> m)
  | None => inl (out_of_range "map::at")
  end.

(** [operator[]] inserts exactly what [insert({k, T()})] inserts. *)
Lemma subscript_insert (dflt : T) (k : K) (m : list (K * T)) :
  snd (subscript dflt k m) = fst (_M_insert_unique fst (k, dflt) m).
Proof.
  unfold subscript. induction m as [|[k' v] r IH]; [done|]. cbn [lower_bound _M_insert_unique fst].
  destruct (less k' k) eqn:E.
  - destruct (_M_insert_unique fst (k, dflt) r) as [r' b]. cbn [fst] in *.
    change (((k', v) :: r) !! S (lower_bound fst k r)) with (r !! lower_bound fst k r).
    destruct (r !! lower_bound fst k r) as [[k'' v']|]; [destruct (less k k'')|]; cbn in *; by subst.
  - cbn. by destruct (less k k').
Qed.

End Map.

Lemma at_update_sorted `{StrictWeakOrder K} {T} (k : K) (f : T -> T) (m m' : list (K * T)) :
  at_update k f m = inr m' -> unique_sorted fst m = true -> unique_sorted fst m' = true.
Proof.
  unfold at_update. destruct (m !! lower_bound fst k m) as [[k' v]|] eqn:E; [|done].
  destruct (less k k'); [done|]. intros [= <-]. unfold unique_sorted.
  by rewrite (lsorted_insert_same _ m _ (k', v)).
Qed.


(** ** Theorems *)



(** C15: in a multiset or multimap, [equal_range(k)] delimits
    exactly the values whose key is equivalent to [k], in sequence order,
    and [count(k)] is their number; [insert] puts a new value after the
    values equivalent to it, so equivalent values keep their insertion
    order. *)
Theorem multi_equal_range `{StrictWeakOrder K} {V} (key_of : V -> K) (t : list V) :
  equal_sorted key_of t = true ->
  (forall k, let '(lo, hi) := equal_range key_of k t in take (hi - lo) (drop lo t) = equivalents key_of k t) /\
  (forall k, count key_of k t = List.length (equivalents key_of k t)) /\
  (forall v, equivalents key_of (key_of v) (_M_insert_equal key_of v t) = equivalents key_of (key_of v) t ++ [v]).
Proof.
  intros Hs. split; [|split].
  - intros k. by apply equal_range_equivalents.
  - intros k. unfold count, equal_range. rewrite <- (equal_range_equivalents _ k t Hs).
    pose proof (lower_le_upper key_of k t). pose proof (upper_bound_le_length key_of k t).
    rewrite length_take, length_drop. lia.
  - intros v. by apply insert_equal_equivalents.
Qed.

Lemma multi_equal_range_witness :
  equal_sorted fst (init_equal fst [(1, "Mari"); (3, "Marina"); (3, "Mairina")]%Z) = true /\
  count fst 3%Z (init_equal fst [(1, "Mari"); (3, "Marina"); (3, "Mairina")]%Z) = 2%nat.
Proof.
  split; [reflexivity|].
  destruct (multi_equal_range (K := Z) fst (init_equal fst [(1, "Mari"); (3, "Marina"); (3, "Mairina")]%Z))
    as [_ [Hc _]]; [reflexivity|].
  rewrite Hc. reflexivity.
Defined.

End rb_tree.
