(* ===== verification/SeqContainers.v ===== *)
(** * Sequence containers and container adaptors, as libstdc++ writes them

    [std::deque], [std::forward_list] and [std::list] are modelled by the
    sequence of their elements and an iterator by a position in it; the
    members are the functions libstdc++'s members compute on it
    (bits/stl_deque.h, bits/forward_list.tcc, bits/list.tcc).  The two
    algorithms with a structure of their own are written as libstdc++
    writes them: [merge] (a splice of the node of the second list when
    it is less than the current node of the first), and [list::sort], the
    bottom-up merge sort over the array of 64 [__tmp] lists with [carry]
    and [fill].  The adaptors [std::queue] and [std::stack] forward to a
    [deque]; [std::priority_queue] keeps a [vector] organised as a binary
    heap with [push_heap] and [pop_heap] (bits/stl_heap.h: [__push_heap],
    [__adjust_heap], [__pop_heap]), whose loops take a fuel argument. *)

From stdpp Require Import base list strings.
From Stdlib Require Import ZArith Lia.
From S2P Require Import Prelude Orders.

Local Open Scope cpp_scope.

(** ** [merge] of two sorted lists ([list::merge], [forward_list::merge]) *)

Section Merge.
Context `{Less A}.

(** Walking [first1] over the list and [first2] over the other: when
    [*first2 < *first1] the node of [first2] is spliced before [first1],
    otherwise [first1] advances; what is left of the other list is
    spliced at the end. *)
Fixpoint merge (l1 l2 : list A) : list A :=
  match l1 with
  | [] => l2
  | x :: r1 =>
      (fix merge_r (l2 : list A) : list A :=
         match l2 with
         | [] => l1
         | y :: r2 => if less y x then y :: merge_r r2 else x :: merge r1 l2
         end) l2
  end.

Lemma merge_nil_r (l : list A) : merge l [] = l.
Proof. by destruct l. Qed.

Lemma merge_cons (x y : A) (r1 r2 : list A) :
  merge (x :: r1) (y :: r2) = if less y x then y :: merge (x :: r1) r2 else x :: merge r1 (y :: r2).
Proof. done. Qed.

End Merge.

(** ** [std::forward_list] *)

Module forward_list.

Definition push_front {A} (x : A) (l : list A) : list A := x :: l.

(** [insert_after(pos, {xs})] and [splice_after(pos, {xs})]: [pos] must
    be dereferenceable. *)
Definition insert_after {A} (pos : nat) (xs l : list A) : outcome (list A) :=
  if (pos <? length l)%nat then Ok (take (S pos) l ++ xs ++ drop (S pos) l) else Stuck PreconditionViolated.

Definition splice_after {A} (pos : nat) (xs l : list A) : outcome (list A) := insert_after pos xs l.

(** [remove(v)]: every element equal to [v]. *)
Definition remove `{EqDecision A} (v : A) (l : list A) : list A :=
  List.filter (fun x => negb (bool_decide (x = v))) l.

End forward_list.

(** ** [std::list] *)

Module std_list.

Definition push_back {A} (x : A) (l : list A) : list A := l ++ [x].
Definition push_front {A} (x : A) (l : list A) : list A := x :: l.

(** [insert(pos, x)]: before [pos], which may be [end()]. *)
Definition insert {A} (pos : nat) (x : A) (l : list A) : outcome (list A) :=
  if (pos <=? length l)%nat then Ok (take pos l ++ x :: drop pos l) else Stuck PreconditionViolated.

(** [splice(pos, {xs})]. *)
Definition splice {A} (pos : nat) (xs l : list A) : outcome (list A) :=
  if (pos <=? length l)%nat then Ok (take pos l ++ xs ++ drop pos l) else Stuck PreconditionViolated.

Definition remove `{EqDecision A} (v : A) (l : list A) : list A := forward_list.remove v l.

Section Sort.
Context `{Less A}.

(** One step of the loop of [list::sort]: [carry] holds the next
    element; [counter] walks the bins from [__tmp], merging each
    non-empty one into [carry] and leaving it empty, until an empty bin
    or [fill]; there [carry] is swapped in, and [fill] advances when it
    was reached.  A bin is merged into as [counter->merge(carry)], so
    its elements come first. *)
Fixpoint add_bin (carry : list A) (bins : list (list A)) : list (list A) :=
  match bins with
  | [] => [carry]
  | [] :: bs => carry :: bs
  | b :: bs => [] :: add_bin (merge b carry) bs
  end.

(** The final loop: [counter->merge( *(counter - 1))] from [__tmp + 1] to
    [fill], then [swap( *(fill - 1))]. *)
Fixpoint merge_up (acc : list A) (bins : list (list A)) : list A :=
  match bins with
  | [] => acc
  | b :: bs => merge_up (merge b acc) bs
  end.

(** [sort()]: lists of fewer than two elements are left alone. *)
Definition sort (l : list A) : list A :=
  match l with
  | [] | [_] => l
  | _ =>
      match foldl (fun bins x => add_bin [x] bins) [] l with
      | [] => []
      | b :: bs => merge_up b bs
      end
  end.

End Sort.

End std_list.

(** ** [std::deque] and the adaptors [std::queue], [std::stack] *)

Module deque.

Definition push_back {A} (x : A) (d : list A) : list A := d ++ [x].
Definition push_front {A} (x : A) (d : list A) : list A := x :: d.
Definition pop_front {A} (d : list A) : outcome (list A) :=
  match d with [] => Stuck PreconditionViolated | _ :: r => Ok r end.
Definition pop_back {A} (d : list A) : outcome (list A) :=
  match d with [] => Stuck PreconditionViolated | _ => Ok (removelast d) end.
Definition front {A} (d : list A) : outcome A := match d with [] => Stuck PreconditionViolated | x :: _ => Ok x end.
Definition back {A} (d : list A) : outcome A := match last d with None => Stuck PreconditionViolated | Some x => Ok x end.

End deque.

(** [queue]: [push] is [c.push_back], [pop] is [c.pop_front]. *)
Module queue.
Definition push {A} (x : A) (q : list A) : list A := deque.push_back x q.
Definition pop {A} (q : list A) : outcome (list A) := deque.pop_front q.
Definition front {A} (q : list A) : outcome A := deque.front q.
Definition back {A} (q : list A) : outcome A := deque.back q.
End queue.

(** [stack]: [push] is [c.push_back], [pop] is [c.pop_back], [top] is
    [c.back()]. *)
Module stack.
Definition push {A} (x : A) (s : list A) : list A := deque.push_back x s.
Definition pop {A} (s : list A) : outcome (list A) := deque.pop_back s.
Definition top {A} (s : list A) : outcome A := deque.back s.
End stack.

(** ** Heap operations and [std::priority_queue]

    The elements are read and written through [subscript] and
    [subscript_set], so that an access outside the vector would be
    undefined behaviour; the loops stay inside it. *)

Section Heap.
Context `{Less A}.

(** [__push_heap(first, hole, top, value)]: while [hole > top] and the
    parent [(hole - 1) / 2] is less than [value], the parent moves down
    into the hole; then [value] fills it.  The hole strictly decreases,
    so [S hole] rounds are enough. *)
Fixpoint __push_heap (fuel : nat) (c : list A) (hole top : nat) (value : A) : outcome (list A) :=
  match fuel with
  | O => NoFuel
  | S f =>
      let parent := ((hole - 1) / 2)%nat in
      if (top <? hole)%nat then
        let? p := subscript c parent in
        if less p value then let? c := subscript_set c hole p in __push_heap f c parent top value
        else subscript_set c hole value
      else subscript_set c hole value
  end.

(** The loop of [__adjust_heap(first, hole, len, value)]: the hole goes
    down, each time taking the greater child ([secondChild] is the right
    one unless it is less than the left one), while [secondChild <
    (len - 1) / 2]. *)
Fixpoint adjust_down (fuel : nat) (c : list A) (hole len : nat) : outcome (list A * nat) :=
  match fuel with
  | O => NoFuel
  | S f =>
      if (hole <? (len - 1) / 2)%nat then
        let second := (2 * (hole + 1))%nat in
        let? r := subscript c second in
        let? l := subscript c (second - 1) in
        let second := if less r l then (second - 1)%nat else second in
        let? x := subscript c second in
        let? c := subscript_set c hole x in
        adjust_down f c second len
      else Ok (c, hole)
  end.

(** [__adjust_heap]: after the loop, a last left child alone when [len]
    is even; then [__push_heap] from the hole up to where it started. *)
Definition __adjust_heap (c : list A) (hole len : nat) (value : A) : outcome (list A) :=
  let? r := adjust_down (S len) c hole len in
  let '(c, h) := r in
  let? r :=
    if (Nat.even len && (h =? (len - 2) / 2))%nat
    then let second := (2 * (h + 1))%nat in
         let? x := subscript c (second - 1) in
         let? c := subscript_set c h x in Ok (c, (second - 1)%nat)
    else Ok (c, h) in
  let '(c, h) := r in
  __push_heap (S h) c h hole value.

(** [push_heap(first, last)]: the last element goes up. *)
Definition push_heap (c : list A) : outcome (list A) :=
  match c with
  | [] => Ok c
  | _ => let? v := subscript c (length c - 1) in __push_heap (length c) c (length c - 1) 0 v
  end.

(** [pop_heap(first, last)]: with at least two elements, the last one is
    saved, the first moves to the last place, and the saved value is
    adjusted down from the start over the others. *)
Definition pop_heap (c : list A) : outcome (list A) :=
  if (1 <? length c)%nat then
    let last := (length c - 1)%nat in
    let? value := subscript c last in
    let? first := subscript c 0 in
    let? c := subscript_set c last first in
    __adjust_heap c 0 last value
  else Ok c.

End Heap.

Module priority_queue.

(** [push(x)]: [c.push_back(x); push_heap(c.begin(), c.end(), comp)]. *)
Definition push `{Less A} (x : A) (c : list A) : outcome (list A) := push_heap (c ++ [x]).

(** [pop()]: [pop_heap(c.begin(), c.end(), comp); c.pop_back()]; the
    queue must not be empty. *)
Definition pop `{Less A} (c : list A) : outcome (list A) :=
  match c with
  | [] => Stuck PreconditionViolated
  | _ => let? c := pop_heap c in Ok (removelast c)
  end.

(** [top()]: [c.front()]. *)
Definition top {A} (c : list A) : outcome A := deque.front c.

End priority_queue.

(** ** The heap algorithms observe the elements only through [less]

    Mapping the elements by an [f] that preserves the comparator commutes
    with every heap operation: the operations on [f <$> c] are those on
    [c], mapped.  So a run on values whose order is known but whose
    contents are symbolic (times read from the clock) is the image of a
    run on concrete values. *)

Section Parametric.
Context `{Less A, Less B} (f : A -> B) (Hf : forall a b, less (f a) (f b) = less a b).

Lemma subscript_fmap (c : list A) (i : nat) : subscript (f <$> c) i = out_map f (subscript c i).
Proof. unfold subscript. rewrite list_lookup_fmap. by destruct (c !! i). Qed.

Lemma subscript_set_fmap (c : list A) (i : nat) (x : A) :
  subscript_set (f <$> c) i (f x) = out_map (fmap f) (subscript_set c i x).
Proof.
  unfold subscript_set. rewrite length_fmap. destruct (i <? length c)%nat; [|done].
  cbn. by rewrite list_fmap_insert.
Qed.

Lemma __push_heap_fmap (fuel : nat) : forall c hole top v,
  __push_heap fuel (f <$> c) hole top (f v) = out_map (fmap f) (__push_heap fuel c hole top v).
Proof.
  induction fuel as [|fuel IH]; intros c hole top v; [done|]. cbn [__push_heap].
  destruct (top <? hole)%nat; [|apply subscript_set_fmap].
  rewrite subscript_fmap. destruct (subscript c ((hole - 1) / 2)) as [p| |]; cbn [out_map out_bind]; [|done..].
  rewrite Hf. destruct (less p v); [|apply subscript_set_fmap].
  rewrite subscript_set_fmap. destruct (subscript_set c hole p); cbn [out_map out_bind]; [apply IH|done..].
Qed.

Lemma adjust_down_fmap (fuel : nat) : forall c hole len,
  adjust_down fuel (f <$> c) hole len = out_map (fun r => (f <$> r.1, r.2)) (adjust_down fuel c hole len).
Proof.
  induction fuel as [|fuel IH]; intros c hole len; [done|]. cbn [adjust_down].
  destruct (hole <? (len - 1) / 2)%nat; [|done].
  rewrite ?subscript_fmap. destruct (subscript c (2 * (hole + 1))) as [r| |]; cbn [out_map out_bind]; [|done..].
  rewrite ?subscript_fmap. destruct (subscript c (2 * (hole + 1) - 1)) as [l| |]; cbn [out_map out_bind]; [|done..].
  rewrite Hf. set (s := if less r l then _ else _).
  rewrite ?subscript_fmap. destruct (subscript c s) as [x| |]; cbn [out_map out_bind]; [|done..].
  rewrite subscript_set_fmap. destruct (subscript_set c hole x); cbn [out_map out_bind]; [apply IH|done..].
Qed.

Lemma __adjust_heap_fmap (c : list A) (hole len : nat) (v : A) :
  __adjust_heap (f <$> c) hole len (f v) = out_map (fmap f) (__adjust_heap c hole len v).
Proof.
  unfold __adjust_heap. rewrite adjust_down_fmap.
  destruct (adjust_down (S len) c hole len) as [[c' h]| |]; cbn [out_map out_bind fst snd]; [|done..].
  destruct (Nat.even len && (h =? (len - 2) / 2))%nat; [|apply __push_heap_fmap].
  rewrite subscript_fmap. destruct (subscript c' (2 * (h + 1) - 1)) as [x| |]; cbn [out_map out_bind]; [|done..].
  rewrite subscript_set_fmap. destruct (subscript_set c' h x); cbn [out_map out_bind]; [apply __push_heap_fmap|done..].
Qed.

Lemma push_heap_fmap (c : list A) : push_heap (f <$> c) = out_map (fmap f) (push_heap c).
Proof.
  unfold push_heap. destruct c as [|x r]; [done|]. rewrite fmap_cons. rewrite <- fmap_cons.
  rewrite subscript_fmap, length_fmap.
  destruct (subscript (x :: r) _) as [v| |]; cbn [out_map out_bind]; [apply __push_heap_fmap|done..].
Qed.

Lemma pop_heap_fmap (c : list A) : pop_heap (f <$> c) = out_map (fmap f) (pop_heap c).
Proof.
  unfold pop_heap. rewrite length_fmap. destruct (1 <? length c)%nat; [|done].
  rewrite subscript_fmap. destruct (subscript c (length c - 1)) as [v| |]; cbn [out_map out_bind]; [|done..].
  rewrite subscript_fmap. destruct (subscript c 0) as [x| |]; cbn [out_map out_bind]; [|done..].
  rewrite subscript_set_fmap. destruct (subscript_set c (length c - 1) x); cbn [out_map out_bind]; [apply __adjust_heap_fmap|done..].
Qed.

Lemma pq_push_fmap (x : A) (c : list A) :
  priority_queue.push (f x) (f <$> c) = out_map (fmap f) (priority_queue.push x c).
Proof. unfold priority_queue.push. rewrite <- push_heap_fmap. by rewrite fmap_app. Qed.

Lemma fmap_removelast (l : list A) : f <$> removelast l = removelast (f <$> l).
Proof. induction l as [|x [|y r] IH]; [done|done|]. cbn in *. by rewrite IH. Qed.

Lemma pq_pop_fmap (c : list A) : priority_queue.pop (f <$> c) = out_map (fmap f) (priority_queue.pop c).
Proof.
  unfold priority_queue.pop. destruct c as [|x r]; [done|].
  change (f <$> x :: r) with (f x :: (f <$> r)). rewrite <- (fmap_cons f x r), pop_heap_fmap.
  destruct (pop_heap (x :: r)); cbn [out_map out_bind]; [|done..]. by rewrite fmap_removelast.
Qed.

Lemma pq_top_fmap (c : list A) : priority_queue.top (f <$> c) = out_map f (priority_queue.top c).
Proof. by destruct c. Qed.

End Parametric.
