(* ===== verification/Containers.v ===== *)
(** * Containers.cpp: sequence containers, ordered containers and adaptors

    [main] (lines 38-642) runs one section per container over [cout]:
    [deque], [forward_list] and [list] (lines 75-169, [SeqContainers]),
    [set], [map], [multiset] and [multimap] (lines 175-359, [RbTree]),
    four ways of erasing one value of a multimap key (lines 299-356), the
    unordered containers (built and never used, lines 383-386),
    multimaps keyed by a string and by the class [book_idx] (lines
    394-449), a map of maps (lines 455-511), and the adaptors [queue],
    [priority_queue] of the class [restaurant_queue] and [stack] (lines
    517-635).  The state is [cout]; the containers are local values.
    The arrival times read with [time(0)] (one second apart, the program
    sleeps in between) and the text [ctime] gives for them are section
    variables. *)

From stdpp Require Import base list strings.
From Stdlib Require Import ZArith Lia String Ascii.
From S2P Require Import Prelude Ostream Algo StdString Orders RbTree SeqContainers.

Local Open Scope string_scope.
Local Open Scope Z_scope.
Local Open Scope cpp_scope.

Module Containers.

Import rb_tree.

Definition say := say_os.

(** A thrown exception that [main] does not catch. *)
Definition uncaught {A} (r : exn + A) : st ostream A :=
  match r with inl e => st_stuck (UncaughtException e) | inr a => st_ret a end.

(** [for (auto iter : C) {cout << iter << " ";}] *)
Definition print_elems {T} `{Insert T} (c : list T) : st ostream unit :=
  say (fun o => foldl (fun o x => o << x << " ") o c).

(** [for (auto iter : M) {cout << iter.first << ":" << iter.second << " ";}] *)
Definition print_pairs {K T} `{Insert K, Insert T} (m : list (K * T)) : st ostream unit :=
  say (fun o => foldl (fun o kv => o << kv.1 << ":" << kv.2 << " ") o m).

(** [s.find(t) != string::npos] *)
Definition contains (s t : string) : bool := negb (basic_string.find_str s t 0 =? basic_string.npos)%N.

(** ** Sequence containers (lines 75-169) *)

Definition deque_section : st ostream unit :=
  say (fun o => o << ("DEQUE ................................................................................" ++ NL ++ NL)) ;;
  let D1 : list Z := [4; 2; 3; 5; 1] in
  say (fun o => o << "Deque D1 = ") ;; print_elems D1 ;; say (fun o => o << std.endl) ;;
  let* d0 := st_lift (Prelude.subscript D1 0%nat) in
  say (fun o => o << "Deque D1[0] = " << d0 << std.endl) ;;
  let D1 := deque.push_back 4 D1 in
  let D1 := deque.push_back 2 D1 in
  let D1 := deque.push_front 1 D1 in
  let D1 := deque.push_front 5 D1 in
  say (fun o => o << "Deque D1 = ") ;; print_elems D1 ;; say (fun o => o << std.endl) ;;
  say (fun o => o << std.endl).

Definition forward_list_section : st ostream unit :=
  say (fun o => o << ("FORWARD_LIST ........................................................................." ++ NL ++ NL)) ;;
  let FL1 : list Z := [7; 9; 11] in
  say (fun o => o << "Fwd_list FL1 = ") ;; print_elems FL1 ;; say (fun o => o << std.endl) ;;
  say (fun o => o << "Fwd_list FL1[0] = index notation not supported" << std.endl) ;;
  let FL1 := forward_list.push_front 1 FL1 in
  let* FL1 := st_lift (forward_list.insert_after 0%nat [3; 6] FL1) in
  let FL1 := forward_list.remove 1 FL1 in
  let* FL1 := st_lift (forward_list.splice_after 0%nat [4; 5] FL1) in
  let FL1 := merge FL1 [8; 15] in
  say (fun o => o << "Fwd_list FL1 = ") ;; print_elems FL1 ;; say (fun o => o << std.endl) ;;
  say (fun o => o << std.endl).

Definition list_section : st ostream unit :=
  say (fun o => o << ("LIST ................................................................................." ++ NL ++ NL)) ;;
  let L1 : list Z := [5; 7; 9] in
  say (fun o => o << "List L1 = ") ;; print_elems L1 ;; say (fun o => o << std.endl) ;;
  say (fun o => o << "List L1[0] = index notation not supported" << std.endl) ;;
  let L1 := std_list.push_back 11 L1 in
  let L1 := std_list.push_front 3 L1 in
  let* L1 := st_lift (std_list.insert 1%nat 4 L1) in
  let* L1 := st_lift (std_list.insert (List.length L1 - 1)%nat 10 L1) in
  let L1 := std_list.sort L1 in
  let L1 := std_list.remove 7 L1 in
  let* L1 := st_lift (std_list.splice (List.length L1) [21; 23; 25] L1) in
  let L1 := merge L1 [15; 16; 17] in
  say (fun o => o << "List L1 = ") ;; print_elems L1 ;; say (fun o => o << std.endl) ;;
  say (fun o => o << std.endl).

(** ** Ordered containers (lines 175-273) *)

Definition set_section : st ostream unit :=
  say (fun o => o << ("SET .................................................................................." ++ NL ++ NL)) ;;
  let S1 : list Z := init_unique id [2; 5; 3; 4] in
  say (fun o => o << "Set S1 = ") ;; print_elems S1 ;; say (fun o => o << std.endl) ;;
  say (fun o => o << "Set S1[0] = index notation not supported" << std.endl) ;;
  let S1 := fst (_M_insert_unique id 7 S1) in
  let '(S1, pairInsS1_second) := _M_insert_unique id 3 S1 in
  let S1 := fst (erase_key id 5 S1) in
  let S1 := fst (_M_insert_unique id 10 S1) in
  say (fun o => o << "Set S1 = ") ;; print_elems S1 ;; say (fun o => o << std.endl) ;;
  say (fun o => o << std.endl).

Definition map_section : st ostream unit :=
  say (fun o => o << ("MAP .................................................................................." ++ NL ++ NL)) ;;
  let M1 : list (Z * string) := init_unique fst [(1, "Mari"); (3, "Marina")] in
  say (fun o => o << "Map M1 = ") ;; print_pairs M1 ;; say (fun o => o << std.endl) ;;
  let '(v3, M1) := subscript EmptyString 3 M1 in
  say (fun o => o << "Map M1[0] = index notation not supported; but subscripting M1[key] is, so M1[3] = " << v3 << std.endl) ;;
  let M1 := fst (_M_insert_unique fst (4, "Amanda") M1) in
  let M1 := fst (erase_key fst 1 M1) in
  let M1 := fst (_M_insert_unique fst (2, "Tetéco") M1) in
  let '(M1, pairInsM1_second) := _M_insert_unique fst (4, "Amanda") M1 in
  say (fun o => o << "Map M1 = ") ;; print_pairs M1 ;; say (fun o => o << std.endl) ;;
  say (fun o => o << std.endl).

Definition multiset_section : st ostream unit :=
  say (fun o => o << ("MULTISET ............................................................................." ++ NL ++ NL)) ;;
  let MS1 : list Z := init_equal id [2; 5; 3; 4] in
  say (fun o => o << "Multiset MS1 = ") ;; print_elems MS1 ;; say (fun o => o << std.endl) ;;
  say (fun o => o << "Multiset MS1[0] = index notation not supported" << std.endl) ;;
  let MS1 := _M_insert_equal id 7 MS1 in
  let MS1 := _M_insert_equal id 3 MS1 in
  let MS1 := fst (erase_key id 5 MS1) in
  let MS1 := _M_insert_equal id 10 MS1 in
  let MS1 := _M_insert_equal id 10 MS1 in
  let MS1 := fst (erase_key id 10 MS1) in
  say (fun o => o << "Multiset MS1 = ") ;; print_elems MS1 ;; say (fun o => o << std.endl) ;;
  let MS1 := _M_insert_equal id 20 MS1 in
  let MS1 := _M_insert_equal id 20 MS1 in
  let value2erase := 20 in
  let countMS1 := count id value2erase MS1 in
  let* MS1 := if (1 <? countMS1)%nat then st_lift (erase (find id value2erase MS1) MS1) else st_ret MS1 in
  say (fun o => o << "Multiset MS1 = ") ;; print_elems MS1 ;; say (fun o => o << std.endl) ;;
  say (fun o => o << std.endl).

(** ** Erasing one value of a multimap key (lines 299-356)

    Each method looks among the values of [key2erase] for the first one
    whose mapped string contains [value2erase] and erases it. *)

Section Multimap.
Context {T : Type} (has : T -> bool).

(** METHOD1 (lines 300-313):
    [do { if (has( *findMM1)) { MM1.erase(findMM1); break; } }
     while (findMM1++, counter++ < countMM1);] *)
Fixpoint method1_loop (fuel : nat) (MM1 : list (Z * T)) (findMM1 counter countMM1 : nat) : outcome (list (Z * T)) :=
  match fuel with
  | O => NoFuel
  | S f =>
      match MM1 !! findMM1 with
      | None => Stuck PreconditionViolated
      | Some kv =>
          if has kv.2 then erase findMM1 MM1
          else if (counter <? countMM1)%nat then method1_loop f MM1 (S findMM1) (S counter) countMM1
          else Ok MM1
      end
  end.

(** The search runs only when the key has more than one value. *)
Definition method1 (key2erase : Z) (MM1 : list (Z * T)) : outcome (list (Z * T)) :=
  let countMM1 := count fst key2erase MM1 in
  if (1 <? countMM1)%nat then
    let findMM1 := find fst key2erase MM1 in
    method1_loop (S countMM1) MM1 findMM1 1 countMM1
  else Ok MM1.

(** METHOD2 and METHOD3 (lines 322-346):
    [for (auto iter = first; iter != last; iter++)
       if (has(iter->second)) { MM1.erase(iter); break; }] *)
Fixpoint erase_in_range (fuel : nat) (MM1 : list (Z * T)) (iter last : nat) : outcome (list (Z * T)) :=
  match fuel with
  | O => NoFuel
  | S f =>
      if (iter =? last)%nat then Ok MM1
      else match MM1 !! iter with
           | None => Stuck PreconditionViolated
           | Some kv => if has kv.2 then erase iter MM1 else erase_in_range f MM1 (S iter) last
           end
  end.

(** METHOD2: [lower_bound] and [upper_bound]. *)
Definition method2 (key2erase : Z) (MM1 : list (Z * T)) : outcome (list (Z * T)) :=
  let iterStart := lower_bound fst key2erase MM1 in
  let iterEnd := upper_bound fst key2erase MM1 in
  erase_in_range (S (iterEnd - iterStart))%nat MM1 iterStart iterEnd.

(** METHOD3: [equal_range]. *)
Definition method3 (key2erase : Z) (MM1 : list (Z * T)) : outcome (list (Z * T)) :=
  let iterEquals := equal_range fst key2erase MM1 in
  erase_in_range (S (iterEquals.2 - iterEquals.1))%nat MM1 iterEquals.1 iterEquals.2.

(** METHOD4 (lines 349-356): [find_if] over [equal_range] with the
    lambda, then [erase] if something was found. *)
Definition method4 (key2erase : Z) (MM1 : list (Z * T)) : outcome (list (Z * T)) :=
  let iterEquals := equal_range fst key2erase MM1 in
  let iterFind := (iterEquals.1 + std.find_if (fun kv : Z * T => has kv.2)
                     (take (iterEquals.2 - iterEquals.1) (drop iterEquals.1 MM1)))%nat in
  if (iterFind =? iterEquals.2)%nat then Ok MM1 else erase iterFind MM1.

End Multimap.

Definition multimap_section : st ostream unit :=
  say (fun o => o << ("MULTIMAP ............................................................................." ++ NL ++ NL)) ;;
  let MM1 : list (Z * string) := init_equal fst [(1, "Mari"); (3, "Marina")] in
  say (fun o => o << "Multimap MM1 = ") ;; print_pairs MM1 ;; say (fun o => o << std.endl) ;;
  say (fun o => o << "Multimap MM1[0] = index notation not supported; neither subscripting M1[key]" << std.endl) ;;
  let MM1 := _M_insert_equal fst (4, "Amanda") MM1 in
  let MM1 := fst (erase_key fst 1 MM1) in
  let MM1 := _M_insert_equal fst (2, "Tetéco") MM1 in
  let MM1 := _M_insert_equal fst (2, "Tetecos") MM1 in
  let MM1 := _M_insert_equal fst (4, "AmandaAgain") MM1 in
  let MM1 := _M_insert_equal fst (4, "Aminda") MM1 in
  say (fun o => o << "Multimap MM1 = ") ;; print_pairs MM1 ;; say (fun o => o << std.endl) ;;
  let MM1 := fst (erase_key fst 2 MM1) in
  let* MM1 := st_lift (method1 (fun s => contains s "Again") 4 MM1) in
  say (fun o => o << "Multimap MM1 = ") ;; print_pairs MM1 ;; say (fun o => o << std.endl) ;;
  let MM1 := _M_insert_equal fst (2, "Tetéco") MM1 in
  let MM1 := _M_insert_equal fst (2, "Tetecos") MM1 in
  let MM1 := _M_insert_equal fst (2, "TetecoAgain") MM1 in
  say (fun o => o << "Multimap MM1 = ") ;; print_pairs MM1 ;; say (fun o => o << std.endl) ;;
  let* MM1 := st_lift (method2 (fun s => contains s "Again") 2 MM1) in
  let MM1 := _M_insert_equal fst (3, "Mairina") MM1 in
  let MM1 := _M_insert_equal fst (3, "MarinaAgain") MM1 in
  say (fun o => o << "Multimap MM1 = ") ;; print_pairs MM1 ;; say (fun o => o << std.endl) ;;
  let* MM1 := st_lift (method3 (fun s => contains s "Again") 3 MM1) in
  let* MM1 := st_lift (method4 (fun s => contains s "Mairina") 3 MM1) in
  say (fun o => o << "Multimap MM1 = ") ;; print_pairs MM1 ;; say (fun o => o << std.endl) ;;
  say (fun o => o << std.endl).

(** The unordered containers of lines 383-386 are built and never used;
    only the [endl] of line 388 is observable. *)
Definition unordered_section : st ostream unit := say (fun o => o << std.endl).

(** ** Ordered containers of classes (lines 394-449) *)

(** [class book] (lines 403-410). *)
Record book := mk_book { title : string; publisher : string }.

(** [class book_idx] (lines 424-434) and its [operator<]. *)
Record book_idx := mk_book_idx { author : string; idx_title : string }.

Definition book_idx_less (a b : book_idx) : bool :=
  if negb (String.eqb (author a) (author b)) then str_lt (author a) (author b) else str_lt (idx_title a) (idx_title b).

#[export] Instance less_book_idx : Less book_idx := book_idx_less.

(** The lambdas [printBook] and [printBookV2]. *)
Definition printBook (a : string) (b : book) : st ostream unit :=
  say (fun o => o << "V1 BOOK: " << title b << "; AUTHOR: " << a << "; PUBLISHER: " << publisher b << std.endl).
Definition printBookV2 (bx : book_idx) (b : book) : st ostream unit :=
  say (fun o => o << "V2 BOOK: " << title b << "; AUTHOR: " << author bx << "; PUBLISHER: " << publisher b << std.endl).

Fixpoint for_each_m {A} (f : A -> st ostream unit) (l : list A) : st ostream unit :=
  match l with [] => st_ret tt | x :: r => f x ;; for_each_m f r end.

Definition custom_types_section : st ostream unit :=
  say (fun o => o << ("Associative containers with custom types ..............................................." ++ NL ++ NL)) ;;
  say (fun o => o << ("Associative containers for custom types (example 1)..." ++ NL)) ;;
  let Library : list (string * book) := [] in
  let b1 := mk_book "The C++ Programming Language" "Addison-Wesley" in
  let Library := _M_insert_equal fst ("Stroustrup, Bjame", b1) Library in
  let b2 := mk_book "C++ Primer" "Addison-Wesley" in
  let Library := _M_insert_equal fst ("Lippman, Stanley", b2) Library in
  let b3 := mk_book "Programming Principles and Practice" "Addison-Wesley" in
  let Library := _M_insert_equal fst ("Stroustrup, Bjame", b3) Library in
  for_each_m (fun kv => printBook kv.1 kv.2) Library ;;
  say (fun o => o << std.endl) ;;
  say (fun o => o << ("Associative containers for custom types (example 2)..." ++ NL)) ;;
  let LibraryV2 : list (book_idx * book) := [] in
  let b4 := mk_book "The C++ Programming Language" "Addison-Wesley" in
  let b4x := mk_book_idx "Stroustrup, Bjame" "The C++ Programming Language" in
  let LibraryV2 := _M_insert_equal fst (b4x, b4) LibraryV2 in
  let b5 := mk_book "C++ Primer" "Addison-Wesley" in
  let b5x := mk_book_idx "Lippman, Stanley" "C++ Primer" in
  let LibraryV2 := _M_insert_equal fst (b5x, b5) LibraryV2 in
  let b6 := mk_book "Programming Principles and Practice" "Addison-Wesley" in
  let b6x := mk_book_idx "Stroustrup, Bjame" "Programming Principles and Practice" in
  let LibraryV2 := _M_insert_equal fst (b6x, b6) LibraryV2 in
  for_each_m (fun kv => printBookV2 kv.1 kv.2) LibraryV2 ;;
  say (fun o => o << std.endl).

(** ** A map of maps (lines 455-511) *)

Definition submap := list (Z * string).

(** The two nested loops that print [NM1]. *)
Definition print_nested (NM1 : list (Z * submap)) : st ostream unit :=
  for_each_m (fun iterMap =>
    say (fun o => o << "Nested map NM1 key = " << iterMap.1 << "; value = submap:" << std.endl) ;;
    for_each_m (fun iterSubmap =>
      say (fun o => o << "... submap key = " << iterSubmap.1 << "; submap value = " << iterSubmap.2 << std.endl)) iterMap.2) NM1.

(** [it->second.f(...)] on the element at position [i]. *)
Definition update_at {A} (i : nat) (f : A -> A) (l : list A) : list A :=
  match l !! i with Some x => <[i := f x]> l | None => l end.

Definition nested_maps_section : st ostream unit :=
  say (fun o => o << ("NESTED MAPS .........................................................................." ++ NL ++ NL)) ;;
  let NM1 : list (Z * submap) :=
    init_unique fst [(1, init_unique fst [(1, "Bike1"); (3, "Bike3")]); (2, init_unique fst [(1, "Car1")])] in
  let NM2 : list (Z * submap) := [] in
  let NM3 : list (Z * submap) := [] in
  print_nested NM1 ;; say (fun o => o << std.endl) ;;
  let NM1 := fst (_M_insert_unique fst (3, init_unique fst [(1, "Train1")]) NM1) in
  let NM1 := fst (_M_insert_unique fst (4, init_unique fst [(3, "Plane3")]) NM1) in
  let* NM1 := uncaught (at_update 1 (fun sm => fst (_M_insert_unique fst (2, "Bike2") sm)) NM1) in
  let iterMap1 := find fst 1 NM1 in
  let NM1 := if negb (iterMap1 =? List.length NM1)%nat
             then update_at iterMap1 (fun kv => (kv.1, fst (_M_insert_unique fst (5, "Bike5") kv.2))) NM1
             else NM1 in
  print_nested NM1 ;; say (fun o => o << std.endl) ;;
  let NM1 := fst (erase_key fst 3 NM1) in
  let* NM1 := uncaught (at_update 1 (fun sm => fst (erase_key fst 3 sm)) NM1) in
  let iterMap2 := find fst 1 NM1 in
  let* NM1 :=
    if negb (iterMap2 =? List.length NM1)%nat then
      match NM1 !! iterMap2 with
      | Some (k, sm) =>
          let iterSubmap2 := find fst 2 sm in
          if negb (iterSubmap2 =? List.length sm)%nat then
            let* sm := st_lift (erase iterSubmap2 sm) in st_ret (<[iterMap2 := (k, sm)]> NM1)
          else st_ret NM1
      | None => st_ret NM1
      end
    else st_ret NM1 in
  print_nested NM1 ;;
  say (fun o => o << std.endl).

(** ** Adaptors (lines 517-635) *)

(** [for (size_t i=0; i<sizeQ1;i++) { cout << Q1.front() << " "; Q1.pop(); }] *)
Fixpoint drain_queue (n : nat) (Q1 : list Z) : st ostream unit :=
  match n with
  | O => st_ret tt
  | S k => let* f := st_lift (queue.front Q1) in say (fun o => o << f << " ") ;;
           let* Q1 := st_lift (queue.pop Q1) in drain_queue k Q1
  end.

Definition queue_section : st ostream unit :=
  say (fun o => o << ("QUEUE (FIFO) ........................................................................." ++ NL ++ NL)) ;;
  let Q1 : list Z := [] in
  let Q1 := queue.push 10 Q1 in
  let Q1 := queue.push 4 Q1 in
  let Q1 := queue.push 13 Q1 in
  let Q1 := queue.push 2 Q1 in
  say (fun o => o << "Queue Q1 size = " << List.length Q1 << ", so, it is empty? " << bool_decide (Q1 = []) << std.endl) ;;
  let* f := st_lift (queue.front Q1) in say (fun o => o << "Queue Q1 first element = " << f << std.endl) ;;
  let* b := st_lift (queue.back Q1) in say (fun o => o << "Queue Q1 last element = " << b << std.endl << std.endl) ;;
  let* Q1 := st_lift (queue.pop Q1) in
  let Q1 := queue.push 1 Q1 in
  say (fun o => o << "Queue Q1 size = " << List.length Q1 << std.endl) ;;
  let* f := st_lift (queue.front Q1) in say (fun o => o << "Queue Q1 first element = " << f << std.endl) ;;
  let* b := st_lift (queue.back Q1) in say (fun o => o << "Queue Q1 last element = " << b << std.endl << std.endl) ;;
  let sizeQ1 := List.length Q1 in
  say (fun o => o << "Queue Q1 (size" << sizeQ1 << ") = ") ;;
  drain_queue sizeQ1 Q1 ;; say (fun o => o << std.endl) ;;
  say (fun o => o << std.endl).

(** [class restaurant_queue] (lines 561-577). *)
Record restaurant_queue := mk_rq { client_name : string; client_type : string; client_arrival : Z }.

(** [operator<] (lines 568-573): same type, the later arrival is less;
    otherwise the types compare as strings ("normal" < "reserva" < "vip"). *)
Definition restaurant_less (self client2 : restaurant_queue) : bool :=
  if String.eqb (client_type self) (client_type client2) then (client_arrival self >? client_arrival client2)
  else str_lt (client_type self) (client_type client2).

#[export] Instance less_restaurant_queue : Less restaurant_queue := restaurant_less.

Section Program.

(** The values [time(0)] returns at lines 580-592, in call order. *)
Variable time0 : nat -> Z.
(** The text [ctime] gives for a time (ending in a newline). *)
Variable ctime : Z -> string.

(** [printRQ() const] (lines 574-576). *)
Definition printRQ (c : restaurant_queue) : st ostream unit :=
  say (fun o => o << std.left << "  Name = " << std.setw 18 << client_name c << " | Type = " << std.setw 10
                  << client_type c << " | Arrival = " << ctime (client_arrival c)).

(** [for (size_t i=0; i<sizePQ1;i++) { PQ1.top().printRQ(); PQ1.pop(); }] *)
Fixpoint drain_priority_queue (n : nat) (PQ1 : list restaurant_queue) : st ostream unit :=
  match n with
  | O => st_ret tt
  | S k => let* c := st_lift (priority_queue.top PQ1) in printRQ c ;;
           let* PQ1 := st_lift (priority_queue.pop PQ1) in drain_priority_queue k PQ1
  end.

(** The seven clients of lines 580-592. *)
Definition clients : list restaurant_queue :=
  [mk_rq "Pessoa 1 vip" "vip" (time0 1); mk_rq "Pessoa 2 normal" "normal" (time0 2); mk_rq "Pessoa 3 normal" "normal" (time0 3);
   mk_rq "Pessoa 4 reserva" "reserva" (time0 4); mk_rq "Pessoa 5 reserva" "reserva" (time0 5); mk_rq "Pessoa 6 vip" "vip" (time0 6);
   mk_rq "Pessoa 7 normal" "normal" (time0 7)].

(** [PQ1.push(client)] for each client in turn. *)
Fixpoint push_all (cs : list restaurant_queue) (PQ1 : list restaurant_queue) : outcome (list restaurant_queue) :=
  match cs with
  | [] => Ok PQ1
  | c :: r => match priority_queue.push c PQ1 with Ok PQ1 => push_all r PQ1 | Stuck u => Stuck u | NoFuel => NoFuel end
  end.

Definition priority_queue_section : st ostream unit :=
  say (fun o => o << ("PRIORITY_QUEUE ......................................................................." ++ NL ++ NL)) ;;
  let* PQ1 := st_lift (push_all clients []) in
  let sizePQ1 := List.length PQ1 in
  say (fun o => o << "Priority Queue PQ1 (size" << sizePQ1 << "):" << std.endl) ;;
  drain_priority_queue sizePQ1 PQ1 ;;
  say (fun o => o << std.endl).

End Program.

(** [for (size_t i=0; i<sizeSt1;i++) { cout << St1.top() << " "; St1.pop(); }] *)
Fixpoint drain_stack (n : nat) (St1 : list Z) : st ostream unit :=
  match n with
  | O => st_ret tt
  | S k => let* t := st_lift (stack.top St1) in say (fun o => o << t << " ") ;;
           let* St1 := st_lift (stack.pop St1) in drain_stack k St1
  end.

Definition stack_section : st ostream unit :=
  say (fun o => o << ("STACK (LIFO) ........................................................................." ++ NL ++ NL)) ;;
  let St1 : list Z := [] in
  let St1 := stack.push 10 St1 in
  let St1 := stack.push 4 St1 in
  let St1 := stack.push 13 St1 in
  let St1 := stack.push 2 St1 in
  say (fun o => o << "Stack St1 size = " << List.length St1 << ", so, it is empty? " << bool_decide (St1 = []) << std.endl) ;;
  let* t := st_lift (stack.top St1) in say (fun o => o << "Stack St1 first element = " << t << std.endl << std.endl) ;;
  let* St1 := st_lift (stack.pop St1) in
  let St1 := stack.push 1 St1 in
  say (fun o => o << "Stack St1 size = " << List.length St1 << std.endl) ;;
  let* t := st_lift (stack.top St1) in say (fun o => o << "Stack St1 first element = " << t << std.endl << std.endl) ;;
  let sizeSt1 := List.length St1 in
  say (fun o => o << "Stack St1 (size" << sizeSt1 << ") = ") ;;
  drain_stack sizeSt1 St1 ;; say (fun o => o << std.endl) ;;
  say (fun o => o << std.endl).

(** [main] (lines 38-642). *)
Definition main (time0 : nat -> Z) (ctime : Z -> string) : st ostream Z :=
  deque_section ;; forward_list_section ;; list_section ;;
  set_section ;; map_section ;; multiset_section ;; multimap_section ;;
  unordered_section ;; custom_types_section ;; nested_maps_section ;;
  queue_section ;; priority_queue_section time0 ctime ;; stack_section ;;
  say (fun o => o << "END OF PROGRAM" << std.endl) ;;
  st_ret 0.

(** What [main] writes, as the program prints it: the sections before
    the priority queue, the priority queue with the [ctime] text of each
    client's arrival, and the stack.  The clients leave the queue in the
    order 1, 6 (vip), 4, 5 (reserva), 2, 3, 7 (normal). *)
Definition output_before : string :=
  "DEQUE ................................................................................" ++ NL ++
  NL ++
  "Deque D1 = 4 2 3 5 1 " ++ NL ++
  "Deque D1[0] = 4" ++ NL ++
  "Deque D1 = 5 1 4 2 3 5 1 4 2 " ++ NL ++
  NL ++
  "FORWARD_LIST ........................................................................." ++ NL ++
  NL ++
  "Fwd_list FL1 = 7 9 11 " ++ NL ++
  "Fwd_list FL1[0] = index notation not supported" ++ NL ++
  "Fwd_list FL1 = 3 4 5 6 7 8 9 11 15 " ++ NL ++
  NL ++
  "LIST ................................................................................." ++ NL ++
  NL ++
  "List L1 = 5 7 9 " ++ NL ++
  "List L1[0] = index notation not supported" ++ NL ++
  "List L1 = 3 4 5 9 10 11 15 16 17 21 23 25 " ++ NL ++
  NL ++
  "SET .................................................................................." ++ NL ++
  NL ++
  "Set S1 = 2 3 4 5 " ++ NL ++
  "Set S1[0] = index notation not supported" ++ NL ++
  "Set S1 = 2 3 4 7 10 " ++ NL ++
  NL ++
  "MAP .................................................................................." ++ NL ++
  NL ++
  "Map M1 = 1:Mari 3:Marina " ++ NL ++
  "Map M1[0] = index notation not supported; but subscripting M1[key] is, so M1[3] = Marina" ++ NL ++
  "Map M1 = 2:Tetéco 3:Marina 4:Amanda " ++ NL ++
  NL ++
  "MULTISET ............................................................................." ++ NL ++
  NL ++
  "Multiset MS1 = 2 3 4 5 " ++ NL ++
  "Multiset MS1[0] = index notation not supported" ++ NL ++
  "Multiset MS1 = 2 3 3 4 7 " ++ NL ++
  "Multiset MS1 = 2 3 3 4 7 20 " ++ NL ++
  NL ++
  "MULTIMAP ............................................................................." ++ NL ++
  NL ++
  "Multimap MM1 = 1:Mari 3:Marina " ++ NL ++
  "Multimap MM1[0] = index notation not supported; neither subscripting M1[key]" ++ NL ++
  "Multimap MM1 = 2:Tetéco 2:Tetecos 3:Marina 4:Amanda 4:AmandaAgain 4:Aminda " ++ NL ++
  "Multimap MM1 = 3:Marina 4:Amanda 4:Aminda " ++ NL ++
  "Multimap MM1 = 2:Tetéco 2:Tetecos 2:TetecoAgain 3:Marina 4:Amanda 4:Aminda " ++ NL ++
  "Multimap MM1 = 2:Tetéco 2:Tetecos 3:Marina 3:Mairina 3:MarinaAgain 4:Amanda 4:Aminda " ++ NL ++
  "Multimap MM1 = 2:Tetéco 2:Tetecos 3:Marina 4:Amanda 4:Aminda " ++ NL ++
  NL ++
  NL ++
  "Associative containers with custom types ..............................................." ++ NL ++
  NL ++
  "Associative containers for custom types (example 1)..." ++ NL ++
  "V1 BOOK: C++ Primer; AUTHOR: Lippman, Stanley; PUBLISHER: Addison-Wesley" ++ NL ++
  "V1 BOOK: The C++ Programming Language; AUTHOR: Stroustrup, Bjame; PUBLISHER: Addison-Wesley" ++ NL ++
  "V1 BOOK: Programming Principles and Practice; AUTHOR: Stroustrup, Bjame; PUBLISHER: Addison-Wesley" ++ NL ++
  NL ++
  "Associative containers for custom types (example 2)..." ++ NL ++
  "V2 BOOK: C++ Primer; AUTHOR: Lippman, Stanley; PUBLISHER: Addison-Wesley" ++ NL ++
  "V2 BOOK: Programming Principles and Practice; AUTHOR: Stroustrup, Bjame; PUBLISHER: Addison-Wesley" ++ NL ++
  "V2 BOOK: The C++ Programming Language; AUTHOR: Stroustrup, Bjame; PUBLISHER: Addison-Wesley" ++ NL ++
  NL ++
  "NESTED MAPS .........................................................................." ++ NL ++
  NL ++
  "Nested map NM1 key = 1; value = submap:" ++ NL ++
  "... submap key = 1; submap value = Bike1" ++ NL ++
  "... submap key = 3; submap value = Bike3" ++ NL ++
  "Nested map NM1 key = 2; value = submap:" ++ NL ++
  "... submap key = 1; submap value = Car1" ++ NL ++
  NL ++
  "Nested map NM1 key = 1; value = submap:" ++ NL ++
  "... submap key = 1; submap value = Bike1" ++ NL ++
  "... submap key = 2; submap value = Bike2" ++ NL ++
  "... submap key = 3; submap value = Bike3" ++ NL ++
  "... submap key = 5; submap value = Bike5" ++ NL ++
  "Nested map NM1 key = 2; value = submap:" ++ NL ++
  "... submap key = 1; submap value = Car1" ++ NL ++
  "Nested map NM1 key = 3; value = submap:" ++ NL ++
  "... submap key = 1; submap value = Train1" ++ NL ++
  "Nested map NM1 key = 4; value = submap:" ++ NL ++
  "... submap key = 3; submap value = Plane3" ++ NL ++
  NL ++
  "Nested map NM1 key = 1; value = submap:" ++ NL ++
  "... submap key = 1; submap value = Bike1" ++ NL ++
  "... submap key = 5; submap value = Bike5" ++ NL ++
  "Nested map NM1 key = 2; value = submap:" ++ NL ++
  "... submap key = 1; submap value = Car1" ++ NL ++
  "Nested map NM1 key = 4; value = submap:" ++ NL ++
  "... submap key = 3; submap value = Plane3" ++ NL ++
  NL ++
  "QUEUE (FIFO) ........................................................................." ++ NL ++
  NL ++
  "Queue Q1 size = 4, so, it is empty? 0" ++ NL ++
  "Queue Q1 first element = 10" ++ NL ++
  "Queue Q1 last element = 2" ++ NL ++
  NL ++
  "Queue Q1 size = 4" ++ NL ++
  "Queue Q1 first element = 4" ++ NL ++
  "Queue Q1 last element = 1" ++ NL ++
  NL ++
  "Queue Q1 (size4) = 4 13 2 1 " ++ NL ++
  NL.

(** The priority-queue section, given the text of each arrival. *)
Definition served (arrival : nat -> string) : string :=
  "PRIORITY_QUEUE ......................................................................." ++ NL ++
  NL ++
  "Priority Queue PQ1 (size7):" ++ NL ++
  "  Name = Pessoa 1 vip       | Type = vip        | Arrival = " ++ arrival 1%nat ++
  "  Name = Pessoa 6 vip       | Type = vip        | Arrival = " ++ arrival 6%nat ++
  "  Name = Pessoa 4 reserva   | Type = reserva    | Arrival = " ++ arrival 4%nat ++
  "  Name = Pessoa 5 reserva   | Type = reserva    | Arrival = " ++ arrival 5%nat ++
  "  Name = Pessoa 2 normal    | Type = normal     | Arrival = " ++ arrival 2%nat ++
  "  Name = Pessoa 3 normal    | Type = normal     | Arrival = " ++ arrival 3%nat ++
  "  Name = Pessoa 7 normal    | Type = normal     | Arrival = " ++ arrival 7%nat ++
  NL.

Definition output_after : string :=
  "STACK (LIFO) ........................................................................." ++ NL ++
  NL ++
  "Stack St1 size = 4, so, it is empty? 0" ++ NL ++
  "Stack St1 first element = 2" ++ NL ++
  NL ++
  "Stack St1 size = 4" ++ NL ++
  "Stack St1 first element = 1" ++ NL ++
  NL ++
  "Stack St1 (size4) = 1 13 4 10 " ++ NL ++
  NL ++
  "END OF PROGRAM" ++ NL.

Definition expected_output (time0 : nat -> Z) (ctime : Z -> string) : string :=
  output_before ++ served (fun k => ctime (time0 k)) ++ output_after.

(** ** Lemmas *)

(** The clock read at lines 580-592, extended to a strictly increasing
    function on all of [Z]. *)
Definition clock (time0 : nat -> Z) (z : Z) : Z :=
  if (z <? 1) then time0 1%nat + (z - 1) else if (7 <? z) then time0 7%nat + (z - 7) else time0 (Z.to_nat z).

Definition retime (g : Z -> Z) (c : restaurant_queue) : restaurant_queue :=
  mk_rq (client_name c) (client_type c) (g (client_arrival c)).

(** The program sleeps one second between two calls of [time(0)]. *)
Definition ticking (time0 : nat -> Z) : Prop := forall n, (1 <= n < 7)%nat -> time0 n < time0 (S n).

Lemma clock_mono (time0 : nat -> Z) : ticking time0 -> forall x y, x < y -> clock time0 x < clock time0 y.
Proof.
  intros Ht x y Hxy. unfold ticking in Ht.
  pose proof (Ht 1%nat ltac:(lia)). pose proof (Ht 2%nat ltac:(lia)). pose proof (Ht 3%nat ltac:(lia)).
  pose proof (Ht 4%nat ltac:(lia)). pose proof (Ht 5%nat ltac:(lia)). pose proof (Ht 6%nat ltac:(lia)).
  unfold clock. destruct (Z.ltb_spec x 1), (Z.ltb_spec 7 x), (Z.ltb_spec y 1), (Z.ltb_spec 7 y); try lia;
  repeat match goal with
  | H : 1 <= ?z, H' : ?z <= 7 |- context [Z.to_nat ?z] =>
      assert (z = 1 \/ z = 2 \/ z = 3 \/ z = 4 \/ z = 5 \/ z = 6 \/ z = 7) as [-> | [-> | [-> | [-> | [-> | [-> | ->]]]]]]
        by lia; clear H H'
  end;
  repeat match goal with |- context [Z.to_nat ?k] => let v := eval vm_compute in (Z.to_nat k) in change (Z.to_nat k) with v end;
  lia.
Qed.

(** Retiming by an increasing clock does not change any comparison. *)
Lemma retime_less (g : Z -> Z) (Hg : forall x y, x < y -> g x < g y) (a b : restaurant_queue) :
  less (retime g a) (retime g b) = less a b.
Proof.
  unfold less, less_restaurant_queue, restaurant_less, retime. cbn [client_type client_arrival].
  destruct (String.eqb _ _); [|done].
  destruct (Z.gtb_spec (client_arrival a) (client_arrival b)) as [Hab|Hab];
    destruct (Z.gtb_spec (g (client_arrival a)) (g (client_arrival b))) as [Hg'|Hg']; try done.
  - specialize (Hg _ _ Hab). lia.
  - destruct (Z.eq_dec (client_arrival a) (client_arrival b)) as [E|E]; [rewrite E in Hg'; lia|].
    specialize (Hg (client_arrival a) (client_arrival b) ltac:(lia)). lia.
Qed.

Lemma push_all_fmap (g : Z -> Z) (Hg : forall x y, x < y -> g x < g y) (cs PQ1 : list restaurant_queue) :
  push_all (retime g <$> cs) (retime g <$> PQ1) = out_map (fmap (retime g)) (push_all cs PQ1).
Proof.
  revert PQ1. induction cs as [|c cs IH]; intros PQ1; [done|]. cbn [fmap list_fmap push_all].
  rewrite (pq_push_fmap (retime g) (retime_less g Hg)).
  destruct (priority_queue.push c PQ1); cbn [out_map out_bind]; [apply IH|done..].
Qed.

Lemma drain_priority_queue_fmap (g : Z -> Z) (Hg : forall x y, x < y -> g x < g y) (ctime : Z -> string)
  (n : nat) (PQ1 : list restaurant_queue) (o : ostream) :
  drain_priority_queue ctime n (retime g <$> PQ1) o = drain_priority_queue (fun z => ctime (g z)) n PQ1 o.
Proof.
  revert PQ1 o. induction n as [|n IH]; intros PQ1 o; [done|]. cbn [drain_priority_queue].
  rewrite pq_top_fmap, (pq_pop_fmap (retime g) (retime_less g Hg)).
  destruct (priority_queue.top PQ1) as [c| |]; [|done..].
  destruct (priority_queue.pop PQ1) as [PQ1'| |]; [|done..].
  cbn [out_map out_bind st_lift]. unfold st_bind, st_ret. cbn. apply IH.
Qed.

(** The priority-queue section with the clock read is the section with
    the times 1, ..., 7 and the clock applied when printing. *)
Lemma priority_queue_section_retime (time0 : nat -> Z) (ctime : Z -> string) :
  ticking time0 ->
  st_eq (priority_queue_section time0 ctime) (priority_queue_section Z.of_nat (fun z => ctime (clock time0 z))).
Proof.
  intros Ht o. pose proof (clock_mono time0 Ht) as Hg.
  unfold priority_queue_section.
  change (clients time0) with (retime (clock time0) <$> clients Z.of_nat).
  pose proof (push_all_fmap _ Hg (clients Z.of_nat) []) as E.
  change (retime (clock time0) <$> []) with (@nil restaurant_queue) in E.
  unfold st_bind, st_lift. rewrite E.
  destruct (say _ o) as [[[] o1]| |]; [|done..].
  destruct (push_all (clients Z.of_nat) []) as [PQ1| |]; cbn [out_map out_bind]; [|done..].
  cbn [st_ret]. rewrite length_fmap.
  destruct (say _ o1) as [[[] o2]| |]; [|done..].
  rewrite (drain_priority_queue_fmap _ Hg). done.
Qed.

Lemma main_retime (time0 : nat -> Z) (ctime : Z -> string) :
  ticking time0 -> st_eq (main time0 ctime) (main Z.of_nat (fun z => ctime (clock time0 z))).
Proof. intros Ht. unfold main. by setoid_rewrite (priority_queue_section_retime time0 ctime Ht). Qed.

(** From any [cout] with no pending width and a blank fill, the
    priority-queue section with the times 1, ..., 7 appends [served]. *)
Lemma priority_queue_run (ct : Z -> string) (o : ostream) :
  os_width o = 0%nat -> os_fill o = " "%char ->
  priority_queue_section Z.of_nat ct o =
  Ok (tt, mk_os (os_str o ++ served (fun k => ct (Z.of_nat k))) 0 " " true (os_boolalpha o)).
Proof.
  destruct o as [s w f l b]; cbn [os_width os_fill]; intros -> ->.
  cbv -[String.append]. rewrite ?str_app_assoc. reflexivity.
Qed.

(** The stack section and the last line append [output_after] (the
    sizes print as numbers and [empty()] as [0], [boolalpha] being off). *)
Lemma after_queue_run (o : ostream) :
  os_width o = 0%nat -> os_boolalpha o = false ->
  (stack_section ;; say (fun o => o << "END OF PROGRAM" << std.endl) ;; st_ret 0) o =
  Ok (0, mk_os (os_str o ++ output_after) 0 (os_fill o) (os_left o) false).
Proof.
  destruct o as [s w f l b]; cbn [os_width os_boolalpha]; intros -> ->.
  cbv -[String.append]. rewrite ?str_app_assoc. reflexivity.
Qed.

(** *** The four erasing methods *)

(** The reference: the first element satisfying [p] is removed. *)
Fixpoint erase_first {A} (p : A -> bool) (l : list A) : list A :=
  match l with
  | [] => []
  | x :: r => if p x then r else x :: erase_first p r
  end.

Lemma erase_first_find_if {A} (p : A -> bool) (l : list A) :
  erase_first p l =
  let j := std.find_if p l in if (j =? List.length l)%nat then l else (take j l ++ drop (S j) l)%list.
Proof.
  induction l as [|x r IH]; [done|]. cbn. destruct (p x); [done|].
  rewrite IH. cbn. by destruct (std.find_if p r =? List.length r)%nat.
Qed.

Lemma erase_first_app_l {A} (p : A -> bool) (l1 l2 : list A) :
  Forall (fun x => p x = false) l1 -> erase_first p (l1 ++ l2)%list = (l1 ++ erase_first p l2)%list.
Proof. induction 1 as [|x l1 Hx _ IH]; [done|]. cbn. by rewrite Hx, IH. Qed.

Lemma erase_first_none {A} (p : A -> bool) (l : list A) :
  Forall (fun x => p x = false) l -> erase_first p l = l.
Proof. intros H. rewrite <- (app_nil_r l), erase_first_app_l by done. done. Qed.

Lemma erase_first_ext {A} (p q : A -> bool) (l : list A) :
  Forall (fun x => p x = q x) l -> erase_first p l = erase_first q l.
Proof. induction 1 as [|x l Hx _ IH]; [done|]. cbn. by rewrite Hx, IH. Qed.

Lemma erase_first_app_r {A} (p : A -> bool) (l1 l2 : list A) :
  Forall (fun x => p x = false) l2 -> erase_first p (l1 ++ l2)%list = (erase_first p l1 ++ l2)%list.
Proof.
  intros H2. induction l1 as [|x r IH]; cbn; [by apply erase_first_none|].
  destruct (p x); [done|]. by rewrite IH.
Qed.

(** Erasing at [find_if] inside the middle block of [a ++ b ++ c]. *)
Lemma erase_find_if_middle {A} (p : A -> bool) (a b c : list A) :
  (let j := (List.length a + std.find_if p b)%nat in
   if (j =? List.length a + List.length b)%nat then Ok (a ++ b ++ c)%list else erase j (a ++ b ++ c)%list)
  = Ok (a ++ erase_first p b ++ c)%list.
Proof.
  rewrite erase_first_find_if. cbv zeta. pose proof (find_if_le p b) as Hle.
  destruct (Nat.eqb_spec (std.find_if p b) (List.length b)) as [->|Hne].
  { by rewrite Nat.eqb_refl. }
  destruct (Nat.eqb_spec (List.length a + std.find_if p b) (List.length a + List.length b)); [lia|].
  unfold erase, erase_at. rewrite !length_app.
  destruct (Nat.ltb_spec (List.length a + std.find_if p b) (List.length a + (List.length b + List.length c))); [|lia].
  f_equal. replace (S (List.length a + std.find_if p b)) with (List.length a + S (std.find_if p b))%nat by lia.
  rewrite take_app_add, drop_app_add, take_app_le, drop_app_le by lia. by rewrite <- !app_assoc.
Qed.

(** The three blocks of a sorted multimap around the key [k]. *)
Lemma split3 {A} (t : list A) (lo hi : nat) :
  (lo <= hi)%nat -> t = (take lo t ++ take (hi - lo) (drop lo t) ++ drop hi t)%list.
Proof.
  intros Hle. replace (drop hi t) with (drop (hi - lo) (drop lo t)) by (rewrite drop_drop; f_equal; lia).
  by rewrite !take_drop.
Qed.

Section MultimapLemmas.
Context {T : Type} (has : T -> bool).

Lemma erase_in_range_S (f : nat) (t : list (Z * T)) (iter last : nat) :
  erase_in_range has (S f) t iter last =
  if (iter =? last)%nat then Ok t
  else match t !! iter with
       | None => Stuck PreconditionViolated
       | Some kv => if has kv.2 then erase iter t else erase_in_range has f t (S iter) last
       end.
Proof. done. Qed.

Lemma method1_loop_S (f : nat) (t : list (Z * T)) (findMM1 counter countMM1 : nat) :
  method1_loop has (S f) t findMM1 counter countMM1 =
  match t !! findMM1 with
  | None => Stuck PreconditionViolated
  | Some kv =>
      if has kv.2 then erase findMM1 t
      else if (counter <? countMM1)%nat then method1_loop has f t (S findMM1) (S counter) countMM1
      else Ok t
  end.
Proof. done. Qed.

(** The loop of METHOD2 and METHOD3 is [find_if] over [[iter, iter + m)]
    followed by [erase]. *)
Lemma erase_in_range_find_if (t : list (Z * T)) (m iter : nat) :
  erase_in_range has (S m) t iter (iter + m) =
  let j := (iter + std.find_if (fun kv : Z * T => has kv.2) (take m (drop iter t)))%nat in
  if (j =? iter + m)%nat then Ok t else erase j t.
Proof.
  revert iter. induction m as [|m IH]; intros iter; rewrite erase_in_range_S.
  - rewrite Nat.add_0_r, Nat.eqb_refl. cbn. by rewrite Nat.add_0_r, Nat.eqb_refl.
  - destruct (Nat.eqb_spec iter (iter + S m)); [lia|].
    destruct (t !! iter) as [kv|] eqn:E.
    + rewrite (drop_S t kv iter E). cbn [take std.find_if].
      destruct (has kv.2); cbn zeta.
      * rewrite Nat.add_0_r. by destruct (Nat.eqb_spec iter (iter + S m)); [lia|].
      * replace (iter + S m)%nat with (S iter + m)%nat by lia. rewrite IH. cbn zeta.
        by replace (S iter + std.find_if _ _)%nat with (iter + S (std.find_if (fun kv : Z * T => has kv.2) (take m (drop (S iter) t))))%nat by lia.
    + apply lookup_ge_None in E. rewrite drop_ge by done. cbn. rewrite Nat.add_0_r.
      destruct (Nat.eqb_spec iter (iter + S m)); [lia|]. unfold erase.
      by destruct (Nat.ltb_spec iter (List.length t)); [lia|].
Qed.

(** METHOD1's loop visits the same positions, given enough fuel. *)
Lemma method1_loop_range (t : list (Z * T)) (m : nat) : forall e iter c,
  method1_loop has (e + S m) t iter c (c + m) = erase_in_range has (S (S m)) t iter (iter + S m).
Proof.
  induction m as [|m IH]; intros e iter c; rewrite Nat.add_succ_r, method1_loop_S, erase_in_range_S.
  - destruct (Nat.eqb_spec iter (iter + 1)); [lia|]. destruct (t !! iter) as [kv|]; [|done].
    destruct (has kv.2); [done|]. rewrite Nat.add_0_r, Nat.ltb_irrefl, erase_in_range_S.
    by rewrite Nat.add_1_r, Nat.eqb_refl.
  - destruct (Nat.eqb_spec iter (iter + S (S m))); [lia|]. destruct (t !! iter) as [kv|]; [|done].
    destruct (has kv.2); [done|].
    destruct (Nat.ltb_spec c (c + S m)); [|lia].
    replace (c + S m)%nat with (S c + m)%nat by lia. rewrite IH.
    by replace (S iter + S m)%nat with (iter + S (S m))%nat by lia.
Qed.


(** The reference behaviour of METHOD2-4: erase the first value of
    [key2erase] that [has] accepts. *)
Definition erase_one (k : Z) (t : list (Z * T)) : list (Z * T) :=
  erase_first (fun kv : Z * T => equiv k kv.1 && has kv.2) t.

Lemma method4_erase_one (k : Z) (t : list (Z * T)) :
  equal_sorted fst t = true -> method4 has k t = Ok (erase_one k t).
Proof.
  intros Hs. unfold method4, equal_range, erase_one. cbn [fst snd].
  pose proof (lower_le_upper fst k t) as Hle. pose proof (upper_bound_le_length fst k t) as Hlen.
  pose proof (lower_bound_prefix fst k t) as Hpre. pose proof (upper_bound_suffix fst k t Hs) as Hsuf.
  pose proof (split3 t _ _ Hle) as Hdec. rewrite (equal_range_equivalents fst k t Hs) in Hdec |- *.
  assert (HE : Forall (fun x : Z * T => equiv k x.1 = true) (equivalents fst k t)).
  { apply List.Forall_forall. intros x Hx. by apply filter_In in Hx as [_ ?]. }
  assert (HlenE : List.length (equivalents fst k t) = (upper_bound fst k t - lower_bound fst k t)%nat).
  { rewrite <- (equal_range_equivalents fst k t Hs), length_take, length_drop. lia. }
  assert (Hlo : List.length (take (lower_bound fst k t) t) = lower_bound fst k t) by (rewrite length_take; lia).
  rewrite <- Hlo.
  replace (upper_bound fst k t) with (List.length (take (lower_bound fst k t) t) + List.length (equivalents fst k t))%nat by lia.
  revert Hpre Hsuf HE Hdec.
  generalize (take (lower_bound fst k t) t) (equivalents fst k t) (drop (upper_bound fst k t) t).
  intros a b c Hpre Hsuf HE ->.
  rewrite erase_first_app_l, erase_first_app_r, (erase_first_ext _ (fun kv : Z * T => has kv.2));
    [apply erase_find_if_middle| | |].
  - eapply Forall_impl; [exact HE|]. intros x ->. done.
  - eapply Forall_impl; [exact Hsuf|]. intros x Hx. unfold equiv. rewrite Hx. cbn. by rewrite ?andb_false_r.
  - eapply Forall_impl; [exact Hpre|]. intros x Hx. unfold equiv. rewrite Hx. cbn. by rewrite ?andb_false_r.
Qed.

(** METHOD2 and METHOD3 run the loop over [equal_range], as METHOD4
    runs [find_if]. *)
Lemma erase_in_range_method4 (k : Z) (t : list (Z * T)) :
  erase_in_range has (S (upper_bound fst k t - lower_bound fst k t)) t (lower_bound fst k t) (upper_bound fst k t)
  = method4 has k t.
Proof.
  unfold method4, equal_range. cbn [fst snd]. pose proof (lower_le_upper fst k t) as Hle.
  remember (upper_bound fst k t - lower_bound fst k t)%nat as m eqn:Hm.
  replace (upper_bound fst k t) with (lower_bound fst k t + m)%nat by lia.
  by rewrite erase_in_range_find_if.
Qed.

Lemma method1_method4 (k : Z) (t : list (Z * T)) :
  method1 has k t = if (1 <? count fst k t)%nat then method4 has k t else Ok t.
Proof.
  unfold method1. destruct (Nat.ltb_spec 1 (count fst k t)) as [Hc|]; [|done].
  change (count fst k t) with (upper_bound fst k t - lower_bound fst k t)%nat in *.
  rewrite (find_lower_bound fst k t) by lia.
  rewrite <- erase_in_range_method4. pose proof (lower_le_upper fst k t) as Hle.
  destruct (upper_bound fst k t - lower_bound fst k t)%nat as [|[|m]] eqn:Ec; [lia|lia|].
  pose proof (method1_loop_range t (S m) 1 (lower_bound fst k t) 1) as Hl. cbn [Nat.add] in Hl.
  rewrite Hl. do 2 f_equal. lia.
Qed.

End MultimapLemmas.

(** ** Theorems *)

(** C12: whatever the clock reads, as long as it advances between the
    arrivals, [main] returns 0 and writes [expected_output]: the text the
    program prints, with the clients served vip first, then reserva,
    then normal, each group in arrival order. *)
Theorem containers_main_output (time0 : nat -> Z) (ctime : Z -> string) :
  ticking time0 ->
  exists out, main time0 ctime ostringstream0 = Ok (0, out) /\ os_str out = expected_output time0 ctime.
Proof.
  intros Ht. rewrite (main_retime time0 ctime Ht ostringstream0). unfold main.
  pose proof (priority_queue_run (fun z => ctime (clock time0 z))) as Hpq.
  pose proof after_queue_run as Hpost. revert Hpq Hpost.
  generalize (priority_queue_section Z.of_nat (fun z => ctime (clock time0 z))) as pq.
  set (post := (stack_section ;; say (fun o => o << "END OF PROGRAM" << std.endl) ;; st_ret 0)).
  clearbody post. intros pq Hpq Hpost.
  vm_compute. rewrite Hpq by reflexivity. cbv beta iota. rewrite Hpost by reflexivity.
  eexists. split; [reflexivity|]. cbn [os_str]. rewrite str_app_assoc. reflexivity.
Qed.

Lemma containers_main_output_witness :
  ticking (fun n => Z.of_nat n + 1700000000) /\
  exists out, main (fun n => Z.of_nat n + 1700000000) (fun _ => NL) ostringstream0 = Ok (0, out) /\
              os_str out = expected_output (fun n => Z.of_nat n + 1700000000) (fun _ => NL).
Proof.
  assert (Ht : ticking (fun n => Z.of_nat n + 1700000000)) by (intros n Hn; lia).
  split; [exact Ht | apply (containers_main_output _ _ Ht)].
Defined.

(** C13: on a multimap sorted by key, METHOD2, METHOD3 and METHOD4 all
    erase exactly the first value of [key2erase] that the predicate
    accepts (and nothing when there is none); METHOD1 does the same when
    the key has more than one value and leaves the multimap unchanged
    otherwise.  None of them is stuck. *)
Theorem multimap_erase_methods {T} (has : T -> bool) (k : Z) (MM1 : list (Z * T)) :
  equal_sorted fst MM1 = true ->
  method2 has k MM1 = Ok (erase_one has k MM1) /\
  method3 has k MM1 = Ok (erase_one has k MM1) /\
  method4 has k MM1 = Ok (erase_one has k MM1) /\
  method1 has k MM1 = (if (1 <? count fst k MM1)%nat then Ok (erase_one has k MM1) else Ok MM1).
Proof.
  intros Hs. pose proof (method4_erase_one has k MM1 Hs) as H4.
  rewrite method1_method4, H4. unfold method2, method3.
  change (equal_range fst k MM1) with (lower_bound fst k MM1, upper_bound fst k MM1). cbn [fst snd].
  by rewrite erase_in_range_method4, H4.
Qed.

Lemma multimap_erase_methods_witness :
  let MM1 := init_equal fst [(4, "Amanda"); (2, "Teteco"); (2, "TetecoAgain"); (2, "TetecosAgain")] in
  equal_sorted fst MM1 = true /\
  method2 (fun s => contains s "Again") 2 MM1 = Ok (erase_one (fun s => contains s "Again") 2 MM1) /\
  method3 (fun s => contains s "Again") 2 MM1 = Ok (erase_one (fun s => contains s "Again") 2 MM1) /\
  method4 (fun s => contains s "Again") 2 MM1 = Ok (erase_one (fun s => contains s "Again") 2 MM1) /\
  method1 (fun s => contains s "Again") 2 MM1 =
    (if (1 <? count fst 2%Z MM1)%nat then Ok (erase_one (fun s => contains s "Again") 2 MM1) else Ok MM1).
Proof.
  intros MM1. assert (Hs : equal_sorted fst MM1 = true) by reflexivity.
  split; [exact Hs | apply (multimap_erase_methods _ 2%Z MM1 Hs)].
Defined.

End Containers.
