(* ===== verification/CopyMove.v ===== *)
(** * CopyMove.cpp: copy elision, copy and move of class objects

    The program (src/language-concepts/CopyMoveSemantics/CopyMove.cpp)
    defines a class [X] whose copy constructor prints (lines 21-25), a
    function [function1] returning [X()] by value (lines 26-28), and in
    [main] a class [Teste] with an [int] member and an [X] member whose
    four special members print (lines 264-302).  [main] initialises [varX]
    from [function1()] (line 104), then constructs and assigns [Teste]
    objects from an lvalue, a temporary and [std::move] (lines 303-310).
    Everything else in the file is commentary.

    What [main] prints depends on how it is built: a prvalue that
    initialises an object of its own type is never copied in C++17
    ([dcl.init]/17.6.1), and before C++17 the copy is elided unless
    [-fno-elide-constructors] is given.  The [build] is a parameter of
    [main].  The special members are those overload resolution sees: a
    class declares a move constructor or move assignment only if written
    ([X] has none, its user-declared copy constructor suppresses them), and
    an rvalue then binds to the copy member's [const X&].  Objects of
    [Teste] live at addresses (to decide [this != &other]) in a store of
    their [i] members; [X] has no state.  No destructor prints. *)

From stdpp Require Import base list strings.
From Stdlib Require Import ZArith Lia String.
From S2P Require Import Prelude Ostream.

Local Open Scope string_scope.
Local Open Scope Z_scope.
Local Open Scope cpp_scope.

Module CopyMove.

(** ** How the program is built *)

Inductive standard := Cxx11 | Cxx14 | Cxx17.

(** The language standard and whether copy elision is on (it is unless
    [-fno-elide-constructors]). *)
Record build := mk_build { std : standard; elide_constructors : bool }.

(** Whether a prvalue initialises the object directly: always in C++17,
    otherwise when the compiler elides. *)
Definition elides (b : build) : bool :=
  match std b with Cxx17 => true | _ => elide_constructors b end.

(** ** State *)

(** [cout] and the [i] member of every [Teste] object, by address. *)
Record state := mk_state { cout : ostream; mem : list Z }.

Definition addr := nat.

Definition say (f : ostream -> ostream) : st state unit :=
  fun s => Ok (tt, mk_state (f (cout s)) (mem s)).

(** A new object whose [i] is [v]; its address is the next free one. *)
Definition alloc (v : Z) : st state addr :=
  fun s => Ok (List.length (mem s), mk_state (cout s) (mem s ++ [v])%list).

Definition get_i (a : addr) : st state Z :=
  fun s => match mem s !! a with Some v => Ok (v, s) | None => Stuck PreconditionViolated end.

Definition set_i (a : addr) (v : Z) : st state unit :=
  fun s => if (a <? List.length (mem s))%nat then Ok (tt, mk_state (cout s) (<[a := v]> (mem s)))
           else Stuck PreconditionViolated.

(** [std::swap(a.i, b.i)] *)
Definition swap_i (a b : addr) : st state unit :=
  let* va := get_i a in let* vb := get_i b in set_i a vb ;; set_i b va.

(** ** Special members and overload resolution *)

(** The special members of a class as overload resolution finds them:
    the copy constructor and copy assignment, and the move constructor
    and move assignment when the class declares them.  [A] is how an
    object of the class is designated. *)
Class Special (A : Type) := {
  copy_ctor : A -> st state A;
  move_ctor : option (A -> st state A);
  copy_assign : A -> A -> st state unit;
  move_assign : option (A -> A -> st state unit)
}.

(** An initialiser or right operand and its value category: a named
    object, [std::move] of one, or a prvalue still to be evaluated
    ([T()] or a call returning by value). *)
Inductive source (A : Type) :=
| lvalue (a : A)
| xvalue (a : A)
| prvalue (make : st state A).

Arguments lvalue {A} a.
Arguments xvalue {A} a.
Arguments prvalue {A} make.

Section Resolution.
Context `{Special A}.

(** [T(T&&)] if declared, otherwise [T(const T&)]. *)
Definition rv_construct (a : A) : st state A :=
  match move_ctor with Some mv => mv a | None => copy_ctor a end.

(** [operator=(T&&)] if declared, otherwise [operator=(const T&)]. *)
Definition rv_assign (dst a : A) : st state unit :=
  match move_assign with Some mv => mv dst a | None => copy_assign dst a end.

(** [T obj = src;] and [T obj(src);]: a prvalue that is not elided is
    materialised as a temporary and moved from. *)
Definition construct (b : build) (src : source A) : st state A :=
  match src with
  | lvalue a => copy_ctor a
  | xvalue a => rv_construct a
  | prvalue make => if elides b then make else let* t := make in rv_construct t
  end.

(** [dst = src;]: a prvalue operand is always materialised. *)
Definition assign (dst : A) (src : source A) : st state unit :=
  match src with
  | lvalue a => copy_assign dst a
  | xvalue a => rv_assign dst a
  | prvalue make => let* t := make in rv_assign dst t
  end.

End Resolution.

(** ** [class X] (lines 21-25) *)

(** [X(){}] *)
Definition X_default : st state unit := st_ret tt.

(** [X(const X &other)]: prints a line. *)
Definition X_copy (other : unit) : st state unit := say (fun o => o << (TAB ++ " CopyConstr X!" ++ NL)).

(** The implicit copy assignment of an empty class; no move members are
    declared, the copy constructor being user-declared. *)
#[export] Instance Special_X : Special unit := {
  copy_ctor := X_copy;
  move_ctor := None;
  copy_assign := fun _ _ => st_ret tt;
  move_assign := None
}.

(** [X function1() { return X(); }] (lines 26-28): the return object is
    initialised from the prvalue [X()]. *)
Definition function1 (b : build) : st state unit := construct b (prvalue X_default).

(** ** [class Teste] (lines 264-302) *)

(** [Teste() {}] with [int i{0}; X objX;] *)
Definition Teste_default : st state addr := let* a := alloc 0 in X_default ;; st_ret a.

(** [Teste(const Teste &other) : i(other.i) { i = other.i; objX = other.objX; ... }]:
    [objX] is default-initialised, then assigned. *)
Definition Teste_copy (other : addr) : st state addr :=
  let* v := get_i other in let* a := alloc v in X_default ;;
  let* v' := get_i other in set_i a v' ;;
  copy_assign tt tt ;;
  say (fun o => o << (TAB ++ " CopyConstr Teste!" ++ NL ++ NL)) ;; st_ret a.

(** [Teste(Teste &&other) noexcept : objX(std::move(other.objX)) { swap(i, other.i); ... }]:
    [i] takes its default [0]; [objX] is initialised from an xvalue of [X]. *)
Definition Teste_move (other : addr) : st state addr :=
  let* a := alloc 0 in rv_construct tt ;;
  swap_i a other ;;
  say (fun o => o << (TAB ++ " MoveConstr Teste!" ++ NL ++ NL)) ;; st_ret a.

(** [Teste &operator=(const Teste &other)] *)
Definition Teste_copy_assign (this other : addr) : st state unit :=
  if (this =? other)%nat then st_ret tt
  else let* v := get_i other in set_i this v ;;
       copy_assign tt tt ;;
       say (fun o => o << (TAB ++ " CopyAssig Teste!" ++ NL ++ NL)).

(** [Teste &operator=(Teste &&other)] *)
Definition Teste_move_assign (this other : addr) : st state unit :=
  if (this =? other)%nat then st_ret tt
  else swap_i this other ;;
       rv_assign tt tt ;;
       say (fun o => o << (TAB ++ " MoveAssig Teste!" ++ NL ++ NL)).

#[export] Instance Special_Teste : Special addr := {
  copy_ctor := Teste_copy;
  move_ctor := Some Teste_move;
  copy_assign := Teste_copy_assign;
  move_assign := Some Teste_move_assign
}.

(** ** [main] *)

Definition main (b : build) : st state Z :=
  say (fun o => o << (NL ++ " Outputs from copy elision portion of file..." ++ NL)) ;;
  let* varX := construct b (prvalue (function1 b)) in
  say (fun o => o << (NL ++ " Outputs from std::move portion of file..." ++ NL)) ;;
  let* varT1 := Teste_default in
  let* varT2 := construct b (lvalue varT1) in
  let* varT3 := construct b (prvalue Teste_default) in
  let* varT4 := construct b (xvalue varT1) in
  let* varT5 := Teste_default in
  let* varT6 := Teste_default in
  let* varT7 := Teste_default in
  assign varT6 (lvalue varT5) ;;
  assign varT7 (prvalue Teste_default) ;;
  say (fun o => o << "END OF PROGRAM" << std.endl) ;;
  st_ret 0.

Definition state0 : state := mk_state ostringstream0 [].

(** ** What [main] prints *)

(** With the copies of prvalues elided (C++17, or elision on). *)
Definition output_elided : string :=
  (NL ++ " Outputs from copy elision portion of file..." ++ NL) ++ (NL ++ " Outputs from std::move portion of file..." ++ NL) ++ (TAB ++ " CopyConstr Teste!" ++ NL ++ NL) ++ (TAB ++ " CopyConstr X!" ++ NL) ++ (TAB ++ " MoveConstr Teste!" ++ NL ++ NL) ++ (TAB ++ " CopyAssig Teste!" ++ NL ++ NL) ++ (TAB ++ " MoveAssig Teste!" ++ NL ++ NL) ++ "END OF PROGRAM" ++ NL.

(** With [-fno-elide-constructors] before C++17: [function1] copies [X()]
    into its return object and [varX] is copied from it, and [Teste()] is
    moved into [varT3]. *)
Definition output_copied : string :=
  (NL ++ " Outputs from copy elision portion of file..." ++ NL) ++ (TAB ++ " CopyConstr X!" ++ NL) ++ (TAB ++ " CopyConstr X!" ++ NL) ++ (NL ++ " Outputs from std::move portion of file..." ++ NL) ++ (TAB ++ " CopyConstr Teste!" ++ NL ++ NL) ++ (TAB ++ " CopyConstr X!" ++ NL) ++ (TAB ++ " MoveConstr Teste!" ++ NL ++ NL) ++ (TAB ++ " CopyConstr X!" ++ NL) ++ (TAB ++ " MoveConstr Teste!" ++ NL ++ NL) ++
  (TAB ++ " CopyAssig Teste!" ++ NL ++ NL) ++ (TAB ++ " MoveAssig Teste!" ++ NL ++ NL) ++ "END OF PROGRAM" ++ NL.

(** ** Lemmas *)

Lemma get_i_ok (a : addr) (s : state) (v : Z) : mem s !! a = Some v -> get_i a s = Ok (v, s).
Proof. unfold get_i. by intros ->. Qed.

Lemma set_i_ok (a : addr) (v : Z) (s : state) :
  (a < List.length (mem s))%nat -> set_i a v s = Ok (tt, mk_state (cout s) (<[a := v]> (mem s))).
Proof. unfold set_i. intros Ha. by destruct (Nat.ltb_spec a (List.length (mem s))); [|lia]. Qed.

Lemma swap_i_ok (a c : addr) (s : state) (va vc : Z) :
  mem s !! a = Some va -> mem s !! c = Some vc ->
  swap_i a c s = Ok (tt, mk_state (cout s) (<[c := va]> (<[a := vc]> (mem s)))).
Proof.
  intros Ha Hc. pose proof (lookup_lt_Some _ _ _ Ha). pose proof (lookup_lt_Some _ _ _ Hc).
  unfold swap_i. rewrite (st_bind_run _ _ _ _ _ (get_i_ok a s va Ha)), (st_bind_run _ _ _ _ _ (get_i_ok c s vc Hc)).
  rewrite (st_bind_run _ _ _ _ _ (set_i_ok a vc s ltac:(done))).
  apply set_i_ok. cbn [mem]. by rewrite length_insert.
Qed.

Lemma alloc_ok (v : Z) (s : state) :
  alloc v s = Ok (List.length (mem s), mk_state (cout s) (mem s ++ [v])%list).
Proof. done. Qed.

Lemma Teste_copy_spec (c : addr) (s : state) (vc : Z) :
  mem s !! c = Some vc ->
  Teste_copy c s = Ok (List.length (mem s), mk_state (cout s << (TAB ++ " CopyConstr Teste!" ++ NL ++ NL)) (mem s ++ [vc])%list).
Proof.
  intros Hc. unfold Teste_copy.
  rewrite (st_bind_run _ _ _ _ _ (get_i_ok c s vc Hc)), (st_bind_run _ _ _ _ _ (alloc_ok vc s)).
  unfold X_default. rewrite st_bind_ret_l.
  rewrite (st_bind_run _ _ _ _ _ (get_i_ok c (mk_state (cout s) (mem s ++ [vc])%list) vc ltac:(cbn [mem]; by apply lookup_app_l_Some))).
  rewrite (st_bind_run _ _ _ _ _ (set_i_ok (List.length (mem s)) vc (mk_state (cout s) (mem s ++ [vc])%list) ltac:(cbn [mem]; rewrite length_app; cbn; lia))).
  cbn. rewrite list_insert_id; [done|]. by rewrite lookup_app_r, Nat.sub_diag by lia.
Qed.

Lemma Teste_move_spec (c : addr) (s : state) (vc : Z) :
  mem s !! c = Some vc ->
  Teste_move c s = Ok (List.length (mem s),
    mk_state (cout s << (TAB ++ " CopyConstr X!" ++ NL) << (TAB ++ " MoveConstr Teste!" ++ NL ++ NL)) (<[c := 0]> (mem s ++ [vc])%list)).
Proof.
  intros Hc. pose proof (lookup_lt_Some _ _ _ Hc). unfold Teste_move.
  rewrite (st_bind_run _ _ _ _ _ (alloc_ok 0 s)).
  rewrite (st_bind_run _ _ _ _ _ (eq_refl : @rv_construct unit Special_X tt (mk_state (cout s) (mem s ++ [0])%list)
                                   = Ok (tt, mk_state (cout s << (TAB ++ " CopyConstr X!" ++ NL)) (mem s ++ [0])%list))).
  rewrite (st_bind_run _ _ _ _ _ (swap_i_ok (List.length (mem s)) c (mk_state (cout s << (TAB ++ " CopyConstr X!" ++ NL)) (mem s ++ [0])%list) 0 vc
             ltac:(cbn [mem]; by rewrite lookup_app_r, Nat.sub_diag by lia)
             ltac:(cbn [mem]; by apply lookup_app_l_Some))).
  cbn. rewrite insert_app_r_alt, Nat.sub_diag by lia. done.
Qed.

Lemma Teste_copy_assign_spec (a c : addr) (s : state) (vc : Z) :
  mem s !! c = Some vc ->
  Teste_copy_assign a c s =
  if (a =? c)%nat then Ok (tt, s) else
  if (a <? List.length (mem s))%nat then Ok (tt, mk_state (cout s << (TAB ++ " CopyAssig Teste!" ++ NL ++ NL)) (<[a := vc]> (mem s)))
  else Stuck PreconditionViolated.
Proof.
  intros Hc. unfold Teste_copy_assign. destruct (a =? c)%nat; [done|].
  rewrite (st_bind_run _ _ _ _ _ (get_i_ok c s vc Hc)). unfold set_i, st_bind.
  by destruct (a <? List.length (mem s))%nat.
Qed.

Lemma Teste_move_assign_spec (a c : addr) (s : state) (va vc : Z) :
  mem s !! a = Some va -> mem s !! c = Some vc ->
  Teste_move_assign a c s =
  if (a =? c)%nat then Ok (tt, s)
  else Ok (tt, mk_state (cout s << (TAB ++ " MoveAssig Teste!" ++ NL ++ NL)) (<[c := va]> (<[a := vc]> (mem s)))).
Proof.
  intros Ha Hc. unfold Teste_move_assign. destruct (a =? c)%nat; [done|].
  by rewrite (st_bind_run _ _ _ _ _ (swap_i_ok a c s va vc Ha Hc)).
Qed.

(** ** Theorems *)

(** C16: [main] returns 0 whatever the build; it prints [output_elided]
    when prvalue copies are elided (always in C++17, whether or not
    [-fno-elide-constructors] is given) and [output_copied] otherwise. *)
Theorem copymove_main_output (b : build) :
  exists s, main b state0 = Ok (0, s) /\
            os_str (cout s) = if elides b then output_elided else output_copied.
Proof. destruct b as [[] []]; eexists; split; vm_compute; reflexivity. Qed.

(** C17: the special members of [Teste] on objects [a] and [c]:
    copy assignment and move assignment do nothing when [a] is [c] (the
    test [this != &other]) and otherwise copy, resp. swap, the [int]
    member; the copy constructor gives a new object with [c]'s member;
    the move constructor gives a new object with [c]'s member and leaves
    [0] in [c], and it copies the [X] member (CopyConstr X is printed)
    because [X] declares no move constructor. *)
Theorem teste_special_members (a c : addr) (s : state) (va vc : Z) :
  mem s !! a = Some va -> mem s !! c = Some vc ->
  Teste_copy_assign a c s =
    (if (a =? c)%nat then Ok (tt, s) else Ok (tt, mk_state (cout s << (TAB ++ " CopyAssig Teste!" ++ NL ++ NL)) (<[a := vc]> (mem s)))) /\
  Teste_move_assign a c s =
    (if (a =? c)%nat then Ok (tt, s) else Ok (tt, mk_state (cout s << (TAB ++ " MoveAssig Teste!" ++ NL ++ NL)) (<[c := va]> (<[a := vc]> (mem s))))) /\
  copy_ctor c s = Ok (List.length (mem s), mk_state (cout s << (TAB ++ " CopyConstr Teste!" ++ NL ++ NL)) (mem s ++ [vc])%list) /\
  rv_construct c s = Ok (List.length (mem s), mk_state (cout s << (TAB ++ " CopyConstr X!" ++ NL) << (TAB ++ " MoveConstr Teste!" ++ NL ++ NL)) (<[c := 0]> (mem s ++ [vc])%list)).
Proof.
  intros Ha Hc. split; [|split; [|split]].
  - rewrite (Teste_copy_assign_spec a c s vc Hc). destruct (a =? c)%nat; [done|].
    apply lookup_lt_Some in Ha. by destruct (Nat.ltb_spec a (List.length (mem s))); [|lia].
  - exact (Teste_move_assign_spec a c s va vc Ha Hc).
  - exact (Teste_copy_spec c s vc Hc).
  - exact (Teste_move_spec c s vc Hc).
Qed.

Lemma teste_special_members_witness :
  let s := mk_state ostringstream0 [3; 5] in
  mem s !! 0%nat = Some 3 /\ mem s !! 1%nat = Some 5 /\
  Teste_copy_assign 0%nat 1%nat s =
    (if (0 =? 1)%nat then Ok (tt, s) else Ok (tt, mk_state (cout s << (TAB ++ " CopyAssig Teste!" ++ NL ++ NL)) (<[0%nat := 5]> (mem s)))) /\
  Teste_move_assign 0%nat 1%nat s =
    (if (0 =? 1)%nat then Ok (tt, s) else Ok (tt, mk_state (cout s << (TAB ++ " MoveAssig Teste!" ++ NL ++ NL)) (<[1%nat := 3]> (<[0%nat := 5]> (mem s))))) /\
  copy_ctor 1%nat s = Ok (List.length (mem s), mk_state (cout s << (TAB ++ " CopyConstr Teste!" ++ NL ++ NL)) (mem s ++ [5])%list) /\
  rv_construct 1%nat s = Ok (List.length (mem s), mk_state (cout s << (TAB ++ " CopyConstr X!" ++ NL) << (TAB ++ " MoveConstr Teste!" ++ NL ++ NL)) (<[1%nat := 0]> (mem s ++ [5])%list)).
Proof.
  intros s. assert (Ha : mem s !! 0%nat = Some 3) by reflexivity. assert (Hc : mem s !! 1%nat = Some 5) by reflexivity.
  split; [exact Ha|]. split; [exact Hc|]. exact (teste_special_members 0%nat 1%nat s 3 5 Ha Hc).
Defined.

End CopyMove.
