(* ===== verification/ObjectModel.v ===== *)
(** * Classes with multiple and virtual inheritance: the object model

    What the inheritance demos rely on, after [class.derived],
    [class.mi], [class.member.lookup], [class.virtual], [class.base.init]
    and [class.copy.ctor]: a class table; the subobjects of a complete
    object, one per path of non-virtual derivations and one shared
    subobject per virtual base; name lookup of a member with hiding,
    ambiguity and dominance; calls, qualified ([X::f()], never virtual) or
    not (virtual functions go to the final overrider of the dynamic type,
    which is the class under construction while a constructor runs);
    construction (virtual bases first, depth-first left to right, then
    the direct non-virtual bases in declaration order, then the members,
    then the body); and the implicit copy constructor, which is what a
    cast [(A)obj] or [A a = obj;] to a base runs (slicing).

    A subobject is the path of class names that reaches it: [[D]] is the
    complete object of class [D], [[D; B; A]] its [A] reached through the
    non-virtual base [B], and [[A]] the subobject of the virtual base
    [A].  Member bodies are statements of a small language, enough for
    the demos: printing a literal or an [int] member, assigning the
    parameter to a member, and calling a member function of [*this].
    The recursions over the table take the fuel [S (length T)], which
    bounds the depth of an acyclic table; running a body takes a bound
    on the statements run, nested calls included ([call_depth], 64; the
    demos run at most a few, and their theorems show no run exhausts
    it). *)

From stdpp Require Import base list strings gmap.
From Stdlib Require Import ZArith Lia String.
From S2P Require Import Prelude Ostream.

Local Open Scope Z_scope.
Local Open Scope cpp_scope.

Module obj.

(** ** Classes *)

(** A [base-specifier]: [virtual public B] or [public B]. *)
Record base_spec := mk_base { bvirtual : bool; bname : string }.

(** The statements member bodies are made of. *)
Inductive stmt :=
| Print (s : string)                              (** [cout << s] *)
| PrintField (pre : string) (f : string) (post : string)  (** [cout << pre << f << post] *)
| AssignParam (f : string)                        (** [f = n] with [n] the parameter *)
| CallThis (q : option string) (m : string) (arg : option Z). (** [m(arg)] or [X::m(arg)] *)

(** [mvirtual]: declared [virtual]; [mpure]: declared [= 0]. *)
Record method := mk_method { mname : string; mvirtual : bool; mpure : bool; mbody : list stmt }.

(** A class: its bases, its [int] members with their default member
    initialisers, its member functions and the body of its default
    constructor. *)
Record class_decl := mk_class {
  cname : string; cbases : list base_spec; cfields : list (string * ival);
  cmethods : list method; cctor : list stmt }.

Definition table := list class_decl.

Definition subobj := list string.

(** The class of a subobject: the last class of its path. *)
Definition sclass (p : subobj) : string := default EmptyString (last p).

(** The subobject of a direct base [b] of the subobject [p]. *)
Definition base_step (p : subobj) (b : base_spec) : subobj :=
  if bvirtual b then [bname b] else p ++ [bname b].

(** The list without its later duplicates. *)
Fixpoint dedup {A} `{EqDecision A} (l : list A) : list A :=
  match l with
  | [] => []
  | x :: r => x :: List.filter (fun y => negb (bool_decide (y = x))) (dedup r)
  end.

(** Complete objects: their class and their [int] members, by subobject. *)
Record object := mk_obj { oclass : string; ofields : gmap (subobj * string) ival }.

Definition ocall := st (ostream * object) unit.

Section Table.
Context (T : table).

Definition find_class (c : string) : option class_decl := List.find (fun d => String.eqb (cname d) c) T.

Definition bases_of (c : string) : list base_spec :=
  match find_class c with Some d => cbases d | None => [] end.

Definition depth : nat := S (List.length T).

(** The subobjects of class [X] of the subobject [p]: [p] itself if its
    class is [X], and those of its bases. *)
Fixpoint base_subobjs (fuel : nat) (p : subobj) (X : string) : outcome (list subobj) :=
  match fuel with
  | O => NoFuel
  | S f =>
      out_bind (out_mapM (fun b => base_subobjs f (base_step p b) X) (bases_of (sclass p))) (fun ls =>
      Ok (dedup ((if String.eqb (sclass p) X then [p] else []) ++ List.concat ls)))
  end.

(** Whether the subobject [q] is a base subobject of [p] (or [p]). *)
Definition is_base_of (q p : subobj) : outcome bool :=
  out_map (fun l => bool_decide (q ∈ l)) (base_subobjs depth p (sclass q)).

(** The subobjects of a lookup set that another member does not
    dominate ([class.member.lookup]/6). *)
Definition undominated (l : list subobj) : outcome (list subobj) :=
  out_map (fun flags => List.map fst (List.filter (fun qf => negb qf.2) (zip l flags)))
    (out_mapM (fun q =>
       out_map (fun bs => existsb id bs)
         (out_mapM (fun p => if bool_decide (p = q) then Ok false else is_base_of q p) l)) l).

(** Name lookup of a member from the subobject [p]: the subobjects whose
    class declares it, [declares] telling which classes do.  A class that
    declares the name hides it in its bases. *)
Fixpoint lookup_set (fuel : nat) (declares : class_decl -> bool) (p : subobj) : outcome (list subobj) :=
  match fuel with
  | O => NoFuel
  | S f =>
      match find_class (sclass p) with
      | None => Stuck IllFormed
      | Some d =>
          if declares d then Ok [p]
          else out_bind (out_mapM (fun b => lookup_set f declares (base_step p b)) (cbases d)) (fun ls =>
               undominated (dedup (List.concat ls)))
      end
  end.

(** The result of lookup: one subobject, or the program is ill-formed
    (nothing found, or an ambiguous name). *)
Definition unique (l : outcome (list subobj)) : outcome subobj :=
  out_bind l (fun l => match l with [q] => Ok q | _ => Stuck IllFormed end).

Definition declares_method (m : string) (d : class_decl) : bool :=
  existsb (fun mt => String.eqb (mname mt) m) (cmethods d).

Definition declares_field (f : string) (d : class_decl) : bool :=
  existsb (fun fi => String.eqb fi.1 f) (cfields d).

Definition lookup_method (p : subobj) (m : string) : outcome subobj :=
  unique (lookup_set depth (declares_method m) p).

Definition lookup_field (p : subobj) (f : string) : outcome subobj :=
  unique (lookup_set depth (declares_field f) p).

(** [X] as a base of [p]: its one subobject, else ill-formed. *)
Definition base_of (p : subobj) (X : string) : outcome subobj := unique (base_subobjs depth p X).

Definition method_of (p : subobj) (m : string) : outcome method :=
  match find_class (sclass p) with
  | Some d => match List.find (fun mt => String.eqb (mname mt) m) (cmethods d) with
              | Some mt => Ok mt | None => Stuck IllFormed end
  | None => Stuck IllFormed
  end.

(** A member function is virtual if declared so, or if it overrides a
    virtual function of a base ([class.virtual]/2). *)
Fixpoint virtual_in (fuel : nat) (c : string) (m : string) : outcome bool :=
  match fuel with
  | O => NoFuel
  | S f =>
      match find_class c with
      | None => Stuck IllFormed
      | Some d =>
          let own := existsb (fun mt => String.eqb (mname mt) m && mvirtual mt) (cmethods d) in
          out_map (fun bs => own || existsb id bs) (out_mapM (fun b => virtual_in f (bname b) m) (cbases d))
      end
  end.

(** ** Running member functions *)

Definition out_say (f : ostream -> ostream) : ocall := fun s => Ok (tt, (f s.1, s.2)).

Definition set_field (q : subobj) (f : string) (v : ival) : ocall :=
  fun s => Ok (tt, (s.1, mk_obj (oclass s.2) (<[(q, f) := v]> (ofields s.2)))).

Definition get_field (q : subobj) (f : string) : st (ostream * object) Z :=
  fun s => match ofields s.2 !! (q, f) with
           | Some (Val z) => Ok (z, s)
           | Some Uninit => Stuck IndeterminateRead
           | None => Stuck IllFormed
           end.

(** [exec fuel root this arg body]: the body of a member function run on
    the subobject [this] of the object whose dynamic type is the class of
    [root]. *)
Fixpoint exec (fuel : nat) (root this : subobj) (arg : option Z) (body : list stmt) : ocall :=
  match fuel with
  | O => st_nofuel
  | S f =>
      match body with
      | [] => st_ret tt
      | st0 :: rest =>
          match st0 with
          | Print str => out_say (fun o => o << str)
          | PrintField pre fld post =>
              let* q := st_lift (lookup_field this fld) in
              let* v := get_field q fld in
              out_say (fun o => o << pre << v << post)
          | AssignParam fld =>
              let* q := st_lift (lookup_field this fld) in
              match arg with Some n => set_field q fld (Val n) | None => st_stuck IllFormed end
          | CallThis (Some X) m a =>
              (* qualified: no virtual call *)
              let* x := st_lift (base_of this X) in
              let* q := st_lift (lookup_method x m) in
              let* mt := st_lift (method_of q m) in
              exec f root q a (mbody mt)
          | CallThis None m a =>
              let* q := st_lift (lookup_method this m) in
              let* v := st_lift (virtual_in depth (sclass q) m) in
              if v then
                let* q' := st_lift (lookup_method root m) in
                let* mt' := st_lift (method_of q' m) in
                if mpure mt' then st_stuck PureVirtualCall else exec f root q' a (mbody mt')
              else let* mt := st_lift (method_of q m) in exec f root q a (mbody mt)
          end ;; exec f root this arg rest
      end
  end.

(** The bound on the statements a call runs. *)
Definition call_depth : nat := 64.

(** A call [obj.m()] or [obj.X::m()] through the subobject [static]
    (the static type of the expression), on the complete object. *)
Definition call (static : subobj) (q : option string) (m : string) (arg : option Z) : ocall :=
  fun s => exec call_depth [oclass s.2] static arg [CallThis q m arg] s.

(** ** Construction *)

Definition init_fields (p : subobj) (d : class_decl) : ocall :=
  fun s => Ok (tt, (s.1, mk_obj (oclass s.2)
                          (foldl (fun m fi => <[(p, fi.1) := fi.2]> m) (ofields s.2) (cfields d)))).

Fixpoint seq_all {S} (l : list (st S unit)) : st S unit :=
  match l with [] => st_ret tt | m :: r => m ;; seq_all r end.

(** The subobject [p] without its virtual bases: the non-virtual bases in
    declaration order, the members, then the body, during which the
    dynamic type is the class of [p] ([class.cdtor]/4). *)
Fixpoint construct_sub (fuel : nat) (p : subobj) : ocall :=
  match fuel with
  | O => st_nofuel
  | S f =>
      match find_class (sclass p) with
      | None => st_stuck IllFormed
      | Some d =>
          seq_all (List.map (fun b => if bvirtual b then st_ret tt else construct_sub f (p ++ [bname b])) (cbases d)) ;;
          init_fields p d ;;
          exec call_depth p p None (cctor d)
      end
  end.

(** The virtual bases of [c] in the order of a depth-first left-to-right
    traversal. *)
Fixpoint vbases_dfs (fuel : nat) (c : string) : outcome (list string) :=
  match fuel with
  | O => NoFuel
  | S f =>
      out_map (@List.concat string) (out_mapM (fun b =>
        out_map (fun r => (if bvirtual b then [bname b] else []) ++ r) (vbases_dfs f (bname b))) (bases_of c))
  end.

Definition vbases (c : string) : outcome (list string) := out_map dedup (vbases_dfs depth c).

(** [D obj;]: a complete object, its virtual bases first. *)
Definition construct (D : string) : st ostream object :=
  fun o =>
    match vbases D with
    | Ok vs =>
        match (seq_all (List.map (fun v => construct_sub depth [v]) vs) ;; construct_sub depth [D]) (o, mk_obj D ∅) with
        | Ok (_, (o', obj)) => Ok (obj, o')
        | Stuck u => Stuck u
        | NoFuel => NoFuel
        end
    | Stuck u => Stuck u
    | NoFuel => NoFuel
    end.

(** ** Subobjects and copies *)

Fixpoint nv_subobjs (fuel : nat) (p : subobj) : outcome (list subobj) :=
  match fuel with
  | O => NoFuel
  | S f =>
      out_map (fun ls => p :: List.concat ls)
        (out_mapM (fun b => if bvirtual b then Ok [] else nv_subobjs f (p ++ [bname b])) (bases_of (sclass p)))
  end.

(** The subobjects of a complete object of class [D]. *)
Definition subobjects (D : string) : outcome (list subobj) :=
  out_bind (vbases D) (fun vs =>
  out_bind (nv_subobjs depth [D]) (fun nv =>
  out_map (fun vl => nv ++ List.concat vl) (out_mapM (fun v => nv_subobjs depth [v]) vs))).

(** Where the implicit copy constructor of [X], run on the subobject [s]
    of [src], takes the subobject [q] of the new object from: a path
    through non-virtual bases is followed from [s], a virtual base is the
    one of the complete object [src]. *)
Definition source_of (X : string) (s : subobj) (q : subobj) : subobj :=
  match q with
  | c :: rest => if String.eqb c X then s ++ rest else q
  | [] => q
  end.

(** [X x = src;] with [s] the [X] subobject of [src] (slicing when [s] is
    a base subobject): the members of every subobject are copied. *)
Definition copy_from (X : string) (src : object) (s : subobj) : outcome object :=
  out_bind (subobjects X) (fun qs =>
  out_bind (out_mapM (fun q =>
      match find_class (sclass q) with
      | Some d => out_mapM (fun fi =>
                    match ofields src !! (source_of X s q, fi.1) with
                    | Some v => Ok ((q, fi.1), v)
                    | None => Stuck IllFormed
                    end) (cfields d)
      | None => Stuck IllFormed
      end) qs) (fun kvs => Ok (mk_obj X (list_to_map (List.concat kvs))))).

(** A cast [(X)obj] or an initialisation [X x = obj;] from an object
    whose class derives from [X]. *)
Definition slice (X : string) (src : object) : outcome object :=
  out_bind (base_of [oclass src] X) (copy_from X src).

End Table.

End obj.
