(* ===== verification/Polymorphism.v ===== *)
(** * InheritanceAndPolymorphism_01.cpp: static and dynamic binding

    The program
    (src/language-concepts/Inheritance-Polymorphism/InheritanceAndPolymorphism_01.cpp)
    declares, inside [main], three hierarchies of shapes: [Drawable] with
    a non-virtual [draw] that [Circle] and [Square] hide (lines 24-35);
    [DrawableV2] with a pure virtual [draw] that [CircleV2] and [SquareV2]
    override (lines 107-119); [DrawableV3] (lines 134-148, declared and
    never used); and [DrawableV4] with a static [draw_shape] calling the
    virtual [draw] (lines 155-171).  [main] calls [draw] on objects, then
    through [vector<unique_ptr<Drawable>>] and [vector<unique_ptr<DrawableV2>>]
    (the static type is the base), then through [draw_shape].  The classes
    are a table of [ObjectModel]; the vectors are lists of complete
    objects, each created by [make_unique<T>(obj)], a copy.  The virtual
    destructors print nothing and are not modelled. *)

From stdpp Require Import base list strings gmap.
From Stdlib Require Import ZArith String.
From S2P Require Import Prelude Ostream ObjectModel.

Local Open Scope string_scope.
Local Open Scope Z_scope.
Local Open Scope cpp_scope.

Module Polymorphism.

Import obj.

(** [void draw() { cout << s << endl; }], non-virtual ([virtual] false)
    or virtual. *)
Definition draw_method (virt : bool) (s : string) : method := mk_method "draw" virt false [Print (s ++ NL)].

(** Lines 24-35. *)
Definition Drawable : class_decl := mk_class "Drawable" [] [] [draw_method false "Drawable!"] [].

Definition Circle : class_decl := mk_class "Circle" [mk_base false "Drawable"] [] [draw_method false "Circle!"] [].

Definition Square : class_decl := mk_class "Square" [mk_base false "Drawable"] [] [draw_method false "Square!"] [].

(** Lines 107-119: [virtual void draw() = 0;] and two overriders. *)
Definition DrawableV2 : class_decl := mk_class "DrawableV2" [] [] [mk_method "draw" true true []] [].

Definition CircleV2 : class_decl := mk_class "CircleV2" [mk_base false "DrawableV2"] [] [draw_method false "Circle!"] [].

Definition SquareV2 : class_decl := mk_class "SquareV2" [mk_base false "DrawableV2"] [] [draw_method false "Square!"] [].

(** Lines 134-148: [draw_shape(CircleV3 &c)] and [draw_shape(SquareV3 &s)]
    are never called and are left out. *)
Definition DrawableV3 : class_decl := mk_class "DrawableV3" [] [] [mk_method "draw" true true []] [].

Definition CircleV3 : class_decl := mk_class "CircleV3" [mk_base false "DrawableV3"] [] [draw_method false "Circle!"] [].

Definition SquareV3 : class_decl := mk_class "SquareV3" [mk_base false "DrawableV3"] [] [draw_method false "Square!"] [].

(** Lines 155-171. *)
Definition DrawableV4 : class_decl := mk_class "DrawableV4" [] [] [mk_method "draw" true true []] [].

Definition CircleV4 : class_decl := mk_class "CircleV4" [mk_base false "DrawableV4"] [] [draw_method false "Circle!"] [].

Definition SquareV4 : class_decl := mk_class "SquareV4" [mk_base false "DrawableV4"] [] [draw_method false "Square!"] [].

Definition classes : table :=
  [Drawable; Circle; Square; DrawableV2; CircleV2; SquareV2; DrawableV3; CircleV3; SquareV3;
   DrawableV4; CircleV4; SquareV4].

Definition say := say_os.

(** A member call on the object [o], which the call may change. *)
Definition on (o : object) (c : ocall) : st ostream object :=
  fun out => match c (out, o) with
             | Ok (_, (out', o')) => Ok (o', out')
             | Stuck u => Stuck u
             | NoFuel => NoFuel
             end.

(** [o.draw()] with the static type of [o] the class of [o]. *)
Definition draw_direct (o : object) : st ostream object := on o (call classes [oclass o] None "draw" None).

(** [p->draw()] with [p] a [unique_ptr<Base>]: the call goes through the
    [Base] subobject. *)
Definition draw_through (Base : string) (o : object) : st ostream object :=
  let* s := st_lift (base_of classes [oclass o] Base) in on o (call classes s None "draw" None).

(** [for (auto &shape : shapes) shape->draw();] *)
Fixpoint draw_all (Base : string) (shapes : list object) : st ostream (list object) :=
  match shapes with
  | [] => st_ret []
  | o :: r => let* o' := draw_through Base o in let* r' := draw_all Base r in st_ret (o' :: r')
  end.

(** [make_unique<T>(obj)]: a copy of [obj] on the heap. *)
Definition make_unique_copy (o : object) : st ostream object :=
  st_lift (copy_from classes (oclass o) o [oclass o]).

(** [static void draw_shape(DrawableV4 &d) { d.draw(); }] (line 160). *)
Definition draw_shape (d : object) : st ostream object := draw_through "DrawableV4" d.

(** [main] (lines 15-232). *)
Definition main : st ostream Z :=
  say (fun o => o << "---" << std.endl) ;;
  let* D1 := construct classes "Drawable" in let* D1 := draw_direct D1 in
  let* C1 := construct classes "Circle" in let* C1 := draw_direct C1 in
  say (fun o => o << std.endl) ;;
  say (fun o => o << "***" << std.endl) ;;
  let* Circ := construct classes "Circle" in let* p1 := make_unique_copy Circ in
  let* Squr := construct classes "Square" in let* p2 := make_unique_copy Squr in
  let* shapes := draw_all "Drawable" [p1; p2] in
  say (fun o => o << std.endl) ;;
  say (fun o => o << "###" << std.endl) ;;
  let* CircV2 := construct classes "CircleV2" in let* q1 := make_unique_copy CircV2 in
  let* SqurV2 := construct classes "SquareV2" in let* q2 := make_unique_copy SqurV2 in
  let* shapesV2 := draw_all "DrawableV2" [q1; q2] in
  say (fun o => o << std.endl) ;;
  say (fun o => o << "&&&" << std.endl) ;;
  let* C1v4 := construct classes "CircleV4" in let* C1v4 := draw_shape C1v4 in
  let* S1v4 := construct classes "SquareV4" in let* S1v4 := draw_shape S1v4 in
  say (fun o => o << std.endl) ;;
  say (fun o => o << "END OF PROGRAM" << std.endl) ;;
  st_ret 0.

(** What [main] prints. *)
Definition expected_output : string :=
  "---" ++ NL ++ "Drawable!" ++ NL ++ "Circle!" ++ NL ++ NL ++
  "***" ++ NL ++ "Drawable!" ++ NL ++ "Drawable!" ++ NL ++ NL ++
  "###" ++ NL ++ "Circle!" ++ NL ++ "Square!" ++ NL ++ NL ++
  "&&&" ++ NL ++ "Circle!" ++ NL ++ "Square!" ++ NL ++ NL ++
  "END OF PROGRAM" ++ NL.

(** ** Theorems *)

Lemma polymorphism_main_output :
  exists out, main ostringstream0 = Ok (0, out) /\ os_str out = expected_output.
Proof. eexists. split; vm_compute; reflexivity. Qed.

(** C19: whatever the members of the object and the state of [cout], a
    call of [draw] through a [Drawable] is bound statically and runs
    [Drawable::draw] on a [Circle] and on a [Square] alike, while a call
    through a [DrawableV2], or [DrawableV4::draw_shape], is bound
    dynamically and runs the [draw] of the object's class; no call
    changes the object. *)
Theorem static_and_dynamic_binding (o : object) (out : ostream) :
  ((oclass o = "Circle" \/ oclass o = "Square") -> draw_through "Drawable" o out = Ok (o, out << ("Drawable!" ++ NL))) /\
  (oclass o = "CircleV2" -> draw_through "DrawableV2" o out = Ok (o, out << ("Circle!" ++ NL))) /\
  (oclass o = "SquareV2" -> draw_through "DrawableV2" o out = Ok (o, out << ("Square!" ++ NL))) /\
  (oclass o = "CircleV4" -> draw_shape o out = Ok (o, out << ("Circle!" ++ NL))) /\
  (oclass o = "SquareV4" -> draw_shape o out = Ok (o, out << ("Square!" ++ NL))).
Proof.
  destruct o as [c fs]; cbn [oclass].
  repeat split; [intros [-> | ->] | intros -> ..]; vm_compute; reflexivity.
Qed.

End Polymorphism.
