(* ===== verification/MultipleInheritance.v ===== *)
(** * MultipleInheritance.cpp: ambiguity, virtual functions, the diamond

    The program
    (src/language-concepts/Inheritance-Polymorphism/MultipleInheritance.cpp)
    runs four blocks, each with its own classes [A], [B], [C] (and [D]):
    two unrelated bases whose members clash (lines 22-56), the same with
    virtual [fPrint] overridden in [C] (lines 61-91), the diamond
    [D : B, C] with [B : A] and [C : A] (lines 99-140), and the diamond
    with [B : virtual A] and [C : virtual A] (lines 143-182).  Each block
    is a class table of [ObjectModel]; [main] threads [cout] and creates
    the objects of each block.  The lines the program comments out as
    compile errors are modelled too, and shown ill-formed. *)

From stdpp Require Import base list strings gmap.
From Stdlib Require Import ZArith String.
From S2P Require Import Prelude Ostream ObjectModel.

Local Open Scope string_scope.
Local Open Scope Z_scope.
Local Open Scope cpp_scope.

Module MultipleInheritance.

Import obj.

Definition fPrint (virt : bool) (s : string) : method := mk_method "fPrint" virt false [Print s].

(** ** Independent multiple inheritance (lines 22-56) *)

(** [int var1 = 0;] in [A]; [char *var1;] in [B], never read. *)
Definition A1 : class_decl := mk_class "A" [] [("var1", Val 0)] [fPrint false (TAB ++ "fPrint A" ++ NL)] [].

Definition B1 : class_decl := mk_class "B" [] [("var1", Uninit)] [fPrint false (TAB ++ "fPrint B" ++ NL)] [].

Definition C1 : class_decl := mk_class "C" [mk_base false "A"; mk_base false "B"] [] [] [].

Definition block1 : table := [A1; B1; C1].

(** ** Virtual functions (lines 61-91) *)

Definition A2 : class_decl := mk_class "A" [] [] [fPrint true (TAB ++ "fPrint A" ++ NL)] [].

Definition B2 : class_decl := mk_class "B" [] [] [fPrint true (TAB ++ "fPrint B" ++ NL)] [].
(** [void fPrint(void) { A::fPrint(); B::fPrint(); }] overrides both. *)
Definition C2 : class_decl :=
  mk_class "C" [mk_base false "A"; mk_base false "B"] []
    [mk_method "fPrint" false false [CallThis (Some "A") "fPrint" None; CallThis (Some "B") "fPrint" None]] [].

Definition block2 : table := [A2; B2; C2].

(** ** The diamond (lines 99-140 and 143-182) *)

(** [class A { int num = 0; void setNum(int n); void fPrint(void); }] *)
Definition A_num : class_decl :=
  mk_class "A" [] [("num", Val 0)]
    [mk_method "setNum" false false [AssignParam "num"];
     mk_method "fPrint" false false [PrintField (TAB ++ "fPrint A with <") "num" (">" ++ NL)]] [].

(** [B() { setNum(5); }] and [C() { setNum(9); }], deriving from [A]
    virtually or not. *)
Definition B_num (virt : bool) : class_decl :=
  mk_class "B" [mk_base virt "A"] [] [fPrint false (TAB ++ "fPrint B" ++ NL)] [CallThis None "setNum" (Some 5)].

Definition C_num (virt : bool) : class_decl :=
  mk_class "C" [mk_base virt "A"] [] [fPrint false (TAB ++ "fPrint C" ++ NL)] [CallThis None "setNum" (Some 9)].

Definition D_num : class_decl := mk_class "D" [mk_base false "B"; mk_base false "C"] [] [] [].

Definition block3 : table := [A_num; B_num false; C_num false; D_num].

Definition block4 : table := [A_num; B_num true; C_num true; D_num].

(** ** Expressions of [main] *)

Definition say := say_os.

(** [obj.m()] and [obj.X::m()]: the static type is the class of [obj]. *)
Definition member_call (T : table) (o : object) (q : option string) (m : string) : st ostream unit :=
  fun out => match call T [oclass o] q m None (out, o) with
             | Ok (_, (out', _)) => Ok (tt, out')
             | Stuck u => Stuck u
             | NoFuel => NoFuel
             end.

(** [obj.X::f;] as a discarded-value expression: the name must be found,
    nothing is read. *)
Definition qualified_member (T : table) (o : object) (X f : string) : st ostream unit :=
  st_lift (out_map (fun _ => tt) (out_bind (base_of T [oclass o] X) (fun x => lookup_field T x f))).

(** [(X)obj] and [X x = obj;] *)
Definition cast (T : table) (X : string) (o : object) : st ostream object := st_lift (slice T X o).

Definition run_block1 : st ostream unit :=
  let* objC := construct block1 "C" in
  say (fun o => o << ("Multiple base classes: Solving ambiguities through explicit qualification of scope:" ++ NL)) ;;
  qualified_member block1 objC "A" "var1" ;;
  qualified_member block1 objC "B" "var1" ;;
  member_call block1 objC (Some "A") "fPrint" ;;
  member_call block1 objC (Some "B") "fPrint" ;;
  say (fun o => o << ("Multiple base classes: Solving ambiguities through typecast:" ++ NL)) ;;
  let* t := cast block1 "A" objC in member_call block1 t None "fPrint" ;;
  let* objB := cast block1 "B" objC in member_call block1 objB None "fPrint".

Definition run_block2 : st ostream unit :=
  let* objC := construct block2 "C" in
  say (fun o => o << ("Virtual functions: ambiguities solved by concept:" ++ NL)) ;;
  member_call block2 objC None "fPrint" ;;
  say (fun o => o << ("Virtual functions: explicit qualification of scope still works:" ++ NL)) ;;
  member_call block2 objC (Some "A") "fPrint" ;;
  member_call block2 objC (Some "B") "fPrint" ;;
  say (fun o => o << ("Virtual functions: typecast still works:" ++ NL)) ;;
  let* t := cast block2 "A" objC in member_call block2 t None "fPrint" ;;
  let* objB := cast block2 "B" objC in member_call block2 objB None "fPrint".

Definition run_block3 : st ostream unit :=
  let* objD := construct block3 "D" in
  say (fun o => o << ("Diamond inheritance problem: explicit qualification of scope does not reach A:" ++ NL)) ;;
  member_call block3 objD (Some "B") "fPrint" ;;
  member_call block3 objD (Some "C") "fPrint" ;;
  say (fun o => o << ("Diamond inheritance problem: typecast works:" ++ NL)) ;;
  let* tC := cast block3 "C" objD in let* tA := cast block3 "A" tC in member_call block3 tA None "fPrint" ;;
  let* objB := cast block3 "B" objD in
  let* objA := cast block3 "A" objB in
  member_call block3 objA None "fPrint".

Definition run_block4 : st ostream unit :=
  let* objD := construct block4 "D" in
  say (fun o => o << ("Diamond inheritance problem: solving with virtual inheritance:" ++ NL)) ;;
  let* t := cast block4 "A" objD in member_call block4 t None "fPrint" ;;
  say (fun o => o << ("Diamond inheritance problem: explicit qualification of scope now reaches A:" ++ NL)) ;;
  member_call block4 objD (Some "A") "fPrint" ;;
  member_call block4 objD (Some "B") "fPrint" ;;
  say (fun o => o << ("Diamond inheritance problem: typecast works:" ++ NL)) ;;
  let* tC := cast block4 "C" objD in let* tA := cast block4 "A" tC in member_call block4 tA None "fPrint" ;;
  let* tB := cast block4 "B" objD in let* tA' := cast block4 "A" tB in member_call block4 tA' None "fPrint".

(** [main] (lines 11-186). *)
Definition main : st ostream Z :=
  run_block1 ;; run_block2 ;; run_block3 ;; run_block4 ;;
  say (fun o => o << "END OF PROGRAM") ;;
  st_ret 0.

(** ** The lines commented out as errors *)

(** [objC.var1;] (line 40) *)
Definition line40 : st ostream unit :=
  let* objC := construct block1 "C" in st_lift (out_map (fun _ => tt) (lookup_field block1 [oclass objC] "var1")).

(** [objC.fPrint();] (line 41) *)
Definition line41 : st ostream unit := let* objC := construct block1 "C" in member_call block1 objC None "fPrint".

(** [((A)objD).fPrint();] (line 125) *)
Definition line125 : st ostream unit :=
  let* objD := construct block3 "D" in let* t := cast block3 "A" objD in member_call block3 t None "fPrint".

(** [objD.C::A::fPrint();] (line 128): [C::A] names the class [A]. *)
Definition line128 : st ostream unit := let* objD := construct block3 "D" in member_call block3 objD (Some "A") "fPrint".

(** ** What [main] prints *)

Definition expected_output : string :=
  ("Multiple base classes: Solving ambiguities through explicit qualification of scope:" ++ NL) ++ (TAB ++ "fPrint A" ++ NL) ++ (TAB ++ "fPrint B" ++ NL) ++ ("Multiple base classes: Solving ambiguities through typecast:" ++ NL) ++ (TAB ++ "fPrint A" ++ NL) ++ (TAB ++ "fPrint B" ++ NL) ++
  ("Virtual functions: ambiguities solved by concept:" ++ NL) ++ (TAB ++ "fPrint A" ++ NL) ++ (TAB ++ "fPrint B" ++ NL) ++ ("Virtual functions: explicit qualification of scope still works:" ++ NL) ++ (TAB ++ "fPrint A" ++ NL) ++ (TAB ++ "fPrint B" ++ NL) ++ ("Virtual functions: typecast still works:" ++ NL) ++ (TAB ++ "fPrint A" ++ NL) ++ (TAB ++ "fPrint B" ++ NL) ++
  ("Diamond inheritance problem: explicit qualification of scope does not reach A:" ++ NL) ++ (TAB ++ "fPrint B" ++ NL) ++ (TAB ++ "fPrint C" ++ NL) ++ ("Diamond inheritance problem: typecast works:" ++ NL) ++ (TAB ++ "fPrint A with <") ++ "9" ++ (">" ++ NL) ++ (TAB ++ "fPrint A with <") ++ "5" ++ (">" ++ NL) ++
  ("Diamond inheritance problem: solving with virtual inheritance:" ++ NL) ++ (TAB ++ "fPrint A with <") ++ "9" ++ (">" ++ NL) ++ ("Diamond inheritance problem: explicit qualification of scope now reaches A:" ++ NL) ++ (TAB ++ "fPrint A with <") ++ "9" ++ (">" ++ NL) ++ (TAB ++ "fPrint B" ++ NL) ++
  ("Diamond inheritance problem: typecast works:" ++ NL) ++ (TAB ++ "fPrint A with <") ++ "9" ++ (">" ++ NL) ++ (TAB ++ "fPrint A with <") ++ "9" ++ (">" ++ NL) ++
  "END OF PROGRAM".

(** ** Theorems *)

(** [main] returns 0 and prints [expected_output]: the qualified
    calls and the casts reach each base; in the diamond without virtual
    inheritance the [A] reached through [C] holds 9 and the one reached
    through [B] holds 5; with virtual inheritance there is one [A], which
    [C]'s constructor, run last, leaves at 9. *)
Theorem mi_main_output : exists out, main ostringstream0 = Ok (0, out) /\ os_str out = expected_output.
Proof. eexists. split; vm_compute; reflexivity. Qed.

(** C18: the layout of [D] in the two diamonds: without virtual
    inheritance a [D] has two [A] subobjects, through [B] and through
    [C], and construction leaves 5 in the first and 9 in the second; with
    [virtual public A] it has one shared [A] subobject, and construction,
    which runs [B()] then [C()] on it, leaves 9 in it; in both cases
    construction prints nothing. *)
Theorem diamond_subobjects (out : ostream) :
  subobjects block3 "D" = Ok [["D"]; ["D"; "B"]; ["D"; "B"; "A"]; ["D"; "C"]; ["D"; "C"; "A"]] /\
  subobjects block4 "D" = Ok [["D"]; ["D"; "B"]; ["D"; "C"]; ["A"]] /\
  (exists objD, construct block3 "D" out = Ok (objD, out) /\
     ofields objD !! (["D"; "B"; "A"], "num") = Some (Val 5) /\
     ofields objD !! (["D"; "C"; "A"], "num") = Some (Val 9)) /\
  (exists objD, construct block4 "D" out = Ok (objD, out) /\
     ofields objD !! (["A"], "num") = Some (Val 9)).
Proof. repeat split; try (eexists; split); try split; vm_compute; reflexivity. Qed.

(** The four lines the program comments out as errors are indeed
    ill-formed: [var1] and [fPrint] are ambiguous in the [C] of the first
    block (lines 40-41), and [A] is an ambiguous base of the [D] of the
    first diamond, for the cast (line 125) as for [C::A::fPrint()]
    (line 128). *)
Theorem commented_errors_ill_formed (out : ostream) :
  line40 out = Stuck IllFormed /\ line41 out = Stuck IllFormed /\
  line125 out = Stuck IllFormed /\ line128 out = Stuck IllFormed.
Proof. repeat split; vm_compute; reflexivity. Qed.

End MultipleInheritance.
