(* ===== verification/RandomNumbers.v ===== *)
(** * RandomNumbers.cpp: [rand], the engines and distributions, the dots

    The program (src/language-concepts/RandomNumbers/RandomNumbers.cpp)
    seeds a global [mt19937 eng(time(0))] before [main] (line 41), then
    [main] runs six sections, each printing numbered lines through
    [printIdx(idx++)]: [rand()] unseeded, scaled to [[0, 1]] and to
    [[1, 100]] (lines 62-71); the same after [srand(time(0))] (lines
    81-90); [mt19937] with [uniform_int_distribution],
    [uniform_real_distribution] and [bernoulli_distribution] (lines
    116-133); [random_device] (lines 145-159); [shuffle] and [generate_n]
    (lines 167-179); and a walk of a dot across 25 columns driven by a
    [bernoulli_distribution(0.6)] (lines 185-212).  The state is [cout],
    the state of [rand], the count of [time] calls and the global [eng];
    what the program reads from outside (the clock, the [random_device])
    is an environment [env].  [sleep_for] only delays and is not
    modelled. *)

From stdpp Require Import base list strings.
From Stdlib Require Import ZArith Lia String Ascii.
From Corelib Require Import Floats.SpecFloat.
From S2P Require Import Prelude Ostream Double Algo Random.

Local Open Scope string_scope.
Local Open Scope Z_scope.
Local Open Scope cpp_scope.

Module RandomNumbers.

(** What the program reads from its environment: [time(0)] at each call,
    [seedRD.entropy()] and [seedRD()]. *)
Record env := mk_env {
  clock : nat -> Z;
  entropy : double;
  device : Z
}.

Record state := mk_state {
  cout : ostream;
  rnd : glibc_rand.state;   (** the hidden state of [rand] *)
  ticks : nat;              (** the calls of [time] so far *)
  eng : mt19937.engine      (** the global [eng] of line 41 *)
}.

(** ** Helpers of the program (lines 27-45) *)

(** [print(vector<int>)] and [printIdx] are those of Ostream. *)

(** [int] arithmetic: a result outside [int] is undefined. *)
Definition int_result (z : Z) : st state Z :=
  if in_int z then st_ret z else st_stuck SignedOverflow.

Definition say (f : ostream -> ostream) : st state unit :=
  st_modify (fun s => mk_state (f (cout s)) (rnd s) (ticks s) (eng s)).

Section Run.

Context (E : env).

(** [time(0)] *)
Definition time0 : st state Z :=
  fun s => Ok (clock E (ticks s), mk_state (cout s) (rnd s) (S (ticks s)) (eng s)).

(** [rand()] *)
Definition rand : st state Z :=
  fun s => let '(r, g) := glibc_rand.rand (rnd s) in Ok (r, mk_state (cout s) g (ticks s) (eng s)).

(** [srand(seed)] *)
Definition srand (seed : Z) : st state unit :=
  st_modify (fun s => mk_state (cout s) (glibc_rand.srand seed) (ticks s) (eng s)).

(** [1.0 * rand()/RAND_MAX] converted to [float]. *)
Definition rand_unit : st state double :=
  let* r := rand in
  st_ret (to_float (ddiv (dmul (dbl_of_Z 1) (dbl_of_Z r)) (dbl_of_Z glibc_rand.RAND_MAX))).

(** [99 * rand()/RAND_MAX + 1] in [int]. *)
Definition rand_percent : st state Z :=
  let* r := rand in
  let* p := int_result (99 * r) in
  int_result (Z.quot p glibc_rand.RAND_MAX + 1).

(** [mt19937 eng(time(0));] (line 41), before [main]. *)
Definition init_eng : st state unit :=
  let* t := time0 in
  st_modify (fun s => mk_state (cout s) (rnd s) (ticks s) (mt19937.seed t)).

(** [FunctionRandomNumber()] (lines 42-45): a fresh [dist(0,1000)] on the
    global [eng]. *)
Definition FunctionRandomNumber : st state Z :=
  fun s => match dist.uniform_int dist.reject_fuel 0 1000 (eng s) with
           | Ok (v, e') => Ok (v, mk_state (cout s) (rnd s) (ticks s) e')
           | Stuck u => Stuck u
           | NoFuel => NoFuel
           end.

(** [generate_n(first, n, f)] with [f] a function, whose effects are on
    the program's state. *)
Fixpoint generate_n_st (n : nat) (gen : st state Z) : st state (list Z) :=
  match n with
  | O => st_ret []
  | S k => let* x := gen in let* r := generate_n_st k gen in st_ret (x :: r)
  end.

(** A draw of a distribution on a local engine. *)
Definition draw_int (a b : Z) (e : mt19937.engine) : st state (Z * mt19937.engine) :=
  st_lift (dist.uniform_int dist.reject_fuel a b e).

(** ** [rand] (lines 62-71) *)

Definition rand_section (idx : Z) : st state Z :=
  let* r1 := rand in
  say (fun o => o << printIdx idx << "rand() = " << r1 << std.endl) ;;
  let* r2 := rand_unit in
  say (fun o => o << printIdx (idx + 1) << "rand() escaled between 0 and 1 = " << r2 << std.endl) ;;
  let* r3 := rand_percent in
  say (fun o => o << printIdx (idx + 2) << "rand() escaled between 1 and 100 = " << r3 << std.endl) ;;
  st_ret (idx + 3).

(** ** [srand] (lines 81-90) *)

Definition srand_section (idx : Z) : st state Z :=
  let* t := time0 in srand t ;;
  let* r4 := rand in
  say (fun o => o << printIdx idx << "srand(time) + rand() = " << r4 << std.endl) ;;
  let* t := time0 in srand t ;;
  let* r5 := rand_unit in
  say (fun o => o << printIdx (idx + 1) << "srand(time) + rand() escaled between 1 and 0 = " << r5 << std.endl) ;;
  let* t := time0 in srand t ;;
  let* r6 := rand_percent in
  say (fun o => o << printIdx (idx + 2) << "srand(time) + rand() escaled between 1 and 0 = " << r6 << std.endl) ;;
  st_ret (idx + 3).

(** ** Engines and distributions (lines 116-133) *)

Definition p_half : double := dbl_lit 5 (-1).

Definition p_075 : double := dbl_lit 75 (-2).

Definition engines_section (idx : Z) : st state Z :=
  let engineRand := mt19937.default in
  let* r_ := draw_int 0 100 engineRand in let '(v1, engineRand) := r_ in
  say (fun o => o << printIdx idx << "engine mt19937 with uniform_int_distribution 0-100 = " << v1 << std.endl) ;;
  let* r_ := draw_int 0 100 engineRand in let '(v2, engineRand) := r_ in
  say (fun o => o << printIdx (idx + 1) << "engine mt19937 with uniform_int_distribution 0-100 = " << v2 << std.endl) ;;
  let '(v3, engineRand) := dist.uniform_real (dbl_of_Z 0) (dbl_of_Z 1) engineRand in
  say (fun o => o << printIdx (idx + 2) << "engine mt19937 with uniform_real_distribution 0-1 = " << v3 << std.endl) ;;
  let '(v4, engineRand) := dist.bernoulli p_half engineRand in
  say (fun o => o << printIdx (idx + 3) << "engine mt19937 with bernoulli_distribution (equal chances) = " << v4 << std.endl) ;;
  let '(v5, engineRand) := dist.bernoulli p_075 engineRand in
  say (fun o => o << printIdx (idx + 4) << "engine mt19937 with bernoulli_distribution (0.75 chances of true) = " << v5 << std.endl) ;;
  st_ret (idx + 5).

(** ** [random_device] (lines 145-159); returns [engineRand2]. *)

Definition device_section (idx : Z) : st state (Z * mt19937.engine) :=
  say (fun o => o << printIdx idx << "Testing random_device seeding: "
                  << (if SFeqb (entropy E) (dbl_of_Z 0) then "PRNG =(" else "RNG =)") << std.endl) ;;
  let engineRand2 := mt19937.seed (device E) in
  let* t := time0 in
  let engineRand3 := mt19937.seed t in
  let* r_ := draw_int 0 100 engineRand2 in let '(v1, engineRand2) := r_ in
  say (fun o => o << printIdx (idx + 1) << "engine mt19937 seeded by random_device with uniform_int_distribution 0-100 = " << v1 << std.endl) ;;
  let* r_ := draw_int 0 100 engineRand3 in let '(v2, engineRand3) := r_ in
  say (fun o => o << printIdx (idx + 2) << "engine mt19937 seeded by time() with uniform_int_distribution 0-100 = " << v2 << std.endl) ;;
  st_ret (idx + 3, engineRand2).

(** ** [shuffle] and [generate_n] (lines 167-179) *)

(** [generate_n(vecI3.begin(), 5, engineRand2)]: the engine is copied,
    and each [unsigned long] it returns is converted to [int]. *)
Definition engine_int (e : mt19937.engine) : Z * mt19937.engine :=
  let '(y, e') := mt19937.next e in (wrap32 y, e').

Definition generic_section (idx : Z) (engineRand2 : mt19937.engine) : st state Z :=
  let vecI1 := [1; 2; 3; 4; 5; 6; 7; 8; 9; 10] in
  say (fun o => o << printIdx idx << "Vector { " << print vecI1 << ("} using SHUFFLE with engine mt19937 seeded by random_device;" ++ NL)) ;;
  let* r_ := st_lift (dist.shuffle vecI1 engineRand2) in let '(vecI1, engineRand2) := r_ in
  say (fun o => o << (TAB ++ "Result in same vector { ") << print vecI1 << "}" << std.endl) ;;
  let* vecI2 := generate_n_st 5 FunctionRandomNumber in
  say (fun o => o << printIdx (idx + 1) << ("Vector size 5, fulfilled by GENERATE_N with custom 'FunctionRandomNumber';" ++ NL ++ TAB ++ "Result { ") << print vecI2 << ("}" ++ NL)) ;;
  let vecI3 := std.generate_n 5 engine_int engineRand2 in
  say (fun o => o << printIdx (idx + 2) << ("Vector size 5, fulfilled by GENERATE_N with engine mt19937 seeded by random_device;" ++ NL ++ TAB ++ "Result { ") << print vecI3 << ("}" ++ NL)) ;;
  st_ret (idx + 3).

(** ** The dots (lines 185-212) *)

Inductive direction := LEFT | RIGHT.

Definition direction_value (d : direction) : Z := match d with LEFT => -1 | RIGHT => 1 end.

Definition maxIter : Z := 150.

Definition WIDTH : Z := 25.

Definition p_dots : double := dbl_lit 6 (-1).

(** [string(n, c)] with the [int] [n] converted to [size_t]: above
    [max_size()] (libstdc++: [2^62 - 1]) [_M_create] throws. *)
Definition string_max_size : Z := 2 ^ 62 - 1.

Definition string_fill (n : Z) (c : ascii) : st state string :=
  let sz := n mod 2 ^ 64 in
  if string_max_size <? sz then st_stuck (UncaughtException (length_error "basic_string::_M_create"))
  else st_ret (replicate_char (Z.to_nat sz) c).

(** One iteration of the loop (lines 199-207); [cout << a << b] inserts
    [a] before it evaluates [b]. *)
Definition dots_step (i x : Z) (e : mt19937.engine) : st state (Z * mt19937.engine) :=
  let '(b, e) := dist.bernoulli p_dots e in
  let sign := if b then RIGHT else LEFT in
  let sign := if x =? 1 then RIGHT else if x =? WIDTH then LEFT else sign in
  let* x := int_result (x + direction_value sign) in
  say (fun o => o << "|") ;;
  let* l := string_fill x " "%char in
  say (fun o => o << l << ".") ;;
  let* r := string_fill (WIDTH - x) " "%char in
  say (fun o => o << r << "| " << i << " of " << maxIter << CR << std.flush) ;;
  st_ret (x, e).

(** [for (int i = 1; i <= maxIter; i++)], [fuel] bounding the
    iterations. *)
Fixpoint dots_loop (fuel : nat) (i x : Z) (e : mt19937.engine) : st state Z :=
  match fuel with
  | O => st_nofuel
  | S f =>
      if i <=? maxIter then
        let* r_ := dots_step i x e in let '(x, e) := r_ in dots_loop f (i + 1) x e
      else st_ret x
  end.

Definition dots : st state unit :=
  say (fun o => o << ("Printing some random dots..." ++ NL)) ;;
  let* t := time0 in
  let engRandDots := mt19937.seed t in
  let* _ := dots_loop (S (Z.to_nat maxIter)) 1 1 engRandDots in
  st_ret tt.

(** ** [main] (lines 49-217) and the program *)

Definition main : st state Z :=
  let idx := 1 in
  let* idx := rand_section idx in
  let* idx := srand_section idx in
  let* idx := engines_section idx in
  let* r_ := device_section idx in let '(idx, engineRand2) := r_ in
  let* idx := generic_section idx engineRand2 in
  dots ;;
  say (fun o => o << "END OF PROGRAM" << std.endl) ;;
  st_ret 0.

(** The dynamic initialisation of [eng], then [main]. *)
Definition program : st state Z := init_eng ;; main.

End Run.

(** [cout] empty, [rand] before any [srand], no [time] call yet; [eng]
    is given its value by [init_eng]. *)
Definition state0 : state := mk_state ostringstream0 glibc_rand.initial 0 mt19937.default.

(** What lines 120-133 print when [idx] is 7, as it is there. *)
Definition engines_text : string :=
  printIdx 7 ++ "engine mt19937 with uniform_int_distribution 0-100 = " ++ "82" ++ NL ++ printIdx 8 ++ "engine mt19937 with uniform_int_distribution 0-100 = " ++ "13" ++ NL ++
  printIdx 9 ++ "engine mt19937 with uniform_real_distribution 0-1 = " ++ "0.835009" ++ NL ++ printIdx 10 ++ "engine mt19937 with bernoulli_distribution (equal chances) = " ++ "0" ++ NL ++
  printIdx 11 ++ "engine mt19937 with bernoulli_distribution (0.75 chances of true) = " ++ "1" ++ NL.

(** ** Theorems *)

(** Reduction of the state monad on known outcomes. *)
Ltac red_st := cbv beta iota zeta delta [st_stuck st_nofuel out_map out_bind].

(** The third [rand()] before any [srand] is 1681692777 (glibc), and
    [99 * 1681692777] is not an [int]. *)
Lemma rand_section_overflow (s : state) :
  rnd s = glibc_rand.initial -> rand_section 1 s = Stuck SignedOverflow.
Proof. destruct s as [c r t e]; cbn [rnd]. intros ->. vm_compute. reflexivity. Qed.


(** A [rand()] of the scaled expression [99 * rand()/RAND_MAX + 1]:
    once the product fits [int], the quotient is at most 99. *)
Lemma percent_in_int (r : Z) :
  0 <= r <= glibc_rand.RAND_MAX -> in_int (Z.quot (99 * r) glibc_rand.RAND_MAX + 1) = true.
Proof.
  intros Hr. apply in_int_spec. unfold glibc_rand.RAND_MAX, INT_MIN, INT_MAX in *.
  rewrite Z.quot_div_nonneg by lia.
  assert (0 <= 99 * r / 2147483647 <= 99) by (split; [apply Z.div_pos|apply Z.div_le_upper_bound]; lia). lia.
Qed.

Lemma int_result_overflow (z : Z) : 0 <= z -> in_int z = false <-> INT_MAX < z.
Proof.
  intros Hz. rewrite <- not_true_iff_false, in_int_spec. unfold INT_MIN, INT_MAX. lia.
Qed.



(** [say] and the draws of the engines section commute with text written
    before. *)
Lemma engines_section_rebase (p : string) (o : ostream) (r : glibc_rand.state) (t : nat) (e : mt19937.engine) :
  engines_section 7 (mk_state (rebase p o) r t e) =
  out_map (fun vs => (vs.1, mk_state (rebase p (cout vs.2)) (rnd vs.2) (ticks vs.2) (eng vs.2)))
    (engines_section 7 (mk_state o r t e)).
Proof.
  unfold engines_section, draw_int, say, st_bind, st_lift, st_modify, st_ret.
  destruct (dist.uniform_int _ 0 100 mt19937.default) as [[v1 e1]| |]; red_st; [|reflexivity..].
  destruct (dist.uniform_int _ 0 100 e1) as [[v2 e2]| |]; red_st; [|reflexivity..].
  destruct (dist.uniform_real _ _ e2) as [v3 e3]. destruct (dist.bernoulli p_half e3) as [v4 e4].
  destruct (dist.bernoulli p_075 e4) as [v5 e5]. red_st. cbn [cout rnd ticks eng fst snd].
  autorewrite with ostream_rebase. reflexivity.
Qed.

(** C23: lines 116-133 print the values libstdc++ draws from a
    default-seeded [mt19937]: 82 and 13 from [uniform_int_distribution(0,
    100)], 0.835009 from [uniform_real_distribution(0, 1)], then [false]
    from [bernoulli_distribution(0.5)] and [true] from
    [bernoulli_distribution(0.75)], printed as 0 and 1; after whatever
    [cout] holds, and touching nothing else. *)
Theorem engines_section_output (s : state) :
  os_width (cout s) = 0%nat -> os_boolalpha (cout s) = false ->
  engines_section 7 s = Ok (12, mk_state (put_raw (cout s) engines_text) (rnd s) (ticks s) (eng s)).
Proof.
  intros Hw Hb. destruct s as [o r t e]; cbn [cout rnd ticks eng] in *.
  rewrite (rebase_split o), engines_section_rebase, put_raw_rebase, Hw, Hb.
  vm_compute. reflexivity.
Qed.

Lemma engines_section_output_witness :
  os_width (cout state0) = 0%nat /\ os_boolalpha (cout state0) = false /\
  engines_section 7 state0 = Ok (12, mk_state (put_raw (cout state0) engines_text) (rnd state0) (ticks state0) (eng state0)).
Proof. split; [reflexivity|split; [reflexivity|]]. apply (engines_section_output state0); reflexivity. Defined.

(** [string(n, ' ')] for a count within the frame. *)
Lemma string_fill_ok (n : Z) (c : ascii) (s : state) :
  0 <= n <= WIDTH -> string_fill n c s = Ok (replicate_char (Z.to_nat n) c, s).
Proof.
  intros Hn. unfold string_fill, WIDTH in *. rewrite Z.mod_small by lia.
  destruct (Z.ltb_spec string_max_size n) as [H|H]; [unfold string_max_size in H; lia|reflexivity].
Qed.

(** The boundary checks of lines 202-203 keep the dot within the frame,
    whatever the draw. *)
Lemma dots_move_bounded (x : Z) (b : bool) :
  1 <= x <= WIDTH ->
  1 <= x + direction_value (if x =? 1 then RIGHT else if x =? WIDTH then LEFT else if b then RIGHT else LEFT) <= WIDTH.
Proof.
  unfold WIDTH. intros Hx. destruct (Z.eqb_spec x 1); [cbn; lia|].
  destruct (Z.eqb_spec x 25); [cbn; lia|]. destruct b; cbn; lia.
Qed.

Lemma dots_step_bounded (i x : Z) (e : mt19937.engine) (s : state) :
  1 <= x <= WIDTH -> exists x' e' s', dots_step i x e s = Ok ((x', e'), s') /\ 1 <= x' <= WIDTH.
Proof.
  intros Hx. unfold dots_step. destruct (dist.bernoulli p_dots e) as [b e1]. cbv zeta.
  pose proof (dots_move_bounded x b Hx) as Hd.
  set (x' := x + direction_value _) in *.
  eexists x', e1, _. split; [|exact Hd].
  unfold int_result. rewrite (proj2 (in_int_spec x')) by (unfold INT_MIN, INT_MAX, WIDTH in *; lia).
  unfold st_bind, st_ret, say, st_modify.
  rewrite !string_fill_ok by (unfold WIDTH in *; lia). reflexivity.
Qed.

Lemma dots_loop_bounded (fuel : nat) (i x : Z) (e : mt19937.engine) (s : state) :
  1 <= x <= WIDTH -> 1 <= i <= maxIter + 1 -> maxIter + 1 < i + Z.of_nat fuel ->
  exists x' s', dots_loop fuel i x e s = Ok (x', s') /\ 1 <= x' <= WIDTH.
Proof.
  revert i x e s. induction fuel as [|f IH]; intros i x e s Hx Hi Hf; [lia|]. cbn [dots_loop].
  destruct (Z.leb_spec i maxIter).
  - destruct (dots_step_bounded i x e s Hx) as (x1 & e1 & s1 & E & Hx1).
    rewrite (st_bind_run _ _ _ s1 (x1, e1) E). apply IH; [done|lia|lia].
  - by exists x, s.
Qed.

(** C22: the walk of lines 196-212 stays within the frame: from column 1,
    whatever [bernoulli_distribution(0.6)] draws, every position is in
    [[1, WIDTH]], so neither [string(x, ' ')] nor [string(WIDTH - x, ' ')]
    is given a negative count (which [size_t] would turn into a
    [length_error]); the loop runs its 150 iterations and the section
    completes. *)
Theorem dots_walk_in_bounds (E : env) (s : state) :
  (forall e, exists x s', dots_loop (S (Z.to_nat maxIter)) 1 1 e s = Ok (x, s') /\ 1 <= x <= WIDTH) /\
  exists s', dots E s = Ok (tt, s').
Proof.
  split; [intros e; apply dots_loop_bounded; unfold WIDTH, maxIter; lia|].
  unfold dots, say, time0, st_bind, st_modify. cbn [cout rnd ticks eng].
  match goal with |- context [dots_loop ?f 1 1 ?e ?s1] =>
    destruct (dots_loop_bounded f 1 1 e s1) as (x & s' & E' & _); [unfold WIDTH, maxIter; lia..|] end.
  rewrite E'. by eexists.
Qed.

End RandomNumbers.
